(* ===== verification/_CoqProject ===== *)
-Q . S2P
Prelude.v
JsRuntime.v
Double.v
Json.v
ByteCodec.v
FieldParser.v
DateAge.v
Filters.v
Localizer.v
ZkProof.v
Legacy.v
Pipeline.v
QrScanner.v
Liveness.v
LiveView.v
CreateFlow.v
Contract.v
ContractClient.v
Wallet.v
VerifyFlow.v
VerifyScanner.v
Site.v
IdentityFlow.v
Pages.v
