(* ===== verification/Prelude.v ===== *)
(** * SecureID: a verification development

    The repository is a browser demo of a decentralized identity.  Its
    engineering-heavy part is the decoder of the government-ID "secure QR"
    ([src/lib/secure-qr-decoder.ts], class [SecureQRDecoder]); around it
    sit the React pages and components that drive it, a toy zero-knowledge
    commitment ([src/lib/zk-proofs.ts]) and the ledger calls
    ([src/unnamed/part_002]).

    ** How the parts interact (the decoder pipeline)

    [decodeFromFile] = [scanFromFile] (QR localizer: sizes x filters x
    inversion modes over the [jsQR] detector) then [processSecureQRData] =
    [convertBase10ToByteArray] (decimal string -> BigInt -> hex -> bytes),
    [decompressData] (pako inflate, falling back to the raw bytes), and
    [extractDataFields] (0xFF-delimited text fields, the "NaN then 3"
    field-shift workaround, the binary tail read backwards from the end:
    signature, hashes, photo), which finally calls [parseDateOfBirth] and
    [calculateAge].  The pages ([src/app/create/page.tsx]) then feed the
    record to [generateZkProof] and to [storeIdentityProof].

    ** How the parts interact (the identity flow)

    The create page runs the ID-card scanner ([QrScanner]) and the face
    check ([Liveness]), then [storeIdentityProof] sends a [storeProof]
    transaction to the [IdentityVerifier] contract (the proof data as
    [JSON.stringify] text).  The wallet provider supplies the signer and
    address every page uses.  The dashboard reads the identity back with
    [getUserIdentity] and prints two QR codes holding
    [JSON.stringify({type, proofId, address})]; the verify page's scanner
    reads such a code from an image, checks its JSON and hands it to
    [handleQrCodeScanned], which calls [verifyIdentityProof] (the
    contract's [verifyProof], [getUserIdentity] and [getProofData]) and
    renders the result.

    ** Files, in dependency order

    - [Prelude]     (this file) the scope [sid_scope], the slice notation,
                    the hint database [sid], the tactics [inv], [case_if],
                    [sid_simpl], and the list/option lemmas the components
                    share.
    - [JsRuntime]   the JavaScript built-ins the code calls, written from
                    the ECMAScript definitions: [String.prototype.trim],
                    [Number.parseInt], [BigInt(string)],
                    [BigInt.prototype.toString(16)], [substring], typed-array
                    [slice], the [Uint8Array] store (ToUint8),
                    [String.fromCharCode] on bytes, [toString(16)] of a byte.
    - [Double]      binary64 rounding (round half to even) of the [/] and
                    [*] in [800 * (img.height / img.width)], over [QArith],
                    and its monotonicity.
    - [Json]        [JSON.stringify] and [JSON.parse] written from
                    ECMAScript over UTF-16 code units (exact decimals for
                    numbers, association lists for objects), with
                    ToBoolean and property reads.
    - [ByteCodec]   [convertBase10ToByteArray] and [decompressData]
                    (inflate is a Section variable: pako is a library the
                    sources only call).
    - [FieldParser] [extractDataFields]: the tokenizer loop, the workaround,
                    the named fields, the offset of the binary region and
                    the four layouts of the binary tail.
    - [DateAge]     [parseDateOfBirth] and [calculateAge] over the
                    ECMAScript [Date] algorithms (DayFromYear, YearFromTime
                    by binary search, the month table, MakeDay, MakeDate,
                    TimeClip, [setFullYear]); the clock [new Date()] is the
                    parameter [now], the local time zone is UTC, and
                    [Date.parse] of the fallback branch is a Section variable.

    - [Filters]     the four pixel filters of the localizer
                    ([applyHighContrast], [applyGrayscale], [applyBinarize],
                    [applySharpen]) over a [Uint8ClampedArray] store
                    (ToUint8Clamp, round half to even), with stdpp lists.
    - [Localizer]   [tryMultipleProcessingMethods]: four sizes x five
                    filters x two inversion modes; the scaled heights in
                    binary64 stored as [unsigned long]s; the rasteriser
                    and [jsQR] are Section variables.
    - [ZkProof]     [hashString], [generateProofId], [generateZkProof] of
                    [src/lib/zk-proofs.ts]; Poseidon and the clock are
                    Section variables.
    - [Legacy]      [processQrData] of the same file, an older decoder
                    ([bigIntToByteArray], [findDelimiter], its own
                    [bytesToString]), in [Module ProcessQr].
    - [Pipeline]    [decodeFromFile], [scanFromFile], [processSecureQRData]
                    over a record [Env] of browser and library operations,
                    promises as [Outcome]; a specification-side error monad
                    ([Staged], notation [do] in [pipeline_scope]) and
                    [decode_spec], the staged orchestrator.
    - [QrScanner]   the ID-card scanner component of
                    [src/components/liveness-detection.tsx] as a state
                    machine: the React runtime state ([State]), one [step]
                    per event (user action, prop change, browser callback,
                    unmount), [reachable] from the first render, and an
                    invariant [inv] proved by rule induction.
    - [Liveness]    [LivenessDetection] of the same file, in [Module Live]:
                    the models effect, the camera start, the [detectFace]
                    loop with its blink and head-turn counters, the
                    completion timer; closures carry the [cameraActive] and
                    [detectionSteps] of their render ([Snap]).
    - [LiveView]    what [LivenessDetection] renders ([render]: overlay,
                    close button, progress bar, start and skip buttons)
                    and the buttons' [onClick]s ([click]), in [Module
                    LiveView].
    - [CreateFlow]  the wizard of [src/app/create/page.tsx]: the [Page]
                    record with the step doubled ([step2]), its handlers,
                    the [event] relation over rendered controls and
                    [reachable] from [initial_page].
    - [Contract]    the Solidity [IdentityVerifier] (stored after the
                    button in [src/components/connect-wallet-button.tsx]):
                    storage as stdpp [gmap]s, [storeProof] with its
                    [require], [verifyProof] with [keccak256] a parameter,
                    events, a chain that mines submitted transactions in
                    order; the class [IdentityVerifierAPI] (the ABI of
                    [src/lib/contract-abi.ts]) with the instance [Model].
    - [ContractClient] [src/unnamed/part_002]: [storeIdentityProof],
                    [getUserIdentity], [verifyIdentityProof], proved
                    against [IdentityVerifierAPI], with the ethers calls
                    (UTF-8, keccak256, address parsing) as a record [Ethers].
    - [IdentityFlow] the composition of the create page with
                    [ClientOnlyLiveness]/[LivenessDetection] and the client:
                    [cevent] is the page's event relation whose liveness
                    step ends with a value the component passed to
                    [onComplete] in a reachable run.
    - [Wallet]      [WalletProvider] and [ConnectWalletButton] in [Module
                    WalletProvider]: the provider's cells, its two effects,
                    [connect], [disconnect], the listeners registered on the
                    shared [window.ethereum] object (which outlive the
                    effect that added them), a step relation [wstep].
    - [VerifyFlow]  the dashboard's [loadIdentityData] and [generateQrCode],
                    the verification scanner's [scanQrCodeFromFile] and
                    upload callback, and the verify page ([Module Verify]).
    - [VerifyScanner] the verification scanner component as a state
                    machine in [Module VScanner], as [QrScanner] does.
    - [Site]        [RootLayout] ([src/app/layout.tsx]), the routes of the
                    app router, the landing page ([src/unnamed/part_000]),
                    the [Navbar] ([src/unnamed/part_003]) and the
                    [ConnectWalletButton] it renders, in [Module Site].
    - [Pages]       the dashboard's effect (its dependency list), refresh
                    and copy buttons, [loadIdentityData] split at its
                    [await]s and run beside the wallet provider ([dstep]),
                    and the verify page's view and [resetVerification].
                    The two [generateQrCode] awaits are one step and are
                    taken to succeed (the [qrcode] library's rejection and
                    the toast it leads to are not modelled).

    ** Theorems (see PROJECT.json for the list with claim ids)

    - byte codec: value and minimality of the bytes of a decimal literal,
      the converse ([convertBase10_exact]: minimal bytes are what the
      code returns), what the code does on inputs the spec calls errors
      (every hexadecimal literal is accepted as its value; the empty
      string and signs);
    - field parser: the tokenizer recovers every delimiter-free field of a
      well-formed payload and stops after 16; its inner loop leaves by its
      own condition within the fuel it is given, and more fuel changes
      nothing in either loop ([tokenize_terminates]); the signature is the last 256 bytes
      whenever the payload has at least 256 bytes; the photo and hash
      ranges of each layout; the trigger condition of the workaround and
      what it does to a version-2 payload;
    - dates: the calendar functions are inverse to MakeDay/MakeDate on the
      years [-300000, 300000) (which contain every time value TimeClip
      accepts); [calculateAge] counts completed years; every date of birth
      [parseDateOfBirth] accepts yields an age in [0, 120]; the spec's
      formats, and the 19xx reading of two-digit years;
    - filters: each loop equals its reference definition (a map over
      pixels, or a function of each index for [applySharpen]), and every
      filter keeps the array a byte array of the same length;
    - localizer: for an image whose scaled heights are neither truncated
      nor wrapped to 0 the nested loops are the first success over the
      static strategy table (sizes outer, filters, then inversion), a
      refinement of the spec's search order; on an image more than 800
      times wider than high the search ends in [getImageData]'s
      exception;
    - pipeline: [decodeFromFile] is [decode_spec] settled as a promise
      (a refinement), every rejection message names the stage that failed,
      and an encoded well-formed payload decodes end to end;
    - proof stand-in and legacy decoder: [hashString] is Java's
      [String.hashCode] under [Math.abs] and reaches [2^31]; the proof
      pieces put together are the commitment; two identifiers with equal
      hashes have equal commitments; the legacy parser reads each field
      one position late;
    - scanner component: every reachable state satisfies [inv]; the camera
      tab never calls [onScan]; a media stream can keep running after the
      unmount; an upload always settles;
    - create page: every reachable page has a step in the six values;
      "Back" from the liveness step leads to a page with no way forward;
      the proof can be generated without a liveness check.
    - liveness component: in every reachable state [onComplete(true)]
      has never run and the progress is 0; a reachable state has the
      camera running with no work pending; a detection loop started
      before the blinks were seen can never count a head turn; two clicks
      on "Start Liveness Check" leave a camera stream running that nothing
      can stop (the rendered buttons are the component's user events:
      [click_step]);
    - identity flow: through the composed system no identity created by
      the page is ever stored or reported as liveness-verified;
    - JSON (lemmas the client's theorems use): [JSON.parse] inverts
      [JSON.stringify] on values whose strings are code units and whose
      numbers are in normal form ([parse_stringify], by nested induction;
      the text that follows a value is left alone);
    - contract: an invariant of every reachable chain (each registered
      identity has its proof data, a past timestamp and its event);
      [storeProof] lets any account overwrite another user's proof data;
      [verifyProof] after a store, and its revert for an unknown user;
    - client: what [getUserIdentity] and [verifyIdentityProof] return once
      a stored proof is mined (the liveness flag round-trips through
      JSON), and for an unregistered account;
    - wallet: the listener invariant of every reachable state; an account
      switch keeps the old signer; [disconnect] does not survive a reload;
      without [removeListener] stale listeners write the address;
    - verify flow: the end-to-end theorem from a mined proof to the
      dashboard's age QR code, the scanner, [handleQrCodeScanned] and the
      rendered lines (which say "over 18" for a minor too); the scanner's
      camera never activates, every [onScan] text passes the checks, and
      a stream keeps running on the upload tab;
    - site: the navigation bar marks exactly the link of the current
      route, and every link or redirect the layout and the pages offer
      leads to a route of the app;
    - pages: an account switch in the wallet leaves the dashboard on the
      previous account's identity, and its refresh builds QR codes that
      pair that identity with the new address, which the verify page
      rejects (wallet, dashboard, navigation bar, client, contract and
      verify page composed); with the loader split at its [await]s, a
      late answer shows another account's identity on the dashboard.

    ** Modelling choices

    - A byte is a [Z] in [0, 256); a byte array is a [list Z].
    - A JavaScript string produced by [bytesToString] holds code units in
      [0, 256): it is a Stdlib [string] (8-bit [ascii]).  Inputs with code
      units above 255 are out of the model.
    - [Number.parseInt] returns [option Z] ([None] is NaN).  The double it
      returns is modelled by the exact integer: the two differ only above
      2^53, where the code compares the value with 1, 2 and 3 only.
    - JavaScript [undefined] (reading an array past its end) is [None].
    - Loops that scan an array are structural recursions with fuel equal to
      the array length (each iteration consumes at least one element); the
      adequacy lemmas show the fuel is enough: the loop leaves by its own
      condition, and more fuel gives the same result.
    - JavaScript numbers that the code divides and multiplies (the scaled
      canvas heights) are rationals rounded to binary64 at each operation
      ([Double.round64]); the canvas attribute is an [unsigned long]
      (truncated, modulo 2^32).
    - [YearFromTime] is a binary search over [-300000, 300000) with 20
      halvings (2^20 > 600000); [time_civil] shows it returns the
      ECMAScript year for every day in that range, which covers the
      +-10^8 days TimeClip admits.  Number.parseInt's double is the exact
      integer, so date parts above 2^53 are out of the model.
    - [JSON.parse] is a mutual recursion with fuel [S (2 * length text)]:
      every value consumes a character and every nesting level at most
      two, and [size_le_length] shows the fuel of [stringify]'s text is
      enough.  Parsed numbers are exact decimals [m * 10^e], not doubles.
    - The scanners' effect ([commit]) runs at most three times after a
      render: a run that stops the camera leaves [cameraActive] false,
      where neither branch applies again.
    - Asynchronous code is a list of pending continuations; the browser
      settles any of them, in any order, with any result ([step]).
    - A rendered view is a record or an inductive of what the JSX shows
      (texts, which buttons, whether each is disabled); class names and
      layout are left out except where the code computes them (the
      current link of the navigation bar).
    - The React dependency comparison ([Object.is]) on the wallet's
      [signer] object is modelled by the account it signs for.  The
      provider creates a signer when it connects; only a [connect] that
      completes after [checkConnection] already connected the page makes
      a new object for the same account, which this model does not tell
      apart (the dashboard would then load once more).

    ** Not modelled

    [pako.inflate] (a library: a parameter), the [jsQR] detector, the
    canvas rasteriser, the [qrcode] image encoder, face-api (its frame
    results are event parameters; [calculateEyeAspectRatio] works on
    doubles on that side), Poseidon and keccak256 (parameters), the
    ethers library (the record [Ethers]) and the wallet extension (the
    record [Wallet]); the React renderer itself (its effects are written
    out per component); styling (fonts, metadata, [ThemeProvider], class
    names other than the navigation bar's current link); the clipboard
    and QR images.  [src/unnamed/part_001] is a README about the face-api
    model files, not code. *)

From Stdlib Require Import ZArith List Lia Bool.
From Stdlib Require String Ascii.
Import ListNotations.

Declare Scope sid_scope.
Delimit Scope sid_scope with sid.

(** ** Slices of lists

    [sublist s e l] is the elements of [l] at positions [s .. e-1]; it is
    what [Array.prototype.slice] and [Uint8Array.prototype.slice] return
    once their relative indices are clamped (see [JsRuntime.js_slice]). *)
Definition sublist {A} (s e : nat) (l : list A) : list A :=
  firstn (e - s) (skipn s l).

Notation "l [: s , e :]" := (sublist s e l)
  (at level 1, s at level 200, e at level 200, format "l [: s ,  e :]")
  : sid_scope.

Open Scope sid_scope.

(** ** Option binding, for code that may throw *)
Notation "'let?' x ':=' c 'in' k" :=
  (match c with Some x => k | None => None end)
  (at level 10, x name, c at level 100, k at level 200) : sid_scope.

(** ** Promises

    A settled promise: resolved with a value, or rejected with the
    message of the [Error] it was rejected with. *)
Inductive Outcome (A : Type) :=
| Resolved (a : A)
| Rejected (message : String.string).
Arguments Resolved {A} a.
Arguments Rejected {A} message.

(** ** Tactics *)
Ltac inv H := inversion H; subst; clear H.

(** Case on the first boolean test or match scrutinee of the goal. *)
Ltac case_if :=
  match goal with
  | |- context [if ?b then _ else _] => let E := fresh "E" in destruct b eqn:E
  end.

Create HintDb sid discriminated.
Create Rewrite HintDb sid.

(** ** Generic list lemmas *)
Section Lists.
Context {A : Type}.
Implicit Types l : list A.

Lemma length_sublist s e l :
  length (l [: s, e :]) = Nat.min (e - s) (length l - s).
Proof. unfold sublist. rewrite length_firstn, length_skipn. reflexivity. Qed.

Lemma sublist_full l : l [: 0, length l :] = l.
Proof. unfold sublist. rewrite Nat.sub_0_r. apply firstn_all. Qed.

Lemma sublist_app_l l1 l2 s e :
  e <= length l1 -> (l1 ++ l2) [: s, e :] = l1 [: s, e :].
Proof.
  intros H. unfold sublist.
  destruct (Nat.le_gt_cases s (length l1)) as [Hs|Hs].
  - rewrite skipn_app, firstn_app. rewrite length_skipn.
    replace (e - s - (length l1 - s)) with 0 by lia.
    rewrite firstn_O, app_nil_r. reflexivity.
  - replace (e - s) with 0 by lia. reflexivity.
Qed.

Lemma sublist_app_r l1 l2 s e :
  length l1 <= s -> (l1 ++ l2) [: s, e :] = l2 [: s - length l1, e - length l1 :].
Proof.
  intros H. unfold sublist. rewrite skipn_app, (skipn_all2 l1) by lia.
  simpl. f_equal. lia.
Qed.

Lemma sublist_exact l1 l2 l3 :
  (l1 ++ l2 ++ l3) [: length l1, length l1 + length l2 :] = l2.
Proof.
  rewrite sublist_app_r by lia. rewrite Nat.sub_diag.
  replace (length l1 + length l2 - length l1) with (length l2) by lia.
  rewrite sublist_app_l by lia. apply sublist_full.
Qed.

Lemma sublist_nil s e : @sublist A s e [] = [].
Proof. unfold sublist. rewrite skipn_nil. apply firstn_nil. Qed.

Lemma sublist_empty l s e : e <= s -> l [: s, e :] = [].
Proof. intros H. unfold sublist. replace (e - s) with 0 by lia. reflexivity. Qed.
(** Positions past the end of the list can be clamped to its length. *)
Lemma sublist_clamp l s e :
  s <= e -> l [: s, e :] = l [: Nat.min s (length l), Nat.min e (length l) :].
Proof.
  intros Hse. unfold sublist. destruct (Nat.le_gt_cases e (length l)) as [He|He].
  - rewrite (Nat.min_l e), (Nat.min_l s) by lia. reflexivity.
  - rewrite (Nat.min_r e) by lia. destruct (Nat.le_gt_cases s (length l)) as [Hs|Hs].
    + rewrite (Nat.min_l s) by lia. rewrite !firstn_all2 by (rewrite length_skipn; lia). reflexivity.
    + rewrite (Nat.min_r s), !skipn_all2 by lia. rewrite !firstn_nil. reflexivity.
Qed.

Lemma firstn_add_skipn n m l : firstn (n + m) l = firstn n l ++ firstn m (skipn n l).
Proof.
  revert l. induction n as [|n IH]; intros l; [reflexivity|].
  destruct l as [|x l]; [rewrite !firstn_nil; reflexivity|]. simpl. rewrite IH. reflexivity.
Qed.

(** Consecutive slices put back together. *)
Lemma sublist_split l a b c : a <= b <= c -> l [: a, b :] ++ l [: b, c :] = l [: a, c :].
Proof.
  intros H. unfold sublist. replace (c - a) with ((b - a) + (c - b)) by lia.
  rewrite firstn_add_skipn, skipn_skipn. do 3 f_equal. lia.
Qed.

Lemma Forall_skipn (P : A -> Prop) n l : Forall P l -> Forall P (skipn n l).
Proof. rewrite <- (firstn_skipn n l) at 1. intros H. apply Forall_app in H. apply H. Qed.

Lemma Forall_firstn (P : A -> Prop) n l : Forall P l -> Forall P (firstn n l).
Proof. rewrite <- (firstn_skipn n l) at 1. intros H. apply Forall_app in H. apply H. Qed.

Lemma Forall_sublist (P : A -> Prop) s e l : Forall P l -> Forall P (l [: s, e :]).
Proof. intros H. apply Forall_firstn, Forall_skipn, H. Qed.
End Lists.

#[export] Hint Resolve Forall_skipn Forall_firstn Forall_sublist : sid.

#[export] Hint Rewrite @length_sublist @sublist_full @sublist_exact @sublist_nil
  @length_app @length_firstn @length_skipn @length_map : sid.

Ltac sid_simpl := autorewrite with sid in *; simpl in *.

(** ** Arithmetic on indices *)
Lemma nat_add_sub_l n m : (n + m - n)%nat = m.
Proof. lia. Qed.

(** One step of a left fold, for an arbitrary [f].  Used as a rewrite rule
    where [f] is a concrete loop body: proving the step by conversion would
    make the checker compare the body with a variable, unfolding it. *)
Lemma fold_left_cons {A B} (f : A -> B -> A) x l a :
  fold_left f (x :: l) a = fold_left f l (f a x).
Proof. reflexivity. Qed.

(** ** Option lemmas *)
Lemma option_bind_Some {A B} (c : option A) (k : A -> option B) y :
  (let? x := c in k x) = Some y -> exists x, c = Some x /\ k x = Some y.
Proof. destruct c; intros H; [eauto | discriminate]. Qed.
