(* ===== verification/JsRuntime.v ===== *)
(** * JsRuntime: the JavaScript built-ins the decoder calls

    Each definition follows the ECMAScript algorithm of the built-in it
    names, restricted to the code units below 256 that the decoder ever
    produces (see the header of [Prelude]).  They are mapped in PROJECT.json
    to the source lines that call them.

    - [js_trim], [drop_spaces]: [String.prototype.trim] (WhiteSpace and
      LineTerminator: TAB LF VT FF CR SP NBSP below 256);
    - [js_parseInt]: [Number.parseInt(string, radix)] (21.1.2.13), NaN is
      [None];
    - [js_BigInt]: [BigInt(string)] (StringToBigInt), SyntaxError is [None];
    - [bigint_toString16]: [BigInt.prototype.toString(16)];
    - [js_substring]: [String.prototype.substring];
    - [js_slice]: [TypedArray.prototype.slice] and [Array.prototype.slice];
    - [to_uint8]: the store into a [Uint8Array] (ToUint8). *)

From Stdlib Require Import ZArith List Lia Bool.
From Stdlib Require String Ascii.
From S2P Require Import Prelude.
Import ListNotations String.StringSyntax.

Local Open Scope Z_scope.

Abbreviation string := String.string.
Abbreviation ascii := Ascii.ascii.

(** ** Code units *)
Definition code (c : ascii) : Z := Z.of_N (Ascii.N_of_ascii c).
Definition chr (n : Z) : ascii := Ascii.ascii_of_N (Z.to_N n).
Definition chars (s : string) : list ascii := String.list_ascii_of_string s.
Definition of_chars (l : list ascii) : string := String.string_of_list_ascii l.

(** ** [String.prototype.trim] *)
Definition is_space (c : ascii) : bool :=
  existsb (Z.eqb (code c)) [9; 10; 11; 12; 13; 32; 160].

Fixpoint drop_spaces (l : list ascii) : list ascii :=
  match l with
  | c :: r => if is_space c then drop_spaces r else l
  | [] => []
  end.

Definition js_trim (s : string) : string :=
  of_chars (rev (drop_spaces (rev (drop_spaces (chars s))))).

(** ** Digits *)
Definition digit_value (c : ascii) : option Z :=
  let n := code c in
  if (48 <=? n) && (n <=? 57) then Some (n - 48)
  else if (97 <=? n) && (n <=? 122) then Some (n - 87)
  else if (65 <=? n) && (n <=? 90) then Some (n - 55)
  else None.

Definition radix_digit (r : Z) (c : ascii) : option Z :=
  match digit_value c with
  | Some d => if d <? r then Some d else None
  | None => None
  end.

(** The longest prefix of radix-[r] digits (step 5 of parseInt). *)
Fixpoint digit_prefix (r : Z) (l : list ascii) : list Z :=
  match l with
  | c :: rest =>
      match radix_digit r c with
      | Some d => d :: digit_prefix r rest
      | None => []
      end
  | [] => []
  end.

(** All of [l] are radix-[r] digits (the grammar of a BigInt literal). *)
Fixpoint all_digits (r : Z) (l : list ascii) : option (list Z) :=
  match l with
  | [] => Some []
  | c :: rest =>
      match radix_digit r c, all_digits r rest with
      | Some d, Some ds => Some (d :: ds)
      | _, _ => None
      end
  end.

(** The mathematical value of a digit sequence, most significant first. *)
Definition digits_value (r : Z) (ds : list Z) : Z :=
  fold_left (fun acc d => acc * r + d) ds 0.

(** ** [Number.parseInt(string, radix)] *)
Definition strip_sign (l : list ascii) : Z * list ascii :=
  match l with
  | c :: r => if code c =? 45 then (-1, r) else if code c =? 43 then (1, r) else (1, l)
  | [] => (1, [])
  end.

Definition has_hex_prefix (l : list ascii) : bool :=
  match l with
  | c :: x :: _ => (code c =? 48) && ((code x =? 120) || (code x =? 88))
  | _ => false
  end.

Definition js_parseInt (s : string) (radix : Z) : option Z :=
  let '(sign, s1) := strip_sign (drop_spaces (chars s)) in
  if negb (radix =? 0) && ((radix <? 2) || (36 <? radix)) then None else
  let strip := (radix =? 0) || (radix =? 16) in
  let r := if radix =? 0 then 10 else radix in
  let '(r, s2) := if strip && has_hex_prefix s1 then (16, skipn 2 s1) else (r, s1) in
  match digit_prefix r s2 with
  | [] => None
  | ds => Some (sign * digits_value r ds)
  end.

(** ** [BigInt(string)]: StringToBigInt *)
Definition nondecimal_radix (x : ascii) : option Z :=
  let n := code x in
  if (n =? 120) || (n =? 88) then Some 16
  else if (n =? 111) || (n =? 79) then Some 8
  else if (n =? 98) || (n =? 66) then Some 2
  else None.

Definition nonempty_digits (r : Z) (l : list ascii) : option Z :=
  match l with
  | [] => None
  | _ => option_map (digits_value r) (all_digits r l)
  end.

Definition js_BigInt (s : string) : option Z :=
  match chars (js_trim s) with
  | [] => Some 0
  | c :: rest =>
      if code c =? 45 then option_map Z.opp (nonempty_digits 10 rest)
      else if code c =? 43 then nonempty_digits 10 rest
      else match rest with
           | x :: digits =>
               match (code c =? 48), nondecimal_radix x with
               | true, Some r => nonempty_digits r digits
               | _, _ => nonempty_digits 10 (c :: rest)
               end
           | [] => nonempty_digits 10 [c]
           end
  end.

(** ** [toString(radix)] of a non-negative integer *)

(** The digits of [n] in base [r], most significant first, pushed in front
    of [acc]: the loop of Number/BigInt [toString(r)]. *)
Fixpoint radix_digits_fuel (r : Z) (fuel : nat) (n : Z) (acc : list Z) : list Z :=
  match fuel with
  | O => n :: acc
  | S f => if n <? r then n :: acc else radix_digits_fuel r f (n / r) (n mod r :: acc)
  end.

(** [n] has at most [log2 n + 1] digits in any base [r >= 2]: that much
    fuel is enough ([radix_digits_fuel_enough] below). *)
Definition radix_digits (r n : Z) : list Z := radix_digits_fuel r (S (Z.to_nat (Z.log2 n))) n [].

(** [BigInt.prototype.toString(16)] *)
Definition hex_digits (n : Z) : list Z := radix_digits 16 n.

Definition hex_char (d : Z) : ascii := chr (if d <? 10 then 48 + d else 87 + d).

Definition bigint_toString16 (n : Z) : string :=
  if n <? 0 then String.String (chr 45) (of_chars (map hex_char (hex_digits (- n))))
  else of_chars (map hex_char (hex_digits n)).

(** [Number.prototype.toString()] and template-literal interpolation of an
    integer-valued number (its decimal digits, "-" in front of a negative
    one). *)
Definition dec_char (d : Z) : ascii := chr (48 + d).

Definition int_toString (n : Z) : string :=
  if n <? 0 then String.String (chr 45) (of_chars (map dec_char (radix_digits 10 (- n))))
  else of_chars (map dec_char (radix_digits 10 n)).

(** ** ToInt32 and the 32-bit shift *)
Definition to_int32 (x : Z) : Z := (x + 2 ^ 31) mod 2 ^ 32 - 2 ^ 31.

(** [x << n] for [0 <= n < 32]: ToInt32 of the operand, shifted, read back
    as a signed 32-bit integer. *)
Definition shl32 (x : Z) (n : Z) : Z := to_int32 (Z.shiftl (to_int32 x) n).

(** [x & y]: both operands through ToInt32, the result a signed 32-bit
    integer. *)
Definition and32 (x y : Z) : Z := to_int32 (Z.land (to_int32 x) (to_int32 y)).

(** ** [String.prototype.substring] *)
Definition js_substring (s : string) (a b : Z) : string :=
  let len := Z.of_nat (String.length s) in
  let fa := Z.min (Z.max a 0) len in
  let fb := Z.min (Z.max b 0) len in
  String.substring (Z.to_nat (Z.min fa fb)) (Z.to_nat (Z.max fa fb - Z.min fa fb)) s.

(** ** [String.prototype.substr(start, length)]: a negative start counts
    from the end; the length is clamped to what is left. *)
Definition js_substr (s : string) (start length : Z) : string :=
  let size := Z.of_nat (String.length s) in
  let intStart := if start <? 0 then Z.max (size + start) 0 else Z.min start size in
  let intEnd := Z.min (intStart + Z.max length 0) size in
  js_substring s intStart intEnd.

(** ** [slice] on arrays and typed arrays: relative indices *)
Definition rel_index (len k : Z) : Z :=
  if k <? 0 then Z.max (len + k) 0 else Z.min k len.

Definition js_slice {A} (l : list A) (s e : Z) : list A :=
  let len := Z.of_nat (length l) in
  l [: Z.to_nat (rel_index len s), Z.to_nat (rel_index len e) :].

(** ** Storing a Number into a [Uint8Array] (ToUint8); NaN stores 0 *)
Definition to_uint8 (v : option Z) : Z :=
  match v with Some z => z mod 256 | None => 0 end.

(** ** Lemmas on code units *)
Lemma code_range c : 0 <= code c < 256.
Proof.
  unfold code. destruct c as [[] [] [] [] [] [] [] []]; vm_compute; split; congruence.
Qed.

Lemma code_chr n : 0 <= n < 256 -> code (chr n) = n.
Proof.
  intros H. unfold code, chr. rewrite Ascii.N_ascii_embedding by lia. lia.
Qed.

Lemma chr_code c : chr (code c) = c.
Proof. unfold chr, code. rewrite N2Z.id. apply Ascii.ascii_N_embedding. Qed.

Lemma chars_of_chars l : chars (of_chars l) = l.
Proof. apply String.list_ascii_of_string_of_list_ascii. Qed.

Lemma of_chars_chars s : of_chars (chars s) = s.
Proof. apply String.string_of_list_ascii_of_string. Qed.

Lemma length_chars s : length (chars s) = String.length s.
Proof. induction s; simpl; congruence. Qed.

#[export] Hint Rewrite chars_of_chars of_chars_chars length_chars : sid.

(** ** Digit sequences *)
Lemma digits_value_acc r ds acc :
  fold_left (fun a d => a * r + d) ds acc = acc * r ^ Z.of_nat (length ds) + digits_value r ds.
Proof.
  unfold digits_value. revert acc. induction ds as [|d ds IH]; intros acc; cbn [fold_left length].
  - lia.
  - rewrite (IH (acc * r + d)), (IH (0 * r + d)), Nat2Z.inj_succ, Z.pow_succ_r by lia. ring.
Qed.

Lemma digits_value_app r ds1 ds2 :
  digits_value r (ds1 ++ ds2) = digits_value r ds1 * r ^ Z.of_nat (length ds2) + digits_value r ds2.
Proof. unfold digits_value at 1. rewrite fold_left_app. apply digits_value_acc. Qed.

Lemma digits_value_snoc r ds d :
  digits_value r (ds ++ [d]) = digits_value r ds * r + d.
Proof. rewrite digits_value_app. simpl. unfold digits_value. simpl. lia. Qed.

Lemma digits_value_nonneg r ds :
  0 <= r -> Forall (fun d => 0 <= d) ds -> 0 <= digits_value r ds.
Proof.
  intros Hr H. induction ds as [|d ds IH] using rev_ind; [reflexivity|].
  apply Forall_app in H as [H1 H2]. inv H2.
  rewrite digits_value_snoc. specialize (IH H1). nia.
Qed.

Lemma digits_value_bound r ds :
  0 < r -> Forall (fun d => 0 <= d < r) ds -> digits_value r ds < r ^ Z.of_nat (length ds).
Proof.
  intros Hr H. induction ds as [|d ds IH] using rev_ind; [reflexivity|].
  apply Forall_app in H as [H1 H2]. inv H2.
  rewrite digits_value_snoc, length_app, Nat2Z.inj_add, Z.pow_add_r by lia.
  simpl (Z.of_nat (length [d])). rewrite Z.pow_1_r. specialize (IH H1). nia.
Qed.

Lemma digits_value_cons r d ds :
  digits_value r (d :: ds) = d * r ^ Z.of_nat (length ds) + digits_value r ds.
Proof.
  change (d :: ds) with ([d] ++ ds). rewrite digits_value_app. unfold digits_value. simpl. lia.
Qed.

(** Digit lists of the same length and value are equal. *)
Lemma digits_value_inj r a b :
  0 < r -> Forall (fun d => 0 <= d < r) a -> Forall (fun d => 0 <= d < r) b ->
  length a = length b -> digits_value r a = digits_value r b -> a = b.
Proof.
  intros Hr. revert b. induction a as [|x a IH] using rev_ind; intros b Ha Hb Hl Hv.
  - destruct b; [reflexivity | simpl in Hl; discriminate].
  - destruct b as [|y b _] using rev_ind; [rewrite length_app in Hl; simpl in Hl; lia|].
    rewrite !length_app in Hl. simpl in Hl.
    apply Forall_app in Ha as [Ha Hx]. apply Forall_app in Hb as [Hb Hy].
    inv Hx. inv Hy. rewrite !digits_value_snoc in Hv.
    assert (E : digits_value r a = digits_value r b /\ x = y).
    { assert (digits_value r a - digits_value r b = 0 \/ digits_value r a - digits_value r b <> 0) as [E|E] by lia;
        [lia|]. exfalso. assert (Hd : (digits_value r a - digits_value r b) * r = y - x) by lia.
      assert (1 <= Z.abs (digits_value r a - digits_value r b)) by lia.
      assert (Z.abs ((digits_value r a - digits_value r b) * r) >= r) by (rewrite Z.abs_mul; nia). lia. }
    destruct E as [E1 E2]. subst y. f_equal. apply IH; [assumption|assumption|lia|exact E1].
Qed.

(** ** [hex_digits]: the digits of [BigInt.prototype.toString(16)] *)
Lemma radix_digits_fuel_acc r f n acc :
  radix_digits_fuel r f n acc = radix_digits_fuel r f n [] ++ acc.
Proof.
  revert n acc. induction f as [|f IH]; intros n acc; simpl; [reflexivity|].
  destruct (n <? r); [reflexivity|].
  rewrite (IH _ (n mod r :: acc)), (IH _ [n mod r]), <- app_assoc. reflexivity.
Qed.

Section Radix.
Variable r : Z.
Hypothesis Hr : 2 <= r.

Lemma radix_digits_fuel_spec f n :
  0 <= n < r ^ Z.of_nat f ->
  digits_value r (radix_digits_fuel r f n []) = n /\
  Forall (fun d => 0 <= d < r) (radix_digits_fuel r f n []) /\
  (0 < n -> exists d ds, radix_digits_fuel r f n [] = d :: ds /\ 0 < d).
Proof.
  revert n. induction f as [|f IH]; intros n Hn.
  - simpl in Hn. assert (n = 0) by lia. subst. simpl.
    split; [reflexivity|]. split; [repeat constructor; lia | lia].
  - simpl. destruct (Z.ltb_spec n r) as [Hlt|Hge].
    + split; [reflexivity|]. split; [repeat constructor; lia|]. intros. eauto.
    + rewrite radix_digits_fuel_acc.
      rewrite Nat2Z.inj_succ, Z.pow_succ_r in Hn by lia.
      destruct (IH (n / r)) as (Hv & Hd & Hh); [split; [apply Z.div_pos|apply Z.div_lt_upper_bound]; lia|].
      split; [|split].
      * rewrite digits_value_snoc, Hv. pose proof (Z.div_mod n r). lia.
      * apply Forall_app. split; [exact Hd|]. constructor; [apply Z.mod_pos_bound; lia|constructor].
      * intros _. destruct Hh as (d & ds & -> & Hd0); [apply Z.div_str_pos; lia|].
        exists d, (ds ++ [n mod r]). split; [reflexivity|exact Hd0].
Qed.

(** A number below [r^k] has at most [k] digits. *)
Lemma radix_digits_fuel_length f n k :
  (1 <= k)%nat -> 0 <= n < r ^ Z.of_nat k -> (length (radix_digits_fuel r f n []) <= k)%nat.
Proof.
  revert n k. induction f as [|f IH]; intros n k Hk Hn; simpl; [lia|].
  destruct (Z.ltb_spec n r) as [Hlt|Hge]; [simpl; lia|].
  rewrite radix_digits_fuel_acc, length_app. simpl length.
  destruct k as [|[|k]]; [lia| simpl in Hn; lia|].
  enough (length (radix_digits_fuel r f (n / r) []) <= S k)%nat by lia.
  apply IH; [lia|]. split; [apply Z.div_pos; lia|].
  apply Z.div_lt_upper_bound; [lia|].
  rewrite <- Z.pow_succ_r, <- Nat2Z.inj_succ by lia. lia.
Qed.

Lemma radix_digits_fuel_enough n : 0 <= n -> n < r ^ Z.of_nat (S (Z.to_nat (Z.log2 n))).
Proof.
  intros Hn. rewrite Nat2Z.inj_succ, Z2Nat.id by apply Z.log2_nonneg.
  destruct (Z.eq_dec n 0) as [->|Hn0]; [apply Z.pow_pos_nonneg; pose proof (Z.log2_nonneg 0); lia|].
  destruct (Z.log2_spec n) as [_ Hhi]; [lia|].
  eapply Z.lt_le_trans; [exact Hhi|].
  apply Z.pow_le_mono_l. pose proof (Z.log2_nonneg n); lia.
Qed.

(** The digits of [n >= 0] in base [r] are digits, denote [n], and have
    no leading zero unless [n = 0]. *)
Lemma radix_digits_spec n :
  0 <= n ->
  digits_value r (radix_digits r n) = n /\
  Forall (fun d => 0 <= d < r) (radix_digits r n) /\
  (0 < n -> exists d ds, radix_digits r n = d :: ds /\ 0 < d).
Proof. intros Hn. apply radix_digits_fuel_spec. split; [lia|]. apply radix_digits_fuel_enough; lia. Qed.

Lemma radix_digits_length n k :
  (1 <= k)%nat -> 0 <= n < r ^ Z.of_nat k -> (length (radix_digits r n) <= k)%nat.
Proof. apply radix_digits_fuel_length. Qed.
End Radix.

Lemma hex_digits_spec n :
  0 <= n ->
  digits_value 16 (hex_digits n) = n /\
  Forall (fun d => 0 <= d < 16) (hex_digits n) /\
  (0 < n -> exists d ds, hex_digits n = d :: ds /\ 0 < d).
Proof. apply radix_digits_spec. lia. Qed.

Lemma hex_digits_0 : hex_digits 0 = [0].
Proof. reflexivity. Qed.

Lemma hex_digits_nonempty n : hex_digits n <> [].
Proof.
  unfold hex_digits, radix_digits. generalize (S (Z.to_nat (Z.log2 n))) as f. intros f.
  revert n. induction f as [|f IH]; intros n; simpl; [discriminate|].
  destruct (n <? 16); [discriminate|]. rewrite radix_digits_fuel_acc.
  intros H. apply app_eq_nil in H as [_ H]. discriminate.
Qed.

(** ** Hexadecimal characters *)
Lemma digit_value_hex_char d : 0 <= d < 16 -> digit_value (hex_char d) = Some d.
Proof.
  intros Hd. unfold digit_value, hex_char.
  destruct (Z.ltb_spec d 10); rewrite code_chr by lia.
  - replace ((48 <=? 48 + d) && (48 + d <=? 57)) with true by (symmetry; apply andb_true_iff; lia).
    f_equal. lia.
  - replace ((48 <=? 87 + d) && (87 + d <=? 57)) with false by (symmetry; apply andb_false_iff; lia).
    replace ((97 <=? 87 + d) && (87 + d <=? 122)) with true by (symmetry; apply andb_true_iff; lia).
    f_equal. lia.
Qed.

Lemma radix_digit_hex_char d : 0 <= d < 16 -> radix_digit 16 (hex_char d) = Some d.
Proof.
  intros Hd. unfold radix_digit. rewrite digit_value_hex_char by exact Hd.
  destruct (Z.ltb_spec d 16); [reflexivity|lia].
Qed.

Lemma code_hex_char d : 0 <= d < 16 -> 48 <= code (hex_char d) <= 102 /\ code (hex_char d) <> 88 /\ code (hex_char d) <> 120.
Proof. intros Hd. unfold hex_char. destruct (Z.ltb_spec d 10); rewrite code_chr; lia. Qed.

Lemma is_space_hex_char d : 0 <= d < 16 -> is_space (hex_char d) = false.
Proof.
  intros Hd. unfold is_space. destruct (code_hex_char d Hd) as [Hc _].
  simpl. repeat (rewrite (proj2 (Z.eqb_neq _ _)) by lia). reflexivity.
Qed.

Lemma digit_prefix_hex (D : list Z) :
  Forall (fun d => 0 <= d < 16) D -> digit_prefix 16 (map hex_char D) = D.
Proof.
  induction 1 as [|d D Hd _ IH]; [reflexivity|].
  simpl. rewrite radix_digit_hex_char by exact Hd. f_equal. exact IH.
Qed.

(** [Number.parseInt(h, 16)] of a non-empty string of hexadecimal digits. *)
Lemma js_parseInt_hex (D : list Z) :
  D <> [] -> Forall (fun d => 0 <= d < 16) D ->
  js_parseInt (of_chars (map hex_char D)) 16 = Some (digits_value 16 D).
Proof.
  intros Hne HD. destruct D as [|d D]; [congruence|].
  pose proof (Forall_inv HD) as Hd.
  destruct (code_hex_char d Hd) as [Hc [Hx1 Hx2]].
  assert (Hp : has_hex_prefix (hex_char d :: map hex_char D) = false).
  { destruct D as [|d' D]; [reflexivity|]. cbn [map has_hex_prefix].
    pose proof (Forall_inv (Forall_inv_tail HD)) as Hd'.
    destruct (code_hex_char d' Hd') as [_ [Hy1 Hy2]].
    rewrite (proj2 (Z.eqb_neq _ 120)), (proj2 (Z.eqb_neq _ 88)) by lia.
    apply andb_false_r. }
  unfold js_parseInt. rewrite chars_of_chars. cbn [map drop_spaces].
  rewrite is_space_hex_char by exact Hd.
  unfold strip_sign. rewrite (proj2 (Z.eqb_neq _ 45)), (proj2 (Z.eqb_neq _ 43)) by lia.
  cbn -[has_hex_prefix digit_prefix digits_value map]. rewrite Hp.
  rewrite <- (map_cons hex_char), digit_prefix_hex by exact HD.
  cbn -[digits_value]. destruct (digits_value 16 (d :: D)); reflexivity.
Qed.

(** ** [substring] and [slice] on in-range indices *)
Lemma chars_substring n m s :
  chars (String.substring n m s) = firstn m (skipn n (chars s)).
Proof.
  revert n m. induction s as [|c s IH]; intros n m.
  - destruct n, m; reflexivity.
  - destruct n as [|n]; [destruct m as [|m]|]; simpl; [reflexivity| |].
    + f_equal. rewrite IH. simpl. reflexivity.
    + apply IH.
Qed.

Lemma js_substring_in_range s a b :
  0 <= a <= b -> b <= Z.of_nat (String.length s) ->
  chars (js_substring s a b) = (chars s) [: Z.to_nat a, Z.to_nat b :].
Proof.
  intros Hab Hb. unfold js_substring, sublist.
  rewrite chars_substring.
  replace (Z.min (Z.min (Z.max a 0) (Z.of_nat (String.length s))) (Z.min (Z.max b 0) (Z.of_nat (String.length s)))) with a by lia.
  replace (Z.max (Z.min (Z.max a 0) (Z.of_nat (String.length s))) (Z.min (Z.max b 0) (Z.of_nat (String.length s)))) with b by lia.
  f_equal. lia.
Qed.

(** For [0 <= a <= b] the indices are clamped to the length. *)
Lemma js_substring_sublist s a b :
  0 <= a <= b -> chars (js_substring s a b) = (chars s) [: Z.to_nat a, Z.to_nat b :].
Proof.
  intros Hab. rewrite (sublist_clamp _ (Z.to_nat a) (Z.to_nat b)) by lia.
  rewrite length_chars. set (len := String.length s).
  unfold js_substring, sublist. rewrite chars_substring. fold len.
  f_equal; [lia | f_equal; lia].
Qed.

(** [substr(a, n)] from a non-negative start is [substring(a, a + n)]. *)
Lemma js_substr_substring s a n :
  0 <= a -> 0 <= n -> js_substr s a n = js_substring s a (a + n).
Proof.
  intros Ha Hn. unfold js_substr, js_substring.
  destruct (Z.ltb_spec a 0); [lia|].
  set (len := Z.of_nat (String.length s)). assert (0 <= len) by lia. clearbody len.
  replace (Z.min (Z.max (Z.min a len) 0) len) with (Z.min a len) by lia.
  replace (Z.min (Z.max (Z.min (Z.min a len + Z.max n 0) len) 0) len) with (Z.min (a + n) len) by lia.
  replace (Z.min (Z.max (a + n) 0) len) with (Z.min (a + n) len) by lia.
  replace (Z.min (Z.max a 0) len) with (Z.min a len) by lia.
  reflexivity.
Qed.

Lemma chars_append s t : chars (String.append s t) = chars s ++ chars t.
Proof. induction s as [|c s IH]; simpl; [reflexivity|]. f_equal. exact IH. Qed.

Lemma length_of_chars l : String.length (of_chars l) = length l.
Proof. rewrite <- length_chars, chars_of_chars. reflexivity. Qed.

(** The decimal string of [0 <= n < 10^k] has at most [k] characters. *)
Lemma length_int_toString n k :
  (1 <= k)%nat -> 0 <= n < 10 ^ Z.of_nat k -> (String.length (int_toString n) <= k)%nat.
Proof.
  intros Hk Hn. unfold int_toString. destruct (Z.ltb_spec n 0); [lia|].
  rewrite length_of_chars, length_map. apply radix_digits_length; lia.
Qed.

Lemma js_slice_in_range {A} (l : list A) s e :
  0 <= s <= e -> e <= Z.of_nat (length l) ->
  js_slice l s e = l [: Z.to_nat s, Z.to_nat e :].
Proof.
  intros Hs He. unfold js_slice, rel_index.
  destruct (Z.ltb_spec s 0); [lia|]. destruct (Z.ltb_spec e 0); [lia|].
  f_equal; f_equal; lia.
Qed.

(** A negative start counts from the end, as the code relies on for the
    signature when the payload is shorter than 256 bytes. *)
Lemma js_slice_neg_start {A} (l : list A) s :
  s < 0 -> js_slice l s (Z.of_nat (length l)) =
          l [: Z.to_nat (Z.max (Z.of_nat (length l) + s) 0), length l :].
Proof.
  intros Hs. unfold js_slice, rel_index.
  destruct (Z.ltb_spec s 0); [|lia]. destruct (Z.ltb_spec (Z.of_nat (length l)) 0); [lia|].
  rewrite Z.min_id, Nat2Z.id. reflexivity.
Qed.

(** ** Decimal literals *)
Lemma radix_digit_10_code c d :
  radix_digit 10 c = Some d -> 48 <= code c <= 57 /\ d = code c - 48.
Proof.
  unfold radix_digit, digit_value. pose proof (code_range c).
  destruct ((48 <=? code c) && (code c <=? 57)) eqn:E1.
  - apply andb_true_iff in E1 as [E1 E2]. apply Z.leb_le in E1, E2.
    destruct (Z.ltb_spec (code c - 48) 10); intros H'; inv H'; lia.
  - destruct ((97 <=? code c) && (code c <=? 122)) eqn:E2.
    + apply andb_true_iff in E2 as [E2 E3]. apply Z.leb_le in E2, E3.
      destruct (Z.ltb_spec (code c - 87) 10); [lia|discriminate].
    + destruct ((65 <=? code c) && (code c <=? 90)) eqn:E3; [|discriminate].
      apply andb_true_iff in E3 as [E3 E4]. apply Z.leb_le in E3, E4.
      destruct (Z.ltb_spec (code c - 55) 10); [lia|discriminate].
Qed.

Lemma all_digits_Forall r l ds :
  all_digits r l = Some ds -> Forall2 (fun c d => radix_digit r c = Some d) l ds.
Proof.
  revert ds. induction l as [|c l IH]; intros ds H; simpl in H.
  - inv H. constructor.
  - destruct (radix_digit r c) eqn:E1, (all_digits r l) eqn:E2; try discriminate.
    inv H. constructor; auto.
Qed.

(** A digit is not white space, and its value is not negative. *)
Lemma radix_digit_no_space r c d : radix_digit r c = Some d -> is_space c = false /\ 0 <= d.
Proof.
  intros Hd. unfold radix_digit, digit_value in Hd.
  destruct (Z.leb_spec 48 (code c)), (Z.leb_spec (code c) 57), (Z.leb_spec 97 (code c)),
    (Z.leb_spec (code c) 122), (Z.leb_spec 65 (code c)), (Z.leb_spec (code c) 90); cbn [andb] in Hd;
    repeat match type of Hd with context [if ?b then _ else _] => destruct b end; inv Hd;
    unfold is_space; simpl; repeat (rewrite (proj2 (Z.eqb_neq _ _)) by lia); split; (reflexivity || lia).
Qed.

Lemma digits_no_space r l ds :
  all_digits r l = Some ds -> Forall (fun c => is_space c = false) l /\ Forall (fun d => 0 <= d) ds.
Proof.
  intros H. apply all_digits_Forall in H.
  induction H as [|c d l ds Hcd _ [IH1 IH2]]; [split; constructor|].
  destruct (radix_digit_no_space _ _ _ Hcd). split; constructor; assumption.
Qed.

Lemma drop_spaces_id l : Forall (fun c => is_space c = false) l -> drop_spaces l = l.
Proof. destruct 1; simpl; [reflexivity|]. rewrite H. reflexivity. Qed.

(** [BigInt(s)] of a non-empty string of decimal digits is its value. *)
Lemma js_BigInt_decimal s ds :
  all_digits 10 (chars s) = Some ds -> ds <> [] ->
  js_BigInt s = Some (digits_value 10 ds).
Proof.
  intros H Hne. unfold js_BigInt, js_trim.
  pose proof (proj1 (digits_no_space _ _ _ H)) as Hsp.
  rewrite (drop_spaces_id _ Hsp), (drop_spaces_id _ (Forall_rev Hsp)), rev_involutive, chars_of_chars.
  pose proof (all_digits_Forall _ _ _ H) as HF.
  destruct (chars s) as [|c rest] eqn:Ec; [inv HF; congruence|].
  inversion HF as [|c' d ? ds' Hcd Hrest]; subst.
  destruct (radix_digit_10_code _ _ Hcd) as [Hc _].
  rewrite (proj2 (Z.eqb_neq _ 45)), (proj2 (Z.eqb_neq _ 43)) by lia.
  unfold nonempty_digits.
  destruct rest as [|x rest].
  - rewrite H. reflexivity.
  - inversion Hrest as [|x' d2 ? ds2 Hxd _]; subst.
    destruct (radix_digit_10_code _ _ Hxd) as [Hx _].
    replace (nondecimal_radix x) with (@None Z).
    + destruct (code c =? 48); rewrite H; reflexivity.
    + unfold nondecimal_radix.
      repeat (rewrite (proj2 (Z.eqb_neq _ _)) by lia). reflexivity.
Qed.

Section HexLiteral.
Local Open Scope string_scope.

(** [BigInt("0x" + h)] of a non-empty string of hexadecimal digits is
    its value in base 16. *)
Lemma js_BigInt_hex s ds :
  all_digits 16 (chars s) = Some ds -> ds <> [] ->
  js_BigInt (String.append "0x" s) = Some (digits_value 16 ds).
Proof.
  intros H Hne. unfold js_BigInt, js_trim. rewrite chars_append.
  assert (Hsp : Forall (fun c => is_space c = false) (chars "0x" ++ chars s)).
  { apply Forall_app. split; [repeat constructor | exact (proj1 (digits_no_space _ _ _ H))]. }
  rewrite (drop_spaces_id _ Hsp), (drop_spaces_id _ (Forall_rev Hsp)), rev_involutive, chars_of_chars.
  simpl. unfold nonempty_digits. destruct (chars s) as [|a l]; [inv H; congruence|]. rewrite H. reflexivity.
Qed.
End HexLiteral.

(** ** 32-bit integers *)
Lemma to_int32_range x : - 2 ^ 31 <= to_int32 x < 2 ^ 31.
Proof. unfold to_int32. pose proof (Z.mod_pos_bound (x + 2 ^ 31) (2 ^ 32) ltac:(lia)). lia. Qed.

(** [to_int32] depends only on the residue modulo 2^32. *)
Lemma to_int32_congr x y : x mod 2 ^ 32 = y mod 2 ^ 32 -> to_int32 x = to_int32 y.
Proof.
  intros H. unfold to_int32. f_equal.
  rewrite Zplus_mod, H, <- Zplus_mod. reflexivity.
Qed.

Lemma to_int32_mod x : to_int32 x mod 2 ^ 32 = x mod 2 ^ 32.
Proof.
  unfold to_int32. rewrite Zminus_mod, Zmod_mod, <- Zminus_mod.
  replace (x + 2 ^ 31 - 2 ^ 31) with x by ring. reflexivity.
Qed.

Lemma to_int32_id x : - 2 ^ 31 <= x < 2 ^ 31 -> to_int32 x = x.
Proof. intros Hx. unfold to_int32. rewrite Z.mod_small by lia. ring. Qed.

Lemma to_int32_idem x : to_int32 (to_int32 x) = to_int32 x.
Proof. apply to_int32_id, to_int32_range. Qed.

Lemma shl32_mod x n : 0 <= n -> shl32 x n mod 2 ^ 32 = (x * 2 ^ n) mod 2 ^ 32.
Proof.
  intros Hn. unfold shl32. rewrite to_int32_mod, Z.shiftl_mul_pow2 by exact Hn.
  rewrite Zmult_mod, to_int32_mod, <- Zmult_mod. reflexivity.
Qed.

Lemma and32_self x : and32 x x = to_int32 x.
Proof. unfold and32. rewrite Z.land_diag. apply to_int32_idem. Qed.
