(* ===== verification/Double.v ===== *)
(** * Double: binary64 rounding of a non-negative rational

    JavaScript numbers are IEEE-754 binary64 values, and [/] and [*] round
    the exact result to the nearest one, ties to even.  The code computes
    [800 * (img.height / img.width)] ([src/lib/secure-qr-decoder.ts], lines
    113-115, and [src/components/verification-qr-scanner.tsx], lines
    306-307) on integers below 2^32, whose quotients and products lie far
    from the overflow and subnormal ranges; [round64] models the rounding
    of a positive rational there: [expo x] is the exponent [e] with
    [2^52 <= x / 2^e < 2^53] ([expo_spec]) and [rne] rounds half to even.
    The lemmas show that [round64] is monotone ([round64_mono]), which is
    what the bounds on the canvas sizes need. *)

From Stdlib Require Import ZArith QArith Qround Lia Lqa.

Local Open Scope Q_scope.

(** [2^e] for an integer [e], as a fraction. *)
Definition pow2 (e : Z) : Q := Qmake (2 ^ Z.max e 0) (Z.to_pos (2 ^ Z.max (- e) 0)).

(** Round half to even. *)
Definition rne (x : Q) : Z :=
  let f := Qfloor x in
  match Qcompare (x - inject_Z f) (1 # 2) with
  | Lt => f
  | Gt => (f + 1)%Z
  | Eq => if Z.even f then f else (f + 1)%Z
  end.

(** The exponent of a positive [x]: from the binary logarithms of its
    numerator and denominator, corrected by one. *)
Definition expo (x : Q) : Z :=
  let e0 := (Z.log2 (Qnum x) - Z.log2 (Zpos (Qden x)) - 52)%Z in
  if Qle_bool (pow2 (52 + e0)) x then e0 else (e0 - 1)%Z.

(** The binary64 value nearest to a non-negative [x]. *)
Definition round64 (x : Q) : Q :=
  if Qle_bool x 0 then x else inject_Z (rne (x / pow2 (expo x))) * pow2 (expo x).

Lemma pow2_den e : Zpos (Z.to_pos (2 ^ Z.max (- e) 0)) = (2 ^ Z.max (- e) 0)%Z.
Proof. apply Z2Pos.id. apply Z.pow_pos_nonneg; lia. Qed.

Lemma pow2_add a b : pow2 (a + b) == pow2 a * pow2 b.
Proof.
  unfold pow2, Qeq, Qmult. simpl. rewrite Pos2Z.inj_mul, !pow2_den.
  rewrite <- !Z.pow_add_r by lia. f_equal. lia.
Qed.

Lemma pow2_pos e : 0 < pow2 e.
Proof. unfold pow2, Qlt. simpl. rewrite Z.mul_1_r. apply Z.pow_pos_nonneg; lia. Qed.

Lemma pow2_nonneg_Z e : (0 <= e)%Z -> pow2 e == inject_Z (2 ^ e).
Proof. intros He. unfold pow2, Qeq. simpl. rewrite pow2_den, Z.max_l, Z.max_r by lia. simpl. lia. Qed.

Lemma pow2_le a b : (a <= b)%Z -> pow2 a <= pow2 b.
Proof.
  intros Hab. unfold pow2, Qle. simpl. rewrite !pow2_den, <- !Z.pow_add_r by lia.
  apply Z.pow_le_mono_r; lia.
Qed.

Lemma pow2_lt_reflect a b : pow2 a < pow2 b -> (a < b)%Z.
Proof. intros H. destruct (Z.lt_ge_cases a b) as [|Hba]; [assumption|]. apply pow2_le in Hba. apply Qle_not_lt in Hba. contradiction. Qed.

(** The binary logarithms of the numerator and denominator place [x]
    within a factor 4. *)
Lemma log2_bounds n d :
  (0 < n)%Z ->
  pow2 (Z.log2 n - Z.log2 (Zpos d) - 1) < n # d /\ n # d < pow2 (Z.log2 n - Z.log2 (Zpos d) + 1).
Proof.
  intros Hn. destruct (Z.log2_spec n Hn) as [Hn1 Hn2]. destruct (Z.log2_spec (Zpos d) eq_refl) as [Hd1 Hd2].
  set (ln := Z.log2 n) in *. set (ld := Z.log2 (Zpos d)) in *.
  assert (0 <= ln)%Z by apply Z.log2_nonneg. assert (0 <= ld)%Z by apply Z.log2_nonneg.
  unfold pow2, Qlt. simpl. rewrite !pow2_den. split.
  - set (c := (ln - ld - 1)%Z).
    assert (E : (2 ^ Z.max c 0 * 2 ^ Z.succ ld = 2 ^ ln * 2 ^ Z.max (- c) 0)%Z).
    { rewrite <- !Z.pow_add_r by lia. f_equal. lia. }
    apply Z.lt_le_trans with (2 ^ Z.max c 0 * 2 ^ Z.succ ld)%Z.
    + apply Z.mul_lt_mono_pos_l; [apply Z.pow_pos_nonneg; lia | exact Hd2].
    + rewrite E. apply Z.mul_le_mono_nonneg_r; [apply Z.pow_nonneg; lia | exact Hn1].
  - set (c := (ln - ld + 1)%Z).
    assert (E : (2 ^ Z.succ ln * 2 ^ Z.max (- c) 0 = 2 ^ Z.max c 0 * 2 ^ ld)%Z).
    { rewrite <- !Z.pow_add_r by lia. f_equal. lia. }
    apply Z.lt_le_trans with (2 ^ Z.succ ln * 2 ^ Z.max (- c) 0)%Z.
    + apply Z.mul_lt_mono_pos_r; [apply Z.pow_pos_nonneg; lia | exact Hn2].
    + rewrite E. apply Z.mul_le_mono_nonneg_l; [apply Z.pow_nonneg; lia | exact Hd1].
Qed.

Lemma expo_spec x : 0 < x -> pow2 (52 + expo x) <= x /\ x < pow2 (53 + expo x).
Proof.
  destruct x as [n d]. intros Hx. assert (Hn : (0 < n)%Z) by (unfold Qlt in Hx; simpl in Hx; lia).
  destruct (log2_bounds n d Hn) as [H1 H2]. unfold expo. cbn [Qnum Qden].
  set (e0 := (Z.log2 n - Z.log2 (Zpos d) - 52)%Z).
  destruct (Qle_bool (pow2 (52 + e0)) (n # d)) eqn:E.
  - apply Qle_bool_iff in E. split; [exact E|]. replace (53 + e0)%Z with (Z.log2 n - Z.log2 (Zpos d) + 1)%Z by lia. exact H2.
  - assert (E' : ~ pow2 (52 + e0) <= n # d) by (intros C; apply Qle_bool_iff in C; congruence).
    apply Qnot_le_lt in E'. split.
    + replace (52 + (e0 - 1))%Z with (Z.log2 n - Z.log2 (Zpos d) - 1)%Z by lia. apply Qlt_le_weak, H1.
    + replace (53 + (e0 - 1))%Z with (52 + e0)%Z by lia. exact E'.
Qed.

Lemma rne_range x : (Qfloor x <= rne x <= Qfloor x + 1)%Z.
Proof. unfold rne. destruct (_ ?= _); try destruct (Z.even _); lia. Qed.

Lemma rne_mono x y : x <= y -> (rne x <= rne y)%Z.
Proof.
  intros Hxy. pose proof (Qfloor_resp_le x y Hxy) as Hf.
  destruct (Z.lt_ge_cases (Qfloor x) (Qfloor y)) as [Hlt|Hge].
  - pose proof (rne_range x). pose proof (rne_range y). lia.
  - unfold rne. replace (Qfloor y) with (Qfloor x) by lia. set (f := Qfloor x).
    destruct (Qcompare_spec (x - inject_Z f) (1 # 2)), (Qcompare_spec (y - inject_Z f) (1 # 2));
      try (destruct (Z.even f); lia); exfalso; lra.
Qed.

Lemma inject_Z_nonneg z : (0 <= z)%Z -> 0 <= inject_Z z.
Proof. unfold Qle. simpl. lia. Qed.

Lemma floor_ge n x : inject_Z n <= x -> (n <= Qfloor x)%Z.
Proof. intros H. rewrite <- (Qfloor_Z n). apply Qfloor_resp_le, H. Qed.

Lemma floor_lt n x : x < inject_Z n -> (Qfloor x < n)%Z.
Proof. intros H. rewrite Zlt_Qlt. apply Qle_lt_trans with x; [apply Qfloor_le | exact H]. Qed.

(** [x] scaled by its exponent lies in [2^52, 2^53). *)
Lemma scaled_range x : 0 < x -> inject_Z (2 ^ 52) <= x / pow2 (expo x) /\ x / pow2 (expo x) < inject_Z (2 ^ 53).
Proof.
  intros Hx. destruct (expo_spec x Hx) as [H1 H2]. pose proof (pow2_pos (expo x)) as Hp.
  rewrite pow2_add, pow2_nonneg_Z in H1, H2 by lia. split.
  - apply Qle_shift_div_l; assumption.
  - apply Qlt_shift_div_r; assumption.
Qed.

Lemma rne_scaled_range x : 0 < x -> (2 ^ 52 <= rne (x / pow2 (expo x)) <= 2 ^ 53)%Z.
Proof.
  intros Hx. destruct (scaled_range x Hx) as [H1 H2]. pose proof (rne_range (x / pow2 (expo x))).
  apply floor_ge in H1. apply floor_lt in H2. lia.
Qed.

Lemma expo_mono x y : 0 < x -> x <= y -> (expo x <= expo y)%Z.
Proof.
  intros Hx Hxy. destruct (expo_spec x Hx) as [H1 _]. destruct (expo_spec y (Qlt_le_trans _ _ _ Hx Hxy)) as [_ H2].
  cut (52 + expo x < 53 + expo y)%Z; [lia|]. apply pow2_lt_reflect.
  apply Qle_lt_trans with x; [exact H1|]. apply Qle_lt_trans with y; assumption.
Qed.

Lemma round64_pos x : 0 < x -> round64 x == inject_Z (rne (x / pow2 (expo x))) * pow2 (expo x).
Proof.
  intros Hx. unfold round64. destruct (Qle_bool x 0) eqn:E; [|reflexivity].
  apply Qle_bool_iff in E. exfalso. lra.
Qed.

(** Rounding to binary64 is monotone. *)
Lemma round64_mono x y : 0 <= x -> x <= y -> round64 x <= round64 y.
Proof.
  intros H0 Hxy. destruct (Qeq_dec x 0) as [Ex|Ex].
  - unfold round64 at 1. rewrite (proj2 (Qle_bool_iff x 0)) by lra.
    unfold round64. destruct (Qle_bool y 0) eqn:Ey; [lra|].
    destruct (Qlt_le_dec 0 y) as [Hy|Hy]; [|apply Qle_bool_iff in Hy; congruence].
    pose proof (rne_scaled_range y Hy). pose proof (pow2_pos (expo y)).
    rewrite Ex. apply Qmult_le_0_compat; [apply inject_Z_nonneg; lia | lra].
  - assert (Hx : 0 < x) by (apply Qle_lt_or_eq in H0 as [H0|H0]; [exact H0 | exfalso; apply Ex, Qeq_sym, H0]).
    assert (Hy : 0 < y) by lra.
    rewrite (round64_pos x Hx), (round64_pos y Hy).
    pose proof (pow2_pos (expo x)). pose proof (pow2_pos (expo y)).
    destruct (Z.eq_dec (expo x) (expo y)) as [Ee|Ne].
    + rewrite Ee. apply Qmult_le_compat_r; [|lra]. rewrite <- Zle_Qle. apply rne_mono.
      unfold Qdiv. apply Qmult_le_compat_r; [exact Hxy|]. apply Qinv_le_0_compat. lra.
    + pose proof (expo_mono x y Hx Hxy). pose proof (rne_scaled_range x Hx). pose proof (rne_scaled_range y Hy).
      apply Qle_trans with (pow2 (53 + expo x)).
      * rewrite pow2_add, (pow2_nonneg_Z 53) by lia. apply Qmult_le_compat_r; [rewrite <- Zle_Qle; lia | lra].
      * apply Qle_trans with (pow2 (52 + expo y)); [apply pow2_le; lia|].
        rewrite pow2_add, (pow2_nonneg_Z 52) by lia. apply Qmult_le_compat_r; [rewrite <- Zle_Qle; lia | lra].
Qed.

Lemma round64_nonneg x : 0 <= x -> 0 <= round64 x.
Proof.
  intros Hx. apply Qle_trans with (round64 0); [apply Qle_bool_iff; reflexivity|]. apply round64_mono; [apply Qle_refl | exact Hx].
Qed.

(** [k * fl(a)] rounded, as the code computes [k * (h / w)], is monotone in
    both operands. *)
Lemma round64_mul_mono k k' a b :
  (0 <= k <= k')%Z -> 0 <= a -> a <= b -> round64 (inject_Z k * round64 a) <= round64 (inject_Z k' * round64 b).
Proof.
  intros Hk Ha Hab. pose proof (round64_nonneg a Ha). pose proof (round64_mono a b Ha Hab).
  assert (Hk0 : 0 <= inject_Z k) by (apply inject_Z_nonneg; lia).
  assert (Hkk : inject_Z k <= inject_Z k') by (rewrite <- Zle_Qle; lia).
  apply round64_mono; [apply Qmult_le_0_compat; assumption|].
  apply Qle_trans with (inject_Z k * round64 b).
  { rewrite !(Qmult_comm (inject_Z k)). apply Qmult_le_compat_r; assumption. }
  apply Qmult_le_compat_r; [assumption|]. apply Qle_trans with (round64 a); assumption.
Qed.
