(* ===== verification/Json.v ===== *)
(** * Json: [JSON.stringify] and [JSON.parse]

    The code passes its data through JSON three times: the contract client
    stores [JSON.stringify(proofData)] on chain and reads it back with
    [JSON.parse] ([src/unnamed/part_002], lines 17-27, 55-57, 101-103); the
    dashboard prints [JSON.stringify({type, proofId, address})] into a QR
    code ([src/lib/qr-generator.ts], line 7); the verification scanner and
    the verify page read it back with [JSON.parse] and test three
    properties ([src/components/verification-qr-scanner.tsx], lines
    174-183, 228-237; [src/app/verify/page.tsx], lines 38-49).  Both
    functions are ECMAScript built-ins: they are written here from the
    ECMAScript definitions (SerializeJSONProperty, QuoteJSONString,
    Number::toString, and the JSON grammar of [JSON.parse]).

    - A JavaScript string is its list of UTF-16 code units ([list Z]).
    - [JValue] is a JSON value.  A number is an exact decimal [m * 10^e];
      [JSON.parse] gives it in normal form ([m] not a multiple of 10, and
      [0] as [0 * 10^0]).  The rounding of the literal to a double is not
      modelled: the code never reads a number it parsed.
    - An object is the list of its members in order.  [JSON.stringify] of
      a JavaScript object lists its own properties in property order: the
      objects the code builds have distinct keys that are not array
      indices, so that order is the order in which they are written.
      [JSON.parse] keeps the members as they appear; reading a property
      ([get]) finds the last member with that key, as the object
      [JSON.parse] builds holds the last value given to a key.
    - [JSON.parse] is [value] with fuel: every call of [value], [items]
      or [members] on a fuel [S n] uses [n], and the fuel [1 + 2 * length]
      of the text is enough (each second call consumes a code unit). *)

From Stdlib Require Import ZArith List Lia Bool.
From Stdlib Require String Ascii.
From S2P Require Import Prelude JsRuntime.
Import ListNotations String.StringSyntax.

Local Open Scope Z_scope.

(** The code units of a string literal of the source (all below 128). *)
Definition units (s : String.string) : list Z := map code (chars s).

(** [null], [true], [false]. *)
Definition lit_null : list Z := [110; 117; 108; 108].
Definition lit_true : list Z := [116; 114; 117; 101].
Definition lit_false : list Z := [102; 97; 108; 115; 101].

Inductive JValue :=
| JNull
| JBool (b : bool)
| JNumber (m e : Z)
| JString (s : list Z)
| JArray (l : list JValue)
| JObject (l : list (list Z * JValue)).

(** Induction over JSON values with a hypothesis for every element of an
    array and every member of an object. *)
Section JValueInd.
Variable P : JValue -> Prop.
Hypothesis Pnull : P JNull.
Hypothesis Pbool : forall b, P (JBool b).
Hypothesis Pnumber : forall m e, P (JNumber m e).
Hypothesis Pstring : forall s, P (JString s).
Hypothesis Parray : forall l, Forall P l -> P (JArray l).
Hypothesis Pobject : forall l, Forall (fun kv => P (snd kv)) l -> P (JObject l).

Fixpoint JValue_ind' (v : JValue) : P v :=
  match v with
  | JNull => Pnull
  | JBool b => Pbool b
  | JNumber m e => Pnumber m e
  | JString s => Pstring s
  | JArray l =>
      Parray l ((fix F (l : list JValue) : Forall P l :=
                   match l with
                   | [] => Forall_nil _
                   | x :: r => Forall_cons x (JValue_ind' x) (F r)
                   end) l)
  | JObject l =>
      Pobject l ((fix F (l : list (list Z * JValue)) : Forall (fun kv => P (snd kv)) l :=
                    match l with
                    | [] => Forall_nil _
                    | kv :: r => Forall_cons kv (JValue_ind' (snd kv)) (F r)
                    end) l)
  end.
End JValueInd.

(** ** [JSON.stringify] *)

(** [UnicodeEscape(C)]: [\u] and four lowercase hexadecimal digits. *)
Definition hex4 (c : Z) : list Z :=
  map (fun d => code (hex_char d)) [c / 4096 mod 16; c / 256 mod 16; c / 16 mod 16; c mod 16].

Definition unicode_escape (c : Z) : list Z := 92 :: 117 :: hex4 c.

Definition is_lead (c : Z) : bool := (55296 <=? c) && (c <=? 56319).
Definition is_trail (c : Z) : bool := (56320 <=? c) && (c <=? 57343).

(** The table of QuoteJSONString: backspace, tab, line feed, form feed,
    carriage return, quotation mark and reverse solidus, with the letter
    that follows the backslash. *)
Definition escape_char (c : Z) : option Z :=
  if c =? 8 then Some 98 else if c =? 9 then Some 116 else if c =? 10 then Some 110
  else if c =? 12 then Some 102 else if c =? 13 then Some 114
  else if c =? 34 then Some 34 else if c =? 92 then Some 92 else None.

(** A code point that is one code unit: the table, a control character or
    a lone surrogate is escaped, anything else is copied. *)
Definition quote_unit (c : Z) : list Z :=
  match escape_char c with
  | Some e => [92; e]
  | None => if (c <? 32) || is_lead c || is_trail c then unicode_escape c else [c]
  end.

(** The loop of QuoteJSONString over the code points of the string: a
    surrogate pair is one code point and is copied. *)
Fixpoint quote_units (s : list Z) : list Z :=
  match s with
  | [] => []
  | c :: r =>
      match r with
      | d :: r' => if is_lead c && is_trail d then c :: d :: quote_units r'
                   else quote_unit c ++ quote_units r
      | [] => quote_unit c
      end
  end.

Definition quote (s : list Z) : list Z := 34 :: quote_units s ++ [34].

(** The decimal digits of a non-negative integer. *)
Definition dec_units (n : Z) : list Z := units (int_toString n).

(** Number::toString(x) for [x = a * 10^e > 0] in normal form: the [k]
    digits [ds] of [a], the decimal point after [n = k + e] of them. *)
Definition positive_toString (a e : Z) : list Z :=
  let ds := dec_units a in
  let k := Z.of_nat (length ds) in
  let n := k + e in
  if (k <=? n) && (n <=? 21) then ds ++ repeat 48 (Z.to_nat (n - k))
  else if (0 <? n) && (n <=? 21) then firstn (Z.to_nat n) ds ++ 46 :: skipn (Z.to_nat n) ds
  else if (-6 <? n) && (n <=? 0) then 48 :: 46 :: repeat 48 (Z.to_nat (- n)) ++ ds
  else
    let ex := 101 :: (if n - 1 <? 0 then 45 else 43) :: dec_units (Z.abs (n - 1)) in
    match ds with
    | [d] => d :: ex
    | d :: rest => d :: 46 :: rest ++ ex
    | [] => ex
    end.

(** Number::toString(m * 10^e): [0] for zero, [-] and the opposite for a
    negative number. *)
Definition number_toString (m e : Z) : list Z :=
  if m =? 0 then [48]
  else if m <? 0 then 45 :: positive_toString (- m) e
  else positive_toString m e.

(** The elements of an array or the members of an object, separated by
    commas. *)
Fixpoint join_units (l : list (list Z)) : list Z :=
  match l with
  | [] => []
  | [x] => x
  | x :: r => x ++ 44 :: join_units r
  end.

(** SerializeJSONProperty, SerializeJSONArray and SerializeJSONObject
    with no indentation. *)
Fixpoint stringify (v : JValue) : list Z :=
  match v with
  | JNull => lit_null
  | JBool true => lit_true
  | JBool false => lit_false
  | JNumber m e => number_toString m e
  | JString s => quote s
  | JArray l => 91 :: join_units (map stringify l) ++ [93]
  | JObject l => 123 :: join_units (map (fun kv => quote (fst kv) ++ 58 :: stringify (snd kv)) l) ++ [125]
  end.

(** ** [JSON.parse] *)

Definition is_ws (c : Z) : bool := (c =? 9) || (c =? 10) || (c =? 13) || (c =? 32).

Fixpoint skip_ws (s : list Z) : list Z :=
  match s with
  | c :: r => if is_ws c then skip_ws r else s
  | [] => []
  end.

Definition is_digit (c : Z) : bool := (48 <=? c) && (c <=? 57).

Fixpoint span_digits (s : list Z) : list Z * list Z :=
  match s with
  | c :: r => if is_digit c then let '(ds, rest) := span_digits r in (c :: ds, rest) else ([], s)
  | [] => ([], [])
  end.

Fixpoint strip_prefix (w s : list Z) : option (list Z) :=
  match w, s with
  | [], _ => Some s
  | a :: w', b :: s' => if a =? b then strip_prefix w' s' else None
  | _ :: _, [] => None
  end.

Definition hex_val (c : Z) : option Z :=
  if is_digit c then Some (c - 48)
  else if (97 <=? c) && (c <=? 102) then Some (c - 87)
  else if (65 <=? c) && (c <=? 70) then Some (c - 55)
  else None.

Definition hex4_val (a b c d : Z) : option Z :=
  match hex_val a, hex_val b, hex_val c, hex_val d with
  | Some x, Some y, Some z, Some w => Some (((x * 16 + y) * 16 + z) * 16 + w)
  | _, _, _, _ => None
  end.

(** The escapes of a quotation mark, a reverse solidus, a solidus and
    of [b], [f], [n], [r], [t]. *)
Definition unescape (e : Z) : option Z :=
  if e =? 34 then Some 34 else if e =? 92 then Some 92 else if e =? 47 then Some 47
  else if e =? 98 then Some 8 else if e =? 102 then Some 12 else if e =? 110 then Some 10
  else if e =? 114 then Some 13 else if e =? 116 then Some 9 else None.

Definition cons_fst (u : Z) (r : option (list Z * list Z)) : option (list Z * list Z) :=
  match r with Some (t, rest) => Some (u :: t, rest) | None => None end.

(** The characters of a string literal after its opening quote, up to the
    closing quote. *)
Fixpoint string_body (s : list Z) : option (list Z * list Z) :=
  match s with
  | [] => None
  | c :: r =>
      if c =? 34 then Some ([], r)
      else if c =? 92 then
        match r with
        | e :: r' =>
            if e =? 117 then
              match r' with
              | a :: b :: c' :: d :: r'' =>
                  match hex4_val a b c' d with
                  | Some u => cons_fst u (string_body r'')
                  | None => None
                  end
              | _ => None
              end
            else match unescape e with
                 | Some u => cons_fst u (string_body r')
                 | None => None
                 end
        | [] => None
        end
      else if c <? 32 then None
      else cons_fst c (string_body r)
  end.

(** Removal of the trailing zeros of a mantissa, at most [fuel] of them;
    zero is [0 * 10^0]. *)
Fixpoint normalize (fuel : nat) (m e : Z) : Z * Z :=
  if m =? 0 then (0, 0) else
  match fuel with
  | O => (m, e)
  | S f => if m mod 10 =? 0 then normalize f (m / 10) (e + 1) else (m, e)
  end.

Definition digits_of (ds : list Z) : Z := digits_value 10 (map (fun c => c - 48) ds).

(** The integer part of a number literal: [0] alone, or a non-zero digit
    and the digits after it. *)
Definition int_part (s : list Z) : option (list Z * list Z) :=
  match s with
  | c :: r => if c =? 48 then Some ([48], r)
              else if is_digit c then Some (span_digits s) else None
  | [] => None
  end.

(** The fraction: [.] and at least one digit, or nothing. *)
Definition frac_part (s : list Z) : option (list Z * list Z) :=
  match s with
  | c :: r => if c =? 46 then
                let '(fd, rest) := span_digits r in
                match fd with [] => None | _ => Some (fd, rest) end
              else Some ([], s)
  | [] => Some ([], [])
  end.

(** The exponent: [e] or [E], a sign, at least one digit; or nothing. *)
Definition exp_part (s : list Z) : option (Z * list Z) :=
  match s with
  | c :: r =>
      if (c =? 101) || (c =? 69) then
        let '(neg, r1) := match r with
                          | d :: r' => if d =? 45 then (true, r') else if d =? 43 then (false, r') else (false, r)
                          | [] => (false, [])
                          end in
        let '(ed, rest) := span_digits r1 in
        match ed with
        | [] => None
        | _ => Some (if neg then - digits_of ed else digits_of ed, rest)
        end
      else Some (0, s)
  | [] => Some (0, [])
  end.

(** A number literal after its optional minus sign. *)
Definition unsigned_number (neg : bool) (s : list Z) : option (JValue * list Z) :=
  match int_part s with
  | Some (id, s2) =>
      match frac_part s2 with
      | Some (fd, s3) =>
          match exp_part s3 with
          | Some (ex, s4) =>
              let m := digits_of (id ++ fd) in
              let '(m', e') := normalize (length (id ++ fd)) (if neg then - m else m)
                                 (ex - Z.of_nat (length fd)) in
              Some (JNumber m' e', s4)
          | None => None
          end
      | None => None
      end
  | None => None
  end.

Definition number (s : list Z) : option (JValue * list Z) :=
  match s with
  | c :: r => if c =? 45 then unsigned_number true r else unsigned_number false s
  | [] => None
  end.

Definition literal (w : list Z) (v : JValue) (s : list Z) : option (JValue * list Z) :=
  match strip_prefix w s with Some r => Some (v, r) | None => None end.

(** [value] reads a value after white space; [items] the elements of a
    non-empty array after its [[]; [members] the members of a non-empty
    object after its [{]. *)
Fixpoint value (n : nat) (s : list Z) : option (JValue * list Z) :=
  match n with
  | O => None
  | S n' =>
      match skip_ws s with
      | [] => None
      | c :: r =>
          if c =? 123 then
            match skip_ws r with
            | d :: r' => if d =? 125 then Some (JObject [], r') else members n' r []
            | [] => None
            end
          else if c =? 91 then
            match skip_ws r with
            | d :: r' => if d =? 93 then Some (JArray [], r') else items n' r []
            | [] => None
            end
          else if c =? 34 then
            match string_body r with Some (t, rest) => Some (JString t, rest) | None => None end
          else if c =? 116 then literal (lit_true) (JBool true) (c :: r)
          else if c =? 102 then literal (lit_false) (JBool false) (c :: r)
          else if c =? 110 then literal (lit_null) JNull (c :: r)
          else number (c :: r)
      end
  end
with items (n : nat) (s : list Z) (acc : list JValue) : option (JValue * list Z) :=
  match n with
  | O => None
  | S n' =>
      match value n' s with
      | Some (v, r) =>
          match skip_ws r with
          | c :: r' => if c =? 44 then items n' r' (v :: acc)
                       else if c =? 93 then Some (JArray (rev (v :: acc)), r') else None
          | [] => None
          end
      | None => None
      end
  end
with members (n : nat) (s : list Z) (acc : list (list Z * JValue)) : option (JValue * list Z) :=
  match n with
  | O => None
  | S n' =>
      match skip_ws s with
      | c :: r =>
          if c =? 34 then
            match string_body r with
            | Some (k, r1) =>
                match skip_ws r1 with
                | d :: r2 =>
                    if d =? 58 then
                      match value n' r2 with
                      | Some (v, r3) =>
                          match skip_ws r3 with
                          | e :: r4 => if e =? 44 then members n' r4 ((k, v) :: acc)
                                       else if e =? 125 then Some (JObject (rev ((k, v) :: acc)), r4)
                                       else None
                          | [] => None
                          end
                      | None => None
                      end
                    else None
                | [] => None
                end
            | None => None
            end
          else None
      | [] => None
      end
  end.

(** [JSON.parse(text)]: a value and nothing but white space after it;
    [None] is the [SyntaxError] it throws. *)
Definition JSON_parse (text : list Z) : option JValue :=
  match value (S (2 * length text)) text with
  | Some (v, rest) => match skip_ws rest with [] => Some v | _ => None end
  | None => None
  end.

Definition JSON_stringify (v : JValue) : list Z := stringify v.

(** ** Reading a parsed value *)

(** ToBoolean of a value. *)
Definition truthy (v : JValue) : bool :=
  match v with
  | JNull => false
  | JBool b => b
  | JNumber m _ => negb (m =? 0)
  | JString s => match s with [] => false | _ => true end
  | JArray _ | JObject _ => true
  end.

(** ToBoolean of a property read: [undefined] ([None]) is falsy. *)
Definition truthy_opt (o : option JValue) : bool :=
  match o with Some v => truthy v | None => false end.

Fixpoint find_last (key : list Z) (l : list (list Z * JValue)) : option JValue :=
  match l with
  | [] => None
  | (k, v) :: r =>
      match find_last key r with
      | Some w => Some w
      | None => if list_eq_dec Z.eq_dec k key then Some v else None
      end
  end.

(** [v.key] for a key that names no property of [Object.prototype],
    [String.prototype] or [Array.prototype] ([proofId], [address],
    [type], [livenessVerified]): a [TypeError] ([None]) on [null], the
    member on an object, [undefined] ([Some None]) otherwise. *)
Definition get (v : JValue) (key : list Z) : option (option JValue) :=
  match v with
  | JNull => None
  | JObject l => Some (find_last key l)
  | _ => Some None
  end.

(** ** Well-formed values and the fuel they need *)

(** A code unit is a 16-bit integer. *)
Definition unit_ok (c : Z) : bool := (0 <=? c) && (c <? 65536).

(** The normal form of a number as [JSON.parse] gives it. *)
Definition number_ok (m e : Z) : bool :=
  if m =? 0 then e =? 0 else negb (m mod 10 =? 0).

Fixpoint wf (v : JValue) : bool :=
  match v with
  | JNull | JBool _ => true
  | JNumber m e => number_ok m e
  | JString s => forallb unit_ok s
  | JArray l => forallb wf l
  | JObject l => forallb (fun kv => forallb unit_ok (fst kv) && wf (snd kv)) l
  end.

Fixpoint size (v : JValue) : nat :=
  match v with
  | JArray l => S (list_sum (map (fun x => S (size x)) l))
  | JObject l => S (list_sum (map (fun kv => S (size (snd kv))) l))
  | _ => 1
  end.

(** What may follow a value without being read as part of it: the end,
    or a code unit that cannot continue a number. *)
Definition stop (rest : list Z) : bool :=
  match rest with
  | [] => true
  | c :: _ => negb (is_digit c || (c =? 46) || (c =? 101) || (c =? 69))
  end.

(** * Lemmas *)

(** ** String literals *)

Lemma hex_val_hex_char d : 0 <= d < 16 -> hex_val (code (hex_char d)) = Some d.
Proof.
  intros Hd. unfold hex_char. destruct (Z.ltb_spec d 10); rewrite code_chr by lia;
    unfold hex_val, is_digit.
  - replace ((48 <=? 48 + d) && (48 + d <=? 57)) with true by (symmetry; apply andb_true_iff; lia).
    f_equal; lia.
  - replace ((48 <=? 87 + d) && (87 + d <=? 57)) with false by (symmetry; apply andb_false_iff; lia).
    replace ((97 <=? 87 + d) && (87 + d <=? 102)) with true by (symmetry; apply andb_true_iff; lia).
    f_equal; lia.
Qed.

Lemma hex4_val_hex4 c : unit_ok c = true ->
  match hex4 c with [a; b; c'; d] => hex4_val a b c' d | _ => None end = Some c.
Proof.
  intros Hc. unfold unit_ok in Hc. apply andb_true_iff in Hc as [H1 H2].
  apply Z.leb_le in H1. apply Z.ltb_lt in H2. unfold hex4, hex4_val. cbn [map].
  rewrite !hex_val_hex_char by (apply Z.mod_pos_bound; lia). f_equal.
  replace (c / 256) with (c / 16 / 16) by (rewrite Z.div_div; reflexivity || lia).
  replace (c / 4096) with (c / 16 / 16 / 16) by (rewrite !Z.div_div; reflexivity || lia).
  pose proof (Z.div_mod c 16 ltac:(lia)). pose proof (Z.div_mod (c / 16) 16 ltac:(lia)).
  pose proof (Z.div_mod (c / 16 / 16) 16 ltac:(lia)).
  rewrite (Z.mod_small (c / 16 / 16 / 16) 16) by (rewrite !Z.div_div by lia; split;
    [apply Z.div_pos | apply Z.div_lt_upper_bound]; lia).
  lia.
Qed.

Lemma string_body_plain c t :
  32 <= c -> c <> 34 -> c <> 92 -> string_body (c :: t) = cons_fst c (string_body t).
Proof.
  intros H1 H2 H3. simpl. rewrite (proj2 (Z.eqb_neq c 34) H2), (proj2 (Z.eqb_neq c 92) H3).
  replace (c <? 32) with false by (symmetry; apply Z.ltb_ge; lia). reflexivity.
Qed.

(** The quoted form of one code unit reads back as that code unit. *)
Lemma string_body_unit c t :
  unit_ok c = true -> string_body (quote_unit c ++ t) = cons_fst c (string_body t).
Proof.
  intros Hc. unfold quote_unit, escape_char.
  destruct (Z.eqb_spec c 8); [subst; reflexivity|].
  destruct (Z.eqb_spec c 9); [subst; reflexivity|].
  destruct (Z.eqb_spec c 10); [subst; reflexivity|].
  destruct (Z.eqb_spec c 12); [subst; reflexivity|].
  destruct (Z.eqb_spec c 13); [subst; reflexivity|].
  destruct (Z.eqb_spec c 34); [subst; reflexivity|].
  destruct (Z.eqb_spec c 92); [subst; reflexivity|].
  destruct ((c <? 32) || is_lead c || is_trail c) eqn:Esc.
  - pose proof (hex4_val_hex4 c Hc) as Hh. unfold unicode_escape.
    destruct (hex4 c) as [|a [|b [|c' [|d [|x l]]]]]; try discriminate.
    simpl. rewrite Hh. reflexivity.
  - apply orb_false_iff in Esc as [Esc _]. apply orb_false_iff in Esc as [Esc _].
    apply Z.ltb_ge in Esc. apply string_body_plain; assumption.
Qed.

Definition cons_all (s : list Z) (r : option (list Z * list Z)) : option (list Z * list Z) :=
  fold_right cons_fst r s.

Lemma string_body_quote_units s t :
  forallb unit_ok s = true -> string_body (quote_units s ++ t) = cons_all s (string_body t).
Proof.
  remember (length s) as n eqn:Hn. revert s Hn. induction n as [n IH] using lt_wf_ind.
  intros s Hn Hs. destruct s as [|c [|d r]]; [reflexivity| |].
  - simpl in Hs. rewrite andb_true_r in Hs. simpl. apply string_body_unit, Hs.
  - simpl in Hs. apply andb_true_iff in Hs as [Hc Hs].
    change (quote_units (c :: d :: r)) with
      (if is_lead c && is_trail d then c :: d :: quote_units r else quote_unit c ++ quote_units (d :: r)).
    destruct (is_lead c && is_trail d) eqn:Ep.
    + apply andb_true_iff in Hs as [Hd Hr]. apply andb_true_iff in Ep as [Ec Ed].
      unfold is_lead, is_trail in *. rewrite !andb_true_iff, !Z.leb_le in *.
      cbn [app]. rewrite !string_body_plain by lia.
      rewrite (IH (length r) ltac:(simpl in Hn; lia) r eq_refl Hr). reflexivity.
    + rewrite <- app_assoc, string_body_unit by assumption.
      rewrite (IH (length (d :: r)) ltac:(cbn [length] in *; lia) (d :: r) eq_refl Hs). reflexivity.
Qed.

Lemma cons_all_some s t rest : cons_all s (Some (t, rest)) = Some (s ++ t, rest).
Proof. induction s as [|c s IH]; simpl; [reflexivity|]. rewrite IH. reflexivity. Qed.

(** A quoted string reads back, whatever follows it. *)
Lemma string_body_quote s rest :
  forallb unit_ok s = true -> string_body (quote_units s ++ 34 :: rest) = Some (s, rest).
Proof. intros Hs. rewrite string_body_quote_units by exact Hs. simpl. rewrite cons_all_some, app_nil_r. reflexivity. Qed.

(** ** Number literals *)

Lemma dec_units_spec a : 0 <= a -> dec_units a = map (Z.add 48) (radix_digits 10 a).
Proof.
  intros Ha. unfold dec_units, units, int_toString. destruct (Z.ltb_spec a 0); [lia|].
  rewrite chars_of_chars, map_map. apply map_ext_in. intros d Hd.
  destruct (radix_digits_spec 10 ltac:(lia) a Ha) as (_ & HF & _).
  rewrite Forall_forall in HF. specialize (HF d Hd). unfold dec_char. rewrite code_chr by lia. lia.
Qed.

Lemma digits_of_app x y : digits_of (x ++ y) = digits_of x * 10 ^ Z.of_nat (length y) + digits_of y.
Proof. unfold digits_of. rewrite map_app, digits_value_app, length_map. reflexivity. Qed.

Lemma digits_of_cons c x : digits_of (c :: x) = (c - 48) * 10 ^ Z.of_nat (length x) + digits_of x.
Proof. unfold digits_of. cbn [map]. rewrite digits_value_cons, length_map. reflexivity. Qed.

Lemma digits_of_zeros j : digits_of (repeat 48 j) = 0.
Proof. induction j as [|j IH]; [reflexivity|]. cbn [repeat]. rewrite digits_of_cons, IH. lia. Qed.

(** The decimal digits of [a >= 0]: digits, of value [a], at least one,
    and the first is not 0 when [a > 0]. *)
Lemma dec_units_facts a : 0 <= a ->
  forallb is_digit (dec_units a) = true /\ digits_of (dec_units a) = a /\
  (0 < a -> exists c r, dec_units a = c :: r /\ c <> 48) /\ dec_units a <> [].
Proof.
  intros Ha. rewrite dec_units_spec by exact Ha.
  destruct (radix_digits_spec 10 ltac:(lia) a Ha) as (Hv & HF & Hh). split; [|split; [|split]].
  - apply forallb_forall. intros c Hc. apply in_map_iff in Hc as (d & <- & Hd).
    rewrite Forall_forall in HF. specialize (HF d Hd). unfold is_digit. apply andb_true_iff; lia.
  - unfold digits_of. rewrite map_map.
    rewrite (map_ext (fun x => 48 + x - 48) id) by (intros; unfold id; lia). rewrite map_id. exact Hv.
  - intros Hp. destruct (Hh Hp) as (d & ds & E & Hd). rewrite E. exists (48 + d), (map (Z.add 48) ds).
    split; [reflexivity | lia].
  - destruct (Z.eq_dec a 0) as [->|Hne]; [discriminate|].
    destruct (Hh ltac:(lia)) as (d & ds & -> & _). discriminate.
Qed.

Lemma span_digits_app ds rest :
  forallb is_digit ds = true -> (forall c r, rest = c :: r -> is_digit c = false) ->
  span_digits (ds ++ rest) = (ds, rest).
Proof.
  intros Hds Hr. induction ds as [|c ds IH].
  - destruct rest as [|c r]; [reflexivity|]. simpl. rewrite (Hr c r eq_refl). reflexivity.
  - simpl in Hds. apply andb_true_iff in Hds as [Hc Hds]. simpl. rewrite Hc, IH by exact Hds. reflexivity.
Qed.

Lemma stop_cons c r : stop (c :: r) = true -> is_digit c = false /\ c <> 46 /\ c <> 101 /\ c <> 69.
Proof.
  simpl. intros H. apply negb_true_iff in H. rewrite !orb_false_iff, !Z.eqb_neq in H. tauto.
Qed.

Lemma stop_not_digit rest : stop rest = true -> forall c r, rest = c :: r -> is_digit c = false.
Proof. intros H c r ->. apply stop_cons in H. tauto. Qed.

Lemma frac_part_stop rest : stop rest = true -> frac_part rest = Some ([], rest).
Proof.
  destruct rest as [|c r]; [reflexivity|]. intros H. apply stop_cons in H as (_ & H & _).
  simpl. rewrite (proj2 (Z.eqb_neq c 46) H). reflexivity.
Qed.

Lemma exp_part_stop rest : stop rest = true -> exp_part rest = Some (0, rest).
Proof.
  destruct rest as [|c r]; [reflexivity|]. intros H. apply stop_cons in H as (_ & _ & H1 & H2).
  simpl. rewrite (proj2 (Z.eqb_neq c 101) H1), (proj2 (Z.eqb_neq c 69) H2). reflexivity.
Qed.

Lemma frac_part_dot fd rest :
  forallb is_digit fd = true -> fd <> [] -> (forall c r, rest = c :: r -> is_digit c = false) ->
  frac_part (46 :: fd ++ rest) = Some (fd, rest).
Proof.
  intros H1 H2 H3. simpl. rewrite span_digits_app by assumption. destruct fd; [congruence|reflexivity].
Qed.

Lemma frac_part_e r : frac_part (101 :: r) = Some ([], 101 :: r).
Proof. reflexivity. Qed.

Lemma exp_part_e (neg : bool) E rest :
  forallb is_digit E = true -> E <> [] -> (forall c r, rest = c :: r -> is_digit c = false) ->
  exp_part (101 :: (if neg then 45 else 43) :: E ++ rest) =
  Some (if neg then - digits_of E else digits_of E, rest).
Proof.
  intros H1 H2 H3. destruct neg; simpl; rewrite span_digits_app by assumption;
    destruct E; (congruence || reflexivity).
Qed.

Lemma int_part_lead c x : is_digit c = true -> c <> 48 -> int_part (c :: x) = Some (span_digits (c :: x)).
Proof. intros H1 H2. simpl. rewrite (proj2 (Z.eqb_neq c 48) H2), H1. reflexivity. Qed.

Lemma normalize_shift f a j e :
  a <> 0 -> a mod 10 <> 0 -> (j <= f)%nat ->
  normalize f (a * 10 ^ Z.of_nat j) (e - Z.of_nat j) = (a, e).
Proof.
  intros Ha Hm. revert f e. induction j as [|j IH]; intros f e Hj.
  - rewrite Z.mul_1_r, Z.sub_0_r. destruct f; simpl; rewrite (proj2 (Z.eqb_neq a 0) Ha); [reflexivity|].
    rewrite (proj2 (Z.eqb_neq _ 0) Hm). reflexivity.
  - destruct f as [|f]; [lia|].
    assert (Hp : 0 < 10 ^ Z.of_nat j) by (apply Z.pow_pos_nonneg; lia).
    replace (a * 10 ^ Z.of_nat (S j)) with (a * 10 ^ Z.of_nat j * 10)
      by (rewrite Nat2Z.inj_succ, Z.pow_succ_r by lia; ring).
    cbn [normalize].
    rewrite (proj2 (Z.eqb_neq (a * 10 ^ Z.of_nat j * 10) 0))
      by (apply Z.neq_mul_0; split; [apply Z.neq_mul_0|]; lia).
    rewrite Z.mod_mul, Z.div_mul by lia. cbn [Z.eqb].
    replace (e - Z.of_nat (S j) + 1) with (e - Z.of_nat j) by lia. apply IH. lia.
Qed.

(** The lexer reads [a * 10^j] with exponent [e - j] and normalizes it. *)
Lemma unsigned_number_shift neg s id s2 fd s3 ex rest a e j :
  int_part s = Some (id, s2) -> frac_part s2 = Some (fd, s3) -> exp_part s3 = Some (ex, rest) ->
  digits_of (id ++ fd) = a * 10 ^ Z.of_nat j -> ex - Z.of_nat (length fd) = e - Z.of_nat j ->
  (j <= length (id ++ fd))%nat -> 0 < a -> a mod 10 <> 0 ->
  unsigned_number neg s = Some (JNumber (if neg then - a else a) e, rest).
Proof.
  intros Hi Hf Hx Hd He Hj Ha Hm. unfold unsigned_number. rewrite Hi, Hf, Hx, Hd, He.
  assert (Hm' : (- a) mod 10 <> 0)
    by (pose proof (Z.mod_pos_bound a 10); rewrite Z.mod_opp_l_nz; lia).
  destruct neg; [rewrite <- Z.mul_opp_l|]; rewrite normalize_shift by (assumption || lia); reflexivity.
Qed.

(** The four shapes of [positive_toString] read back as the number. *)
Section PositiveLex.
Variables (neg : bool) (a : Z) (c0 : Z) (ds' rest : list Z).
Hypothesis Hc0 : c0 <> 48.
Hypothesis Hdig : forallb is_digit (c0 :: ds') = true.
Hypothesis Hval : digits_of (c0 :: ds') = a.
Hypothesis Ha : 0 < a.
Hypothesis Hm : a mod 10 <> 0.
Hypothesis Hstop : stop rest = true.

Let Hrest := stop_not_digit rest Hstop.
Let Hc0d : is_digit c0 = true := proj1 (proj1 (andb_true_iff _ _) Hdig).

Lemma forallb_zeros j : forallb is_digit (repeat 48 j) = true.
Proof. induction j; [reflexivity|exact IHj]. Qed.

(** Digits, then [n - k] zeros. *)
Lemma lex_integer j :
  unsigned_number neg (((c0 :: ds') ++ repeat 48 j) ++ rest) =
  Some (JNumber (if neg then - a else a) (Z.of_nat j), rest).
Proof.
  apply (unsigned_number_shift neg _ ((c0 :: ds') ++ repeat 48 j) rest [] rest 0 rest a _ j);
    [| apply frac_part_stop, Hstop | apply exp_part_stop, Hstop | | simpl; lia | | exact Ha | exact Hm].
  - cbn [app]. rewrite int_part_lead by assumption. rewrite app_comm_cons, span_digits_app; [reflexivity| |exact Hrest].
    rewrite app_comm_cons, forallb_app, Hdig, forallb_zeros. reflexivity.
  - rewrite app_nil_r, digits_of_app, digits_of_zeros, Hval, repeat_length. lia.
  - rewrite app_nil_r, length_app, repeat_length. lia.
Qed.

(** The first [p] digits, a point, the others. *)
Lemma lex_point p :
  (0 < p < length (c0 :: ds'))%nat ->
  unsigned_number neg ((firstn p (c0 :: ds') ++ 46 :: skipn p (c0 :: ds')) ++ rest) =
  Some (JNumber (if neg then - a else a) (Z.of_nat p - Z.of_nat (length (c0 :: ds'))), rest).
Proof.
  intros Hp. pose proof Hdig as Hd. rewrite <- (firstn_skipn p (c0 :: ds')), forallb_app in Hd.
  apply andb_true_iff in Hd as [H1 H2].
  destruct p as [|p]; [lia|].
  apply (unsigned_number_shift neg _ (firstn (S p) (c0 :: ds')) (46 :: skipn (S p) (c0 :: ds') ++ rest)
           (skipn (S p) (c0 :: ds')) rest 0 rest a _ 0);
    [| | apply exp_part_stop, Hstop | | | lia | exact Ha | exact Hm].
  - rewrite <- app_assoc. cbn [firstn app]. rewrite int_part_lead by assumption.
    rewrite app_comm_cons. change (c0 :: firstn p ds') with (firstn (S p) (c0 :: ds')).
    rewrite span_digits_app; [reflexivity|exact H1|]. intros c r [= <- _]. reflexivity.
  - apply frac_part_dot; [exact H2| |exact Hrest].
    intros E. apply (f_equal (@length Z)) in E. rewrite length_skipn in E. cbn [length] in *. lia.
  - rewrite firstn_skipn, Hval. lia.
  - rewrite length_skipn. lia.
Qed.

(** [0.], [z] zeros, the digits. *)
Lemma lex_small z :
  unsigned_number neg ((48 :: 46 :: repeat 48 z ++ (c0 :: ds')) ++ rest) =
  Some (JNumber (if neg then - a else a) (- Z.of_nat z - Z.of_nat (length (c0 :: ds'))), rest).
Proof.
  apply (unsigned_number_shift neg _ [48] (46 :: (repeat 48 z ++ c0 :: ds') ++ rest)
           (repeat 48 z ++ c0 :: ds') rest 0 rest a _ 0);
    [reflexivity | | apply exp_part_stop, Hstop | | | lia | exact Ha | exact Hm].
  - apply frac_part_dot; [| |exact Hrest].
    + rewrite forallb_app, forallb_zeros. exact Hdig.
    + destruct z; discriminate.
  - cbn [app]. rewrite digits_of_cons, digits_of_app, digits_of_zeros, Hval. lia.
  - rewrite length_app, repeat_length. simpl. lia.
Qed.

(** The first digit, the others after a point, [e], the sign and the
    digits of the exponent. *)
Lemma lex_exponent x :
  unsigned_number neg ((match c0 :: ds' with
                        | [d] => d :: 101 :: (if x <? 0 then 45 else 43) :: dec_units (Z.abs x)
                        | d :: r => d :: 46 :: r ++ 101 :: (if x <? 0 then 45 else 43) :: dec_units (Z.abs x)
                        | [] => []
                        end) ++ rest) =
  Some (JNumber (if neg then - a else a) (x - Z.of_nat (length ds')), rest).
Proof.
  destruct (dec_units_facts (Z.abs x) ltac:(lia)) as (Ed & Ev & _ & Ene).
  assert (Hx : exp_part ((101 :: (if x <? 0 then 45 else 43) :: dec_units (Z.abs x)) ++ rest) = Some (x, rest)).
  { cbn [app]. rewrite (exp_part_e (x <? 0)) by assumption. rewrite Ev. destruct (Z.ltb_spec x 0); f_equal; f_equal; lia. }
  pose proof Hdig as Hd. simpl in Hd. apply andb_true_iff in Hd as [_ Hds].
  destruct ds' as [|d1 ds''].
  - apply (unsigned_number_shift neg _ [c0] ((101 :: (if x <? 0 then 45 else 43) :: dec_units (Z.abs x)) ++ rest)
             [] ((101 :: (if x <? 0 then 45 else 43) :: dec_units (Z.abs x)) ++ rest) x rest a _ 0);
      [| reflexivity | exact Hx | | | lia | exact Ha | exact Hm].
    + cbn [app]. rewrite int_part_lead by assumption. simpl. rewrite Hc0d, <- ?app_assoc. reflexivity.
    + rewrite app_nil_r, Hval. lia.
    + simpl. lia.
  - apply (unsigned_number_shift neg _ [c0] (46 :: (d1 :: ds'') ++ (101 :: (if x <? 0 then 45 else 43) :: dec_units (Z.abs x)) ++ rest)
             (d1 :: ds'') ((101 :: (if x <? 0 then 45 else 43) :: dec_units (Z.abs x)) ++ rest) x rest a _ 0);
      [| | exact Hx | | | lia | exact Ha | exact Hm].
    + cbn [app]. rewrite int_part_lead by assumption. simpl. rewrite Hc0d, <- ?app_assoc. reflexivity.
    + apply frac_part_dot; [exact Hds|discriminate|]. intros c r [= <- _]. reflexivity.
    + cbn [app]. rewrite Hval. lia.
    + simpl. lia.
Qed.
End PositiveLex.

Lemma positive_roundtrip neg a e rest :
  0 < a -> a mod 10 <> 0 -> stop rest = true ->
  unsigned_number neg (positive_toString a e ++ rest) = Some (JNumber (if neg then - a else a) e, rest).
Proof.
  intros Ha Hm Hs. destruct (dec_units_facts a ltac:(lia)) as (Hdig & Hval & Hhead & _).
  destruct (Hhead Ha) as (c0 & ds' & Eds & Hc0). unfold positive_toString. rewrite Eds in *.
  set (k := Z.of_nat (length (c0 :: ds'))).
  destruct ((k <=? k + e) && (k + e <=? 21)) eqn:EA; [|destruct ((0 <? k + e) && (k + e <=? 21)) eqn:EB;
    [|destruct ((-6 <? k + e) && (k + e <=? 0)) eqn:EC]]; rewrite ?andb_true_iff, ?andb_false_iff in *.
  - rewrite lex_integer with (a := a) by assumption. do 3 f_equal. rewrite Z2Nat.id; lia.
  - rewrite lex_point with (a := a); [| assumption .. | lia]. do 3 f_equal. unfold k. rewrite Z2Nat.id; lia.
  - rewrite lex_small with (a := a) by assumption. do 3 f_equal. unfold k. rewrite Z2Nat.id; lia.
  - rewrite lex_exponent with (a := a) by assumption. do 3 f_equal. unfold k. cbn [length]. lia.
Qed.

Lemma positive_toString_head a e :
  0 < a -> exists c r, positive_toString a e = c :: r /\ is_digit c = true.
Proof.
  intros Ha. destruct (dec_units_facts a ltac:(lia)) as (Hdig & _ & Hhead & _).
  destruct (Hhead Ha) as (c0 & ds' & Eds & _). simpl in Hdig. rewrite Eds in Hdig.
  apply andb_true_iff in Hdig as [Hc0 _]. unfold positive_toString. rewrite Eds.
  repeat case_if; try (eexists _, _; split; [reflexivity|assumption]).
  - destruct (Z.to_nat _) eqn:En; [rewrite andb_true_iff in *; lia|].
    eexists _, _. split; [reflexivity|assumption].
  - eexists _, _. split; reflexivity.
Qed.

(** A number in normal form reads back. *)
Lemma number_roundtrip m e rest :
  number_ok m e = true -> stop rest = true -> number (number_toString m e ++ rest) = Some (JNumber m e, rest).
Proof.
  intros Hok Hs. unfold number_ok, number_toString in *. destruct (Z.eqb_spec m 0) as [->|Hm0].
  - apply Z.eqb_eq in Hok as ->. cbn [app number]. unfold unsigned_number.
    cbv [int_part Z.eqb Pos.eqb]. rewrite frac_part_stop, exp_part_stop by exact Hs. reflexivity.
  - apply negb_true_iff, Z.eqb_neq in Hok. destruct (Z.ltb_spec m 0).
    + cbn [app number]. cbv [Z.eqb Pos.eqb]. rewrite positive_roundtrip by (assumption || (try rewrite Z.mod_opp_l_nz; pose proof (Z.mod_pos_bound m 10); lia)).
      rewrite Z.opp_involutive. reflexivity.
    + destruct (positive_toString_head m e ltac:(lia)) as (c & r & E & Hc). rewrite E. cbn [app number].
      replace (c =? 45) with false by (symmetry; apply Z.eqb_neq; unfold is_digit in Hc; rewrite andb_true_iff, !Z.leb_le in Hc; lia).
      cbn iota. change (c :: r ++ rest) with ((c :: r) ++ rest). rewrite <- E, positive_roundtrip by (assumption || lia). reflexivity.
Qed.

(** ** Values *)

(** The first code unit of a serialized value. *)
Definition starts_value (c : Z) : bool :=
  (c =? 123) || (c =? 91) || (c =? 34) || (c =? 116) || (c =? 102) || (c =? 110) || (c =? 45) || is_digit c.

Lemma starts_value_neq c :
  starts_value c = true -> is_ws c = false /\ c <> 93 /\ c <> 125 /\ c <> 44.
Proof.
  unfold starts_value, is_ws, is_digit. intros H.
  rewrite !orb_true_iff, !andb_true_iff, !Z.eqb_eq, !Z.leb_le in H.
  rewrite !orb_false_iff, !Z.eqb_neq. lia.
Qed.

Lemma stringify_head v : exists c r, stringify v = c :: r /\ starts_value c = true.
Proof.
  destruct v as [|[]|m e|s|l|l]; try (eexists _, _; split; reflexivity).
  unfold stringify, number_toString. destruct (Z.eqb_spec m 0); [eexists _, _; split; reflexivity|].
  destruct (Z.ltb_spec m 0); [eexists _, _; split; reflexivity|].
  destruct (positive_toString_head m e ltac:(lia)) as (c & r & -> & Hc).
  exists c, r. split; [reflexivity|]. unfold starts_value. rewrite Hc, !orb_true_r. reflexivity.
Qed.

Lemma skip_ws_value v rest : skip_ws (stringify v ++ rest) = stringify v ++ rest.
Proof.
  destruct (stringify_head v) as (c & r & -> & Hc). apply starts_value_neq in Hc as (Hw & _).
  simpl. rewrite Hw. reflexivity.
Qed.

(** [value] reads a number at a minus sign or a digit. *)
Lemma value_number n c r : (c = 45 \/ is_digit c = true) -> value (S n) (c :: r) = number (c :: r).
Proof.
  intros H. assert (Hn : is_ws c = false /\ c <> 123 /\ c <> 91 /\ c <> 34 /\ c <> 116 /\ c <> 102 /\ c <> 110).
  { unfold is_ws, is_digit in *. rewrite andb_true_iff, !Z.leb_le in H. rewrite !orb_false_iff, !Z.eqb_neq. lia. }
  destruct Hn as (Hw & H1 & H2 & H3 & H4 & H5 & H6). cbn [value skip_ws]. rewrite Hw.
  rewrite (proj2 (Z.eqb_neq c 123) H1), (proj2 (Z.eqb_neq c 91) H2), (proj2 (Z.eqb_neq c 34) H3),
    (proj2 (Z.eqb_neq c 116) H4), (proj2 (Z.eqb_neq c 102) H5), (proj2 (Z.eqb_neq c 110) H6).
  reflexivity.
Qed.

Lemma value_number_toString n m e rest :
  number_ok m e = true -> stop rest = true -> value (S n) (number_toString m e ++ rest) = Some (JNumber m e, rest).
Proof.
  intros Hok Hs. rewrite <- number_roundtrip with (rest := rest) by assumption.
  destruct (stringify_head (JNumber m e)) as (c & r & E & Hc). cbn [stringify] in E. rewrite E.
  apply value_number. unfold number_toString in E. destruct (Z.eqb_spec m 0); [injection E as <- _; right; reflexivity|].
  destruct (Z.ltb_spec m 0); [injection E as <- _; left; reflexivity|].
  destruct (positive_toString_head m e ltac:(lia)) as (c' & r' & E' & Hc'). rewrite E' in E.
  injection E as <- _. right. exact Hc'.
Qed.

(** What a value must satisfy to read back at any sufficient fuel. *)
Definition reads_back (v : JValue) : Prop :=
  forall n rest, (size v <= n)%nat -> stop rest = true -> value n (stringify v ++ rest) = Some (v, rest).

Lemma items_roundtrip l :
  Forall reads_back l -> l <> [] ->
  forall n acc rest, (list_sum (map (fun x => S (size x)) l) <= n)%nat ->
  items n (join_units (map stringify l) ++ 93 :: rest) acc = Some (JArray (rev acc ++ l), rest).
Proof.
  induction 1 as [|x l Hx Hl IH]; [congruence|]. intros _ n acc rest Hn.
  destruct n as [|n]; [simpl in Hn; lia|]. simpl in Hn.
  destruct l as [|y l].
  - cbn [map join_units items]. rewrite Hx by (reflexivity || lia).
    cbn -[value string_body quote_units stringify]. reflexivity.
  - change (join_units (map stringify (x :: y :: l)))
      with (stringify x ++ 44 :: join_units (map stringify (y :: l))).
    rewrite <- app_assoc. cbn [app items]. rewrite Hx by (reflexivity || lia).
    cbn -[value string_body quote_units stringify join_units map].
    rewrite IH by (discriminate || (simpl in *; lia)). cbn [rev]. rewrite <- app_assoc. reflexivity.
Qed.

Lemma member_text k x sep rest :
  (quote k ++ 58 :: stringify x) ++ sep :: rest = 34 :: quote_units k ++ 34 :: 58 :: stringify x ++ sep :: rest.
Proof. unfold quote. cbn [app]. rewrite <- !app_assoc. reflexivity. Qed.

Lemma members_roundtrip l :
  Forall (fun kv => reads_back (snd kv) /\ forallb unit_ok (fst kv) = true) l -> l <> [] ->
  forall n acc rest, (list_sum (map (fun kv => S (size (snd kv))) l) <= n)%nat ->
  members n (join_units (map (fun kv => quote (fst kv) ++ 58 :: stringify (snd kv)) l) ++ 125 :: rest) acc
  = Some (JObject (rev acc ++ l), rest).
Proof.
  induction 1 as [|[k x] l [Hx Hk] Hl IH]; [congruence|]. intros _ n acc rest Hn.
  destruct n as [|n]; [simpl in Hn; lia|]. simpl in Hn, Hx, Hk.
  destruct l as [|[k' y] l].
  - cbn [map join_units fst snd]. rewrite member_text. cbn [members skip_ws is_ws Z.eqb Pos.eqb orb].
    rewrite string_body_quote by exact Hk. cbn [skip_ws is_ws Z.eqb Pos.eqb orb].
    rewrite Hx by (reflexivity || lia). reflexivity.
  - change (join_units (map (fun kv => quote (fst kv) ++ 58 :: stringify (snd kv)) ((k, x) :: (k', y) :: l)))
      with ((quote k ++ 58 :: stringify x) ++ 44 ::
            join_units (map (fun kv => quote (fst kv) ++ 58 :: stringify (snd kv)) ((k', y) :: l))).
    rewrite <- app_assoc. cbn [app]. rewrite member_text.
    cbn [members skip_ws is_ws Z.eqb Pos.eqb orb].
    rewrite string_body_quote by exact Hk. cbn [skip_ws is_ws Z.eqb Pos.eqb orb].
    rewrite Hx by (reflexivity || lia). cbn [skip_ws is_ws Z.eqb Pos.eqb orb].
    rewrite IH by (discriminate || (simpl in *; lia)). cbn [rev]. rewrite <- app_assoc. reflexivity.
Qed.

Lemma join_head {A} (g : A -> list Z) x l T c r :
  g x = c :: r -> exists R, join_units (map g (x :: l)) ++ T = c :: R.
Proof. intros E. destruct l; cbn [map join_units]; rewrite E; eexists; reflexivity. Qed.

(** Every well-formed value reads back, at any fuel above its size,
    before anything that cannot continue a number. *)
Lemma value_roundtrip v : wf v = true -> reads_back v.
Proof.
  induction v as [| b | m e | s | l IH | l IH] using JValue_ind'; intros Hwf n rest Hn Hs;
    destruct n as [|n]; try (simpl in Hn; lia).
  - reflexivity.
  - destruct b; reflexivity.
  - apply value_number_toString; assumption.
  - cbn [stringify]. unfold quote. rewrite <- app_comm_cons, <- app_assoc.
    cbn [value skip_ws is_ws Z.eqb Pos.eqb orb app]. rewrite string_body_quote by exact Hwf. reflexivity.
  - simpl in Hwf. cbn [stringify]. rewrite <- app_comm_cons, <- app_assoc.
    cbn [value skip_ws is_ws Z.eqb Pos.eqb orb app].
    destruct l as [|x l']; [reflexivity|].
    destruct (stringify_head x) as (c & r & E & Hc). apply starts_value_neq in Hc as (Hw & H93 & _).
    destruct (join_head stringify x l' (93 :: rest) c r E) as [R ER]. rewrite ER. cbn [skip_ws].
    rewrite Hw, (proj2 (Z.eqb_neq c 93) H93), <- ER. apply items_roundtrip; [| discriminate | cbn [size] in Hn; exact (le_S_n _ _ Hn)].
    rewrite Forall_forall in IH |- *. intros y Hy. apply IH; [exact Hy|].
    rewrite forallb_forall in Hwf. apply Hwf, Hy.
  - simpl in Hwf. cbn [stringify]. rewrite <- app_comm_cons, <- app_assoc.
    cbn [value skip_ws is_ws Z.eqb Pos.eqb orb app].
    destruct l as [|[k x] l']; [reflexivity|].
    destruct (join_head (fun kv => quote (fst kv) ++ 58 :: stringify (snd kv)) (k, x) l' (125 :: rest)
                34 (quote_units k ++ [34] ++ 58 :: stringify x)) as [R ER].
    { unfold quote. cbn [fst snd]. rewrite <- app_comm_cons, <- app_assoc. reflexivity. }
    rewrite ER. cbn [skip_ws is_ws Z.eqb Pos.eqb orb]. rewrite <- ER.
    apply members_roundtrip; [| discriminate | cbn [size] in Hn; exact (le_S_n _ _ Hn)].
    rewrite Forall_forall in IH |- *. intros kv Hkv. rewrite forallb_forall in Hwf.
    specialize (Hwf kv Hkv). apply andb_true_iff in Hwf as [Hk Hv]. split; [apply IH|]; assumption.
Qed.

Lemma list_sum_map_le {A} (f g : A -> nat) l :
  Forall (fun x => (f x <= g x)%nat) l -> (list_sum (map f l) <= list_sum (map g l))%nat.
Proof. induction 1; simpl; lia. Qed.

Lemma join_units_length {A} (g : A -> list Z) l :
  (list_sum (map (fun x => S (length (g x))) l) <= S (length (join_units (map g l))))%nat.
Proof.
  induction l as [|x [|y l] IH]; [simpl; lia|simpl; lia|].
  change (join_units (map g (x :: y :: l))) with (g x ++ 44 :: join_units (map g (y :: l))).
  change (list_sum (map (fun x0 => S (length (g x0))) (x :: y :: l)))
    with (S (length (g x)) + list_sum (map (fun x0 => S (length (g x0))) (y :: l)))%nat.
  rewrite length_app. cbn [length]. lia.
Qed.

(** The fuel a value needs is at most the length of its text. *)
Lemma size_le_length v : (size v <= length (stringify v))%nat.
Proof.
  induction v as [| b | m e | s | l IH | l IH] using JValue_ind'.
  - simpl; lia.
  - destruct b; simpl; lia.
  - destruct (stringify_head (JNumber m e)) as (c & r & E & _). rewrite E. simpl; lia.
  - simpl; lia.
  - cbn [size stringify length]. rewrite length_app. cbn [length].
    pose proof (join_units_length stringify l).
    assert (list_sum (map (fun x => S (size x)) l) <= list_sum (map (fun x => S (length (stringify x))) l))%nat
      by (apply list_sum_map_le; eapply Forall_impl; [|exact IH]; simpl; lia).
    lia.
  - cbn [size stringify length]. rewrite length_app. cbn [length].
    pose proof (join_units_length (fun kv => quote (fst kv) ++ 58 :: stringify (snd kv)) l).
    assert (list_sum (map (fun kv => S (size (snd kv))) l) <=
            list_sum (map (fun kv => S (length (quote (fst kv) ++ 58%Z :: stringify (snd kv)))) l))%nat
      by (apply list_sum_map_le; eapply Forall_impl; [|exact IH]; intros kv Hkv; cbv beta in Hkv; simpl;
          rewrite length_app; simpl; lia).
    lia.
Qed.

(** The round trip at the fuel [JSON.parse] gives. *)
Lemma parse_stringify v : wf v = true -> JSON_parse (JSON_stringify v) = Some v.
Proof.
  intros Hwf. unfold JSON_parse, JSON_stringify.
  rewrite <- (app_nil_r (stringify v)) at 2.
  rewrite value_roundtrip; [reflexivity | exact Hwf | | reflexivity].
  pose proof (size_le_length v). lia.
Qed.

(** The code units of a source string are bytes. *)
Lemma units_ok s : forallb unit_ok (units s) = true.
Proof.
  apply forallb_forall. intros c Hc. unfold units in Hc. apply in_map_iff in Hc as (a & <- & _).
  pose proof (code_range a). unfold unit_ok. apply andb_true_iff. lia.
Qed.
