(* ===== verification/ByteCodec.v ===== *)
(** * ByteCodec: [convertBase10ToByteArray] and [decompressData]

    [src/lib/secure-qr-decoder.ts], lines 287-334.  The decimal string is
    read with [BigInt], printed in base 16, left-padded with one "0" to an
    even length, and cut into two-character substrings, each read back with
    [Number.parseInt(_, 16)] and stored in a [Uint8Array].  [decompressData]
    calls [pako.inflate] and returns its input when inflate throws; inflate
    is the Section variable [inflate] ([None] is a throw).

    Theorems: the bytes of a decimal literal are its minimal big-endian
    representation ([convertBase10_decimal]); every result is a byte array
    ([convertBase10_bytes]); the conversion fails exactly when [BigInt] does
    ([convertBase10_error]); the spec's test vectors; the inputs the spec
    calls errors that the code accepts: every hexadecimal literal
    ([convertBase10_hex_literal]), a sign and the empty string
    ([convertBase10_negative_alias]). *)

From Stdlib Require Import ZArith List Lia Bool.
From Stdlib Require String Ascii.
From S2P Require Import Prelude JsRuntime.
Import ListNotations String.StringSyntax.

Local Open Scope Z_scope.
Local Open Scope string_scope.

(** A byte and a byte array. *)
Definition byte_ok (b : Z) : Prop := 0 <= b < 256.
Definition bytes_ok (l : list Z) : Prop := Forall byte_ok l.

(** The big-endian value of a byte array. *)
Definition be_value (bytes : list Z) : Z := digits_value 256 bytes.

(** The minimal representation: no leading zero byte, except the single
    byte of the value 0. *)
Definition be_minimal (bytes : list Z) : Prop :=
  bytes = [0] \/ exists b rest, bytes = b :: rest /\ 0 < b.

(** ** The code *)

(** [if (hexString.length % 2 !== 0) hexString = "0" + hexString] *)
Definition pad_even (h : string) : string :=
  if Nat.odd (String.length h) then String.String (chr 48) h else h.

(** [for (let i = 0; i < byteArray.length; i++)
       byteArray[i] = Number.parseInt(hexString.substring(i*2, i*2+2), 16)];
    [i] is the index of the iteration, [n] the iterations left. *)
Fixpoint hex_pairs_loop (h : string) (i : nat) (n : nat) : list Z :=
  match n with
  | O => []
  | S n' =>
      let i2 := Z.of_nat (2 * i) in
      to_uint8 (js_parseInt (js_substring h i2 (i2 + 2)) 16) :: hex_pairs_loop h (S i) n'
  end.

(** [convertBase10ToByteArray]; [None] is the thrown "Failed to convert
    base10 to byte array" error. *)
Definition convertBase10ToByteArray (base10String : string) : option (list Z) :=
  let? bigInt := js_BigInt base10String in
  let hexString := pad_even (bigint_toString16 bigInt) in
  Some (hex_pairs_loop hexString 0 (String.length hexString / 2)).

Section Decompress.
(** [pako.inflate]: [Some out] on success, [None] when it throws. *)
Variable inflate : list Z -> option (list Z).

Definition decompressData (compressedData : list Z) : list Z :=
  match inflate compressedData with
  | Some out => out
  | None => compressedData
  end.
End Decompress.

(** ** Helper lemmas *)

(** Pairs of hexadecimal digits, most significant first. *)
Fixpoint pair_values (D : list Z) : list Z :=
  match D with
  | a :: b :: rest => (a * 16 + b) :: pair_values rest
  | _ => []
  end.

Lemma to_uint8_range v : byte_ok (to_uint8 v).
Proof. unfold byte_ok, to_uint8. destruct v; [apply Z.mod_pos_bound|]; lia. Qed.

Lemma hex_pairs_loop_bytes h i n : bytes_ok (hex_pairs_loop h i n).
Proof.
  revert i. induction n as [|n IH]; intros i; constructor; [apply to_uint8_range | apply IH].
Qed.

Lemma length_hex_pairs_loop h i n : length (hex_pairs_loop h i n) = n.
Proof. revert i. induction n; intros i; simpl; [reflexivity|]. rewrite IHn. reflexivity. Qed.

Lemma hex_pairs_loop_spec (D : list Z) (i n : nat) :
  Forall (fun d => 0 <= d < 16) D ->
  (2 * (i + n) <= length D)%nat ->
  hex_pairs_loop (of_chars (map hex_char D)) i n = pair_values (D [: 2 * i, 2 * (i + n) :]).
Proof.
  revert i. induction n as [|n IH]; intros i HD Hlen.
  - rewrite sublist_empty by lia. reflexivity.
  - cbn [hex_pairs_loop].
    rewrite IH by (assumption || lia).
    assert (Hsplit : D [: 2 * i, 2 * (i + S n) :] =
                     D [: 2 * i, 2 * i + 2 :] ++ D [: 2 * S i, 2 * (S i + n) :]).
    { unfold sublist. rewrite <- (firstn_skipn 2 (skipn (2 * i) D)) at 1.
      rewrite skipn_skipn, firstn_app, length_firstn, length_skipn.
      replace (2 * i + 2 - 2 * i)%nat with 2%nat by lia.
      replace (Nat.min 2 (length D - 2 * i)) with 2%nat by lia.
      rewrite firstn_firstn.
      replace (Nat.min (2 * (i + S n) - 2 * i) 2) with 2%nat by lia.
      replace (2 * (i + S n) - 2 * i - 2)%nat with (2 * (S i + n) - 2 * S i)%nat by lia.
      replace (2 + 2 * i)%nat with (2 * S i)%nat by lia. reflexivity. }
    assert (Hpair : exists a b, D [: 2 * i, 2 * i + 2 :] = [a; b] /\ 0 <= a < 16 /\ 0 <= b < 16).
    { unfold sublist. replace (2 * i + 2 - 2 * i)%nat with 2%nat by lia.
      pose proof (Forall_skipn _ (2 * i) _ HD) as HD'.
      destruct (skipn (2 * i) D) as [|a [|b rest]] eqn:E;
        try (apply (f_equal (@length Z)) in E; rewrite length_skipn in E; simpl in E; lia).
      inversion HD' as [|? ? Ha HD'']; inversion HD'' as [|? ? Hb _]. exists a, b. eauto. }
    destruct Hpair as (a & b & Hab & Ha & Hb).
    rewrite Hsplit, Hab. cbn [app pair_values]. f_equal.
    rewrite <- (of_chars_chars (js_substring _ _ _)).
    rewrite js_substring_in_range.
    2: lia.
    2: { rewrite <- length_chars, chars_of_chars, length_map. lia. }
    rewrite chars_of_chars, Nat2Z.id. replace (Z.to_nat (Z.of_nat (2 * i) + 2)) with (2 * i + 2)%nat by lia.
    unfold sublist at 1. rewrite skipn_map, firstn_map.
    fold (sublist (2 * i) (2 * i + 2) D). rewrite Hab.
    rewrite js_parseInt_hex; [| discriminate | repeat constructor; lia].
    unfold to_uint8, digits_value. simpl. rewrite Z.mod_small; lia.
Qed.

Lemma pair_values_value (D : list Z) :
  Nat.even (length D) = true -> be_value (pair_values D) = digits_value 16 D.
Proof.
  unfold be_value.
  induction D as [D IH] using (induction_ltof1 _ (@length Z)); unfold ltof in IH. intros Hev.
  destruct D as [|a [|b rest]]; [reflexivity|discriminate|].
  cbn [pair_values]. change (a :: b :: rest) with ([a; b] ++ rest).
  change ((a * 16 + b) :: pair_values rest) with ([a * 16 + b] ++ pair_values rest).
  rewrite !digits_value_app. rewrite IH; [| simpl; lia | exact Hev].
  assert (Hlen : (length (pair_values rest) * 2 = length rest)%nat).
  { clear IH. revert Hev. induction rest as [rest IH'] using (induction_ltof1 _ (@length Z)).
    unfold ltof in IH'. destruct rest as [|x [|y r]]; simpl; intros Hev; try discriminate; [reflexivity|].
    rewrite IH'; [reflexivity| simpl; lia | exact Hev]. }
  rewrite <- Hlen, Nat2Z.inj_mul. change (Z.of_nat 2) with 2.
  rewrite (Z.mul_comm _ 2), Z.pow_mul_r by lia. change (16 ^ 2) with 256.
  unfold digits_value. simpl. lia.
Qed.

Lemma hex_char_0 : hex_char 0 = chr 48.
Proof. reflexivity. Qed.

Lemma pad_even_hex (D : list Z) :
  pad_even (of_chars (map hex_char D)) =
  of_chars (map hex_char (if Nat.odd (length D) then 0 :: D else D)).
Proof.
  unfold pad_even. rewrite <- length_chars, chars_of_chars, length_map.
  destruct (Nat.odd (length D)); reflexivity.
Qed.

Lemma digits_value_leading_zero r D : digits_value r (0 :: D) = digits_value r D.
Proof.
  change (0 :: D) with ([0] ++ D). rewrite digits_value_app. unfold digits_value. simpl. lia.
Qed.

Lemma even_pad_length (D : list Z) :
  Nat.even (length (if Nat.odd (length D) then 0 :: D else D)) = true.
Proof.
  destruct (Nat.odd (length D)) eqn:E; cbn [length].
  - rewrite Nat.even_succ. exact E.
  - unfold Nat.odd in E. destruct (Nat.even (length D)); [reflexivity|discriminate].
Qed.

(** The loop reads the padded digit string two characters at a time. *)
Lemma hex_pairs_loop_all (D : list Z) :
  Forall (fun d => 0 <= d < 16) D -> Nat.even (length D) = true ->
  hex_pairs_loop (of_chars (map hex_char D)) 0 (length D / 2) = pair_values D.
Proof.
  intros HD Hev. rewrite hex_pairs_loop_spec by (assumption || (pose proof (Nat.div_mod_eq (length D) 2); lia)).
  apply Nat.even_spec in Hev as [k Hk].
  replace (length D / 2)%nat with k by (rewrite Hk, Nat.mul_comm, Nat.div_mul; lia).
  replace (2 * (0 + k))%nat with (length D) by lia. rewrite sublist_full. reflexivity.
Qed.

(** The result of [convertBase10ToByteArray] on the value [n >= 0] of
    [BigInt(s)]: its bytes have value [n], are bytes, and are minimal. *)
Lemma convertBase10_value s n :
  js_BigInt s = Some n -> 0 <= n ->
  exists bytes, convertBase10ToByteArray s = Some bytes /\
    be_value bytes = n /\ bytes_ok bytes /\ be_minimal bytes.
Proof.
  intros Hs Hn. unfold convertBase10ToByteArray. rewrite Hs.
  destruct (hex_digits_spec n Hn) as (Hv & HD & Hlead).
  unfold bigint_toString16. destruct (Z.ltb_spec n 0) as [|_]; [lia|].
  rewrite pad_even_hex.
  set (D' := if Nat.odd (length (hex_digits n)) then 0 :: hex_digits n else hex_digits n).
  assert (HD' : Forall (fun d => 0 <= d < 16) D').
  { unfold D'. destruct (Nat.odd _); [constructor; [lia|]|]; exact HD. }
  rewrite <- length_chars, chars_of_chars, length_map, hex_pairs_loop_all by (exact HD' || apply even_pad_length).
  eexists. split; [reflexivity|]. split; [|split].
  - rewrite pair_values_value by apply even_pad_length. unfold D'.
    destruct (Nat.odd _); [rewrite digits_value_leading_zero|]; exact Hv.
  - pose proof (hex_pairs_loop_bytes (of_chars (map hex_char D')) 0 (length D' / 2)) as Hb.
    rewrite hex_pairs_loop_all in Hb by (exact HD' || apply even_pad_length). exact Hb.
  - destruct (Z.eq_dec n 0) as [->|Hpos].
    + left. subst D'. rewrite hex_digits_0. reflexivity.
    + right. destruct Hlead as (d & ds & Hds & Hd); [lia|].
      subst D'. rewrite Hds in *.
      destruct (Nat.odd (length (d :: ds))) eqn:Eodd.
      * exists d. eexists. split; [reflexivity|lia].
      * destruct ds as [|x ds]; [discriminate|].
        inversion HD as [|? ? _ HD2]; inversion HD2 as [|? ? Hx _].
        exists (d * 16 + x). eexists. split; [reflexivity|lia].
Qed.

(** A minimal byte array other than [0] is at least [256^(n-1)]. *)
Lemma be_minimal_lower b rest :
  0 < b -> bytes_ok (b :: rest) -> 256 ^ Z.of_nat (length rest) <= be_value (b :: rest).
Proof.
  intros Hb Hok. inv Hok. unfold be_value. rewrite digits_value_cons.
  assert (0 <= digits_value 256 rest).
  { apply digits_value_nonneg; [lia|]. eapply Forall_impl; [|eassumption]. unfold byte_ok. lia. }
  pose proof (Z.pow_pos_nonneg 256 (Z.of_nat (length rest)) ltac:(lia) ltac:(lia)). nia.
Qed.

Lemma be_value_upper bytes : bytes_ok bytes -> be_value bytes < 256 ^ Z.of_nat (length bytes).
Proof. intros H. apply digits_value_bound; [lia|exact H]. Qed.

(** Minimal byte arrays are determined by their value. *)
Lemma be_minimal_unique a b :
  bytes_ok a -> bytes_ok b -> be_minimal a -> be_minimal b -> be_value a = be_value b -> a = b.
Proof.
  intros Ha Hb Ma Mb Hv.
  destruct Ma as [->|(x & a' & -> & Hx)], Mb as [->|(y & b' & -> & Hy)]; [reflexivity| | |].
  - pose proof (be_minimal_lower y b' Hy Hb). pose proof (Z.pow_pos_nonneg 256 (Z.of_nat (length b')) ltac:(lia) ltac:(lia)).
    assert (be_value [0] = 0) by reflexivity. lia.
  - pose proof (be_minimal_lower x a' Hx Ha). pose proof (Z.pow_pos_nonneg 256 (Z.of_nat (length a')) ltac:(lia) ltac:(lia)).
    assert (be_value [0] = 0) by reflexivity. lia.
  - apply digits_value_inj with (r := 256); [lia|exact Ha|exact Hb| |exact Hv].
    pose proof (be_minimal_lower x a' Hx Ha). pose proof (be_minimal_lower y b' Hy Hb).
    pose proof (be_value_upper _ Ha). pose proof (be_value_upper _ Hb). simpl length in *.
    destruct (Nat.lt_total (length a') (length b')) as [Hlt|[Heq|Hgt]]; [exfalso| simpl; lia | exfalso].
    + assert (256 ^ Z.of_nat (S (length a')) <= 256 ^ Z.of_nat (length b')) by (apply Z.pow_le_mono_r; lia). lia.
    + assert (256 ^ Z.of_nat (S (length b')) <= 256 ^ Z.of_nat (length a')) by (apply Z.pow_le_mono_r; lia). lia.
Qed.

(** [convertBase10ToByteArray] returns exactly the minimal byte array
    whose value [BigInt] reads. *)
Lemma convertBase10_exact s bytes :
  js_BigInt s = Some (be_value bytes) -> bytes_ok bytes -> be_minimal bytes ->
  convertBase10ToByteArray s = Some bytes.
Proof.
  intros Hs Hok Hmin.
  assert (0 <= be_value bytes).
  { apply digits_value_nonneg; [lia|]. eapply Forall_impl; [|exact Hok]. unfold byte_ok. lia. }
  destruct (convertBase10_value s _ Hs H) as (bytes' & Hc & Hv & Hok' & Hmin').
  rewrite Hc. f_equal. apply be_minimal_unique; assumption.
Qed.

(** ** Properties of [convertBase10ToByteArray] *)

(** C3: On a non-empty string of decimal digits, [convertBase10ToByteArray]
    succeeds and returns the minimal big-endian bytes of the number the
    digits denote: every element is a byte, the bytes read in base 256
    give the decimal value, and there is no leading zero byte (except the
    single byte of 0). *)
Theorem convertBase10_decimal s ds :
  all_digits 10 (chars s) = Some ds -> ds <> [] ->
  exists bytes, convertBase10ToByteArray s = Some bytes /\
    be_value bytes = digits_value 10 ds /\ bytes_ok bytes /\ be_minimal bytes.
Proof.
  intros Hds Hne. apply convertBase10_value.
  - apply js_BigInt_decimal; assumption.
  - apply digits_value_nonneg; [lia|].
    apply all_digits_Forall in Hds. clear Hne.
    induction Hds as [|c d l ds' Hcd _ IH]; constructor; try exact IH.
    apply radix_digit_10_code in Hcd. lia.
Qed.

Lemma convertBase10_decimal_witness :
  all_digits 10 (chars "65536") = Some [6; 5; 5; 3; 6] /\ [6; 5; 5; 3; 6] <> [] /\
  exists bytes, convertBase10ToByteArray "65536" = Some bytes /\
    be_value bytes = digits_value 10 [6; 5; 5; 3; 6] /\ bytes_ok bytes /\ be_minimal bytes.
Proof.
  split; [reflexivity|]. split; [discriminate|].
  apply (convertBase10_decimal "65536" [6; 5; 5; 3; 6]); [reflexivity | discriminate].
Defined.

(** The spec's test vectors: "255" gives the single byte 0xFF and "256"
    gives [0x01; 0x00]. *)
Example convertBase10_vectors :
  convertBase10ToByteArray "255" = Some [255] /\ convertBase10ToByteArray "256" = Some [1; 0].
Proof. split; vm_compute; reflexivity. Qed.

(** The conversion throws exactly when [BigInt] rejects the string; once
    [BigInt] succeeds, every value (negative ones included) yields an array
    of bytes. *)
Theorem convertBase10_error s :
  (convertBase10ToByteArray s = None <-> js_BigInt s = None) /\
  (forall bytes, convertBase10ToByteArray s = Some bytes -> bytes_ok bytes).
Proof.
  unfold convertBase10ToByteArray. split.
  - destruct (js_BigInt s); split; intros H; congruence.
  - intros bytes H. destruct (js_BigInt s); [|discriminate]. inv H. apply hex_pairs_loop_bytes.
Qed.

(** C36: The spec requires an error for a string that is not a decimal
    literal, but [BigInt] also reads hexadecimal literals: for every
    non-empty string [h] of hexadecimal digits (either case),
    [convertBase10ToByteArray("0x" + h)] succeeds and returns the minimal
    big-endian bytes of the value of [h] in base 16. *)
Theorem convertBase10_hex_literal s ds :
  all_digits 16 (chars s) = Some ds -> ds <> [] ->
  exists bytes, convertBase10ToByteArray (String.append "0x" s) = Some bytes /\
    be_value bytes = digits_value 16 ds /\ bytes_ok bytes /\ be_minimal bytes.
Proof.
  intros Hds Hne. apply convertBase10_value; [exact (js_BigInt_hex s ds Hds Hne)|].
  apply digits_value_nonneg; [lia | exact (proj2 (digits_no_space _ _ _ Hds))].
Qed.

Lemma convertBase10_hex_literal_witness :
  all_digits 16 (chars "fF01") = Some [15; 15; 0; 1] /\ [15; 15; 0; 1] <> [] /\
  convertBase10ToByteArray "0xfF01" = Some [255; 1] /\
  exists bytes, convertBase10ToByteArray (String.append "0x" "fF01") = Some bytes /\
    be_value bytes = digits_value 16 [15; 15; 0; 1] /\ bytes_ok bytes /\ be_minimal bytes.
Proof.
  split; [reflexivity|]. split; [discriminate|]. split; [vm_compute; reflexivity|].
  apply (convertBase10_hex_literal "fF01" [15; 15; 0; 1]); [reflexivity | discriminate].
Defined.

(** The other inputs the spec calls errors: a sign is accepted, and "-1"
    is read as BigInt -1, printed "-1", and [parseInt("-1", 16) = -1] is
    stored as 255, so "-1" and "255" give the same bytes; the empty string
    is BigInt 0, one zero byte.  A decimal literal with a letter is
    rejected. *)
Example convertBase10_negative_alias :
  convertBase10ToByteArray "-1" = convertBase10ToByteArray "255" /\
  convertBase10ToByteArray "" = Some [0] /\
  convertBase10ToByteArray "0x10" = Some [16] /\
  convertBase10ToByteArray "12a" = None.
Proof. repeat split; vm_compute; reflexivity. Qed.
