(* ===== verification/FieldParser.v ===== *)
(** * FieldParser: [extractDataFields]

    [src/lib/secure-qr-decoder.ts], lines 341-503, with [bytesToString]
    (625-631) and [bytesToHexString] (638-642).

    - [find_delim] and [read_fields] are the two nested [while] loops of
      lines 352-373: split on the delimiter 255 and stop once more than 15
      fields (16) are read.  Both loops run with fuel [length byteArray]:
      every outer iteration moves [index] forward by at least one, and the
      inner loop, started at [index], leaves by its own condition within
      [length byteArray - index] iterations ([find_delim_exit]).
    - [shift_loop] is the loop of lines 392-394 of the workaround.
    - [extractDataFields] is the whole method: the workaround test, the
      named fields, [currentIndex] (lines 425-428), the four layouts of the
      binary tail (lines 442-480), the signature, and the age derivation
      (lines 489-496), whose two calls [parseDateOfBirth] and
      [calculateAge] are the Section's parameters (the [DateAge] component
      provides them).
    - [None] is the thrown "Failed to extract data fields" error; reading
      past the end of [fieldValues] gives JavaScript [undefined], [None] in
      the record. *)

From Stdlib Require Import ZArith List Lia Bool.
From Stdlib Require String Ascii.
From S2P Require Import Prelude JsRuntime ByteCodec.
Import ListNotations String.StringSyntax.

Local Open Scope Z_scope.
Local Open Scope string_scope.

(** ** Conversions *)

(** [bytesToString]: [String.fromCharCode] of each byte, concatenated. *)
Definition bytesToString (bytes : list Z) : string := of_chars (map chr bytes).

(** [byte.toString(16).padStart(2, "0")] *)
Definition byte_hex (b : Z) : string :=
  let h := of_chars (map hex_char (hex_digits b)) in
  if (String.length h <? 2)%nat then String.String (chr 48) h else h.

(** [bytesToHexString]: the padded hex of each byte, joined. *)
Definition bytesToHexString (bytes : list Z) : string :=
  String.concat "" (map byte_hex bytes).

(** ** The record the method returns *)
Record IdentityRecord := mkRecord {
  emailMobilePresent : Z;
  referenceId : option string;
  name : option string;
  dateOfBirth : option string;
  gender : option string;
  careOf : option string;
  district : option string;
  landmark : option string;
  house : option string;
  location : option string;
  pinCode : option string;
  postOffice : option string;
  state : option string;
  street : option string;
  subDistrict : option string;
  vtc : option string;
  mobileHash : option string;
  emailHash : option string;
  photo : list Z;
  signature : list Z;
  age : option Z;
  isAdult : option bool
}.

Definition DELIMITER : Z := 255.
Definition SIGNATURE_SIZE : Z := 256.

(** ** The tokenizer (lines 352-373) *)

(** [while (endIndex < byteArray.length && byteArray[endIndex] !== DELIMITER)
      endIndex++] *)
Fixpoint find_delim (fuel : nat) (byteArray : list Z) (endIndex : nat) : nat :=
  match fuel with
  | O => endIndex
  | S f =>
      if (endIndex <? length byteArray)%nat && negb (nth endIndex byteArray 0 =? DELIMITER)
      then find_delim f byteArray (S endIndex)
      else endIndex
  end.

(** The outer loop: read a field, push it, skip the delimiter, stop after
    the 16th field. *)
Fixpoint read_fields (fuel : nat) (byteArray : list Z) (index : nat)
    (fieldValues : list string) : list string :=
  match fuel with
  | O => fieldValues
  | S f =>
      if (index <? length byteArray)%nat then
        let endIndex := find_delim (length byteArray) byteArray index in
        let fieldBytes := js_slice byteArray (Z.of_nat index) (Z.of_nat endIndex) in
        let fieldValues := fieldValues ++ [bytesToString fieldBytes] in
        if (15 <? length fieldValues)%nat then fieldValues
        else read_fields f byteArray (S endIndex) fieldValues
      else fieldValues
  end.

Definition tokenize (byteArray : list Z) : list string :=
  read_fields (length byteArray) byteArray 0 [].

(** ** The workaround's shift (lines 392-394):
    [for (let i = 1; i < fieldValues.length - 1; i++)
       fieldValues[i] = fieldValues[i + 1]] *)
Fixpoint shift_loop (fuel : nat) (i : nat) (fieldValues : list string) : list string :=
  match fuel with
  | O => fieldValues
  | S f =>
      if (i <? length fieldValues - 1)%nat then
        shift_loop f (S i) (firstn i fieldValues ++ [nth (S i) fieldValues ""] ++ skipn (S i) fieldValues)
      else fieldValues
  end.

Definition shift_fields (fieldValues : list string) : list string :=
  shift_loop (length fieldValues) 1 fieldValues.

(** [isNaN(parsedFirstValue) && secondFieldValue === "3"] *)
Definition special_case (fieldValues : list string) : bool :=
  match js_parseInt (js_trim (nth 0 fieldValues "")) 10, nth_error fieldValues 1 with
  | None, Some s => String.eqb s "3"
  | _, _ => false
  end.

(** [currentIndex += fieldValues[i].length + 1] for every field. *)
Definition text_end (fieldValues : list string) : Z :=
  fold_left (fun acc v => acc + Z.of_nat (String.length v) + 1) fieldValues 0.

Section Extract.
(** The two date functions the method calls (see [DateAge]). *)
Context {Date : Type}.
Variable parseDateOfBirth : string -> option Date.
Variable calculateAge : Date -> Z.

(** The binary tail (lines 434-486): [(mobileHash, emailHash, photo)]. *)
Definition binary_tail (byteArray : list Z) (indicator : Z) (fieldShift : bool)
    (currentIndex : Z) : option string * option string * list Z :=
  let dataLength := Z.of_nat (length byteArray) in
  let signatureStartIndex := dataLength - SIGNATURE_SIZE in
  if (indicator =? 3) || fieldShift then
    let mobileStartIndex := signatureStartIndex - 32 in
    let emailStartIndex := mobileStartIndex - 32 in
    (Some (bytesToHexString (js_slice byteArray mobileStartIndex (mobileStartIndex + 32))),
     Some (bytesToHexString (js_slice byteArray emailStartIndex (emailStartIndex + 32))),
     js_slice byteArray currentIndex emailStartIndex)
  else if indicator =? 2 then
    let mobileStartIndex := signatureStartIndex - 32 in
    (Some (bytesToHexString (js_slice byteArray mobileStartIndex (mobileStartIndex + 32))),
     None,
     js_slice byteArray currentIndex mobileStartIndex)
  else if indicator =? 1 then
    let emailStartIndex := signatureStartIndex - 32 in
    (None,
     Some (bytesToHexString (js_slice byteArray emailStartIndex (emailStartIndex + 32))),
     js_slice byteArray currentIndex emailStartIndex)
  else (None, None, js_slice byteArray currentIndex signatureStartIndex).

(** Lines 489-496: [if (result.dateOfBirth)] is JavaScript truthiness,
    false for [undefined] and for the empty string. *)
Definition derive_age (dob : option string) : option Z * option bool :=
  match dob with
  | Some s =>
      if String.eqb s "" then (None, None)
      else match parseDateOfBirth s with
           | Some d => let a := calculateAge d in (Some a, Some (18 <=? a))
           | None => (None, None)
           end
  | None => (None, None)
  end.

Definition extractDataFields (byteArray : list Z) : option IdentityRecord :=
  let fieldValues := tokenize byteArray in
  match fieldValues with
  | [] => None   (* fieldValues[0].trim() on undefined: TypeError *)
  | _ =>
    let fieldShift := special_case fieldValues in
    let indicator :=
      if fieldShift then 3
      else match js_parseInt (js_trim (nth 0 fieldValues "")) 10 with
           | Some v => v
           | None => 0
           end in
    let fieldValues := if fieldShift then shift_fields fieldValues else fieldValues in
    let fv i := nth_error fieldValues i in
    let currentIndex := text_end fieldValues in
    let '(mobile, email, photo) := binary_tail byteArray indicator fieldShift currentIndex in
    let dataLength := Z.of_nat (length byteArray) in
    let signature := js_slice byteArray (dataLength - SIGNATURE_SIZE) dataLength in
    let '(age, isAdult) := derive_age (fv 3%nat) in
    Some (mkRecord indicator (fv 1%nat) (fv 2%nat) (fv 3%nat) (fv 4%nat) (fv 5%nat)
            (fv 6%nat) (fv 7%nat) (fv 8%nat) (fv 9%nat) (fv 10%nat) (fv 11%nat)
            (fv 12%nat) (fv 13%nat) (fv 14%nat)
            (if (15 <? length fieldValues)%nat then fv 15%nat else None)
            mobile email photo signature age isAdult)
  end.
End Extract.

(** ** The payload layout (the spec's encoding of a record)

    16 text fields, each followed by the delimiter, then the photo, the
    hashes the indicator announces (email first, then mobile) and the
    256-byte signature. *)
Definition encode_fields (tokens : list (list Z)) : list Z :=
  concat (map (fun t => t ++ [DELIMITER]) tokens).

Definition hash_segment (indicator : Z) (email mobile : list Z) : list Z :=
  if indicator =? 3 then email ++ mobile
  else if indicator =? 2 then mobile
  else if indicator =? 1 then email
  else [].

(** A text field: bytes other than the delimiter. *)
Definition field_ok (t : list Z) : Prop := Forall (fun b => 0 <= b < 256 /\ b <> DELIMITER) t.

(** The named text fields of a record, in the order of the code. *)
Definition text_fields (r : IdentityRecord) : list (option string) :=
  [referenceId r; name r; dateOfBirth r; gender r; careOf r; district r; landmark r;
   house r; location r; pinCode r; postOffice r; state r; street r; subDistrict r; vtc r].

(** ** Tokenizer lemmas *)
Lemma find_delim_spec fuel (byteArray : list Z) idx t rest :
  skipn idx byteArray = t ++ DELIMITER :: rest -> field_ok t -> (length t < fuel)%nat ->
  find_delim fuel byteArray idx = (idx + length t)%nat.
Proof.
  revert fuel idx. induction t as [|b t IH]; intros fuel idx Hs Ht Hf;
    destruct fuel as [|fuel]; simpl in Hf; try lia; cbn [find_delim].
  - assert (Hl : (idx < length byteArray)%nat).
    { apply (f_equal (@length Z)) in Hs. rewrite length_skipn in Hs. simpl in Hs. lia. }
    rewrite <- (Nat.add_0_r idx) at 2. rewrite <- nth_skipn, Hs.
    apply Nat.ltb_lt in Hl. rewrite Hl. simpl. lia.
  - inversion Ht as [|? ? [_ Hb] Ht']; subst.
    assert (Hl : (idx < length byteArray)%nat).
    { apply (f_equal (@length Z)) in Hs. rewrite length_skipn in Hs. simpl in Hs. lia. }
    rewrite <- (Nat.add_0_r idx) at 2. rewrite <- nth_skipn, Hs.
    apply Nat.ltb_lt in Hl. rewrite Hl. simpl.
    rewrite (proj2 (Z.eqb_neq _ _) Hb). simpl.
    rewrite (IH fuel (S idx)); [lia| |exact Ht'|lia].
    replace (S idx) with (1 + idx)%nat by lia. rewrite <- skipn_skipn, Hs. reflexivity.
Qed.

Lemma js_slice_field (byteArray : list Z) idx t rest :
  skipn idx byteArray = t ++ rest -> (idx <= length byteArray)%nat ->
  js_slice byteArray (Z.of_nat idx) (Z.of_nat (idx + length t)) = t.
Proof.
  intros Hs Hidx.
  assert (Hl : (idx + length t <= length byteArray)%nat).
  { apply (f_equal (@length Z)) in Hs. rewrite length_skipn, length_app in Hs. lia. }
  rewrite js_slice_in_range by lia. rewrite !Nat2Z.id.
  unfold sublist. rewrite Hs. replace (idx + length t - idx)%nat with (length t) by lia.
  rewrite firstn_app, Nat.sub_diag, firstn_O, app_nil_r. apply firstn_all.
Qed.

Lemma length_encode_fields tokens :
  length (encode_fields tokens) = fold_right (fun t n => length t + 1 + n)%nat 0%nat tokens.
Proof.
  induction tokens as [|t ts IH]; [reflexivity|].
  unfold encode_fields in *. simpl. rewrite length_app, length_app, IH. simpl. lia.
Qed.

(** The tokenizer loop on [tokens] at [idx]: it reads them all; with 16
    fields in total it stops and ignores what follows, otherwise the array
    must end there. *)
Lemma read_fields_tokens fuel (byteArray : list Z) idx acc tokens tail :
  skipn idx byteArray = encode_fields tokens ++ tail ->
  Forall field_ok tokens ->
  (length tokens <= fuel)%nat ->
  ((length acc + length tokens < 16)%nat /\ tail = [] \/
   (length acc + length tokens = 16)%nat /\ (length acc < 16)%nat) ->
  read_fields fuel byteArray idx acc = acc ++ map bytesToString tokens.
Proof.
  revert fuel idx acc. induction tokens as [|t ts IH]; intros fuel idx acc Hs Hok Hf Hcase.
  - destruct Hcase as [[_ ->]|[? ?]]; [|simpl in *; lia].
    rewrite app_nil_r. destruct fuel as [|fuel]; [reflexivity|]. cbn [read_fields].
    assert (Hl : (length byteArray <= idx)%nat).
    { apply (f_equal (@length Z)) in Hs. rewrite length_skipn in Hs. simpl in Hs. lia. }
    apply Nat.ltb_ge in Hl. rewrite Hl. reflexivity.
  - inversion Hok as [|? ? Ht Hts]; subst.
    destruct fuel as [|fuel]; [simpl in Hf; lia|]. cbn [read_fields].
    unfold encode_fields in Hs. cbn [map concat] in Hs. rewrite <- !app_assoc in Hs.
    fold (encode_fields ts) in Hs. cbn [app] in Hs.
    assert (Hl : (idx < length byteArray)%nat).
    { apply (f_equal (@length Z)) in Hs. rewrite length_skipn, length_app in Hs. simpl in Hs. lia. }
    pose proof Hl as Hl'. apply Nat.ltb_lt in Hl. rewrite Hl.
    rewrite (find_delim_spec (length byteArray) byteArray idx t (encode_fields ts ++ tail)) by
      (exact Hs || exact Ht || (apply (f_equal (@length Z)) in Hs; rewrite length_skipn, length_app in Hs; simpl in Hs; lia)).
    rewrite (js_slice_field byteArray idx t (DELIMITER :: encode_fields ts ++ tail)) by (exact Hs || lia).
    rewrite length_app. cbn [length].
    destruct (Nat.ltb_spec 15 (length acc + 1)) as [Hstop|Hgo].
    + destruct ts as [|t' ts]; [reflexivity|]. simpl in Hcase. lia.
    + rewrite (IH fuel); [rewrite <- app_assoc; reflexivity| | exact Hts | simpl in Hf; lia | ].
      * replace (S (idx + length t)) with (S (length t) + idx)%nat by lia.
        rewrite <- skipn_skipn, Hs.
        rewrite skipn_app, (@skipn_all2 _ _ t) by lia.
        replace (S (length t) - length t)%nat with 1%nat by lia. reflexivity.
      * rewrite length_app. simpl in Hcase |- *.
        destruct Hcase as [[H1 H2]|[H1 H2]]; [left; split; [lia|exact H2] | right; split; lia].
Qed.

(** ** Strings of bytes *)

(** The code units of a string, read back as bytes. *)
Definition string_bytes (s : string) : list Z := map code (chars s).

Lemma string_bytes_bytesToString t :
  Forall (fun b => 0 <= b < 256) t -> string_bytes (bytesToString t) = t.
Proof.
  intros Ht. unfold string_bytes, bytesToString. rewrite chars_of_chars, map_map.
  induction Ht as [|b t Hb _ IH]; [reflexivity|]. simpl. rewrite code_chr by exact Hb. f_equal. exact IH.
Qed.

Lemma length_bytesToString t : String.length (bytesToString t) = length t.
Proof. unfold bytesToString. rewrite <- length_chars, chars_of_chars, length_map. reflexivity. Qed.

Lemma field_ok_bytes t : field_ok t -> Forall (fun b => 0 <= b < 256) t.
Proof. apply Forall_impl. intros b [H _]. exact H. Qed.

Lemma text_end_acc (l : list string) acc :
  fold_left (fun acc v => acc + Z.of_nat (String.length v) + 1) l acc = acc + text_end l.
Proof.
  unfold text_end. revert acc. induction l as [|v l IH]; intros acc; cbn [fold_left]; [lia|].
  rewrite (IH (acc + _ + 1)), (IH (0 + _ + 1)). lia.
Qed.

Lemma text_end_tokens tokens :
  text_end (map bytesToString tokens) = Z.of_nat (length (encode_fields tokens)).
Proof.
  induction tokens as [|t ts IH]; [reflexivity|].
  unfold text_end. cbn [map fold_left]. fold (text_end (map bytesToString ts)).
  rewrite text_end_acc, IH, length_bytesToString.
  unfold encode_fields. cbn [map concat]. rewrite !length_app. simpl. lia.
Qed.

Lemma js_slice_app3 (a b c : list Z) :
  js_slice (a ++ b ++ c) (Z.of_nat (length a)) (Z.of_nat (length a + length b)) = b.
Proof.
  rewrite js_slice_in_range by (rewrite ?length_app; lia).
  rewrite !Nat2Z.id. apply sublist_exact.
Qed.

(** ** Properties of the tokenizer *)

Lemma string_bytes_tokens tokens :
  Forall field_ok tokens -> map string_bytes (map bytesToString tokens) = tokens.
Proof.
  induction 1 as [|t ts Ht _ IH]; [reflexivity|]. simpl.
  rewrite string_bytes_bytesToString by (apply field_ok_bytes; exact Ht). f_equal. exact IH.
Qed.

Lemma length_tokens_le tokens : (length tokens <= length (encode_fields tokens))%nat.
Proof. rewrite length_encode_fields. induction tokens; simpl; lia. Qed.

(** The tokenizer on an encoded payload, as strings. *)
Lemma tokenize_fields tokens tail :
  Forall field_ok tokens ->
  (length tokens = 16%nat \/ (length tokens < 16)%nat /\ tail = []) ->
  tokenize (encode_fields tokens ++ tail) = map bytesToString tokens.
Proof.
  intros Hok Hcase. unfold tokenize.
  apply (read_fields_tokens _ _ 0 [] tokens tail); [reflexivity | exact Hok | |].
  - rewrite length_app. pose proof (length_tokens_le tokens). lia.
  - simpl. destruct Hcase as [H|[H ->]]; [right; lia | left; split; [lia | reflexivity]].
Qed.

(** C2: Tokenizer round trip: on a payload made of delimiter-free fields,
    each followed by the delimiter 255, the tokenizer returns exactly those
    fields (as strings whose code units are the field's bytes).  With 16
    fields it stops there and never scans the binary data that follows;
    with fewer, the payload must end after the last delimiter. *)
Theorem tokenize_encoded tokens tail :
  Forall field_ok tokens ->
  (length tokens = 16%nat \/ (length tokens < 16)%nat /\ tail = []) ->
  map string_bytes (tokenize (encode_fields tokens ++ tail)) = tokens.
Proof.
  intros Hok Hcase. rewrite tokenize_fields by assumption. apply string_bytes_tokens, Hok.
Qed.

(** ** Layout lemmas *)
Lemma js_slice_at (l a b c : list Z) (s e : Z) :
  l = a ++ b ++ c -> s = Z.of_nat (length a) -> e = s + Z.of_nat (length b) ->
  js_slice l s e = b.
Proof. intros -> -> ->. rewrite <- Nat2Z.inj_add. apply js_slice_app3. Qed.

(** Rewrite [js_slice l s e] to [b], where [l] splits as [a ++ b ++ c]. *)
Ltac slice_at a b c :=
  rewrite (js_slice_at _ a b c);
  [ | rewrite ?app_nil_r, <- ?app_assoc, ?app_nil_r; reflexivity
    | rewrite ?length_app in *; lia
    | rewrite ?length_app in *; lia ].

Lemma parseInt_digit d :
  0 <= d <= 9 -> js_parseInt (js_trim (bytesToString [48 + d])) 10 = Some d.
Proof.
  intros Hd. assert (Hc : d = 0 \/ d = 1 \/ d = 2 \/ d = 3 \/ d = 4 \/ d = 5 \/ d = 6 \/ d = 7 \/ d = 8 \/ d = 9) by lia.
  repeat destruct Hc as [-> | Hc]; [..|subst]; vm_compute; reflexivity.
Qed.

Lemma binary_tail_layout (pre photo email mobile sig : list Z) ind :
  0 <= ind <= 3 -> length email = 32%nat -> length mobile = 32%nat -> length sig = 256%nat ->
  binary_tail (pre ++ photo ++ hash_segment ind email mobile ++ sig) ind false
    (Z.of_nat (length pre)) =
  (if (ind =? 2) || (ind =? 3) then Some (bytesToHexString mobile) else None,
   if (ind =? 1) || (ind =? 3) then Some (bytesToHexString email) else None,
   photo).
Proof.
  intros Hind He Hm Hs. unfold binary_tail, SIGNATURE_SIZE.
  assert (Hc : ind = 0 \/ ind = 1 \/ ind = 2 \/ ind = 3) by lia.
  repeat destruct Hc as [-> | Hc]; [..|subst]; unfold hash_segment; cbn -[js_slice List.length].
  - slice_at pre photo (@nil Z ++ sig). reflexivity.
  - slice_at (pre ++ photo) email sig. slice_at pre photo (email ++ sig). reflexivity.
  - slice_at (pre ++ photo) mobile sig. slice_at pre photo (mobile ++ sig). reflexivity.
  - slice_at (pre ++ photo ++ email) mobile sig. slice_at (pre ++ photo) email (mobile ++ sig).
    slice_at pre photo (email ++ mobile ++ sig). reflexivity.
Qed.

Lemma signature_layout (l pre sig : list Z) :
  l = pre ++ sig -> length sig = 256%nat ->
  js_slice l (Z.of_nat (length l) - SIGNATURE_SIZE) (Z.of_nat (length l)) = sig.
Proof. intros -> Hs. unfold SIGNATURE_SIZE. slice_at pre sig (@nil Z). reflexivity. Qed.

Section Layout.
Context {Date : Type}.
Variable parseDateOfBirth : string -> option Date.
Variable calculateAge : Date -> Z.

(** The record the parser assembles on a well-formed payload (see
    [extract_layout] below). *)
Lemma extract_layout_gen tokens ph email mobile sig ind :
  length tokens = 16%nat -> Forall field_ok tokens ->
  nth 0 tokens [] = [48 + ind] -> 0 <= ind <= 3 ->
  length email = 32%nat -> length mobile = 32%nat -> length sig = 256%nat ->
  exists r,
    extractDataFields parseDateOfBirth calculateAge
      (encode_fields tokens ++ ph ++ hash_segment ind email mobile ++ sig) = Some r /\
    emailMobilePresent r = ind /\
    text_fields r = map (fun t => Some (bytesToString t)) (skipn 1 tokens) /\
    photo r = ph /\ signature r = sig /\
    mobileHash r = (if (ind =? 2) || (ind =? 3) then Some (bytesToHexString mobile) else None) /\
    emailHash r = (if (ind =? 1) || (ind =? 3) then Some (bytesToHexString email) else None) /\
    (age r, isAdult r) =
      derive_age parseDateOfBirth calculateAge (Some (bytesToString (nth 3 tokens []))).
Proof.
  intros Hlen Hok H0 Hind He Hm Hs.
  assert (Htok : tokenize (encode_fields tokens ++ ph ++ hash_segment ind email mobile ++ sig)
                 = map bytesToString tokens) by (apply tokenize_fields; [exact Hok | left; exact Hlen]).
  assert (Hp : js_parseInt (js_trim (nth 0 (map bytesToString tokens) "")) 10 = Some ind).
  { destruct tokens as [|t0 ts]; [discriminate|]. simpl in H0 |- *. rewrite H0. apply parseInt_digit; lia. }
  assert (Hsc : special_case (map bytesToString tokens) = false)
    by (unfold special_case; rewrite Hp; reflexivity).
  unfold extractDataFields. rewrite Htok. cbv zeta. rewrite Hsc. cbv beta iota. rewrite Hp. cbv beta iota.
  rewrite text_end_tokens, binary_tail_layout by assumption. cbv beta iota.
  rewrite (signature_layout _ (encode_fields tokens ++ ph ++ hash_segment ind email mobile) sig)
    by (rewrite <- ?app_assoc; reflexivity || exact Hs).
  do 16 (destruct tokens as [|? tokens]; [simpl in Hlen; lia|]).
  destruct tokens; [|simpl in Hlen; lia].
  cbn [map nth_error nth skipn List.length Nat.ltb Nat.leb].
  destruct (derive_age _ _ _) as [a b] eqn:Ea.
  eexists. split; [reflexivity|]. repeat split.
Qed.

(** C1: Record assembly on a well-formed payload: 16 delimiter-free text
    fields whose first is the indicator digit 0..3, then the photo, the
    hashes the indicator announces (email, then mobile, 32 bytes each) and
    a 256-byte signature.  The method returns the indicator, the 15 named
    fields in order, the photo and the signature exactly, the hex of each
    announced hash (and no other), and the age fields derived from the
    date of birth. *)
Theorem extract_layout tokens ph email mobile sig ind :
  length tokens = 16%nat -> Forall field_ok tokens ->
  nth 0 tokens [] = [48 + ind] -> 0 <= ind <= 3 ->
  length email = 32%nat -> length mobile = 32%nat -> length sig = 256%nat ->
  exists r,
    extractDataFields parseDateOfBirth calculateAge
      (encode_fields tokens ++ ph ++ hash_segment ind email mobile ++ sig) = Some r /\
    emailMobilePresent r = ind /\
    text_fields r = map (fun t => Some (bytesToString t)) (skipn 1 tokens) /\
    photo r = ph /\ signature r = sig /\
    mobileHash r = (if (ind =? 2) || (ind =? 3) then Some (bytesToHexString mobile) else None) /\
    emailHash r = (if (ind =? 1) || (ind =? 3) then Some (bytesToHexString email) else None) /\
    (age r, isAdult r) =
      derive_age parseDateOfBirth calculateAge (Some (bytesToString (nth 3 tokens []))).
Proof. exact (extract_layout_gen tokens ph email mobile sig ind). Qed.
End Layout.

Lemma tokenize_encoded_witness :
  map string_bytes (tokenize (encode_fields (repeat [65; 66] 16) ++ [1; 255; 2])) = repeat [65; 66] 16.
Proof.
  apply (tokenize_encoded (repeat [65; 66] 16) [1; 255; 2]);
    [repeat constructor; unfold DELIMITER; lia | left; reflexivity].
Defined.

Lemma extract_layout_witness :
  exists r,
    extractDataFields (fun _ => @None Z) (fun d => d)
      (encode_fields ([50] :: repeat [65; 66] 15) ++ [1; 2; 3] ++
       hash_segment 2 (repeat 7 32) (repeat 8 32) ++ repeat 9 256) = Some r /\
    emailMobilePresent r = 2 /\
    text_fields r = map (fun t => Some (bytesToString t)) (skipn 1 ([50] :: repeat [65; 66] 15)) /\
    photo r = [1; 2; 3] /\ signature r = repeat 9 256 /\
    mobileHash r = (if (2 =? 2) || (2 =? 3) then Some (bytesToHexString (repeat 8 32)) else None) /\
    emailHash r = (if (2 =? 1) || (2 =? 3) then Some (bytesToHexString (repeat 7 32)) else None) /\
    (age r, isAdult r) =
      derive_age (fun _ => @None Z) (fun d => d)
        (Some (bytesToString (nth 3 ([50] :: repeat [65; 66] 15) []))).
Proof.
  apply (extract_layout (fun _ => @None Z) (fun d => d)); try reflexivity; try lia.
  repeat constructor; unfold DELIMITER; lia.
Defined.

(** ** Signature and error behaviour *)
Lemma read_fields_grows fuel (byteArray : list Z) idx acc :
  exists rest, read_fields fuel byteArray idx acc = acc ++ rest /\
    ((0 < fuel)%nat -> (idx < length byteArray)%nat -> rest <> []).
Proof.
  revert idx acc. induction fuel as [|fuel IH]; intros idx acc; cbn [read_fields].
  - exists []. rewrite app_nil_r. split; [reflexivity|lia].
  - destruct (Nat.ltb_spec idx (length byteArray)) as [Hlt|Hge].
    + set (v := bytesToString _).
      destruct (15 <? length (acc ++ [v]))%nat.
      * exists [v]. split; [reflexivity|discriminate].
      * destruct (IH (S (find_delim (length byteArray) byteArray idx)) (acc ++ [v])) as (rest & Hr & _).
        exists (v :: rest). rewrite Hr, <- app_assoc. split; [reflexivity|discriminate].
    + exists []. rewrite app_nil_r. split; [reflexivity|lia].
Qed.

Lemma tokenize_nil (byteArray : list Z) : tokenize byteArray = [] <-> byteArray = [].
Proof.
  split; [|intros ->; reflexivity]. intros H. destruct byteArray as [|b bs]; [reflexivity|].
  unfold tokenize in H. destruct (read_fields_grows (length (b :: bs)) (b :: bs) 0 []) as (rest & Hr & Hne).
  rewrite Hr in H. simpl in H. exfalso. apply Hne; [simpl; lia | simpl; lia | exact H].
Qed.

Section Results.
Context {Date : Type}.
Variable parseDateOfBirth : string -> option Date.
Variable calculateAge : Date -> Z.

Lemma extract_signature_slice byteArray r :
  extractDataFields parseDateOfBirth calculateAge byteArray = Some r ->
  signature r = js_slice byteArray (Z.of_nat (length byteArray) - SIGNATURE_SIZE)
                  (Z.of_nat (length byteArray)).
Proof.
  unfold extractDataFields. destruct (tokenize byteArray); [discriminate|]. cbv zeta.
  destruct (binary_tail _ _ _ _) as [[? ?] ?]. destruct (derive_age _ _ _).
  intros H. inv H. reflexivity.
Qed.

(** C33: [extractDataFields] throws exactly on the empty array.  The spec
    asks for a FieldCountError when fewer than 2 fields are recoverable;
    the code returns a record for a payload with a single field. *)
Theorem extract_error byteArray :
  extractDataFields parseDateOfBirth calculateAge byteArray = None <-> byteArray = [].
Proof.
  rewrite <- tokenize_nil. unfold extractDataFields.
  destruct (tokenize byteArray); [tauto|]. cbv zeta.
  destruct (binary_tail _ _ _ _) as [[? ?] ?]. destruct (derive_age _ _ _).
  split; discriminate.
Qed.

(** C4: The signature is the last 256 bytes of every payload of at least
    256 bytes.  The spec asks for a SignatureBoundsError on a shorter
    payload; the code instead slices from the negative offset
    [length - 256], which [slice] counts from the end a second time: the
    "signature" is then the last [256 - length] bytes when the payload has
    more than 128 bytes, and the whole payload otherwise. *)
Theorem extract_signature byteArray r :
  extractDataFields parseDateOfBirth calculateAge byteArray = Some r ->
  ((256 <= length byteArray)%nat ->
     byteArray = firstn (length byteArray - 256) byteArray ++ signature r /\
     length (signature r) = 256%nat) /\
  ((length byteArray < 256)%nat ->
     signature r = skipn (2 * length byteArray - 256) byteArray).
Proof.
  intros H. apply extract_signature_slice in H. rewrite H. unfold SIGNATURE_SIZE. split; intros Hl.
  - rewrite js_slice_in_range by lia. rewrite Nat2Z.id.
    replace (Z.to_nat (Z.of_nat (length byteArray) - 256)) with (length byteArray - 256)%nat by lia.
    unfold sublist.
    rewrite (@firstn_all2 _ _ (skipn (length byteArray - 256) byteArray)) by (rewrite length_skipn; lia).
    rewrite firstn_skipn, length_skipn. split; [reflexivity|lia].
  - unfold js_slice, rel_index, sublist.
    destruct (Z.ltb_spec (Z.of_nat (length byteArray) - 256) 0); [|lia].
    destruct (Z.ltb_spec (Z.of_nat (length byteArray)) 0); [lia|].
    rewrite Z.min_id, Nat2Z.id.
    rewrite (@firstn_all2 _ _ (skipn _ byteArray)) by (rewrite length_skipn; lia).
    f_equal. lia.
Qed.
End Results.

Lemma extract_signature_witness :
  exists r, extractDataFields (fun _ => @None Z) (fun d => d) (repeat 1%Z 200) = Some r /\
  ((256 <= length (repeat 1%Z 200))%nat ->
     repeat 1%Z 200 = firstn (length (repeat 1%Z 200) - 256) (repeat 1%Z 200) ++ signature r /\
     length (signature r) = 256%nat) /\
  ((length (repeat 1%Z 200) < 256)%nat ->
     signature r = skipn (2 * length (repeat 1%Z 200) - 256) (repeat 1%Z 200)).
Proof.
  eexists. split; [vm_compute; reflexivity|].
  apply (extract_signature (fun _ => @None Z) (fun d => d)). vm_compute. reflexivity.
Defined.

(** ** The workaround *)
Lemma shift_loop_spec fuel (pre : list string) a rest :
  (length rest <= fuel)%nat ->
  shift_loop fuel (length pre) (pre ++ a :: rest) = pre ++ rest ++ [last (a :: rest) ""].
Proof.
  revert fuel pre a. induction rest as [|b rest IH]; intros fuel pre a Hf.
  - destruct fuel as [|fuel]; cbn [shift_loop]; [reflexivity|].
    rewrite length_app. cbn [length].
    replace (length pre + 1 - 1)%nat with (length pre) by lia. rewrite Nat.ltb_irrefl. reflexivity.
  - destruct fuel as [|fuel]; [simpl in Hf; lia|]. cbn [shift_loop].
    rewrite length_app. cbn [length].
    destruct (Nat.ltb_spec (length pre) (length pre + S (S (length rest)) - 1)) as [_|Hc]; [|lia].
    rewrite firstn_app, Nat.sub_diag, firstn_O, app_nil_r, firstn_all.
    rewrite app_nth2 by lia. replace (S (length pre) - length pre)%nat with 1%nat by lia.
    rewrite skipn_app, (@skipn_all2 _ _ pre) by lia.
    replace (S (length pre) - length pre)%nat with 1%nat by lia. cbn [nth skipn app].
    replace (S (length pre)) with (length (pre ++ [b])) by (rewrite length_app; simpl; lia).
    replace (pre ++ b :: b :: rest) with ((pre ++ [b]) ++ b :: rest) by (rewrite <- app_assoc; reflexivity).
    rewrite IH by (simpl in Hf; lia). rewrite <- app_assoc. reflexivity.
Qed.

(** The shifting loop of the workaround drops the second field, moves
    every later field one place left, and leaves the last field in place,
    so that it appears twice at the end. *)
Theorem shift_fields_spec x0 x1 rest :
  shift_fields (x0 :: x1 :: rest) = x0 :: rest ++ [last (x1 :: rest) ""].
Proof.
  unfold shift_fields. change (x0 :: x1 :: rest) with ([x0] ++ x1 :: rest).
  change 1%nat with (length [x0]). rewrite shift_loop_spec by (simpl; lia). reflexivity.
Qed.

Section Workaround.
Context {Date : Type}.
Variable parseDateOfBirth : string -> option Date.
Variable calculateAge : Date -> Z.

(** When the workaround triggers on 16 fields (the first not a number,
    the second "3"), the record has indicator 3, its named fields are the
    fields from the third on, and [vtc] repeats [subDistrict]: the field
    that should follow is never read, because the tokenizer stopped after
    16 fields. *)
Theorem extract_special_case byteArray r :
  extractDataFields parseDateOfBirth calculateAge byteArray = Some r ->
  special_case (tokenize byteArray) = true ->
  length (tokenize byteArray) = 16%nat ->
  emailMobilePresent r = 3 /\
  text_fields r = map Some (skipn 2 (tokenize byteArray) ++ [nth 15 (tokenize byteArray) ""]) /\
  vtc r = subDistrict r.
Proof.
  unfold extractDataFields. destruct (tokenize byteArray) as [|x0 [|x1 rest]] eqn:Et;
    [discriminate| simpl; lia |].
  intros H Hsc Hlen. rewrite Hsc in H. cbv zeta in H. cbv beta iota in H.
  rewrite shift_fields_spec in H.
  destruct (binary_tail _ _ _ _) as [[? ?] ?]. destruct (derive_age _ _ _).
  inv H. simpl in Hlen.
  do 14 (destruct rest as [|? rest]; [simpl in Hlen; lia|]).
  destruct rest; [|simpl in Hlen; lia]. repeat split.
Qed.
End Workaround.

Lemma extract_special_case_witness :
  exists r,
  extractDataFields (fun _ => @None Z) (fun d => d)
    (encode_fields ([86; 50] :: [51] :: repeat [65] 14) ++ repeat 0 300) = Some r /\
  special_case (tokenize (encode_fields ([86; 50] :: [51] :: repeat [65] 14) ++ repeat 0 300)) = true /\
  length (tokenize (encode_fields ([86; 50] :: [51] :: repeat [65] 14) ++ repeat 0 300)) = 16%nat /\
  emailMobilePresent r = 3 /\
  text_fields r = map Some (skipn 2 (tokenize (encode_fields ([86; 50] :: [51] :: repeat [65] 14) ++ repeat 0 300))
                           ++ [nth 15 (tokenize (encode_fields ([86; 50] :: [51] :: repeat [65] 14) ++ repeat 0 300)) ""]) /\
  vtc r = subDistrict r.
Proof.
  eexists. split; [vm_compute; reflexivity|]. split; [vm_compute; reflexivity|].
  split; [vm_compute; reflexivity|].
  apply (extract_special_case (fun _ => @None Z) (fun d => d)); vm_compute; reflexivity.
Defined.

(** On a version-2 payload ("V2", then the indicator "3", then the 15
    fields from referenceId to vtc) the workaround misreads the record:
    [vtc] is the subdistrict "SUB" instead of "VTC", and since
    [currentIndex] is summed over the shifted fields, the photo starts two
    bytes early, with the last byte of "VTC" and a delimiter in front of
    the photo bytes 1..5. *)
Example extract_v2_payload :
  exists r,
  extractDataFields (fun _ => @None Z) (fun d => d)
    (encode_fields ([86; 50] :: [51] :: [49; 50; 51; 52] :: repeat [65] 12 ++
                    [[83; 85; 66]; [86; 84; 67]]) ++
     [1; 2; 3; 4; 5] ++ repeat 7 32 ++ repeat 8 32 ++ repeat 9 256) = Some r /\
  vtc r = Some "SUB" /\ subDistrict r = Some "SUB" /\
  photo r = [67; 255; 1; 2; 3; 4; 5].
Proof. eexists. split; [vm_compute; reflexivity|]. vm_compute. repeat split. Qed.

(** ** Termination of the tokenizer's loops *)

Lemma find_delim_ge fuel (byteArray : list Z) i : (i <= find_delim fuel byteArray i)%nat.
Proof.
  revert i. induction fuel as [|fuel IH]; intros i; cbn [find_delim]; [lia|].
  destruct (_ && _); [specialize (IH (S i)); lia|lia].
Qed.

(** The inner loop stops by its own condition within [length - i]
    iterations. *)
Lemma find_delim_fuel f g (byteArray : list Z) i :
  (length byteArray - i <= f)%nat -> (length byteArray - i <= g)%nat ->
  find_delim f byteArray i = find_delim g byteArray i.
Proof.
  revert g i. induction f as [|f IH]; intros g i Hf Hg.
  - destruct g as [|g]; [reflexivity|]. cbn [find_delim].
    destruct (Nat.ltb_spec i (length byteArray)); [lia|reflexivity].
  - destruct g as [|g]; cbn [find_delim].
    + destruct (Nat.ltb_spec i (length byteArray)); [lia|reflexivity].
    + destruct (Nat.ltb_spec i (length byteArray)); [|reflexivity].
      destruct (negb _); [apply IH; lia|reflexivity].
Qed.

(** Given [length - i] iterations, the inner loop leaves with its
    condition false: at the end of the array or on a delimiter. *)
Lemma find_delim_exit g (byteArray : list Z) i :
  (length byteArray - i <= g)%nat ->
  ((find_delim g byteArray i <? length byteArray)%nat &&
     negb (nth (find_delim g byteArray i) byteArray 0 =? DELIMITER)) = false.
Proof.
  revert i. induction g as [|g IH]; intros i Hg; cbn [find_delim].
  - destruct (Nat.ltb_spec i (length byteArray)); [lia|reflexivity].
  - destruct ((i <? length byteArray)%nat && _) eqn:E; [|exact E].
    apply andb_true_iff in E as [E _]. apply Nat.ltb_lt in E. apply IH. lia.
Qed.

(** The outer loop stops by its own condition within [length - index]
    iterations: each iteration moves [index] past the field it reads. *)
Lemma read_fields_fuel f g (byteArray : list Z) i acc :
  (length byteArray - i <= f)%nat -> (f <= g)%nat ->
  read_fields g byteArray i acc = read_fields f byteArray i acc.
Proof.
  revert g i acc. induction f as [|f IH]; intros g i acc Hf Hg.
  - destruct g as [|g]; [reflexivity|]. cbn [read_fields].
    destruct (Nat.ltb_spec i (length byteArray)); [lia|reflexivity].
  - destruct g as [|g]; [lia|]. cbn [read_fields].
    destruct (Nat.ltb_spec i (length byteArray)) as [Hlt|]; [|reflexivity].
    destruct (15 <? _)%nat; [reflexivity|].
    pose proof (find_delim_ge (length byteArray) byteArray i). apply IH; lia.
Qed.

(** C32: Termination of the tokenizer.  The inner [while] loop of lines
    357-359 leaves by its own condition (at the end of the array or on a
    delimiter) from every start index, within the [length byteArray]
    iterations the model gives it, and running either loop of lines
    352-373 longer changes nothing. *)
Theorem tokenize_terminates (byteArray : list Z) :
  (forall i, ((find_delim (length byteArray) byteArray i <? length byteArray)%nat &&
     negb (nth (find_delim (length byteArray) byteArray i) byteArray 0 =? DELIMITER)) = false) /\
  (forall i g, (length byteArray - i <= g)%nat ->
     find_delim g byteArray i = find_delim (length byteArray) byteArray i) /\
  (forall g, (length byteArray <= g)%nat -> read_fields g byteArray 0 [] = tokenize byteArray).
Proof.
  split; [|split].
  - intros i. apply find_delim_exit. lia.
  - intros i g Hg. apply find_delim_fuel; lia.
  - intros g Hg. apply read_fields_fuel; lia.
Qed.

Lemma tokenize_terminates_witness :
  (length [65; 255; 66] - 0 <= 10)%nat /\ (length [65; 255; 66] <= 10)%nat /\
  find_delim (length [65; 255; 66]) [65; 255; 66] 0 = 1%nat /\
  find_delim 10 [65; 255; 66] 0 = find_delim (length [65; 255; 66]) [65; 255; 66] 0 /\
  read_fields 10 [65; 255; 66] 0 [] = tokenize [65; 255; 66].
Proof.
  split; [cbn; lia|]. split; [cbn; lia|]. split; [vm_compute; reflexivity|].
  destruct (tokenize_terminates [65; 255; 66]) as (_ & H1 & H2).
  split; [apply H1; cbn; lia|apply H2; cbn; lia].
Defined.
