(* ===== verification/DateAge.v ===== *)
(** * DateAge: [parseDateOfBirth] and [calculateAge]

    [src/lib/secure-qr-decoder.ts], lines 510-618.  A JavaScript [Date] is
    its time value in milliseconds ([Z]); an invalid date (time value NaN)
    is [None].  The calendar functions follow ECMAScript 21.4.1:
    [DayFromYear], [YearFromTime] (the largest year whose first day is not
    after the time, found by binary search), [MonthFromTime] and
    [DateFromTime] (the month table), [MakeDay], [MakeDate], [TimeClip],
    the [Date(year, month, day)] constructor (years 0..99 mean 1900..1999)
    and [setFullYear].

    Modelling choices:
    - the local time zone is UTC (LocalTime and UTC are the identity);
    - [new Date()] is the parameter [now]; the code reads the clock up to
      three times per call, a few milliseconds apart, the model once;
    - [new Date(cleanDob)] for a string with neither "/" nor "-" uses the
      implementation-defined [Date.parse]: the Section variable [date_parse]. *)

From Stdlib Require Import ZArith List Lia Bool.
From Stdlib Require String Ascii.
From S2P Require Import Prelude JsRuntime.
Import ListNotations String.StringSyntax.

Local Open Scope Z_scope.
Local Open Scope string_scope.

(** ** ECMAScript calendar *)
Definition msPerDay : Z := 86400000.

Definition Day (t : Z) : Z := t / msPerDay.
Definition TimeWithinDay (t : Z) : Z := t mod msPerDay.

Definition DaysInYear (y : Z) : Z :=
  if negb (y mod 4 =? 0) then 365
  else if negb (y mod 100 =? 0) then 366
  else if negb (y mod 400 =? 0) then 365
  else 366.

Definition DayFromYear (y : Z) : Z :=
  365 * (y - 1970) + (y - 1969) / 4 - (y - 1901) / 100 + (y - 1601) / 400.

(** Binary search for the largest [y] in [lo, hi) with
    [DayFromYear y <= d]. *)
Fixpoint year_search (fuel : nat) (lo hi d : Z) : Z :=
  match fuel with
  | O => lo
  | S f =>
      if hi - lo <=? 1 then lo
      else let mid := (lo + hi) / 2 in
           if DayFromYear mid <=? d then year_search f mid hi d else year_search f lo mid d
  end.

(** Every time value that [TimeClip] lets through (|t| <= 8.64e15 ms, i.e.
    10^8 days) lies between the years -300000 and 300000; 2^20 > 600000. *)
Definition YEAR_LO : Z := -300000.
Definition YEAR_HI : Z := 300000.

Definition YearFromTime (t : Z) : Z := year_search 20 YEAR_LO YEAR_HI (Day t).

Definition InLeapYear (t : Z) : Z := if DaysInYear (YearFromTime t) =? 366 then 1 else 0.

Definition DayWithinYear (t : Z) : Z := Day t - DayFromYear (YearFromTime t).

(** First day (within the year) of month [m], with [leap] 0 or 1. *)
Definition month_start (leap m : Z) : Z :=
  nth (Z.to_nat m) [0; 31; 59; 90; 120; 151; 181; 212; 243; 273; 304; 334] 0
  + (if 2 <=? m then leap else 0).

(** The largest month [m <= k] whose first day is not after day [d] of the
    year: the table of MonthFromTime, read from December down. *)
Fixpoint month_search (k : nat) (leap d : Z) : Z :=
  match k with
  | O => 0
  | S k' => if month_start leap (Z.of_nat k) <=? d then Z.of_nat k else month_search k' leap d
  end.

Definition month_of_day (leap d : Z) : Z := month_search 11 leap d.

Definition MonthFromTime (t : Z) : Z := month_of_day (InLeapYear t) (DayWithinYear t).

Definition DateFromTime (t : Z) : Z :=
  DayWithinYear t - month_start (InLeapYear t) (MonthFromTime t) + 1.

(** MakeDay(year, month, date) on integer arguments. *)
Definition MakeDay (year month date : Z) : Z :=
  let ym := year + month / 12 in
  let mn := month mod 12 in
  let leap := if DaysInYear ym =? 366 then 1 else 0 in
  DayFromYear ym + month_start leap mn + date - 1.

Definition MakeDate (day time : Z) : Z := day * msPerDay + time.

Definition TimeClip (t : Z) : option Z := if Z.abs t <=? 8640000000000000 then Some t else None.

(** [new Date(year, monthIndex, day)] on integers (local time = UTC). *)
Definition js_Date_ymd (year monthIndex day : Z) : option Z :=
  let yr := if (0 <=? year) && (year <=? 99) then 1900 + year else year in
  TimeClip (MakeDate (MakeDay yr monthIndex day) 0).

(** [d.setFullYear(y)] on a valid date [d]. *)
Definition setFullYear (t y : Z) : option Z :=
  TimeClip (MakeDate (MakeDay y (MonthFromTime t) (DateFromTime t)) (TimeWithinDay t)).

(** ** String helpers: [includes] and [split] with a one-character separator *)
Definition js_includes (s : string) (c : ascii) : bool :=
  existsb (fun x => Ascii.eqb x c) (chars s).

Fixpoint split_chars (sep : ascii) (l cur : list ascii) : list (list ascii) :=
  match l with
  | [] => [rev cur]
  | c :: r => if Ascii.eqb c sep then rev cur :: split_chars sep r [] else split_chars sep r (c :: cur)
  end.

Definition js_split (s : string) (sep : ascii) : list string :=
  map of_chars (split_chars sep (chars s) []).

Definition SLASH : ascii := chr 47.
Definition HYPHEN : ascii := chr 45.

(** ** The code *)

(** [calculateAge(dob)] with [today = new Date()] read as [now]. *)
Definition calculateAge (now dob : Z) : Z :=
  let age := YearFromTime now - YearFromTime dob in
  let monthDiff := MonthFromTime now - MonthFromTime dob in
  if (monthDiff <? 0) || ((monthDiff =? 0) && (DateFromTime now <? DateFromTime dob))
  then age - 1 else age.

(** The three parseInt results of the day, month and year parts. *)
Definition date_of_parts (d m y : option Z) : option Z :=
  match d, m, y with
  | Some day, Some month, Some year => js_Date_ymd year (month - 1) day
  | _, _, _ => None
  end.

Section Parse.
(** [Date.parse], used by [new Date(cleanDob)]: a time value or NaN. *)
Variable date_parse : string -> option Z.

Definition parse_components (cleanDob : string) : option Z :=
  if js_includes cleanDob SLASH then
    match js_split cleanDob SLASH with
    | [p0; p1; p2] => date_of_parts (js_parseInt p0 10) (js_parseInt p1 10) (js_parseInt p2 10)
    | _ => None
    end
  else if js_includes cleanDob HYPHEN then
    match js_split cleanDob HYPHEN with
    | [p0; p1; p2] =>
        if (String.length p0 =? 4)%nat
        then date_of_parts (js_parseInt p2 10) (js_parseInt p1 10) (js_parseInt p0 10)
        else date_of_parts (js_parseInt p0 10) (js_parseInt p1 10) (js_parseInt p2 10)
    | _ => None
    end
  else date_parse cleanDob.

(** [parseDateOfBirth(dobString)]: [None] is [null] (every path that
    returns null, including the RangeError of [toISOString] on an invalid
    date, which the catch turns into null). *)
Definition parseDateOfBirth (now : Z) (dobString : string) : option Z :=
  match parse_components (js_trim dobString) with
  | None => None
  | Some dob =>
      if now <? dob then None
      else match setFullYear now (YearFromTime now - 120) with
           | Some minDate => if dob <? minDate then None else Some dob
           | None => Some dob
           end
  end.
End Parse.

(** ** Calendar notions used by the statements *)

(** 1 in a leap year, 0 otherwise (as [MakeDay] and [InLeapYear] compute it). *)
Definition leap_of (y : Z) : Z := if DaysInYear y =? 366 then 1 else 0.

(** The first day of the month after [m] (365 + leap after December). *)
Definition month_end (leap m : Z) : Z := if m =? 11 then 365 + leap else month_start leap (m + 1).

Definition days_in_month (leap m : Z) : Z := month_end leap m - month_start leap m.

(** The days [YearFromTime] covers (years [YEAR_LO] to [YEAR_HI - 1]). *)
Definition day_in_range (d : Z) : Prop := DayFromYear YEAR_LO <= d < DayFromYear YEAR_HI.

(** Civil dates compared lexicographically (year, month, day). *)
Definition civil_lt (y1 m1 d1 y2 m2 d2 : Z) : bool :=
  (y1 <? y2) || ((y1 =? y2) && ((m1 <? m2) || ((m1 =? m2) && (d1 <? d2)))).

Definition civil_le (y1 m1 d1 y2 m2 d2 : Z) : bool := negb (civil_lt y2 m2 d2 y1 m1 d1).

(** ** Calendar lemmas *)
Lemma step4 y : (y + 1 - 1969) / 4 - (y - 1969) / 4 = if y mod 4 =? 0 then 1 else 0.
Proof. destruct (Z.eqb_spec (y mod 4) 0); cbv iota; Z.div_mod_to_equations; lia. Qed.

Lemma step100 y : (y + 1 - 1901) / 100 - (y - 1901) / 100 = if y mod 100 =? 0 then 1 else 0.
Proof. destruct (Z.eqb_spec (y mod 100) 0); cbv iota; Z.div_mod_to_equations; lia. Qed.

Lemma step400 y : (y + 1 - 1601) / 400 - (y - 1601) / 400 = if y mod 400 =? 0 then 1 else 0.
Proof. destruct (Z.eqb_spec (y mod 400) 0); cbv iota; Z.div_mod_to_equations; lia. Qed.

Lemma DayFromYear_succ y : DayFromYear (y + 1) = DayFromYear y + DaysInYear y.
Proof.
  unfold DayFromYear, DaysInYear.
  generalize (step4 y) (step100 y) (step400 y).
  destruct (Z.eqb_spec (y mod 4) 0) as [E4|E4]; destruct (Z.eqb_spec (y mod 100) 0) as [E100|E100];
    destruct (Z.eqb_spec (y mod 400) 0) as [E400|E400]; cbn [negb]; intros; try lia;
    exfalso; clear -E4 E100 E400; Z.div_mod_to_equations; lia.
Qed.

Lemma DaysInYear_range y : 365 <= DaysInYear y <= 366.
Proof. unfold DaysInYear. repeat case_if; lia. Qed.

Lemma DayFromYear_mono y1 y2 : y1 <= y2 -> DayFromYear y1 + 365 * (y2 - y1) <= DayFromYear y2.
Proof.
  intros H. replace y2 with (y1 + Z.of_nat (Z.to_nat (y2 - y1))) by lia.
  generalize (Z.to_nat (y2 - y1)) as n. intros n. clear H.
  induction n as [|n IH]; [cbn [Z.of_nat]; rewrite Z.add_0_r; lia|].
  rewrite Nat2Z.inj_succ, <- Z.add_1_r, Z.add_assoc, DayFromYear_succ.
  pose proof (DaysInYear_range (y1 + Z.of_nat n)). lia.
Qed.

Lemma DayFromYear_lt y1 y2 : y1 < y2 -> DayFromYear y1 < DayFromYear y2.
Proof. intros H. pose proof (DayFromYear_mono y1 y2). lia. Qed.

Lemma DayFromYear_le y1 y2 : y1 <= y2 -> DayFromYear y1 <= DayFromYear y2.
Proof. intros H. pose proof (DayFromYear_mono y1 y2). lia. Qed.

(** The binary search finds the year of day [d]. *)
Lemma year_search_spec fuel lo hi d :
  lo < hi -> hi - lo <= 2 ^ Z.of_nat fuel ->
  DayFromYear lo <= d < DayFromYear hi ->
  let y := year_search fuel lo hi d in
  lo <= y < hi /\ DayFromYear y <= d < DayFromYear (y + 1).
Proof.
  revert lo hi. induction fuel as [|fuel IH]; intros lo hi Hlt Hw Hd; cbn [year_search].
  - simpl in Hw. assert (hi = lo + 1) by lia. subst. lia.
  - rewrite Nat2Z.inj_succ, Z.pow_succ_r in Hw by lia.
    destruct (Z.leb_spec (hi - lo) 1) as [H1|H1].
    + assert (hi = lo + 1) by lia. subst. lia.
    + assert (Hm : lo < (lo + hi) / 2 < hi) by (Z.div_mod_to_equations; lia).
      destruct (Z.leb_spec (DayFromYear ((lo + hi) / 2)) d).
      * destruct (IH ((lo + hi) / 2) hi) as [Hr1 Hr2]; [lia | | lia | split; [lia | exact Hr2]].
        clear IH. Z.div_mod_to_equations. lia.
      * destruct (IH lo ((lo + hi) / 2)) as [Hr1 Hr2]; [lia | | lia | split; [lia | exact Hr2]].
        clear IH. Z.div_mod_to_equations. lia.
Qed.


Lemma YearFromTime_spec t :
  day_in_range (Day t) ->
  YEAR_LO <= YearFromTime t < YEAR_HI /\
  DayFromYear (YearFromTime t) <= Day t < DayFromYear (YearFromTime t + 1).
Proof.
  intros Hr. unfold YearFromTime. apply year_search_spec; [reflexivity | vm_compute; discriminate | exact Hr].
Qed.

(** The year of day [d] is the unique [y] with [d] in [y]'s days. *)
Lemma year_unique y1 y2 d :
  DayFromYear y1 <= d < DayFromYear (y1 + 1) ->
  DayFromYear y2 <= d < DayFromYear (y2 + 1) -> y1 = y2.
Proof.
  intros H1 H2. destruct (Z.lt_trichotomy y1 y2) as [Hl|[He|Hl]]; [|exact He|].
  - pose proof (DayFromYear_le (y1 + 1) y2). lia.
  - pose proof (DayFromYear_le (y2 + 1) y1). lia.
Qed.

(** ** Months *)


Lemma month_search_spec k leap x :
  0 <= x ->
  let m := month_search k leap x in
  0 <= m <= Z.of_nat k /\ month_start leap m <= x /\ (m < Z.of_nat k -> x < month_start leap (m + 1)).
Proof.
  intros Hx. induction k as [|k IH]; cbn [month_search].
  - simpl. unfold month_start. simpl. lia.
  - destruct (Z.leb_spec (month_start leap (Z.of_nat (S k))) x) as [H|H].
    + split; [lia|]. split; [exact H|lia].
    + destruct IH as (H1 & H2 & H3). split; [lia|]. split; [exact H2|].
      intros Hm. destruct (Z.eq_dec (month_search k leap x) (Z.of_nat k)) as [E|E].
      * rewrite E. replace (Z.of_nat k + 1) with (Z.of_nat (S k)) by lia. exact H.
      * apply H3. lia.
Qed.

Ltac month_cases m :=
  let H := fresh in
  assert (H : m = 0 \/ m = 1 \/ m = 2 \/ m = 3 \/ m = 4 \/ m = 5 \/ m = 6 \/ m = 7 \/
              m = 8 \/ m = 9 \/ m = 10 \/ m = 11) by lia;
  repeat destruct H as [-> | H]; [..|subst].

(** Evaluate [month_start] and [month_end] at closed arguments. *)
Ltac compute_months :=
  repeat match goal with
  | |- context [month_start ?l ?m] =>
      let v := eval vm_compute in (month_start l m) in change (month_start l m) with v
  | |- context [month_end ?l ?m] =>
      let v := eval vm_compute in (month_end l m) in change (month_end l m) with v
  end.

Lemma month_unique leap m1 m2 x :
  0 <= leap <= 1 -> 0 <= m1 <= 11 -> 0 <= m2 <= 11 ->
  month_start leap m1 <= x < month_end leap m1 ->
  month_start leap m2 <= x < month_end leap m2 -> m1 = m2.
Proof.
  intros Hl H1 H2. assert (Hl' : leap = 0 \/ leap = 1) by lia.
  destruct Hl' as [-> | ->]; month_cases m1; month_cases m2; compute_months; lia.
Qed.

Lemma month_of_day_spec leap x :
  0 <= leap <= 1 -> 0 <= x < 365 + leap ->
  let m := month_of_day leap x in
  0 <= m <= 11 /\ month_start leap m <= x < month_end leap m.
Proof.
  intros Hl Hx. unfold month_of_day.
  destruct (month_search_spec 11 leap x) as (H1 & H2 & H3); [lia|].
  split; [exact H1|]. split; [exact H2|]. unfold month_end.
  destruct (Z.eqb_spec (month_search 11 leap x) 11); cbv beta iota; [lia|]. apply H3. lia.
Qed.

Lemma month_start_range leap m : 0 <= leap <= 1 -> 0 <= m <= 11 ->
  0 <= month_start leap m /\ month_start leap m < month_end leap m <= 365 + leap.
Proof.
  intros Hl Hm. assert (Hl' : leap = 0 \/ leap = 1) by lia.
  destruct Hl' as [-> | ->]; month_cases m; compute_months; lia.
Qed.

Lemma leap_of_range y : 0 <= leap_of y <= 1.
Proof. unfold leap_of. case_if; lia. Qed.

Lemma DaysInYear_leap y : DaysInYear y = 365 + leap_of y.
Proof. unfold leap_of. pose proof (DaysInYear_range y). destruct (Z.eqb_spec (DaysInYear y) 366); lia. Qed.

#[export] Hint Resolve leap_of_range : sid.

Lemma days_in_month_eq leap m : days_in_month leap m = month_end leap m - month_start leap m.
Proof. reflexivity. Qed.

Lemma MakeDay_valid y m d :
  0 <= m <= 11 -> MakeDay y m d = DayFromYear y + month_start (leap_of y) m + d - 1.
Proof.
  intros Hm. unfold MakeDay, leap_of. cbv zeta.
  rewrite (Z.div_small m 12), (Z.mod_small m 12) by lia. rewrite Z.add_0_r. reflexivity.
Qed.

Lemma Day_MakeDate day time : 0 <= time < msPerDay -> Day (MakeDate day time) = day.
Proof.
  intros Ht. unfold Day, MakeDate. rewrite Z.div_add_l by (unfold msPerDay; lia).
  rewrite Z.div_small by exact Ht. lia.
Qed.

Lemma TimeWithinDay_MakeDate day time :
  0 <= time < msPerDay -> TimeWithinDay (MakeDate day time) = time.
Proof.
  intros Ht. unfold TimeWithinDay, MakeDate.
  rewrite Z.add_comm, Z.mod_add by (unfold msPerDay; lia). apply Z.mod_small, Ht.
Qed.

Lemma MakeDate_Day t : MakeDate (Day t) (TimeWithinDay t) = t.
Proof. unfold MakeDate, Day, TimeWithinDay. rewrite Z.mul_comm. symmetry. apply Z.div_mod. unfold msPerDay. lia. Qed.

Lemma YearFromTime_day t y :
  YEAR_LO <= y < YEAR_HI -> DayFromYear y <= Day t < DayFromYear (y + 1) -> YearFromTime t = y.
Proof.
  intros Hy Hd. assert (Hr : day_in_range (Day t)).
  { unfold day_in_range. pose proof (DayFromYear_le YEAR_LO y). pose proof (DayFromYear_le (y + 1) YEAR_HI). lia. }
  destruct (YearFromTime_spec t Hr) as [_ H]. exact (year_unique _ _ _ H Hd).
Qed.

Lemma InLeapYear_leap_of t : InLeapYear t = leap_of (YearFromTime t).
Proof. unfold InLeapYear, leap_of. reflexivity. Qed.

(** Days of the year [y] in civil form fall inside the year. *)
Lemma civil_day_bounds y m d :
  0 <= m <= 11 -> 1 <= d <= days_in_month (leap_of y) m ->
  DayFromYear y <= DayFromYear y + month_start (leap_of y) m + d - 1 < DayFromYear (y + 1).
Proof.
  intros Hm Hd. unfold days_in_month in Hd.
  pose proof (month_start_range (leap_of y) m (leap_of_range y) Hm).
  rewrite DayFromYear_succ, DaysInYear_leap. lia.
Qed.

(** The civil components of a time value [t] given by its day. *)
Lemma civil_of_day t y m d :
  YEAR_LO <= y < YEAR_HI -> 0 <= m <= 11 -> 1 <= d <= days_in_month (leap_of y) m ->
  Day t = DayFromYear y + month_start (leap_of y) m + d - 1 ->
  YearFromTime t = y /\ MonthFromTime t = m /\ DateFromTime t = d.
Proof.
  intros Hy Hm Hd Ht. pose proof (civil_day_bounds y m d Hm Hd) as Hb.
  assert (HY : YearFromTime t = y) by (apply YearFromTime_day; lia).
  assert (HW : DayWithinYear t = month_start (leap_of y) m + d - 1) by (unfold DayWithinYear; rewrite HY; lia).
  pose proof (leap_of_range y) as Hl. unfold days_in_month in Hd.
  pose proof (month_start_range (leap_of y) m Hl Hm).
  assert (HM : MonthFromTime t = m).
  { unfold MonthFromTime. rewrite HW, InLeapYear_leap_of, HY.
    destruct (month_of_day_spec (leap_of y) (month_start (leap_of y) m + d - 1)) as [H1 H2]; [lia|lia|].
    eapply month_unique; [exact Hl | exact H1 | exact Hm | exact H2 | lia]. }
  split; [exact HY|]. split; [exact HM|].
  unfold DateFromTime. rewrite HW, HM, InLeapYear_leap_of, HY. lia.
Qed.

(** Every time value in range is its civil components put back together. *)
Lemma time_civil t :
  day_in_range (Day t) ->
  YEAR_LO <= YearFromTime t < YEAR_HI /\ 0 <= MonthFromTime t <= 11 /\
  1 <= DateFromTime t <= days_in_month (leap_of (YearFromTime t)) (MonthFromTime t) /\
  Day t = DayFromYear (YearFromTime t) + month_start (leap_of (YearFromTime t)) (MonthFromTime t)
          + DateFromTime t - 1.
Proof.
  intros Hr. destruct (YearFromTime_spec t Hr) as [Hy Hd].
  rewrite DayFromYear_succ, DaysInYear_leap in Hd.
  pose proof (leap_of_range (YearFromTime t)) as Hl.
  destruct (month_of_day_spec (leap_of (YearFromTime t)) (DayWithinYear t)) as [H1 H2];
    [exact Hl | unfold DayWithinYear; lia |].
  assert (HM : MonthFromTime t = month_of_day (leap_of (YearFromTime t)) (DayWithinYear t))
    by (unfold MonthFromTime; rewrite InLeapYear_leap_of; reflexivity).
  rewrite <- HM in H1, H2. unfold DateFromTime, days_in_month, DayWithinYear in *.
  rewrite InLeapYear_leap_of. split; [exact Hy|]. split; [exact H1|]. lia.
Qed.


(** Turn the boolean comparisons of the goal and the context into cases. *)
Ltac zbool :=
  repeat match goal with
  | |- context [?a <? ?b] => destruct (Z.ltb_spec a b)
  | |- context [?a <=? ?b] => destruct (Z.leb_spec a b)
  | |- context [?a =? ?b] => destruct (Z.eqb_spec a b)
  | H : context [?a <? ?b] |- _ => destruct (Z.ltb_spec a b)
  | H : context [?a <=? ?b] |- _ => destruct (Z.leb_spec a b)
  | H : context [?a =? ?b] |- _ => destruct (Z.eqb_spec a b)
  end; cbn [negb orb andb] in *.

(** The month after [m] starts no earlier than the end of [m]. *)
Lemma month_end_le_start leap m1 m2 :
  0 <= leap <= 1 -> 0 <= m1 < m2 -> m2 <= 11 -> month_end leap m1 <= month_start leap m2.
Proof.
  intros Hl Hm H2. assert (Hl' : leap = 0 \/ leap = 1) by lia.
  destruct Hl' as [-> | ->]; month_cases m1; month_cases m2; compute_months; lia.
Qed.

(** Comparing day numbers compares civil dates: the later date in the
    day count is not earlier in the lexicographic order.  Only the later
    date need be a real calendar date. *)
Lemma civil_le_of_day y1 m1 d1 y2 m2 d2 :
  0 <= m1 <= 11 -> 1 <= d1 -> 0 <= m2 <= 11 -> 1 <= d2 <= days_in_month (leap_of y2) m2 ->
  DayFromYear y1 + month_start (leap_of y1) m1 + d1 - 1 <=
  DayFromYear y2 + month_start (leap_of y2) m2 + d2 - 1 ->
  civil_le y1 m1 d1 y2 m2 d2 = true.
Proof.
  intros Hm1 Hd1 Hm2 Hd2 Hk. pose proof (civil_day_bounds y2 m2 d2 Hm2 Hd2) as Hb.
  pose proof (month_start_range (leap_of y1) m1 (leap_of_range y1) Hm1).
  unfold civil_le, civil_lt. destruct (Z.lt_trichotomy y2 y1) as [Hy|[<-|Hy]].
  - pose proof (DayFromYear_le (y2 + 1) y1). zbool; lia.
  - unfold days_in_month in Hd2. destruct (Z.lt_trichotomy m2 m1) as [Hm|[<-|Hm]].
    + pose proof (month_end_le_start (leap_of y2) m2 m1 (leap_of_range y2)). zbool; lia.
    + zbool; lia.
    + zbool; lia.
  - zbool; lia.
Qed.

Lemma Day_le t1 t2 : t1 <= t2 -> Day t1 <= Day t2.
Proof. intros H. unfold Day. apply Z.div_le_mono; [unfold msPerDay; lia | exact H]. Qed.

Lemma TimeWithinDay_range t : 0 <= TimeWithinDay t < msPerDay.
Proof. unfold TimeWithinDay. apply Z.mod_pos_bound. unfold msPerDay. lia. Qed.

(** A clock between the epoch and the end of the time range reads a year
    from 1970 on, and its day is in the range of [YearFromTime]. *)
Lemma now_range now :
  0 <= now <= 8640000000000000 ->
  day_in_range (Day now) /\ 1970 <= YearFromTime now /\ 0 <= Day now <= 100000000.
Proof.
  intros Hn. assert (HD : 0 <= Day now <= 100000000) by (unfold Day, msPerDay; Z.div_mod_to_equations; lia).
  assert (Hr : day_in_range (Day now)).
  { unfold day_in_range. split; [apply Z.le_trans with 0; [vm_compute; discriminate | lia] |].
    apply Z.le_lt_trans with 100000000; [lia | vm_compute; reflexivity]. }
  split; [exact Hr|]. split; [|exact HD].
  destruct (YearFromTime_spec now Hr) as [_ Hy].
  destruct (Z.le_gt_cases 1970 (YearFromTime now)) as [H|H]; [exact H|].
  pose proof (DayFromYear_le (YearFromTime now + 1) 1970). change (DayFromYear 1970) with 0 in *. lia.
Qed.

Lemma minDate_arith D0 D1 Dlo ms' me' l' ms me l dn K Dn :
  K = D0 + ms' + dn - 1 -> 0 <= ms' < me' -> me' <= 365 + l' -> 0 <= l' <= 1 ->
  0 <= ms < me -> me <= 365 + l -> 0 <= l <= 1 -> 1 <= dn <= me - ms ->
  Dn = D1 + ms + dn - 1 -> D0 + 365 * 120 <= D1 -> Dlo <= D0 -> -43829 <= D0 ->
  Dlo <= K <= Dn /\ -43829 <= K.
Proof. lia. Qed.

(** The lower bound [parseDateOfBirth] computes: [now] moved 120 years
    back by [setFullYear], a valid date no later than [now]. *)
Lemma minDate_spec now yn K :
  0 <= now <= 8640000000000000 -> yn = YearFromTime now ->
  K = DayFromYear (yn - 120) + month_start (leap_of (yn - 120)) (MonthFromTime now)
      + DateFromTime now - 1 ->
  setFullYear now (yn - 120) = Some (MakeDate K (TimeWithinDay now)) /\
  DayFromYear YEAR_LO <= K <= Day now.
Proof.
  intros Hn Hyn HKdef. destruct (now_range now Hn) as (Hr & H1970 & HD).
  destruct (time_civil now Hr) as (Hy & Hm & Hd & Ht). rewrite <- Hyn in Hy, Hd, Ht, H1970.
  destruct (month_start_range (leap_of (yn - 120)) (MonthFromTime now) (leap_of_range _) Hm) as [H0' [H1' H2']].
  destruct (month_start_range (leap_of yn) (MonthFromTime now) (leap_of_range _) Hm) as [H0 [H1 H2]].
  rewrite days_in_month_eq in Hd.
  destruct (minDate_arith _ _ (DayFromYear YEAR_LO) _ _ _ _ _ _ _ K (Day now) HKdef (conj H0' H1') H2'
    (leap_of_range _) (conj H0 H1) H2 (leap_of_range _) Hd Ht) as [HK HK'].
  { pose proof (DayFromYear_mono (yn - 120) yn). replace (yn - (yn - 120)) with 120 in * by ring. lia. }
  { apply DayFromYear_le. unfold YEAR_LO. lia. }
  { change (-43829) with (DayFromYear 1850). apply DayFromYear_le. lia. }
  split; [|exact HK]. unfold setFullYear. rewrite MakeDay_valid, <- HKdef by exact Hm.
  unfold TimeClip. pose proof (TimeWithinDay_range now) as Htw. pose proof (MakeDate_Day now) as Hnow.
  unfold MakeDate, msPerDay in *. destruct HK as [_ HK].
  assert (HX1 : K * 86400000 <= Day now * 86400000) by (apply Z.mul_le_mono_nonneg_r; lia).
  assert (HX2 : -43829 * 86400000 <= K * 86400000) by (apply Z.mul_le_mono_nonneg_r; lia).
  destruct (Z.leb_spec (Z.abs (K * 86400000 + TimeWithinDay now)) 8640000000000000) as [_|Hbig];
    [reflexivity|].
  exfalso. clear - HX1 HX2 Hbig Htw Hnow Hn. revert HX1 HX2 Hbig Htw Hnow.
  generalize (K * 86400000) (Day now * 86400000) (TimeWithinDay now). intros. lia.
Qed.

Lemma civil_le_iff y1 m1 d1 y2 m2 d2 :
  civil_le y1 m1 d1 y2 m2 d2 = true <-> y1 < y2 \/ (y1 = y2 /\ (m1 < m2 \/ (m1 = m2 /\ d1 <= d2))).
Proof.
  unfold civil_le, civil_lt. rewrite negb_true_iff, !orb_false_iff, !andb_false_iff, !orb_false_iff,
    !andb_false_iff, !Z.ltb_ge, !Z.eqb_neq. lia.
Qed.

Lemma age_between yn mn dn yb mb db :
  civil_le yb mb db yn mn dn = true -> civil_le (yn - 120) mn dn yb mb db = true ->
  0 <= (if (mn - mb <? 0) || ((mn - mb =? 0) && (dn <? db)) then yn - yb - 1 else yn - yb) <= 120.
Proof.
  rewrite !civil_le_iff. intros H1 H2.
  destruct ((mn - mb <? 0) || ((mn - mb =? 0) && (dn <? db))) eqn:E;
    [rewrite orb_true_iff, andb_true_iff, Z.ltb_lt, Z.eqb_eq, Z.ltb_lt in E
    |rewrite orb_false_iff, andb_false_iff, Z.ltb_ge, Z.eqb_neq, Z.ltb_ge in E]; lia.
Qed.

(** ** Properties *)

(** Calendar round trip.  A calendar date (a year within the range of
    [YearFromTime], a month index 0..11, a day of that month) and a time of
    day, put together by [MakeDay] and [MakeDate], read back through
    [YearFromTime], [MonthFromTime], [DateFromTime] and [TimeWithinDay] as
    the same date and time. *)
Theorem calendar_roundtrip y m d time :
  YEAR_LO <= y < YEAR_HI -> 0 <= m <= 11 -> 1 <= d <= days_in_month (leap_of y) m ->
  0 <= time < msPerDay ->
  let t := MakeDate (MakeDay y m d) time in
  YearFromTime t = y /\ MonthFromTime t = m /\ DateFromTime t = d /\ TimeWithinDay t = time.
Proof.
  intros Hy Hm Hd Ht t.
  destruct (civil_of_day t y m d Hy Hm Hd) as (H1 & H2 & H3).
  { unfold t. rewrite Day_MakeDate by exact Ht. apply MakeDay_valid, Hm. }
  split; [exact H1|]. split; [exact H2|]. split; [exact H3|]. apply TimeWithinDay_MakeDate, Ht.
Qed.

(** Every time value whose day lies in the range of [YearFromTime] is
    rebuilt by [MakeDay] and [MakeDate] from its year, month, date and time
    of day, which form a calendar date. *)
Theorem time_roundtrip t :
  day_in_range (Day t) ->
  1 <= DateFromTime t <= days_in_month (leap_of (YearFromTime t)) (MonthFromTime t) /\
  MakeDate (MakeDay (YearFromTime t) (MonthFromTime t) (DateFromTime t)) (TimeWithinDay t) = t.
Proof.
  intros Hr. destruct (time_civil t Hr) as (Hy & Hm & Hd & Ht).
  split; [exact Hd|]. rewrite MakeDay_valid, <- Ht by exact Hm. apply MakeDate_Day.
Qed.

(** C5: [calculateAge now dob] is the number of completed years: the
    birthday [a] years after [dob] is on or before today's date, the one
    [a + 1] years after is after it (dates compared as (year, month, day)). *)
Theorem calculateAge_spec now dob :
  let a := calculateAge now dob in
  civil_le (YearFromTime dob + a) (MonthFromTime dob) (DateFromTime dob)
           (YearFromTime now) (MonthFromTime now) (DateFromTime now) = true /\
  civil_lt (YearFromTime now) (MonthFromTime now) (DateFromTime now)
           (YearFromTime dob + a + 1) (MonthFromTime dob) (DateFromTime dob) = true.
Proof.
  unfold calculateAge, civil_le, civil_lt. cbv zeta.
  generalize (YearFromTime now) (MonthFromTime now) (DateFromTime now)
             (YearFromTime dob) (MonthFromTime dob) (DateFromTime dob).
  intros yn mn dn yb mb db. zbool; lia.
Qed.

(** C6: A date of birth that [parseDateOfBirth] accepts gives an age
    between 0 and 120: it is not in the future and not before the bound
    [setFullYear(today.getFullYear() - 120)].  The clock reads a time
    between the epoch and the end of the ECMAScript time range. *)
Theorem parseDateOfBirth_age_bounds date_parse now s dob :
  0 <= now <= 8640000000000000 -> parseDateOfBirth date_parse now s = Some dob ->
  0 <= calculateAge now dob <= 120.
Proof.
  intros Hn Hp. unfold parseDateOfBirth in Hp.
  destruct (parse_components date_parse (js_trim s)) as [d|]; [|discriminate].
  destruct (Z.ltb_spec now d) as [_|Hle]; [discriminate|].
  remember (DayFromYear (YearFromTime now - 120) + month_start (leap_of (YearFromTime now - 120))
    (MonthFromTime now) + DateFromTime now - 1) as K eqn:HKdef.
  destruct (minDate_spec now (YearFromTime now) K Hn eq_refl HKdef) as [Hmin HK].
  rewrite Hmin in Hp. destruct (Z.ltb_spec d (MakeDate K (TimeWithinDay now))) as [_|Hge]; [discriminate|].
  injection Hp as <-. apply Day_le in Hle, Hge. rewrite Day_MakeDate in Hge by apply TimeWithinDay_range.
  destruct (now_range now Hn) as (Hr & _ & _).
  assert (Hrd : day_in_range (Day d)) by (unfold day_in_range in *; lia).
  destruct (time_civil now Hr) as (_ & Hmn & Hdn & Hn').
  destruct (time_civil d Hrd) as (_ & Hmd & Hdd & Hd').
  unfold calculateAge. apply age_between.
  - apply civil_le_of_day; [exact Hmd | apply Hdd | exact Hmn | exact Hdn | lia].
  - apply civil_le_of_day; [exact Hmn | apply Hdn | exact Hmd | exact Hdd | lia].
Qed.

(** The test vectors of the specification: born 2000-06-15, the age is
    23 on 2024-06-14 and 24 on 2024-06-15 (the time values are those of
    [new Date(2000, 5, 15)] and so on, at midnight UTC). *)
Example calculateAge_vectors :
  js_Date_ymd 2000 5 15 = Some 961027200000 /\
  js_Date_ymd 2024 5 14 = Some 1718323200000 /\
  js_Date_ymd 2024 5 15 = Some 1718409600000 /\
  calculateAge 1718323200000 961027200000 = 23 /\
  calculateAge 1718409600000 961027200000 = 24.
Proof. vm_compute. repeat split. Qed.

(** The three formats of the specification, DD/MM/YYYY, DD-MM-YYYY
    and YYYY-MM-DD (recognised by a first part of length 4), give the same
    date; surrounding blanks are trimmed; a date in the future and a date
    more than 120 years back give null; a part that is not a number gives
    null (the clock reads 2026-11-09). *)
Example parseDateOfBirth_formats :
  let pd := parseDateOfBirth (fun _ => None) 1794182400000 in
  pd "15/06/2000" = Some 961027200000 /\
  pd "15-06-2000" = Some 961027200000 /\
  pd "2000-06-15" = Some 961027200000 /\
  pd " 15/06/2000 " = Some 961027200000 /\
  pd "15/06/2030" = None /\
  pd "15/06/1900" = None /\
  pd "15/xx/2000" = None /\
  pd "15/06" = None.
Proof. vm_compute. repeat split. Qed.

(** A two-digit year is read by [new Date(year, month, day)] as
    19xx: "01/01/99" is 1999-01-01, and "01/01/05" is 1905-01-01, more than
    120 years before 2026-11-09, so it is rejected. *)
Example parseDateOfBirth_two_digit_year :
  parseDateOfBirth (fun _ => None) 1794182400000 "01/01/99" = Some 915148800000 /\
  parseDateOfBirth (fun _ => None) 1794182400000 "01/01/05" = None.
Proof. vm_compute. split; reflexivity. Qed.

(** Witnesses. *)
Lemma calendar_roundtrip_witness :
  YearFromTime (MakeDate (MakeDay 2000 5 15) 43200000) = 2000 /\
  MonthFromTime (MakeDate (MakeDay 2000 5 15) 43200000) = 5 /\
  DateFromTime (MakeDate (MakeDay 2000 5 15) 43200000) = 15 /\
  TimeWithinDay (MakeDate (MakeDay 2000 5 15) 43200000) = 43200000.
Proof.
  apply (calendar_roundtrip 2000 5 15 43200000);
    [unfold YEAR_LO, YEAR_HI; lia | lia | vm_compute; split; discriminate | unfold msPerDay; lia].
Defined.

Lemma time_roundtrip_witness :
  1 <= DateFromTime 961027200000 <= days_in_month (leap_of (YearFromTime 961027200000)) (MonthFromTime 961027200000) /\
  MakeDate (MakeDay (YearFromTime 961027200000) (MonthFromTime 961027200000) (DateFromTime 961027200000))
    (TimeWithinDay 961027200000) = 961027200000.
Proof. apply (time_roundtrip 961027200000). vm_compute. split; [discriminate | reflexivity]. Defined.

Lemma parseDateOfBirth_age_bounds_witness :
  0 <= calculateAge 1794182400000 961027200000 <= 120.
Proof.
  apply (parseDateOfBirth_age_bounds (fun _ => None) 1794182400000 "15/06/2000" 961027200000);
    [lia | vm_compute; reflexivity].
Defined.
