(* ===== verification/Filters.v ===== *)
(** * Filters: the four pixel filters of the QR localizer

    [src/lib/secure-qr-decoder.ts], lines 169-257: [applyHighContrast],
    [applyGrayscale], [applyBinarize] and [applySharpen].  Each reads the
    canvas with [getImageData], rewrites the RGBA bytes of its
    [Uint8ClampedArray] in place, and writes them back with
    [putImageData].

    - The pixel array is a [list Z] updated by index with stdpp's
      [<[i:=v]>] (a typed-array store out of range does nothing, as
      stdpp's insert) and read with [!!!] (the default 0 is never used:
      [getImageData] returns [4 * width * height] bytes and every index the
      loops read is in range, see [pixel_loop_map] and [sharpen_spec]).
    - A store into a [Uint8ClampedArray] is ToUint8Clamp: clamp to
      [0, 255], round half to even.  The stored values are rationals
      [n / d] ([avg = (r + g + b) / 3]); [to_uint8_clamp n d] is exact.
    - The loops [for (let i = 0; i < data.length; i += 4)] are
      [pixel_loop] with fuel [length data]; the nested loops of
      [applySharpen] are [sharpen_y], [sharpen_x], [sharpen_c].
    - The reference definitions [map_rgb] (a function of each pixel) and
      [sharpen_ref] (a function of each index) state what the loops
      compute; the theorems show the loops equal them.  [sharpen_ref]
      applies the [stencil] of weights at pixel coordinates
      ([sharpen_at]), written apart from the code's [kernel], so that
      [applySharpen_ref] also checks the weights and the offsets the code
      reads. *)

From Stdlib Require Import ZArith Lia Bool.
From stdpp Require Import base list.
From S2P Require Import Prelude.

Local Open Scope Z_scope.

(** ** Typed-array stores *)

(** Round [n / d] ([d > 0]) to the nearest integer, ties to even. *)
Definition round_half_even (n d : Z) : Z :=
  let q := n / d in
  let r := n mod d in
  if 2 * r <? d then q
  else if d <? 2 * r then q + 1
  else if Z.even q then q else q + 1.

(** ToUint8Clamp of the rational [n / d], [d > 0]. *)
Definition to_uint8_clamp (n d : Z) : Z :=
  if n <=? 0 then 0
  else if 255 * d <=? n then 255
  else round_half_even n d.

(** ** Pixels *)

(** [data[i] = r; data[i + 1] = g; data[i + 2] = b]. *)
Definition set3 (i : nat) (rgb : Z * Z * Z) (data : list Z) : list Z :=
  let '(r, g, b) := rgb in <[(i + 2)%nat := b]> (<[(i + 1)%nat := g]> (<[i := r]> data)).

(** [for (let i = 0; i < data.length; i += 4) body]: the iteration at [i]
    is [body i]; fuel [length data] is enough (see [pixel_loop_map]). *)
Fixpoint pixel_loop (body : nat -> list Z -> list Z) (fuel i : nat) (data : list Z) : list Z :=
  match fuel with
  | O => data
  | S f => if (i <? length data)%nat then pixel_loop body f (i + 4) (body i data) else data
  end.

(** The body that replaces the colour of the pixel at [i] by a function of
    its colour. *)
Definition rgb_body (h : Z -> Z -> Z -> Z * Z * Z) (i : nat) (data : list Z) : list Z :=
  set3 i (h (data !!! i) (data !!! (i + 1)%nat) (data !!! (i + 2)%nat)) data.

(** ** [applyHighContrast] (lines 169-181) *)

Definition contrast (v : Z) : Z := if v <? 128 then 0 else 255.

(** [for (let j = 0; j < 3; j++) data[i + j] = data[i + j] < 128 ? 0 : 255];
    [k] iterations left. *)
Fixpoint contrast_channels (k : nat) (i j : nat) (data : list Z) : list Z :=
  match k with
  | O => data
  | S k' => contrast_channels k' i (S j) (<[(i + j)%nat := contrast (data !!! (i + j)%nat)]> data)
  end.

Definition applyHighContrast (data : list Z) : list Z :=
  pixel_loop (fun i d => contrast_channels 3 i 0 d) (length data) 0 data.

(** ** [applyGrayscale] (lines 183-193) *)

(** [avg = (r + g + b) / 3; data[i] = data[i + 1] = data[i + 2] = avg]: the
    chained assignment stores the same (unclamped) [avg] three times. *)
Definition gray_body (i : nat) (data : list Z) : list Z :=
  let s := data !!! i + data !!! (i + 1)%nat + data !!! (i + 2)%nat in
  let v := to_uint8_clamp s 3 in
  set3 i (v, v, v) data.

Definition applyGrayscale (data : list Z) : list Z :=
  pixel_loop gray_body (length data) 0 data.

(** ** [applyBinarize] (lines 195-219) *)

(** [for (...; i += 4) sum += data[i]] *)
Fixpoint sum_loop (fuel i : nat) (data : list Z) (sum : Z) : Z :=
  match fuel with
  | O => sum
  | S f => if (i <? length data)%nat then sum_loop f (i + 4) data (sum + data !!! i) else sum
  end.

(** [value = data[i] < threshold ? 0 : 255] with
    [threshold = sum / (data.length / 4)]: [x < 4 sum / len] is
    [x * len < 4 sum] (the loop only runs when [len > 0]). *)
Definition binarize_body (sum len : Z) (i : nat) (data : list Z) : list Z :=
  let value := if data !!! i * len <? 4 * sum then 0 else 255 in
  set3 i (value, value, value) data.

Definition applyBinarize (data : list Z) : list Z :=
  let data := pixel_loop gray_body (length data) 0 data in
  let sum := sum_loop (length data) 0 data 0 in
  pixel_loop (binarize_body sum (Z.of_nat (length data))) (length data) 0 data.

(** ** [applySharpen] (lines 221-255) *)

(** [Math.min(255, Math.max(0, 5 * o[i] - o[i - 4w] - o[i - 4] - o[i + 4] - o[i + 4w]))] *)
Definition kernel (o : list Z) (w i : nat) : Z :=
  Z.min 255 (Z.max 0 (5 * o !!! i - o !!! (i - 4 * w)%nat - o !!! (i - 4)%nat
                      - o !!! (i + 4)%nat - o !!! (i + 4 * w)%nat)).

(** [for (let c = 0; c < 3; c++) data[idx + c] = kernel(idx + c)] *)
Fixpoint sharpen_c (k c : nat) (o : list Z) (w idx : nat) (data : list Z) : list Z :=
  match k with
  | O => data
  | S k' => sharpen_c k' (S c) o w idx (<[(idx + c)%nat := to_uint8_clamp (kernel o w (idx + c)) 1]> data)
  end.

(** [for (let x = 1; x < width - 1; x++)]; [k] iterations left. *)
Fixpoint sharpen_x (k x : nat) (o : list Z) (w y : nat) (data : list Z) : list Z :=
  match k with
  | O => data
  | S k' => if (x <? w - 1)%nat then sharpen_x k' (S x) o w y (sharpen_c 3 0 o w ((y * w + x) * 4) data)
            else data
  end.

(** [for (let y = 1; y < height - 1; y++)]; [k] iterations left. *)
Fixpoint sharpen_y (k y : nat) (o : list Z) (w h : nat) (data : list Z) : list Z :=
  match k with
  | O => data
  | S k' => if (y <? h - 1)%nat then sharpen_y k' (S y) o w h (sharpen_x w 1 o w y data) else data
  end.

(** [original = new Uint8ClampedArray(data)] is the unchanged input. *)
Definition applySharpen (w h : nat) (data : list Z) : list Z :=
  sharpen_y h 1 data w h data.

(** ** Reference definitions *)

Fixpoint pixels (l : list Z) : list (Z * Z * Z * Z) :=
  match l with
  | r :: g :: b :: a :: rest => (r, g, b, a) :: pixels rest
  | _ => []
  end.

Definition unpixels (ps : list (Z * Z * Z * Z)) : list Z :=
  List.flat_map (fun '(r, g, b, a) => [r; g; b; a]) ps.

(** The image whose colour channels are [h] of each pixel's colour, alpha
    unchanged. *)
Definition map_rgb (h : Z -> Z -> Z -> Z * Z * Z) (l : list Z) : list Z :=
  unpixels (List.map (fun '(r, g, b, a) => let '(r', g', b') := h r g b in (r', g', b', a)) (pixels l)).

(** The sum of the red channel over the pixels, as the loop of lines
    207-209 adds it. *)
Definition red_sum (ps : list (Z * Z * Z * Z)) : Z :=
  List.fold_right (fun '(r, _, _, _) acc => r + acc) 0 ps.

(** The grey level of a pixel, [(r + g + b) / 3] rounded to the nearest
    integer (never a tie), and their sum over the image. *)
Definition gray (r g b : Z) : Z := (r + g + b + 1) / 3.

Definition gray_sum (l : list Z) : Z :=
  List.fold_right (fun '(r, g, b, _) acc => gray r g b + acc) 0 (pixels l).

(** Whether byte [k] is a colour channel of an interior pixel of a
    [w] x [h] image. *)
Definition interior (w h k : nat) : bool :=
  let p := (k / 4)%nat in
  ((k mod 4 <? 3) && (1 <=? p mod w) && (p mod w <=? w - 2) &&
   (1 <=? p / w) && (p / w <=? h - 2))%nat.

(** The sharpening stencil as [(dx, dy, weight)]: the centre pixel with
    weight 5 and its four neighbours with weight -1. *)
Definition stencil : list (Z * Z * Z) := [(0, 0, 5); (0, -1, -1); (-1, 0, -1); (1, 0, -1); (0, 1, -1)].

(** Channel [c] of pixel [(x, y)] of an RGBA image [w] pixels wide. *)
Definition at_xy (o : list Z) (w : nat) (x y c : Z) : Z := o !!! Z.to_nat ((y * Z.of_nat w + x) * 4 + c).

(** The stencil applied at byte [k], clamped to [0, 255]. *)
Definition sharpen_at (o : list Z) (w k : nat) : Z :=
  let p := (k / 4)%nat in
  let x := Z.of_nat (p mod w) in
  let y := Z.of_nat (p / w) in
  let c := Z.of_nat (k mod 4) in
  Z.min 255 (Z.max 0 (fold_right (fun '(dx, dy, wt) acc => wt * at_xy o w (x + dx) (y + dy) c + acc) 0 stencil)).

Definition sharpen_ref (w h : nat) (o : list Z) : list Z :=
  imap (fun k v => if interior w h k then sharpen_at o w k else v) o.

(** A byte, and what a filter keeps of its input: the length, the alpha
    byte of every pixel, and the fact that every entry is a byte. *)
Definition byte (v : Z) : Prop := 0 <= v < 256.

Definition preserves (l out : list Z) : Prop :=
  length out = length l /\ Forall byte out /\ forall k, (k mod 4 = 3)%nat -> out !!! k = l !!! k.

(** ** Invariant of the sharpen loops *)

(** The value [applySharpen] stores at index [k]. *)
Definition sharpen_val (o : list Z) (w k : nat) : Z := to_uint8_clamp (kernel o w k) 1.

(** The colour bytes of the interior pixels visited before pixel
    [(x, y)] in row-major order. *)
Definition done_before (w y x k : nat) : Prop :=
  exists y' x' c, k = ((y' * w + x') * 4 + c)%nat /\ (c < 3)%nat /\ (1 <= x' <= w - 2)%nat /\
                  (1 <= y')%nat /\ (y' < y \/ y' = y /\ x' < x)%nat.

(** The colour bytes of all interior pixels. *)
Definition done_all (w h k : nat) : Prop :=
  exists y' x' c, k = ((y' * w + x') * 4 + c)%nat /\ (c < 3)%nat /\ (1 <= x' <= w - 2)%nat /\
                  (1 <= y' <= h - 2)%nat.

(** [d] holds the stored value on the indices of [P] and the original
    byte elsewhere. *)
Definition agrees (o : list Z) (w : nat) (P : nat -> Prop) (d : list Z) : Prop :=
  length d = length o /\
  forall k, (k < length o)%nat ->
    (P k /\ d !!! k = sharpen_val o w k) \/ (~ P k /\ d !!! k = o !!! k).

(** ** Pixels and their bytes *)

Definition px_map (h : Z -> Z -> Z -> Z * Z * Z) (p : Z * Z * Z * Z) : Z * Z * Z * Z :=
  let '(r, g, b, a) := p in let '(r', g', b') := h r g b in (r', g', b', a).

Lemma map_rgb_px h l : map_rgb h l = unpixels (List.map (px_map h) (pixels l)).
Proof. reflexivity. Qed.

Lemma unpixels_app ps qs : unpixels (ps ++ qs) = unpixels ps ++ unpixels qs.
Proof. apply List.flat_map_app. Qed.

Lemma unpixels_cons r g b a ps : unpixels ((r, g, b, a) :: ps) = [r; g; b; a] ++ unpixels ps.
Proof. reflexivity. Qed.

Lemma length_unpixels ps : length (unpixels ps) = (4 * length ps)%nat.
Proof.
  induction ps as [|[[[r g] b] a] ps IH]; [reflexivity|].
  rewrite unpixels_cons, length_app, IH. simpl. lia.
Qed.

Lemma unpixels_pixels n l : length l = (4 * n)%nat -> unpixels (pixels l) = l.
Proof.
  revert l. induction n as [|n IH]; intros l Hl.
  - destruct l; [reflexivity | simpl in Hl; lia].
  - destruct l as [|r [|g [|b [|a l]]]]; simpl in Hl; try lia.
    cbn [pixels]. rewrite unpixels_cons, IH by lia. reflexivity.
Qed.

Lemma length_pixels n l : length l = (4 * n)%nat -> length (pixels l) = n.
Proof.
  revert l. induction n as [|n IH]; intros l Hl.
  - destruct l; [reflexivity | simpl in Hl; lia].
  - destruct l as [|r [|g [|b [|a l]]]]; simpl in Hl; try lia. cbn [pixels length]. rewrite (IH l); lia.
Qed.

Lemma length_set3 i rgb l : length (set3 i rgb l) = length l.
Proof. destruct rgb as [[r g] b]. unfold set3. rewrite !length_insert. reflexivity. Qed.

(** The body at pixel [length qs] rewrites exactly that pixel. *)
Lemma rgb_body_at h qs p ps :
  rgb_body h (4 * length qs) (unpixels (qs ++ p :: ps)) = unpixels (qs ++ px_map h p :: ps).
Proof.
  destruct p as [[[r g] b] a]. rewrite !unpixels_app, !unpixels_cons.
  rewrite <- (length_unpixels qs). set (L := unpixels qs). set (R := unpixels ps). simpl app.
  assert (E0 : (L ++ r :: g :: b :: a :: R) !!! length L = r)
    by (rewrite lookup_total_app_r, Nat.sub_diag by lia; reflexivity).
  assert (E1 : (L ++ r :: g :: b :: a :: R) !!! (length L + 1)%nat = g)
    by (rewrite lookup_total_app_r, nat_add_sub_l by lia; reflexivity).
  assert (E2 : (L ++ r :: g :: b :: a :: R) !!! (length L + 2)%nat = b)
    by (rewrite lookup_total_app_r, nat_add_sub_l by lia; reflexivity).
  unfold rgb_body. rewrite E0, E1, E2. simpl px_map. destruct (h r g b) as [[r' g'] b']. unfold set3.
  rewrite !insert_app_r_alt by lia. rewrite Nat.sub_diag, !nat_add_sub_l. reflexivity.
Qed.

(** A loop whose body recolours pixel [i] computes [map_rgb]. *)
Lemma pixel_loop_map h fuel qs ps :
  (length ps <= fuel)%nat ->
  pixel_loop (rgb_body h) fuel (4 * length qs) (unpixels (List.map (px_map h) qs ++ ps)) =
  unpixels (List.map (px_map h) (qs ++ ps)).
Proof.
  revert fuel qs. induction ps as [|p ps IH]; intros fuel qs Hf.
  - rewrite !app_nil_r. destruct fuel; [reflexivity|]. cbn [pixel_loop].
    rewrite length_unpixels, length_map. rewrite (proj2 (Nat.ltb_ge _ _)) by lia. reflexivity.
  - destruct fuel as [|fuel]; [simpl in Hf; lia|]. cbn [pixel_loop].
    rewrite length_unpixels, length_app, length_map. cbn [length].
    rewrite (proj2 (Nat.ltb_lt _ _)) by lia.
    rewrite <- (length_map (px_map h) qs). rewrite rgb_body_at. rewrite length_map.
    replace (4 * length qs + 4)%nat with (4 * length (qs ++ [p]))%nat by (rewrite length_app; simpl; lia).
    replace (List.map (px_map h) qs ++ px_map h p :: ps) with (List.map (px_map h) (qs ++ [p]) ++ ps)
      by (rewrite map_app, <- app_assoc; reflexivity).
    rewrite IH by (simpl in Hf; lia). rewrite <- app_assoc. reflexivity.
Qed.

Lemma pixel_loop_ext (b1 b2 : nat -> list Z -> list Z) fuel i l :
  (forall i d, b1 i d = b2 i d) -> pixel_loop b1 fuel i l = pixel_loop b2 fuel i l.
Proof.
  intros He. revert i l. induction fuel as [|fuel IH]; intros i l; [reflexivity|].
  cbn [pixel_loop]. rewrite He, IH. reflexivity.
Qed.

(** The whole loop, from index 0 with fuel [length data]. *)
Lemma pixel_loop_spec h n l :
  length l = (4 * n)%nat -> pixel_loop (rgb_body h) (length l) 0 l = map_rgb h l.
Proof.
  intros Hl. pose proof (pixel_loop_map h (length l) [] (pixels l)) as H.
  cbn [List.map app length] in H. rewrite Nat.mul_0_r, unpixels_pixels with (n := n) in H by exact Hl.
  apply H. rewrite (length_pixels n l Hl). lia.
Qed.

Lemma map_rgb_ext (h1 h2 : Z -> Z -> Z -> Z * Z * Z) l :
  Forall (fun v => 0 <= v < 256) l ->
  (forall r g b, 0 <= r < 256 -> 0 <= g < 256 -> 0 <= b < 256 -> h1 r g b = h2 r g b) ->
  map_rgb h1 l = map_rgb h2 l.
Proof.
  intros Hl He. unfold map_rgb. f_equal. revert Hl. induction l as [l IH] using (induction_ltof1 _ (@length Z)).
  destruct l as [|r [|g [|b [|a l']]]]; intros Hl; try reflexivity.
  cbn [pixels List.map]. inversion Hl as [|? ? Hr Hl1]; inversion Hl1 as [|? ? Hg Hl2];
    inversion Hl2 as [|? ? Hb Hl3]; inversion Hl3 as [|? ? Ha Hl4]; subst.
  rewrite He by assumption. f_equal. apply IH; [unfold ltof; simpl; lia | exact Hl4].
Qed.

(** ** Stores into a [Uint8ClampedArray] *)

Lemma to_uint8_clamp_third s : 0 <= s <= 765 -> to_uint8_clamp s 3 = (s + 1) / 3.
Proof.
  intros Hs. unfold to_uint8_clamp, round_half_even.
  destruct (Z.leb_spec s 0); [assert (s = 0) by lia; subst; reflexivity|].
  destruct (Z.leb_spec (255 * 3) s); [assert (s = 765) by lia; subst; reflexivity|].
  pose proof (Z.mod_pos_bound s 3 ltac:(lia)).
  destruct (Z.ltb_spec (2 * (s mod 3)) 3); [|destruct (Z.ltb_spec 3 (2 * (s mod 3))); [|lia]];
    Z.div_mod_to_equations; lia.
Qed.

Lemma to_uint8_clamp_int v : 0 <= v <= 255 -> to_uint8_clamp v 1 = v.
Proof.
  intros Hv. unfold to_uint8_clamp, round_half_even.
  destruct (Z.leb_spec v 0); [lia|]. destruct (Z.leb_spec (255 * 1) v); [lia|].
  rewrite Z.div_1_r, Z.mod_1_r. reflexivity.
Qed.

(** ** The filters compute their reference definitions *)

Lemma contrast_channels_rgb i d :
  contrast_channels 3 i 0 d = rgb_body (fun r g b => (contrast r, contrast g, contrast b)) i d.
Proof.
  cbn [contrast_channels]. rewrite Nat.add_0_r.
  rewrite (list_lookup_total_insert_ne _ i (i + 1)%nat) by lia.
  rewrite (list_lookup_total_insert_ne _ (i + 1)%nat (i + 2)%nat), (list_lookup_total_insert_ne _ i (i + 2)%nat) by lia.
  reflexivity.
Qed.

Lemma gray_body_rgb : gray_body = rgb_body (fun r g b => let v := to_uint8_clamp (r + g + b) 3 in (v, v, v)).
Proof. reflexivity. Qed.

Lemma applyGrayscale_gray n l :
  length l = (4 * n)%nat -> Forall (fun v => 0 <= v < 256) l ->
  applyGrayscale l = map_rgb (fun r g b => (gray r g b, gray r g b, gray r g b)) l.
Proof.
  intros Hn Hl. unfold applyGrayscale. rewrite gray_body_rgb, (pixel_loop_spec _ n) by exact Hn.
  apply map_rgb_ext; [exact Hl|]. intros r g b Hr Hg Hb. cbv zeta.
  rewrite to_uint8_clamp_third by lia. reflexivity.
Qed.

Lemma pixels_unpixels ps : pixels (unpixels ps) = ps.
Proof. induction ps as [|[[[r g] b] a] ps IH]; [reflexivity|]. rewrite unpixels_cons. simpl. rewrite IH. reflexivity. Qed.

Lemma map_rgb_compose h1 h2 l :
  map_rgb h2 (map_rgb h1 l) = map_rgb (fun r g b => let '(r', g', b') := h1 r g b in h2 r' g' b') l.
Proof.
  unfold map_rgb. rewrite pixels_unpixels, List.map_map. f_equal. apply List.map_ext.
  intros [[[r g] b] a]. destruct (h1 r g b) as [[r' g'] b']. reflexivity.
Qed.

Lemma length_map_rgb n h l : length l = (4 * n)%nat -> length (map_rgb h l) = length l.
Proof. intros Hl. rewrite map_rgb_px, length_unpixels, length_map, (length_pixels n l Hl). lia. Qed.

Lemma sum_loop_red fuel qs ps acc :
  (length ps <= fuel)%nat ->
  sum_loop fuel (4 * length qs) (unpixels (qs ++ ps)) acc = acc + red_sum ps.
Proof.
  revert fuel qs acc. induction ps as [|p ps IH]; intros fuel qs acc Hf.
  - rewrite app_nil_r. destruct fuel; cbn [sum_loop]; [simpl; lia|].
    rewrite length_unpixels, (proj2 (Nat.ltb_ge _ _)) by lia. simpl. lia.
  - destruct fuel as [|fuel]; [simpl in Hf; lia|]. cbn [sum_loop].
    rewrite length_unpixels, length_app. cbn [length]. rewrite (proj2 (Nat.ltb_lt _ _)) by lia.
    destruct p as [[[r g] b] a].
    assert (Hr : unpixels (qs ++ (r, g, b, a) :: ps) !!! (4 * length qs)%nat = r).
    { rewrite unpixels_app, unpixels_cons, <- (length_unpixels qs), lookup_total_app_r, Nat.sub_diag by lia.
      reflexivity. }
    rewrite Hr. replace (4 * length qs + 4)%nat with (4 * length (qs ++ [(r, g, b, a)]))%nat
      by (rewrite length_app; simpl; lia).
    replace (qs ++ (r, g, b, a) :: ps) with ((qs ++ [(r, g, b, a)]) ++ ps) by (rewrite <- app_assoc; reflexivity).
    rewrite IH by (simpl in Hf; lia). simpl. lia.
Qed.

Lemma red_sum_gray l :
  red_sum (List.map (px_map (fun r g b => (gray r g b, gray r g b, gray r g b))) (pixels l)) = gray_sum l.
Proof.
  unfold gray_sum. induction (pixels l) as [|[[[r g] b] a] ps IH]; [reflexivity|].
  simpl. rewrite IH. reflexivity.
Qed.

Lemma applyHighContrast_map n l :
  length l = (4 * n)%nat ->
  applyHighContrast l = map_rgb (fun r g b => (contrast r, contrast g, contrast b)) l.
Proof.
  intros Hn. unfold applyHighContrast.
  erewrite pixel_loop_ext; [apply (pixel_loop_spec _ n l Hn)|]. intros i d. apply contrast_channels_rgb.
Qed.

Lemma binarize_threshold x n S :
  (if x * Z.of_nat (4 * n) <? 4 * S then 0 else 255) = (if x * Z.of_nat n <? S then 0 else 255).
Proof.
  rewrite Nat2Z.inj_mul. replace (x * (Z.of_nat 4 * Z.of_nat n)) with (4 * (x * Z.of_nat n)) by (simpl; ring).
  destruct (Z.ltb_spec (4 * (x * Z.of_nat n)) (4 * S)), (Z.ltb_spec (x * Z.of_nat n) S); lia.
Qed.

(** ** [applySharpen] *)

Lemma agrees_ext o w (P Q : nat -> Prop) d :
  (forall k, P k <-> Q k) -> agrees o w P d -> agrees o w Q d.
Proof.
  intros HPQ [Hl Hd]. split; [exact Hl|]. intros k Hk.
  destruct (Hd k Hk) as [[HP E] | [HP E]]; [left | right]; rewrite <- HPQ; auto.
Qed.

Lemma agrees_insert o w P d j :
  (j < length o)%nat -> agrees o w P d ->
  agrees o w (fun k => P k \/ k = j) (<[j := sharpen_val o w j]> d).
Proof.
  intros Hj [Hl Hd]. split; [rewrite length_insert; exact Hl|]. intros k Hk.
  destruct (Nat.eq_dec k j) as [->|Hne].
  - left. split; [right; reflexivity|]. apply list_lookup_total_insert_eq. lia.
  - rewrite list_lookup_total_insert_ne by lia.
    destruct (Hd k Hk) as [[HP E] | [HP E]]; [left | right]; split; auto; intros [H|H]; auto.
Qed.

Lemma sharpen_c_agrees o w P d idx :
  (idx + 2 < length o)%nat -> agrees o w P d ->
  agrees o w (fun k => P k \/ (idx <= k < idx + 3)%nat) (sharpen_c 3 0 o w idx d).
Proof.
  intros Hr Ha. cbn [sharpen_c].
  fold (sharpen_val o w (idx + 0)) (sharpen_val o w (idx + 1)) (sharpen_val o w (idx + 2)).
  apply (agrees_insert _ _ _ _ (idx + 0)) in Ha; [|lia].
  apply (agrees_insert _ _ _ _ (idx + 1)) in Ha; [|lia].
  apply (agrees_insert _ _ _ _ (idx + 2)) in Ha; [|lia].
  revert Ha. apply agrees_ext. intros k. split.
  - intros [[[H|H]|H]|H]; [left; exact H | right; lia ..].
  - intros [H|H]; [left; left; left; exact H|].
    assert (k = idx + 0 \/ k = idx + 1 \/ k = idx + 2)%nat as [E|[E|E]] by lia; tauto.
Qed.

Lemma done_before_step w y x k :
  (1 <= x <= w - 2)%nat -> (1 <= y)%nat ->
  done_before w y x k \/ ((y * w + x) * 4 <= k < (y * w + x) * 4 + 3)%nat <-> done_before w y (S x) k.
Proof.
  intros Hx Hy. split.
  - intros [(y' & x' & c & E & Hc & Hx' & Hy' & Ho) | Hk].
    + exists y', x', c. repeat split; try lia.
    + exists y, x, (k - (y * w + x) * 4)%nat. repeat split; lia.
  - intros (y' & x' & c & E & Hc & Hx' & Hy' & Ho).
    destruct (Nat.eq_dec y' y) as [->|Hne]; [destruct (Nat.eq_dec x' x) as [->|Hne']|].
    + right. lia.
    + left. exists y, x', c. repeat split; lia.
    + left. exists y', x', c. repeat split; lia.
Qed.

Lemma done_before_row_end w y x k :
  (w - 1 <= x)%nat -> done_before w y x k <-> done_before w (S y) 1 k.
Proof.
  intros Hx. split; intros (y' & x' & c & E & Hc & Hx' & Hy' & Ho); exists y', x', c; repeat split; lia.
Qed.

Lemma done_before_end w h y k :
  (1 <= y)%nat -> (y <= h - 1 \/ y = 1)%nat -> (h - 1 <= y)%nat ->
  done_before w y 1 k <-> done_all w h k.
Proof.
  intros H1 H2 H3. split; intros (y' & x' & c & E & Hc & Hx' & Hy' & Ho); exists y', x', c; repeat split; lia.
Qed.

Lemma pixel_index_bound w h y x c :
  (1 <= y <= h - 2)%nat -> (1 <= x <= w - 2)%nat -> (c < 4)%nat -> ((y * w + x) * 4 + c < 4 * w * h)%nat.
Proof. intros Hy Hx Hc. nia. Qed.

Lemma sharpen_x_agrees o w h y :
  length o = (4 * w * h)%nat -> (1 <= y <= h - 2)%nat ->
  forall k x d, (1 <= x)%nat -> (w - 1 - x <= k)%nat -> agrees o w (done_before w y x) d ->
  agrees o w (done_before w (S y) 1) (sharpen_x k x o w y d).
Proof.
  intros Hl Hy k. induction k as [|k IH]; intros x d Hx Hk Ha; cbn [sharpen_x].
  - revert Ha. apply agrees_ext. intros j. apply done_before_row_end. lia.
  - destruct (Nat.ltb_spec x (w - 1)) as [Hlt|Hge].
    + apply IH; [lia | lia |]. pose proof (pixel_index_bound w h y x 2 Hy ltac:(lia) ltac:(lia)).
      apply (sharpen_c_agrees _ _ _ _ ((y * w + x) * 4)) in Ha; [|lia].
      revert Ha. apply agrees_ext. intros j. apply done_before_step; lia.
    + revert Ha. apply agrees_ext. intros j. apply done_before_row_end. lia.
Qed.

Lemma sharpen_y_agrees o w h :
  length o = (4 * w * h)%nat ->
  forall k y d, (1 <= y)%nat -> (y <= h - 1 \/ y = 1)%nat -> (h - 1 - y <= k)%nat ->
  agrees o w (done_before w y 1) d -> agrees o w (done_all w h) (sharpen_y k y o w h d).
Proof.
  intros Hl k. induction k as [|k IH]; intros y d Hy1 Hy2 Hk Ha; cbn [sharpen_y].
  - revert Ha. apply agrees_ext. intros j. apply done_before_end; lia.
  - destruct (Nat.ltb_spec y (h - 1)) as [Hlt|Hge].
    + apply IH; [lia | lia | lia |]. apply (sharpen_x_agrees o w h y Hl); [lia | lia | lia | exact Ha].
    + revert Ha. apply agrees_ext. intros j. apply done_before_end; lia.
Qed.

Lemma agrees_init o w : agrees o w (done_before w 1 1) o.
Proof.
  split; [reflexivity|]. intros k _. right. split; [|reflexivity].
  intros (y' & x' & c & E & Hc & Hx' & Hy' & Ho). lia.
Qed.

Lemma interior_done_all w h k : interior w h k = true <-> done_all w h k.
Proof.
  unfold interior. rewrite !andb_true_iff, !Nat.ltb_lt, !Nat.leb_le. split.
  - intros [[[[Hc Hx1] Hx2] Hy1] Hy2].
    assert (Hw : w <> 0%nat) by (intros ->; simpl in *; lia).
    exists ((k / 4) / w)%nat, ((k / 4) mod w)%nat, (k mod 4)%nat. repeat split; try lia.
    rewrite (Nat.mul_comm (k / 4 / w) w), <- Nat.div_mod by exact Hw.
    rewrite Nat.mul_comm. apply Nat.div_mod. lia.
  - intros (y' & x' & c & -> & Hc & Hx & Hy).
    assert (E4 : (((y' * w + x') * 4 + c) / 4 = y' * w + x' /\ ((y' * w + x') * 4 + c) mod 4 = c)%nat).
    { split; [symmetry; apply (Nat.div_unique _ _ _ c) | symmetry; apply (Nat.mod_unique _ _ (y' * w + x'))]; lia. }
    destruct E4 as [-> ->].
    assert (Ew : ((y' * w + x') / w = y' /\ (y' * w + x') mod w = x')%nat).
    { split; [symmetry; apply (Nat.div_unique _ _ _ x') | symmetry; apply (Nat.mod_unique _ _ y')]; lia. }
    destruct Ew as [-> ->]. lia.
Qed.

Lemma kernel_range o w k : 0 <= kernel o w k <= 255.
Proof. unfold kernel. lia. Qed.

Lemma applySharpen_agrees w h o :
  length o = (4 * w * h)%nat -> agrees o w (done_all w h) (applySharpen w h o).
Proof. intros Hl. apply (sharpen_y_agrees o w h Hl); [lia | lia | lia | apply agrees_init]. Qed.

Lemma to_uint8_clamp_range n d : 0 < d -> 0 <= to_uint8_clamp n d <= 255.
Proof.
  intros Hd. unfold to_uint8_clamp, round_half_even.
  destruct (Z.leb_spec n 0); [lia|]. destruct (Z.leb_spec (255 * d) n); [lia|].
  assert (0 <= n / d < 255) by (split; [apply Z.div_pos | apply Z.div_lt_upper_bound]; lia).
  repeat case_if; lia.
Qed.

Lemma done_all_channel w h k : done_all w h k -> (k mod 4 < 3)%nat.
Proof.
  intros (y & x & c & -> & Hc & _). rewrite Nat.add_comm, Nat.Div0.mod_add.
  rewrite Nat.mod_small; lia.
Qed.


(** The bytes the kernel reads around an interior byte are in the image. *)
Lemma interior_neighbours w h k :
  interior w h k = true -> (k + 4 * w < 4 * w * h)%nat /\ (k + 4 < 4 * w * h)%nat.
Proof.
  intros Hi. apply interior_done_all in Hi. destruct Hi as (y & x & c & -> & Hc & Hx & Hy). nia.
Qed.



(** ** What every filter preserves: the length, the alpha channel, bytes *)

Lemma map_rgb_alpha h ps k :
  (k mod 4 = 3)%nat -> unpixels (List.map (px_map h) ps) !!! k = unpixels ps !!! k.
Proof.
  revert k. induction ps as [|[[[r g] b] a] ps IH]; intros k Hk; [reflexivity|].
  cbn [List.map px_map]. destruct (h r g b) as [[r' g'] b'].
  rewrite !unpixels_cons. destruct (Nat.lt_ge_cases k 4) as [Hlt|Hge].
  - assert (k = 3%nat) as -> by (destruct k as [|[|[|[|k]]]]; simpl in Hk; lia). reflexivity.
  - rewrite !lookup_total_app_r by (simpl; lia). apply IH. cbn [length].
    replace k with ((k - 4) + 1 * 4)%nat in Hk by lia. rewrite Nat.Div0.mod_add in Hk. exact Hk.
Qed.

Lemma map_rgb_bytes h l :
  Forall byte l ->
  (forall r g b, byte r -> byte g -> byte b -> let '(r', g', b') := h r g b in byte r' /\ byte g' /\ byte b') ->
  Forall byte (map_rgb h l).
Proof.
  intros Hl Hh. unfold map_rgb. revert Hl. induction l as [l IH] using (induction_ltof1 _ (@length Z)).
  destruct l as [|r [|g [|b [|a l']]]]; intros Hl; try constructor.
  cbn [pixels List.map]. inversion Hl as [|? ? Hr Hl1]; inversion Hl1 as [|? ? Hg Hl2];
    inversion Hl2 as [|? ? Hb Hl3]; inversion Hl3 as [|? ? Ha Hl4]; subst.
  specialize (Hh r g b Hr Hg Hb). destruct (h r g b) as [[r' g'] b'] eqn:E. destruct Hh as (H1 & H2 & H3).
  cbv beta iota. rewrite unpixels_cons. apply Forall_app. split; [repeat (apply List.Forall_cons; [assumption|]); apply List.Forall_nil|].
  apply IH; [unfold ltof; simpl; lia | exact Hl4].
Qed.

Lemma map_rgb_preserves n h l :
  length l = (4 * n)%nat -> Forall byte l ->
  (forall r g b, byte r -> byte g -> byte b -> let '(r', g', b') := h r g b in byte r' /\ byte g' /\ byte b') ->
  preserves l (map_rgb h l).
Proof.
  intros Hn Hl Hh. split; [apply (length_map_rgb n), Hn|]. split; [apply map_rgb_bytes; assumption|].
  intros k Hk. rewrite map_rgb_px, map_rgb_alpha, (unpixels_pixels n l Hn) by exact Hk. reflexivity.
Qed.

Lemma sharpen_at_range o w k : 0 <= sharpen_at o w k <= 255.
Proof. unfold sharpen_at. lia. Qed.

Lemma at_xy_eq o w X Y C n : Z.of_nat n = (Y * Z.of_nat w + X) * 4 + C -> at_xy o w X Y C = o !!! n.
Proof. unfold at_xy. intros <-. rewrite Nat2Z.id. reflexivity. Qed.

(** On an interior byte the stencil reads the bytes the kernel of the
    code reads: [i], [i - 4w], [i - 4], [i + 4], [i + 4w]. *)
Lemma sharpen_at_kernel w h o k : interior w h k = true -> sharpen_at o w k = kernel o w k.
Proof.
  unfold interior. intros E. repeat (apply andb_true_iff in E as [E ?]).
  repeat match goal with H : (_ <? _)%nat = true |- _ => apply Nat.ltb_lt in H
                       | H : (_ <=? _)%nat = true |- _ => apply Nat.leb_le in H end.
  pose proof (Nat.div_mod k 4 ltac:(lia)) as Hk.
  assert (Hw : (w <> 0)%nat) by lia. pose proof (Nat.div_mod (k / 4) w Hw) as Hp.
  remember (k / 4)%nat as p. remember (p / w)%nat as y. remember (p mod w)%nat as x. remember (k mod 4)%nat as c.
  unfold sharpen_at, kernel. rewrite <- Heqp, <- Heqy, <- Heqx, <- Heqc. cbn [fold_right stencil].
  rewrite (at_xy_eq o w _ _ _ k), (at_xy_eq o w _ _ _ (k - 4 * w)), (at_xy_eq o w _ _ _ (k - 4)),
    (at_xy_eq o w _ _ _ (k + 4)), (at_xy_eq o w _ _ _ (k + 4 * w)) by nia.
  lia.
Qed.

Lemma sharpen_ref_preserves w h l : Forall byte l -> preserves l (sharpen_ref w h l).
Proof.
  intros Hl. unfold sharpen_ref. split; [apply length_imap|]. split.
  - apply Forall_lookup_2. intros k x Hx. rewrite list_lookup_imap in Hx.
    destruct (l !! k) as [v|] eqn:Ev; [|discriminate]. simpl in Hx. injection Hx as <-.
    destruct (interior w h k); [pose proof (sharpen_at_range l w k); unfold byte; lia|].
    eapply Forall_lookup_1; eassumption.
  - intros k Hk. rewrite !list_lookup_total_alt, list_lookup_imap.
    destruct (l !! k); [|reflexivity]. simpl. destruct (interior w h k) eqn:Ei; [|reflexivity].
    unfold interior in Ei. rewrite !andb_true_iff, Nat.ltb_lt in Ei. lia.
Qed.

(** Each filter computes its reference definition and keeps the length,
    the alpha channel and the byte range of a [w] x [h] image. *)
Lemma applyHighContrast_preserves n l :
  length l = (4 * n)%nat -> Forall byte l -> preserves l (applyHighContrast l).
Proof.
  intros Hn Hl. rewrite (applyHighContrast_map n l Hn). apply (map_rgb_preserves n); [exact Hn | exact Hl|].
  intros r g b _ _ _. unfold contrast, byte. repeat case_if; lia.
Qed.

Lemma gray_byte r g b : byte r -> byte g -> byte b -> byte (gray r g b).
Proof. unfold byte, gray. intros. Z.div_mod_to_equations. lia. Qed.

Lemma applyGrayscale_preserves n l :
  length l = (4 * n)%nat -> Forall byte l -> preserves l (applyGrayscale l).
Proof.
  intros Hn Hl. rewrite (applyGrayscale_gray n l Hn Hl). apply (map_rgb_preserves n); [exact Hn | exact Hl|].
  intros r g b Hr Hg Hb. pose proof (gray_byte r g b Hr Hg Hb). tauto.
Qed.

Lemma preserves_trans l m o : preserves l m -> preserves m o -> preserves l o.
Proof.
  intros (H1 & H2 & H3) (H4 & H5 & H6). split; [lia|]. split; [exact H5|].
  intros k Hk. rewrite H6, H3 by exact Hk. reflexivity.
Qed.

Lemma applyBinarize_preserves n l :
  length l = (4 * n)%nat -> Forall byte l -> preserves l (applyBinarize l).
Proof.
  intros Hn Hl. pose proof (applyGrayscale_preserves n l Hn Hl) as HG.
  unfold applyBinarize. change (pixel_loop gray_body (length l) 0 l) with (applyGrayscale l).
  set (G := applyGrayscale l) in *. destruct HG as [HGl [HGb HGa]].
  apply (preserves_trans l G); [split; [exact HGl | split; assumption]|].
  set (S := sum_loop (length G) 0 G 0).
  rewrite (pixel_loop_ext _ (rgb_body (fun r _ _ =>
    let v := if r * Z.of_nat (length G) <? 4 * S then 0 else 255 in (v, v, v)))) by reflexivity.
  rewrite (pixel_loop_spec _ n G) by lia. apply (map_rgb_preserves n); [lia | exact HGb |].
  intros r g b _ _ _. cbv zeta. unfold byte. case_if; lia.
Qed.

Lemma applySharpen_preserves w h l :
  length l = (4 * w * h)%nat -> Forall byte l -> preserves l (applySharpen w h l).
Proof.
  intros Hn Hl. destruct (applySharpen_agrees w h l Hn) as [Hlen Hk].
  split; [exact Hlen|]. split.
  - apply Forall_lookup_2. intros k x Hx.
    assert (Hlt : (k < length l)%nat) by (rewrite <- Hlen; eapply lookup_lt_Some; eassumption).
    apply list_lookup_total_correct in Hx. subst x.
    destruct (Hk k Hlt) as [[_ E]|[_ E]]; rewrite E.
    + pose proof (to_uint8_clamp_range (kernel l w k) 1 ltac:(lia)). unfold byte, sharpen_val. lia.
    + apply Forall_lookup_1 with (l := l) (i := k); [exact Hl|]. apply list_lookup_lookup_total_lt, Hlt.
  - intros k Hk4. destruct (Nat.lt_ge_cases k (length l)) as [Hlt|Hge].
    + destruct (Hk k Hlt) as [[HP _]|[_ E]]; [apply done_all_channel in HP; lia | exact E].
    + rewrite !list_lookup_total_alt, !lookup_ge_None_2 by lia. reflexivity.
Qed.

(** ** Properties *)

(** [applyGrayscale] replaces the colour of every pixel by the grey
    level nearest to the mean [(r + g + b) / 3] (the [Uint8ClampedArray]
    store rounds; a third is never a tie), in all three channels, and keeps
    its alpha byte. *)
Theorem applyGrayscale_nearest n l :
  length l = (4 * n)%nat -> Forall byte l ->
  Forall2 (fun p q => let '(r, g, b, a) := p in let '(r', g', b', a') := q in
                      r' = g' /\ g' = b' /\ a' = a /\ -1 <= 3 * r' - (r + g + b) <= 1)
          (pixels l) (pixels (applyGrayscale l)).
Proof.
  intros Hn Hl. rewrite (applyGrayscale_gray n l Hn Hl), map_rgb_px, pixels_unpixels.
  induction (pixels l) as [|[[[r g] b] a] ps IH]; constructor; [|exact IH].
  cbn. unfold gray. repeat split; Z.div_mod_to_equations; lia.
Qed.

(** C10: [applyBinarize] is a global-mean threshold: every colour byte of
    a pixel becomes 0 when its grey level is below the mean grey level of
    the image ([gray * n < sum of the grey levels], [n] pixels) and 255
    otherwise; the alpha bytes are kept. *)
Theorem applyBinarize_rgb n l :
  length l = (4 * n)%nat -> Forall (fun v => 0 <= v < 256) l ->
  applyBinarize l =
  map_rgb (fun r g b => let v := if gray r g b * Z.of_nat n <? gray_sum l then 0 else 255 in (v, v, v)) l.
Proof.
  intros Hn Hl. unfold applyBinarize.
  change (pixel_loop gray_body (length l) 0 l) with (applyGrayscale l).
  rewrite (applyGrayscale_gray n l Hn Hl).
  set (G := map_rgb (fun r g b => (gray r g b, gray r g b, gray r g b)) l).
  assert (HG : length G = (4 * n)%nat) by (unfold G; rewrite (length_map_rgb n) by exact Hn; exact Hn).
  assert (HS : sum_loop (length G) 0 G 0 = gray_sum l).
  { pose proof (sum_loop_red (length G) [] (List.map (px_map (fun r g b => (gray r g b, gray r g b, gray r g b))) (pixels l)) 0) as H.
    cbn [length app] in H. rewrite Nat.mul_0_r in H. change (unpixels (List.map _ (pixels l))) with G in H.
    rewrite H, red_sum_gray; [reflexivity|].
    rewrite length_map, (length_pixels n l Hn), HG. lia. }
  rewrite HS.
  rewrite (pixel_loop_ext _ (rgb_body (fun r _ _ =>
    let v := if r * Z.of_nat (length G) <? 4 * gray_sum l then 0 else 255 in (v, v, v)))) by reflexivity.
  rewrite (pixel_loop_spec _ n G HG), HG. unfold G. rewrite map_rgb_compose. apply map_rgb_ext; [exact Hl|]. intros r g b _ _ _.
  cbv zeta. rewrite binarize_threshold. reflexivity.
Qed.

(** C9: The nested loops of [applySharpen] compute the reference
    definition: every colour byte of an interior pixel (not on the first or
    last row or column) becomes the clamped value of the stencil
    [5 c - up - left - right - down] read from the original bytes at the
    pixel's coordinates; every other byte is kept. *)
Theorem applySharpen_ref w h o :
  length o = (4 * w * h)%nat -> applySharpen w h o = sharpen_ref w h o.
Proof.
  intros Hl. destruct (applySharpen_agrees w h o Hl) as [Hlen Hk].
  apply list_eq. intros k. unfold sharpen_ref. rewrite list_lookup_imap.
  destruct (Nat.lt_ge_cases k (length o)) as [Hlt|Hge].
  - rewrite (list_lookup_lookup_total_lt (applySharpen w h o)), (list_lookup_lookup_total_lt o) by lia.
    simpl. f_equal. destruct (interior w h k) eqn:Ei.
    + pose proof Ei as Ei'. apply interior_done_all in Ei. destruct (Hk k Hlt) as [[_ E]|[HP _]]; [|contradiction].
      rewrite E, (sharpen_at_kernel w h o k Ei'). unfold sharpen_val. apply to_uint8_clamp_int, kernel_range.
    + destruct (Hk k Hlt) as [[HP _]|[_ E]]; [|exact E].
      apply interior_done_all in HP. congruence.
  - rewrite !lookup_ge_None_2 by lia. reflexivity.
Qed.

(** Sharpening leaves an image of one uniform byte value unchanged:
    every read of the kernel lies inside the image (the default of [!!!]
    is never used), and [5 v - 4 v = v]. *)
Theorem applySharpen_uniform w h v :
  0 <= v <= 255 -> applySharpen w h (replicate (4 * w * h) v) = replicate (4 * w * h) v.
Proof.
  intros Hv. destruct (applySharpen_agrees w h (replicate (4 * w * h) v) (length_replicate _ _)) as [Hlen Hk].
  rewrite length_replicate in Hlen, Hk. apply list_eq. intros k.
  destruct (Nat.lt_ge_cases k (4 * w * h)) as [Hlt|Hge].
  - rewrite list_lookup_lookup_total_lt by lia. rewrite lookup_replicate_2 by exact Hlt. f_equal.
    destruct (Hk k Hlt) as [[HP E]|[_ E]]; rewrite E; [|apply lookup_total_replicate_2, Hlt].
    destruct HP as (y & x & c & -> & Hc & Hx & Hy). unfold sharpen_val, kernel.
    rewrite !lookup_total_replicate_2 by nia. rewrite to_uint8_clamp_int; lia.
  - rewrite !lookup_ge_None_2 by (rewrite ?length_replicate; lia). reflexivity.
Qed.

(** The threshold is strict: on an image of one uniform grey level
    every pixel equals the mean, none is below it, and the whole image
    becomes white, black included. *)
Example applyBinarize_uniform_black :
  applyBinarize [0; 0; 0; 255; 0; 0; 0; 255] = [255; 255; 255; 255; 255; 255; 255; 255].
Proof. vm_compute. reflexivity. Qed.

(** Witnesses. *)
Lemma applyGrayscale_nearest_witness :
  Forall2 (fun p q => let '(r, g, b, a) := p in let '(r', g', b', a') := q in
                      r' = g' /\ g' = b' /\ a' = a /\ -1 <= 3 * r' - (r + g + b) <= 1)
          (pixels [1; 1; 2; 255; 10; 20; 31; 0]) (pixels (applyGrayscale [1; 1; 2; 255; 10; 20; 31; 0])).
Proof. apply (applyGrayscale_nearest 2); [reflexivity | repeat constructor; lia]. Defined.

Lemma applyBinarize_rgb_witness :
  applyBinarize [1; 1; 2; 255; 10; 20; 31; 0] =
  map_rgb (fun r g b => let v := if gray r g b * Z.of_nat 2 <? gray_sum [1; 1; 2; 255; 10; 20; 31; 0]
                                 then 0 else 255 in (v, v, v)) [1; 1; 2; 255; 10; 20; 31; 0].
Proof. apply (applyBinarize_rgb 2); [reflexivity | repeat constructor; lia]. Defined.

Lemma applySharpen_ref_witness :
  applySharpen 3 3 (List.map Z.of_nat (seq 0 36)) = sharpen_ref 3 3 (List.map Z.of_nat (seq 0 36)).
Proof. apply applySharpen_ref. reflexivity. Defined.

Lemma applySharpen_uniform_witness :
  applySharpen 3 3 (replicate (4 * 3 * 3) 7) = replicate (4 * 3 * 3) 7.
Proof. apply applySharpen_uniform. lia. Defined.
