(* ===== verification/Localizer.v ===== *)
(** * Localizer: [tryMultipleProcessingMethods]

    [src/lib/secure-qr-decoder.ts], lines 105-166.  The method draws the
    image on the canvas at four sizes; at each size it applies each of
    five processing methods (lines 119-125) to a freshly drawn canvas and
    calls the [jsQR] detector twice, without and with inversion; it
    returns the first decoded text, or [null] after the 40 attempts.

    - The image, the canvas rasteriser ([clearRect] then [drawImage] at a
      size) and the detector are the Section's variables [img_width],
      [img_height], [draw] and [jsQR]: the first two are browser services,
      [jsQR] a library.  An exception thrown by [jsQR] is caught by the
      loop (lines 147-160) and has the same effect as no result, so
      [jsQR] returns an [option].
    - The canvas size is an [unsigned long]: [800 * (h / w)] is computed
      in binary64 ([Double]), truncated to an integer and taken modulo
      2^32, and a division by a zero width gives [Infinity] or [NaN],
      which become 0.  The rounding matters: a 5 x 23 image gets the
      height 3679 at the width 800, where [800 * 23 / 5 = 3680]
      ([scaled_rounding]).  The image's sides are [unsigned long]s too,
      below 2^32.
    - [getImageData] with a zero width or height throws an
      [IndexSizeError]; the filters call it first (lines 170, 184, 196,
      222) and so does line 141.  That exception is not caught inside the
      loop: it ends the search ([Thrown]).
    - The absent 2D context ([this.ctx] null, on the server) is the
      Boolean [has_ctx]. *)

From Stdlib Require Import ZArith List Lia Bool.
From Stdlib Require String Ascii.
From Stdlib Require Import QArith Qround.
From S2P Require Import Prelude Double Filters.
Import ListNotations String.StringSyntax.

Local Open Scope Z_scope.

(** ** The strategy table of lines 111-144 *)

Record Size := mkSize { size_width : Z; size_height : Z }.

Inductive Method := original | highContrast | grayscale | binarize | sharpen.

Inductive Inversion := dontInvert | attemptBoth.

(** [canvas.height = k * (img.height / img.width)]: the quotient and the
    product are binary64 operations ([Double.round64]), and the
    [unsigned long] attribute truncates the result and takes it modulo
    2^32; a zero width gives [Infinity] or [NaN], which become 0. *)
Definition scaled (k w h : Z) : Z :=
  if w <=? 0 then 0 else Qfloor (round64 (inject_Z k * round64 (h # Z.to_pos w))) mod 2 ^ 32.

(** [sizes] (lines 111-116). *)
Definition sizes (w h : Z) : list Size :=
  [mkSize w h; mkSize 800 (scaled 800 w h); mkSize 1000 (scaled 1000 w h); mkSize 1200 (scaled 1200 w h)].

(** [processingMethods] (lines 119-125), in order. *)
Definition processingMethods : list Method := [original; highContrast; grayscale; binarize; sharpen].

(** [inversionMethods] (line 144). *)
Definition inversionMethods : list Inversion := [dontInvert; attemptBoth].

(** ** Canvas operations *)

(** [getImageData(0, 0, w, h)]: [None] is the [IndexSizeError] of a zero
    dimension. *)
Definition getImageData (w h : Z) (canvas : list Z) : option (list Z) :=
  if (w =? 0) || (h =? 0) then None else Some canvas.

(** [method.process(ctx)]: every filter reads the canvas with
    [getImageData] and writes it back with [putImageData]. *)
Definition process (m : Method) (w h : Z) (canvas : list Z) : option (list Z) :=
  match m with
  | original => Some canvas
  | highContrast => let? d := getImageData w h canvas in Some (applyHighContrast d)
  | grayscale => let? d := getImageData w h canvas in Some (applyGrayscale d)
  | binarize => let? d := getImageData w h canvas in Some (applyBinarize d)
  | sharpen => let? d := getImageData w h canvas in Some (applySharpen (Z.to_nat w) (Z.to_nat h) d)
  end.

(** The outcome of the search: a decoded text, [null], or an exception. *)
Inductive LocError := NoContext | IndexSizeError.

Inductive LocResult :=
| Found (s : String.string)
| NotFound
| Thrown (e : LocError).

Section Search.
(** The image's dimensions. *)
Variables img_width img_height : Z.
(** The canvas bytes after [clearRect] and [drawImage(img, 0, 0, w, h)]. *)
Variable draw : Z -> Z -> list Z.
(** [jsQR(data, width, height, {inversionAttempts})]: the decoded text. *)
Variable jsQR : list Z -> Z -> Z -> Inversion -> option String.string.

(** The innermost loop (lines 146-161). *)
Fixpoint try_inversions (data : list Z) (w h : Z) (invs : list Inversion) : option String.string :=
  match invs with
  | [] => None
  | inv :: rest =>
      match jsQR data w h inv with
      | Some s => Some s
      | None => try_inversions data w h rest
      end
  end.

(** The loop over the processing methods at one size (lines 132-162);
    [NotFound] means "go on with the next size". *)
Fixpoint try_methods (w h : Z) (ms : list Method) : LocResult :=
  match ms with
  | [] => NotFound
  | m :: rest =>
      match process m w h (draw w h) with
      | None => Thrown IndexSizeError
      | Some canvas =>
          match getImageData w h canvas with
          | None => Thrown IndexSizeError
          | Some imageData =>
              match try_inversions imageData w h inversionMethods with
              | Some s => Found s
              | None => try_methods w h rest
              end
          end
      end
  end.

(** The outer loop over the sizes (lines 128-163). *)
Fixpoint try_sizes (szs : list Size) : LocResult :=
  match szs with
  | [] => NotFound
  | sz :: rest =>
      match try_methods (size_width sz) (size_height sz) processingMethods with
      | NotFound => try_sizes rest
      | r => r
      end
  end.

Definition tryMultipleProcessingMethods (has_ctx : bool) : LocResult :=
  if negb has_ctx then Thrown NoContext
  else try_sizes (sizes img_width img_height).

End Search.

(** ** The specification's view: a static table of strategies *)

(** A strategy: a size, a pre-filter and an inversion mode. *)
Definition Strategy : Type := Size * Method * Inversion.

(** Sizes outer, filters inner, inversion innermost (spec 4.2). *)
Definition strategy_table (szs : list Size) : list Strategy :=
  flat_map (fun sz => flat_map (fun m => map (fun inv => (sz, m, inv)) inversionMethods) processingMethods) szs.

(** The filter of a method, as a function of the canvas. *)
Definition filter (m : Method) (w h : Z) (d : list Z) : list Z :=
  match m with
  | original => d
  | highContrast => applyHighContrast d
  | grayscale => applyGrayscale d
  | binarize => applyBinarize d
  | sharpen => applySharpen (Z.to_nat w) (Z.to_nat h) d
  end.

Section Spec.
Variable draw : Z -> Z -> list Z.
Variable jsQR : list Z -> Z -> Z -> Inversion -> option String.string.

(** The first strategy of the table at which the detector succeeds. *)
Fixpoint first_success (t : list Strategy) : option String.string :=
  match t with
  | [] => None
  | (sz, m, inv) :: rest =>
      let w := size_width sz in
      let h := size_height sz in
      match jsQR (filter m w h (draw w h)) w h inv with
      | Some s => Some s
      | None => first_success rest
      end
  end.
End Spec.

(** ** The search visits the table in order *)

(** ** The scaled heights *)

(** When the width is at most 800 times the height, every scaled height is
    at least 1, and below 2^32 when [1200 * h] is. *)
Lemma scaled_pos k w h :
  0 < w -> 0 < h -> w <= 800 * h -> 1200 * h < 2 ^ 32 -> 800 <= k <= 1200 -> 0 < scaled k w h.
Proof.
  intros Hw Hh Hr Hb Hk. unfold scaled. rewrite (proj2 (Z.leb_gt w 0)) by lia.
  assert (Hq : (0 <= h # Z.to_pos w)%Q) by (unfold Qle; simpl; lia).
  assert (Hlo : 1 <= Qfloor (round64 (inject_Z k * round64 (h # Z.to_pos w)))).
  { apply floor_ge. apply Qle_trans with (round64 (inject_Z 800 * round64 (1 # 800)));
      [apply Qle_bool_iff; vm_compute; reflexivity|].
    apply round64_mul_mono; [lia | unfold Qle; simpl; lia |]. unfold Qle. simpl. rewrite Z2Pos.id; lia. }
  assert (Hhi : Qfloor (round64 (inject_Z k * round64 (h # Z.to_pos w))) < 2 ^ 32).
  { apply floor_lt. apply Qle_lt_trans with (round64 (inject_Z 1200 * round64 (inject_Z 3579139))); [|vm_compute; reflexivity].
    apply round64_mul_mono; [lia | exact Hq |]. unfold Qle. simpl. rewrite Z2Pos.id; nia. }
  rewrite Z.mod_small; lia.
Qed.

(** On an image more than 800 times wider than high, the height at the
    width 800 is 0. *)
Lemma scaled_wide w h : 0 < h -> 800 * h < w < 2 ^ 32 -> scaled 800 w h = 0.
Proof.
  intros Hh Hr. unfold scaled. rewrite (proj2 (Z.leb_gt w 0)) by lia.
  assert (Hq : (0 <= h # Z.to_pos w)%Q) by (unfold Qle; simpl; lia).
  assert (Hlo : 0 <= Qfloor (round64 (inject_Z 800 * round64 (h # Z.to_pos w)))).
  { apply floor_ge, round64_nonneg, Qmult_le_0_compat; [unfold Qle; simpl; lia | apply round64_nonneg, Hq]. }
  assert (Hhi : Qfloor (round64 (inject_Z 800 * round64 (h # Z.to_pos w))) < 1).
  { apply floor_lt. apply Qle_lt_trans with (round64 (inject_Z 800 * round64 (4294967295 # 3435973836800)));
      [|vm_compute; reflexivity].
    apply round64_mul_mono; [lia | exact Hq |]. unfold Qle. simpl. rewrite Z2Pos.id; nia. }
  replace (Qfloor _) with 0 by lia. reflexivity.
Qed.

(** The rounding of [800 * (23 / 5)] to 3679.9999999999995. *)
Example scaled_rounding : scaled 800 5 23 = 3679 /\ 800 * 23 / 5 = 3680.
Proof. split; vm_compute; reflexivity. Qed.

Section Refinement.
Variable draw : Z -> Z -> list Z.
Variable jsQR : list Z -> Z -> Z -> Inversion -> option String.string.

Definition nonzero (sz : Size) : Prop := size_width sz <> 0 /\ size_height sz <> 0.

(** The strategies of one size, in the order of the two inner loops. *)
Definition size_strategies (sz : Size) (ms : list Method) : list Strategy :=
  flat_map (fun m => map (fun inv => (sz, m, inv)) inversionMethods) ms.

Definition found_or (r : LocResult) (o : option String.string) : LocResult :=
  match o with Some s => Found s | None => r end.

Lemma first_success_app t1 t2 :
  first_success draw jsQR (t1 ++ t2) =
  match first_success draw jsQR t1 with Some s => Some s | None => first_success draw jsQR t2 end.
Proof.
  induction t1 as [|[[sz m] inv] t1 IH]; [reflexivity|]. cbn [app first_success].
  destruct (jsQR _ _ _ _); [reflexivity | exact IH].
Qed.

Lemma process_nonzero m w h c : w <> 0 -> h <> 0 -> process m w h c = Some (filter m w h c).
Proof.
  intros Hw Hh. unfold process, getImageData.
  rewrite (proj2 (Z.eqb_neq w 0) Hw), (proj2 (Z.eqb_neq h 0) Hh). destruct m; reflexivity.
Qed.

Lemma getImageData_nonzero w h c : w <> 0 -> h <> 0 -> getImageData w h c = Some c.
Proof. intros Hw Hh. unfold getImageData. rewrite (proj2 (Z.eqb_neq w 0) Hw), (proj2 (Z.eqb_neq h 0) Hh). reflexivity. Qed.

Lemma try_inversions_table w h m invs :
  try_inversions jsQR (filter m w h (draw w h)) w h invs =
  first_success draw jsQR (map (fun inv => (mkSize w h, m, inv)) invs).
Proof. induction invs as [|inv invs IH]; [reflexivity|]. cbn. destruct (jsQR _ _ _ _); [reflexivity | exact IH]. Qed.

Lemma try_methods_table w h ms :
  w <> 0 -> h <> 0 ->
  try_methods draw jsQR w h ms = found_or NotFound (first_success draw jsQR (size_strategies (mkSize w h) ms)).
Proof.
  intros Hw Hh. induction ms as [|m ms IH]; [reflexivity|]. cbn [try_methods size_strategies flat_map].
  rewrite process_nonzero, getImageData_nonzero by assumption.
  rewrite first_success_app, <- try_inversions_table.
  destruct (try_inversions _ _ _ _ _); [reflexivity | exact IH].
Qed.

Lemma try_sizes_table szs :
  Forall nonzero szs ->
  try_sizes draw jsQR szs = found_or NotFound (first_success draw jsQR (strategy_table szs)).
Proof.
  induction szs as [|[w h] szs IH]; intros Hnz; [reflexivity|]. inversion Hnz as [|? ? [Hw Hh] Hnz']; subst.
  cbn [try_sizes strategy_table flat_map]. cbn [size_width size_height] in *.
  rewrite (try_methods_table w h processingMethods Hw Hh), first_success_app.
  fold (strategy_table szs). fold (size_strategies (mkSize w h) processingMethods).
  destruct (first_success draw jsQR (size_strategies (mkSize w h) processingMethods)); [reflexivity | exact (IH Hnz')].
Qed.

Lemma sizes_nonzero w h : 0 < w -> 0 < h -> w <= 800 * h -> 1200 * h < 2 ^ 32 -> Forall nonzero (sizes w h).
Proof.
  intros Hw Hh Hr Hb. unfold sizes, nonzero.
  repeat apply List.Forall_cons; try apply List.Forall_nil; cbn [size_width size_height];
    (split; [lia|]); try lia; apply Z.neq_sym, Z.lt_neq, scaled_pos; lia.
Qed.
End Refinement.

(** ** Properties *)

(** C7: When every size of the table is a real canvas (the width of the
    image is at most 800 times its height, so that no scaled height is
    truncated to 0, and [1200 * height] is below 2^32, so that no scaled
    height wraps around to 0 as an [unsigned long]),
    [tryMultipleProcessingMethods] returns the text the
    detector decodes at the first strategy of the table (sizes outer,
    filters inner, inversion innermost) where it succeeds, and [null]
    when it fails on all 40. *)
Theorem tryMultiple_refines img_width img_height draw jsQR :
  0 < img_width -> 0 < img_height -> img_width <= 800 * img_height -> 1200 * img_height < 2 ^ 32 ->
  tryMultipleProcessingMethods img_width img_height draw jsQR true =
  found_or NotFound (first_success draw jsQR (strategy_table (sizes img_width img_height))).
Proof.
  intros Hw Hh Hr Hb. unfold tryMultipleProcessingMethods. cbn [negb].
  apply try_sizes_table, sizes_nonzero; assumption.
Qed.

(** On an image more than 800 times wider than high, the second size
    has height [800 * h / w = 0]; [getImageData] throws there, and the
    exception ends the search: unless the native size succeeds, the result
    is the [IndexSizeError], whatever the detector would find at the sizes
    1000 and 1200.  The specification asks for every combination to be
    tried and for [NoSymbolFoundError] only when none succeeds. *)
Theorem tryMultiple_wide_image img_width img_height draw jsQR :
  0 < img_height -> 800 * img_height < img_width < 2 ^ 32 ->
  tryMultipleProcessingMethods img_width img_height draw jsQR true =
  found_or (Thrown IndexSizeError) (first_success draw jsQR (strategy_table [mkSize img_width img_height])).
Proof.
  intros Hh Hr. unfold tryMultipleProcessingMethods, sizes. cbn [negb try_sizes size_width size_height].
  rewrite (try_methods_table draw jsQR img_width img_height processingMethods) by lia.
  unfold strategy_table. cbn [flat_map]. rewrite app_nil_r. fold (size_strategies (mkSize img_width img_height) processingMethods).
  destruct (first_success draw jsQR (size_strategies (mkSize img_width img_height) processingMethods)); [reflexivity|].
  cbn [found_or try_sizes try_methods size_width size_height].
  rewrite scaled_wide by lia. reflexivity.
Qed.

(** Every processing method keeps what the detector relies on: on a
    canvas of [4 * w * h] bytes it returns as many bytes, all of them
    bytes, and the alpha byte of every pixel unchanged. *)
Theorem filter_preserves m w h d :
  0 <= w -> 0 <= h -> length d = (4 * Z.to_nat w * Z.to_nat h)%nat -> Forall byte d ->
  preserves d (filter m w h d).
Proof.
  intros Hw Hh Hl Hb.
  assert (Hn : length d = (4 * (Z.to_nat w * Z.to_nat h))%nat) by lia.
  destruct m; cbn [filter].
  - split; [reflexivity|]. split; [exact Hb | reflexivity].
  - apply (applyHighContrast_preserves _ _ Hn Hb).
  - apply (applyGrayscale_preserves _ _ Hn Hb).
  - apply (applyBinarize_preserves _ _ Hn Hb).
  - apply (applySharpen_preserves _ _ _ Hl Hb).
Qed.

Local Open Scope string_scope.

(** An image of 1000 x 1 pixels on which the detector finds the text
    "X" at the size 1200 x 1 only: the table of the specification contains
    a successful strategy, but the code throws at the size 800 x 0 before
    reaching it. *)
Example tryMultiple_wide_image_example :
  let draw := fun w h => repeat 0 (Z.to_nat (4 * w * h)) in
  let jsQR := fun (d : list Z) (w h : Z) (i : Inversion) => if w =? 1200 then Some "X" else None in
  first_success draw jsQR (strategy_table (sizes 1000 1)) = Some "X" /\
  tryMultipleProcessingMethods 1000 1 draw jsQR true = Thrown IndexSizeError.
Proof. vm_compute. split; reflexivity. Qed.

(** Witnesses. *)
Lemma tryMultiple_refines_witness :
  tryMultipleProcessingMethods 1 1 (fun _ _ => []) (fun _ _ _ _ => None) true =
  found_or NotFound (first_success (fun _ _ => []) (fun _ _ _ _ => None) (strategy_table (sizes 1 1))).
Proof. apply (tryMultiple_refines 1 1); lia. Defined.

Lemma tryMultiple_wide_image_witness :
  tryMultipleProcessingMethods 1000 1 (fun _ _ => []) (fun _ _ _ _ => None) true =
  found_or (Thrown IndexSizeError) (first_success (fun _ _ => []) (fun _ _ _ _ => None) (strategy_table [mkSize 1000 1])).
Proof. apply (tryMultiple_wide_image 1000 1); lia. Defined.

Lemma filter_preserves_witness :
  preserves (repeat 7 12) (filter sharpen 3 1 (repeat 7 12)).
Proof.
  apply (filter_preserves sharpen 3 1 (repeat 7 12)); [lia | lia | reflexivity |].
  apply Forall_forall. intros x Hx. apply repeat_spec in Hx. subst. unfold byte. lia.
Defined.
