(* ===== verification/ZkProof.v ===== *)
(** * ZkProof: [generateZkProof], [hashString], [generateProofId]

    [src/lib/zk-proofs.ts], lines 6-88.  The "proof" is a Poseidon
    commitment to four numbers (a 32-bit hash of the identifier, the age,
    the adult flag and the liveness flag), the public flags, and the
    decimal digits of the commitment cut into eight pieces of ten.

    - [IdentityData] has optional fields ([option]); JavaScript [||] on
      them is truthiness: [undefined], [""], [0] and [false] are falsy.
    - [hashString] is the loop of lines 77-81 on the code units of the
      string, with [<<] and [&] on 32-bit integers ([shl32], [and32] of
      [JsRuntime]); [Math.abs] of the result is exact.
    - Poseidon ([circomlibjs]) is a library: the Section variable
      [poseidon] maps the four inputs to the canonical field element that
      [poseidon.F.toString] prints in decimal; [Date.now()] is [now].
      [buildPoseidon] is assumed to succeed, so the [catch] of lines
      66-69 is not reached. *)

From Stdlib Require Import ZArith List Lia Bool.
From Stdlib Require String Ascii.
From S2P Require Import Prelude JsRuntime.
Import ListNotations String.StringSyntax.

Local Open Scope Z_scope.
Local Open Scope string_scope.

(** ** [hashString] (lines 73-83) *)

(** One iteration of the loop body: [hash = (hash << 5) - hash + char;
    hash = hash & hash]. *)
Definition hash_step (hash char : Z) : Z :=
  let hash := shl32 hash 5 - hash + char in
  and32 hash hash.

(** The [for] loop over the code units [cs], from [hash]. *)
Definition hash_loop (cs : list Z) (hash : Z) : Z := fold_left hash_step cs hash.

Definition hashString (str : string) : Z :=
  if String.eqb str "" then 0
  else Z.abs (hash_loop (map code (chars str)) 0).

(** ** The identity data and the proof (lines 6-15, 49-65) *)

Record IdentityData := mkIdentityData {
  referenceId : option string;
  name : option string;
  age : option Z;
  isAdult : option bool;
  livenessVerified : option bool
}.

Record ZkProofResult := mkZkProof {
  proofId : string;
  commitment : string;
  pub_isAdult : bool;
  pub_livenessVerified : bool;
  pi_a : list string;
  pi_b : list (list string);
  pi_c : list string
}.

(** Truthiness of the optional fields, as [x || default] uses it. *)
Definition or_string (x : option string) (d : string) : string :=
  match x with Some s => if String.eqb s "" then d else s | None => d end.

Definition or_number (x : option Z) (d : Z) : Z :=
  match x with Some n => if n =? 0 then d else n | None => d end.

Definition or_bool (x : option bool) (d : bool) : bool :=
  match x with Some b => if b then true else d | None => d end.

(** [generateProofId(uid)] (lines 86-88) with [Date.now()] = [now]. *)
Definition generateProofId (now : Z) (uid : string) : string :=
  String.append "proof_" (String.append (int_toString (hashString uid))
                           (String.append "_" (int_toString now))).

(** [commitment.slice(a, b)] on the decimal commitment. *)
Definition piece (c : string) (k : Z) : string := js_substring c (10 * k) (10 * k + 10).

Section Generate.
(** Poseidon over the four inputs, as a canonical field element. *)
Variable poseidon : list Z -> Z.
(** [Date.now()]. *)
Variable now : Z.

(** [uid] (line 29). *)
Definition uid_of (data : IdentityData) : string :=
  match referenceId data with
  | Some r => if String.eqb r "" then int_toString (hashString (or_string (name data) "unknown")) else r
  | None => int_toString (hashString (or_string (name data) "unknown"))
  end.

(** The four commitment inputs of line 38. *)
Definition commitment_inputs (data : IdentityData) : list Z :=
  let uid := uid_of data in
  [hashString uid; or_number (age data) 0;
   if or_bool (isAdult data) false then 1 else 0;
   if or_bool (livenessVerified data) false then 1 else 0].

(** [generateZkProof(data)] (lines 17-70). *)
Definition generateZkProof (data : IdentityData) : ZkProofResult :=
  let uid := uid_of data in
  let commitment := int_toString (poseidon (commitment_inputs data)) in
  mkZkProof (generateProofId now uid) commitment
    (or_bool (isAdult data) false) (or_bool (livenessVerified data) false)
    [piece commitment 0; piece commitment 1]
    [[piece commitment 2; piece commitment 3]; [piece commitment 4; piece commitment 5]]
    [piece commitment 6; piece commitment 7].
End Generate.

(** ** Reference definitions *)

(** Java's [String.hashCode]: [sum c_i * 31^(n-1-i)] read as a signed
    32-bit integer. *)
Definition poly31 (cs : list Z) : Z := fold_left (fun h c => 31 * h + c) cs 0.

Definition java_hash (cs : list Z) : Z := to_int32 (poly31 cs).

(** The eight pieces of the proof, in the order of [pi_a], [pi_b], [pi_c],
    and their concatenation. *)
Definition proof_pieces (p : ZkProofResult) : list string :=
  pi_a p ++ concat (pi_b p) ++ pi_c p.

Definition join (l : list string) : string := fold_right String.append "" l.

(** The order of the BN254 scalar field, over which circomlibjs's Poseidon
    computes: [poseidon.F.toString] prints a value below it. *)
Definition bn254_r : Z :=
  21888242871839275222246405745257275088548364400416034343698204186575808495617.

(** * Lemmas *)

(** One iteration of the loop is [31 * hash + char] modulo 2^32. *)
Lemma hash_step_poly a c : hash_step (to_int32 a) c = to_int32 (31 * a + c).
Proof.
  unfold hash_step. cbv zeta. rewrite and32_self. apply to_int32_congr.
  rewrite Zplus_mod, Zminus_mod, shl32_mod by lia.
  rewrite <- Zminus_mod, <- Zplus_mod.
  replace (to_int32 a * 2 ^ 5 - to_int32 a + c) with (31 * to_int32 a + c) by ring.
  rewrite Zplus_mod, Zmult_mod, to_int32_mod, <- Zmult_mod, <- Zplus_mod. reflexivity.
Qed.

(** The loop computes the polynomial hash modulo 2^32.  The cons steps go
    through [fold_left_cons]: a conversion between [hash_step] terms and
    variables unfolds the nested 32-bit operations. *)
Lemma hash_loop_poly cs a :
  hash_loop cs (to_int32 a) = to_int32 (fold_left (fun h c => 31 * h + c) cs a).
Proof.
  unfold hash_loop. revert a. induction cs as [|c cs IH]; intros a; [reflexivity|].
  rewrite !fold_left_cons, hash_step_poly. apply IH.
Qed.

Lemma chars_join l : chars (join l) = concat (map chars l).
Proof. induction l as [|x l IH]; simpl; [reflexivity|]. rewrite chars_append, IH. reflexivity. Qed.

Lemma chars_inj s t : chars s = chars t -> s = t.
Proof. intros H. rewrite <- (of_chars_chars s), <- (of_chars_chars t), H. reflexivity. Qed.

(** The eight slices of ten cover the first eighty characters. *)
Lemma join_pieces c :
  chars (join [piece c 0; piece c 1; piece c 2; piece c 3; piece c 4; piece c 5; piece c 6; piece c 7])
  = (chars c) [: 0, 80 :].
Proof.
  rewrite chars_join. unfold piece. cbn [map concat].
  rewrite !js_substring_sublist by lia. rewrite app_nil_r. cbn [Z.mul Z.add Z.to_nat].
  rewrite !app_assoc, !sublist_split by lia. reflexivity.
Qed.

Lemma length_commitment n :
  0 <= n < bn254_r -> (String.length (int_toString n) <= 77)%nat.
Proof. intros Hn. apply length_int_toString; [lia|]. unfold bn254_r in Hn. simpl. lia. Qed.

(** The proof pieces concatenated are the first eighty characters of the
    commitment. *)
Lemma proof_pieces_join poseidon now data :
  chars (join (proof_pieces (generateZkProof poseidon now data)))
  = (chars (commitment (generateZkProof poseidon now data))) [: 0, 80 :].
Proof. cbn [proof_pieces generateZkProof pi_a pi_b pi_c commitment concat app]. apply join_pieces. Qed.

(** The loop from 0 is the polynomial hash read as a 32-bit integer. *)
Lemma hashString_poly s : hashString s = Z.abs (to_int32 (poly31 (map code (chars s)))).
Proof.
  unfold hashString, poly31.
  destruct (String.eqb_spec s "") as [->|_]; [reflexivity|].
  rewrite <- hash_loop_poly. reflexivity.
Qed.

(** * Theorems *)

(** [hashString] is [Math.abs] of Java's [String.hashCode] on the
    code units: the shift-subtract-mask loop computes [sum c_i * 31^(n-1-i)]
    read as a signed 32-bit integer, and the empty string hashes to 0. *)
Theorem hashString_java s : hashString s = Z.abs (java_hash (map code (chars s))).
Proof. apply hashString_poly. Qed.

(** [hashString] returns an integer in [0, 2^31], and the upper end
    is reached: "polygenelubricants" hashes to [-2^31] and [Math.abs]
    gives [2^31], which is not a 32-bit integer. *)
Theorem hashString_range :
  (forall s, 0 <= hashString s <= 2 ^ 31) /\ hashString "polygenelubricants" = 2 ^ 31.
Proof.
  split; [|vm_compute; reflexivity]. intros s.
  rewrite hashString_poly. pose proof (to_int32_range (poly31 (map code (chars s)))). lia.
Qed.

(** the eight pieces of the proof put back together give the
    commitment, whenever Poseidon returns a canonical field element: its
    decimal form has at most 77 digits, so [slice(70, 80)] ends the string. *)
Theorem generateZkProof_pieces poseidon now data :
  0 <= poseidon (commitment_inputs data) < bn254_r ->
  join (proof_pieces (generateZkProof poseidon now data)) = commitment (generateZkProof poseidon now data).
Proof.
  intros Hp. apply chars_inj. rewrite proof_pieces_join. unfold sublist. cbn [skipn Nat.sub].
  apply firstn_all2. cbn [commitment generateZkProof]. rewrite length_chars.
  pose proof (length_commitment _ Hp). lia.
Qed.

(** two identifiers with the same 32-bit hash give the same
    commitment whatever Poseidon computes: "Aa" and "BB" hash to 2112. *)
Theorem commitment_collision poseidon now :
  commitment (generateZkProof poseidon now (mkIdentityData (Some "Aa") None None (Some true) (Some true)))
  = commitment (generateZkProof poseidon now (mkIdentityData (Some "BB") None None (Some true) (Some true))).
Proof. vm_compute. reflexivity. Qed.

Lemma generateZkProof_pieces_witness :
  0 <= (fun _ : list Z => bn254_r - 1) (commitment_inputs (mkIdentityData (Some "ID123") None (Some 30) (Some true) (Some true))) < bn254_r /\
  join (proof_pieces (generateZkProof (fun _ => bn254_r - 1) 0 (mkIdentityData (Some "ID123") None (Some 30) (Some true) (Some true))))
  = commitment (generateZkProof (fun _ => bn254_r - 1) 0 (mkIdentityData (Some "ID123") None (Some 30) (Some true) (Some true))).
Proof.
  assert (H : 0 <= (fun _ : list Z => bn254_r - 1) (commitment_inputs (mkIdentityData (Some "ID123") None (Some 30) (Some true) (Some true))) < bn254_r)
    by (cbv beta; unfold bn254_r; lia).
  split; [exact H | apply generateZkProof_pieces; exact H].
Defined.
