(* ===== verification/Legacy.v ===== *)
(** * Legacy: [processQrData] and its helpers

    [src/lib/zk-proofs.ts], lines 90-194: an older decoder that sits next to
    the proof stand-in.  It converts the decimal string with its own
    [bigIntToByteArray] (lines 122-134), inflates with pako when it can
    (lines 101-108) and reads five delimiter-separated fields with
    [findDelimiter] (lines 177-184) and [bytesToString] (lines 187-194).

    - Everything sits in [Module ProcessQr]: its [bytesToString] and its
      result fields ([name], [gender]) would clash with the [FieldParser]
      ones.
    - [findDelimiter] is a [for] loop from [startIndex]; it runs
      [length - startIndex] iterations, which is its fuel.
    - [Number.parseInt] without a radix is [js_parseInt _ 0]; its NaN is
      [None].  [BigInt(qrData)] throwing, and the [catch] of lines 115-118
      that turns it into "Failed to process QR data", is [None]. *)

From Stdlib Require Import ZArith List Lia Bool.
From Stdlib Require String Ascii.
From S2P Require Import Prelude JsRuntime ByteCodec FieldParser.
Import ListNotations String.StringSyntax.

Local Open Scope Z_scope.
Local Open Scope string_scope.

Module ProcessQr.

(** [bigIntToByteArray] (lines 122-134).  [parse_pairs] is the [for] loop:
    [byteArray[i] = Number.parseInt(hex.substr(i * 2, 2), 16)]; [i] is the
    index, [n] the iterations left. *)
Fixpoint parse_pairs (hex : string) (i n : nat) : list Z :=
  match n with
  | O => []
  | S n' => to_uint8 (js_parseInt (js_substr hex (Z.of_nat (i * 2)) 2) 16) :: parse_pairs hex (S i) n'
  end.

Definition bigIntToByteArray (bigInt : Z) : list Z :=
  let hex := bigint_toString16 bigInt in
  let hex := if Nat.odd (String.length hex) then String.String (chr 48) hex else hex in
  parse_pairs hex 0 (String.length hex / 2).

(** [findDelimiter(byteArray, startIndex)] (lines 177-184). *)
Fixpoint find_loop (fuel : nat) (byteArray : list Z) (i : nat) : nat :=
  match fuel with
  | O => length byteArray
  | S f =>
      if (i <? length byteArray)%nat then
        if nth i byteArray 0 =? 255 then i else find_loop f byteArray (S i)
      else length byteArray
  end.

Definition findDelimiter (byteArray : list Z) (startIndex : nat) : nat :=
  find_loop (length byteArray - startIndex) byteArray startIndex.

(** [bytesToString(bytes, encoding)] (lines 187-194): the encoding is
    ignored, each byte is one character. *)
Definition bytesToString (bytes : list Z) (encoding : string) : string :=
  of_chars (map chr bytes).

(** The result object of [parseByteArray]; [emailMobileIndicator] is
    [None] for NaN. *)
Record Result := mkResult {
  emailMobileIndicator : option Z;
  name : string;
  dob : string;
  gender : string;
  uid : string
}.

(** One field: the bytes from [currentIndex] to the next delimiter, and
    the index after it. *)
Definition read_field (byteArray : list Z) (currentIndex : nat) : string * nat :=
  let d := findDelimiter byteArray currentIndex in
  (bytesToString (js_slice byteArray (Z.of_nat currentIndex) (Z.of_nat d)) "ISO-8859-1", S d).

(** [parseByteArray] (lines 137-174). *)
Definition parseByteArray (byteArray : list Z) : Result :=
  let '(indicatorString, currentIndex) := read_field byteArray 0 in
  let indicator := js_parseInt indicatorString 0 in
  let '(name, currentIndex) := read_field byteArray currentIndex in
  let '(dob, currentIndex) := read_field byteArray currentIndex in
  let '(gender, currentIndex) := read_field byteArray currentIndex in
  let '(uid, _) := read_field byteArray currentIndex in
  mkResult indicator name dob gender uid.

Section Process.
(** [pako.inflate]: [Some out] on success, [None] when it throws. *)
Variable inflate : list Z -> option (list Z).

(** [processQrData(qrData)] (lines 93-119). *)
Definition processQrData (qrData : string) : option Result :=
  let? bigIntValue := js_BigInt qrData in
  let byteArray := bigIntToByteArray bigIntValue in
  let decompressedData :=
    match inflate byteArray with
    | Some out => out
    | None => byteArray
    end in
  Some (parseByteArray decompressedData).
End Process.

End ProcessQr.

(** * Lemmas *)
Module ProcessQrFacts.
Import ProcessQr.

Lemma parse_pairs_hex_pairs h i n : parse_pairs h i n = hex_pairs_loop h i n.
Proof.
  revert i. induction n as [|n IH]; intros i; [reflexivity|].
  cbn [parse_pairs hex_pairs_loop]. rewrite js_substr_substring, IH by lia.
  replace (i * 2)%nat with (2 * i)%nat by lia. reflexivity.
Qed.

Lemma bigIntToByteArray_pad n :
  bigIntToByteArray n =
  hex_pairs_loop (pad_even (bigint_toString16 n)) 0 (String.length (pad_even (bigint_toString16 n)) / 2).
Proof. unfold bigIntToByteArray, pad_even. destruct (Nat.odd _); apply parse_pairs_hex_pairs. Qed.

(** The legacy loop and the decoder's [while] loop find the same index,
    given enough fuel, from an index inside the array. *)
Lemma find_loop_delim f g (byteArray : list Z) i :
  (length byteArray - i <= f)%nat -> (length byteArray - i <= g)%nat -> (i <= length byteArray)%nat ->
  find_loop f byteArray i = find_delim g byteArray i.
Proof.
  revert g i. induction f as [|f IH]; intros g i Hf Hg Hi.
  - assert (i = length byteArray) as -> by lia.
    destruct g; cbn [find_loop find_delim]; [reflexivity|]. rewrite Nat.ltb_irrefl. reflexivity.
  - destruct g as [|g]; [assert (i = length byteArray) as -> by lia; cbn [find_loop find_delim]; rewrite Nat.ltb_irrefl; reflexivity|].
    cbn [find_loop find_delim]. unfold DELIMITER.
    destruct (Nat.ltb_spec i (length byteArray)) as [Hlt|Hge]; [|cbn [andb]; lia].
    destruct (nth i byteArray 0 =? 255); cbn [andb negb]; [reflexivity|]. apply IH; lia.
Qed.

Lemma bytesToString_legacy t enc : bytesToString t enc = FieldParser.bytesToString t.
Proof. reflexivity. Qed.

(** Reading one delimiter-terminated field. *)
Lemma read_field_token (byteArray : list Z) idx t rest :
  skipn idx byteArray = t ++ DELIMITER :: rest -> field_ok t ->
  read_field byteArray idx = (FieldParser.bytesToString t, S (idx + length t)) /\
  skipn (S (idx + length t)) byteArray = rest.
Proof.
  intros Hs Ht.
  assert (Hl : (idx + length t < length byteArray)%nat).
  { apply (f_equal (@length Z)) in Hs. rewrite length_skipn, length_app in Hs. simpl in Hs. lia. }
  unfold read_field, findDelimiter.
  rewrite (find_loop_delim _ (length byteArray)) by lia.
  rewrite (find_delim_spec _ byteArray idx t rest Hs Ht) by lia.
  rewrite (js_slice_field byteArray idx t (DELIMITER :: rest)) by (exact Hs || lia).
  split; [reflexivity|].
  replace (S (idx + length t)) with (S (length t) + idx)%nat by lia.
  rewrite <- skipn_skipn, Hs, skipn_app, skipn_all2 by lia.
  replace (S (length t) - length t)%nat with 1%nat by lia. reflexivity.
Qed.

Lemma encode_fields_cons (t : list Z) ts tail :
  encode_fields (t :: ts) ++ tail = t ++ DELIMITER :: (encode_fields ts ++ tail).
Proof. unfold encode_fields. cbn [map concat]. rewrite <- !app_assoc. reflexivity. Qed.

Lemma read_field_encoded (byteArray : list Z) idx t ts tail :
  skipn idx byteArray = encode_fields (t :: ts) ++ tail -> field_ok t ->
  read_field byteArray idx = (FieldParser.bytesToString t, S (idx + length t)) /\
  skipn (S (idx + length t)) byteArray = encode_fields ts ++ tail.
Proof. rewrite encode_fields_cons. apply read_field_token. Qed.

(** Read the field at the index a hypothesis [skipn i B = encode_fields
    (t :: ts) ++ tail] names; the hypothesis moves to the next field. *)
Ltac read_next Hok :=
  match goal with
  | Hs : skipn ?i ?B = encode_fields (?t :: ?ts) ++ ?tail |- context [read_field ?B ?i] =>
      let E := fresh "E" in let Hs' := fresh "Hs" in
      destruct (read_field_encoded B i t ts tail Hs Hok) as [E Hs'];
      rewrite E; cbv beta iota; clear Hs
  end.

End ProcessQrFacts.

(** * Theorems *)
Module ProcessQrTheorems.
Import ProcessQr ProcessQrFacts.

(** the legacy [bigIntToByteArray] (substr, odd-length padding) and
    the decoder's [convertBase10ToByteArray] (substring, the same padding)
    give the same bytes for every decimal string, and fail on the same
    strings. *)
Theorem bigIntToByteArray_convertBase10 s :
  convertBase10ToByteArray s = option_map bigIntToByteArray (js_BigInt s).
Proof.
  unfold convertBase10ToByteArray. destruct (js_BigInt s) as [n|]; [|reflexivity].
  simpl option_map. rewrite bigIntToByteArray_pad. reflexivity.
Qed.

(** [findDelimiter] agrees with the decoder's delimiter loop from any
    index inside the array; from past the end it returns the length where
    the decoder's loop returns the index itself. *)
Theorem findDelimiter_find_delim (byteArray : list Z) s :
  findDelimiter byteArray s =
  if (s <=? length byteArray)%nat then find_delim (length byteArray) byteArray s else length byteArray.
Proof.
  unfold findDelimiter. destruct (Nat.leb_spec s (length byteArray)).
  - apply find_loop_delim; lia.
  - replace (length byteArray - s)%nat with 0%nat by lia. reflexivity.
Qed.

(** on a payload whose first five fields are delimiter-free,
    [parseByteArray] returns them as the indicator (parsed as a number),
    [name], [dob], [gender] and [uid], whatever follows. *)
Theorem parseByteArray_fields t0 t1 t2 t3 t4 ts tail :
  field_ok t0 -> field_ok t1 -> field_ok t2 -> field_ok t3 -> field_ok t4 ->
  parseByteArray (encode_fields (t0 :: t1 :: t2 :: t3 :: t4 :: ts) ++ tail) =
  mkResult (js_parseInt (FieldParser.bytesToString t0) 0) (FieldParser.bytesToString t1)
    (FieldParser.bytesToString t2) (FieldParser.bytesToString t3) (FieldParser.bytesToString t4).
Proof.
  intros H0 H1 H2 H3 H4. unfold parseByteArray.
  pose proof (skipn_O (encode_fields (t0 :: t1 :: t2 :: t3 :: t4 :: ts) ++ tail)) as Hs.
  read_next H0. read_next H1. read_next H2. read_next H3. read_next H4. reflexivity.
Qed.

(** [processQrData] rejects exactly the strings [BigInt] rejects:
    neither the inflate fallback nor the field reader throws. *)
Theorem processQrData_error inflate s :
  processQrData inflate s = None <-> js_BigInt s = None.
Proof. unfold processQrData. destruct (js_BigInt s); cbn; split; congruence. Qed.

(** The legacy reader takes the fields one place early: on a payload
    the decoder reads as reference id "1234", name "A", date of birth "B"
    and gender "M", the legacy [name] is "1234", [dob] is "A", [gender]
    is "B" and [uid] is "M". *)
Example parseByteArray_shifted :
  exists r,
  extractDataFields (fun _ => @None Z) (fun d => d)
    (encode_fields ([48] :: [49; 50; 51; 52] :: [65] :: [66] :: [77] :: repeat [67] 11) ++ repeat 9 256) = Some r /\
  referenceId r = Some "1234" /\ FieldParser.name r = Some "A" /\
  dateOfBirth r = Some "B" /\ FieldParser.gender r = Some "M" /\
  parseByteArray (encode_fields ([48] :: [49; 50; 51; 52] :: [65] :: [66] :: [77] :: repeat [67] 11) ++ repeat 9 256)
  = mkResult (Some 0) "1234" "A" "B" "M".
Proof. eexists. split; [vm_compute; reflexivity|]. vm_compute. repeat split. Qed.

Lemma parseByteArray_fields_witness :
  parseByteArray (encode_fields ([48] :: [65] :: [66] :: [77] :: [57] :: []) ++ [1; 2])
  = mkResult (Some 0) "A" "B" "M" "9".
Proof.
  apply (parseByteArray_fields [48] [65] [66] [77] [57] [] [1; 2]);
    unfold field_ok, DELIMITER; repeat constructor; lia.
Defined.

End ProcessQrTheorems.
