(* ===== verification/Pipeline.v ===== *)
(** * Pipeline: [decodeFromFile], [scanFromFile], [processSecureQRData]

    [src/lib/secure-qr-decoder.ts], lines 10-100 and 262-280: the
    decoder's constructor, the promise that reads an image file and runs
    the localizer in the image's [onload] callback, and the two stages
    after it (bytes, then fields), each wrapping the error it catches in a
    message of its own.

    - The browser and the libraries are a record of operations, [Env]:
      [FileReader.readAsDataURL] ([read], [None] for [onerror]), the image
      decoder behind [img.src] ([load], [None] for [img.onerror]), the
      canvas rasteriser and [jsQR] of the [Localizer], [pako.inflate],
      [Date.parse] and the clock of [DateAge], and the engine's own error
      messages (the [SyntaxError] of [BigInt], the [TypeError] of
      [undefined.trim()], the [IndexSizeError] of [getImageData]).
    - A promise is an [Outcome]: resolved with a value or rejected with
      the message of its [Error].  Each [reject]/[throw] of the code is
      one [Rejected] of the model; the callbacks run in the order the
      browser calls them: [reader.onload], then [img.onload].
    - [decode_spec] is the specification's orchestrator (spec 4.5, 7): the
      stages in order, stopping at the first failure with a tagged error;
      [render] prints a tagged error as the code's message.

    This file requires [Localizer], [ByteCodec], [FieldParser] and
    [DateAge]: the pipeline is their composition. *)

From Stdlib Require Import ZArith List Lia Bool.
From Stdlib Require String Ascii.
From S2P Require Import Prelude JsRuntime ByteCodec FieldParser DateAge Filters Localizer.
Import ListNotations String.StringSyntax.

Local Open Scope Z_scope.
Local Open Scope string_scope.

(** ** The environment *)

Record File := mkFile { file_name : string; file_type : string }.

Record Image := mkImage { img_width : Z; img_height : Z }.

Record Env := mkEnv {
  read : File -> option string;
  load : string -> option Image;
  draw : Image -> Z -> Z -> list Z;
  jsQR : list Z -> Z -> Z -> Inversion -> option string;
  inflate : list Z -> option (list Z);
  date_parse : string -> option Z;
  now : Z;
  bigint_message : string -> string;
  typeerror_message : string;
  indexsize_message : string
}.

(** ** The code *)

(** [new SecureQRDecoder()] (lines 14-25): the 2D context exists only in a
    browser ([typeof window !== "undefined"]) whose canvas returns one. *)
Record SecureQRDecoder := mkDecoder { ctx : bool }.

Definition constructor (has_window getContext_2d : bool) : SecureQRDecoder :=
  mkDecoder (has_window && getContext_2d).

(** [/image.*/] matches where ["image"] occurs, anywhere in the string. *)
Fixpoint starts_with (p s : list ascii) : bool :=
  match p, s with
  | [], _ => true
  | c :: p', d :: s' => Ascii.eqb c d && starts_with p' s'
  | _ :: _, [] => false
  end.

Fixpoint occurs (p s : list ascii) : bool :=
  starts_with p s || match s with [] => false | _ :: s' => occurs p s' end.

Definition match_image (type : string) : bool := occurs (chars "image") (chars type).

Section Code.
Variable env : Env.

(** The message of an exception thrown by [tryMultipleProcessingMethods]. *)
Definition loc_message (e : LocError) : string :=
  match e with
  | NoContext => "Canvas context not available"
  | IndexSizeError => indexsize_message env
  end.

Definition NO_QR : string :=
  "No QR code found in the image. Please try a clearer image or different lighting.".

(** [scanFromFile(imageFile)] (lines 50-99). *)
Definition scanFromFile (dec : SecureQRDecoder) (imageFile : option File) : Outcome string :=
  match imageFile with
  | None => Rejected "Please select a valid image file"
  | Some file =>
      if negb (match_image (file_type file)) then Rejected "Please select a valid image file" else
      match read env file with
      | None => Rejected "Failed to read the file"
      | Some url =>
          match load env url with
          | None => Rejected "Failed to load the image"
          | Some img =>
              match tryMultipleProcessingMethods (img_width img) (img_height img) (draw env img)
                      (jsQR env) (ctx dec) with
              | Found result => Resolved result
              | NotFound => Rejected NO_QR
              | Thrown e => Rejected (String.append "Error processing image: " (loc_message e))
              end
          end
      end
  end.

(** [processSecureQRData(rawData)] (lines 262-280). *)
Definition processSecureQRData (rawData : string) : Outcome IdentityRecord :=
  match convertBase10ToByteArray rawData with
  | None =>
      Rejected (String.append "Data processing failed: "
        (String.append "Failed to convert base10 to byte array: " (bigint_message env rawData)))
  | Some byteArray =>
      let decompressedBytes := decompressData (inflate env) byteArray in
      match extractDataFields (parseDateOfBirth (date_parse env) (now env)) (calculateAge (now env))
              decompressedBytes with
      | Some r => Resolved r
      | None =>
          Rejected (String.append "Data processing failed: "
            (String.append "Failed to extract data fields: "
              (String.append (typeerror_message env) " (at index 0)")))
      end
  end.

(** [decodeFromFile(imageFile)] (lines 32-45). *)
Definition decodeFromFile (dec : SecureQRDecoder) (imageFile : option File) : Outcome IdentityRecord :=
  match scanFromFile dec imageFile with
  | Rejected m => Rejected (String.append "QR Code decoding failed: " m)
  | Resolved rawData =>
      match processSecureQRData rawData with
      | Resolved r => Resolved r
      | Rejected m => Rejected (String.append "QR Code decoding failed: " m)
      end
  end.
End Code.

(** ** The specification's orchestrator *)

(** The failures of spec 7, with the stage each belongs to. *)
Inductive DecodeError :=
| InvalidFile
| ReadFailed
| ImageLoadFailed
| NoSymbolFoundError
| LocateFailed (cause : LocError)
| PayloadFormatError (cause : string)
| FieldCountError.

Inductive Stage := Locate | Codec | Parse.

Definition stage_of (e : DecodeError) : Stage :=
  match e with
  | PayloadFormatError _ => Codec
  | FieldCountError => Parse
  | _ => Locate
  end.

(** A small error monad for the stages. *)
Definition Staged (A : Type) : Type := DecodeError + A.

Definition ret {A} (a : A) : Staged A := inr a.

Definition bind {A B} (r : Staged A) (k : A -> Staged B) : Staged B :=
  match r with inl e => inl e | inr a => k a end.

Definition of_option {A} (e : DecodeError) (o : option A) : Staged A :=
  match o with Some a => inr a | None => inl e end.

Declare Scope pipeline_scope.
Delimit Scope pipeline_scope with pipeline.
Notation "'do' x <- r ; k" := (bind r (fun x => k))
  (at level 10, x name, r at level 100, k at level 200) : pipeline_scope.
Local Open Scope pipeline_scope.

Section Spec.
Variable env : Env.

(** Localizer: [locate(image) -> decimal string] with its failures. *)
Definition locate (dec : SecureQRDecoder) (imageFile : option File) : Staged string :=
  do file <- of_option InvalidFile imageFile;
  do _ <- (if match_image (file_type file) then ret tt else inl InvalidFile);
  do url <- of_option ReadFailed (read env file);
  do img <- of_option ImageLoadFailed (load env url);
  match tryMultipleProcessingMethods (img_width img) (img_height img) (draw env img) (jsQR env) (ctx dec) with
  | Found s => ret s
  | NotFound => inl NoSymbolFoundError
  | Thrown e => inl (LocateFailed e)
  end.

(** [decodeFromImage]: Localizer, Byte Codec, Field Parser (with the
    Date/Age Deriver), in that order, stopping at the first failure. *)
Definition decode_spec (dec : SecureQRDecoder) (imageFile : option File) : Staged IdentityRecord :=
  do raw <- locate dec imageFile;
  do bytes <- of_option (PayloadFormatError (bigint_message env raw)) (convertBase10ToByteArray raw);
  of_option FieldCountError
    (extractDataFields (parseDateOfBirth (date_parse env) (now env)) (calculateAge (now env))
       (decompressData (inflate env) bytes)).

(** The code's message for a tagged error. *)
Definition render (e : DecodeError) : string :=
  String.append "QR Code decoding failed: "
  match e with
  | InvalidFile => "Please select a valid image file"
  | ReadFailed => "Failed to read the file"
  | ImageLoadFailed => "Failed to load the image"
  | NoSymbolFoundError => NO_QR
  | LocateFailed c => String.append "Error processing image: " (loc_message env c)
  | PayloadFormatError m =>
      String.append "Data processing failed: " (String.append "Failed to convert base10 to byte array: " m)
  | FieldCountError =>
      String.append "Data processing failed: "
        (String.append "Failed to extract data fields: " (String.append (typeerror_message env) " (at index 0)"))
  end.

Definition settle {A} (r : Staged A) : Outcome A :=
  match r with inl e => Rejected (render e) | inr a => Resolved a end.
End Spec.

(** The stage a message of [decodeFromFile] reports, read off its prefix. *)
Definition classify (m : string) : option Stage :=
  let l := chars m in
  if starts_with (chars "QR Code decoding failed: Data processing failed: Failed to convert") l then Some Codec
  else if starts_with (chars "QR Code decoding failed: Data processing failed: Failed to extract") l then Some Parse
  else if starts_with (chars "QR Code decoding failed: ") l then Some Locate
  else None.

(** * Lemmas *)

Lemma bytes_ok_app a b : bytes_ok a -> bytes_ok b -> bytes_ok (a ++ b).
Proof. intros Ha Hb. apply Forall_app. split; assumption. Qed.

Lemma encode_fields_bytes tokens : Forall field_ok tokens -> bytes_ok (encode_fields tokens).
Proof.
  intros H. induction H as [|t ts Ht _ IH]; [constructor|].
  unfold encode_fields. cbn [map concat]. apply bytes_ok_app; [apply bytes_ok_app|exact IH].
  - eapply Forall_impl; [|exact Ht]. intros b [Hb _]. exact Hb.
  - repeat constructor; unfold DELIMITER; lia.
Qed.

Lemma hash_segment_bytes ind email mobile :
  bytes_ok email -> bytes_ok mobile -> bytes_ok (hash_segment ind email mobile).
Proof.
  intros He Hm. unfold hash_segment.
  destruct (ind =? 3); [apply bytes_ok_app; assumption|].
  destruct (ind =? 2); [assumption|]. destruct (ind =? 1); [assumption|constructor].
Qed.

(** The layout payload of the specification is a minimal byte array: its
    first byte is the indicator digit. *)
Lemma payload_minimal tokens rest ind :
  nth 0 tokens [] = [48 + ind] -> 0 <= ind -> be_minimal (encode_fields tokens ++ rest).
Proof.
  intros H0 Hind. destruct tokens as [|t0 ts]; [discriminate|]. simpl in H0. subst t0.
  right. eexists _, _. split; [reflexivity|lia].
Qed.

(** The callback code settles as the specification's pipeline. *)
Lemma decode_settle env dec f : decodeFromFile env dec f = settle env (decode_spec env dec f).
Proof.
  unfold decodeFromFile, scanFromFile, decode_spec, locate, processSecureQRData, settle.
  destruct f as [file|]; [|reflexivity]. cbn [bind of_option ret].
  destruct (match_image (file_type file)); [|reflexivity]. cbn [negb bind ret].
  destruct (read env file) as [url|]; [|reflexivity]. cbn [bind of_option].
  destruct (load env url) as [img|]; [|reflexivity]. cbn [bind of_option].
  destruct (tryMultipleProcessingMethods _ _ _ _ _) as [raw| |e]; try reflexivity. cbn [bind ret of_option].
  destruct (convertBase10ToByteArray raw); [|reflexivity]. cbn [bind of_option].
  destruct (extractDataFields _ _ _); reflexivity.
Qed.

(** Every tagged error is printed with a prefix naming its stage. *)
Lemma classify_render env e : classify (render env e) = Some (stage_of e).
Proof. destruct e as [| | | |[]| |]; reflexivity. Qed.

(** * Theorems *)

(** C8: Refinement of the orchestrator.  The promise-and-callback code of
    [decodeFromFile] (file check, [reader.onload], [img.onload], the
    localizer, then [processSecureQRData]) settles exactly as the
    specification's pipeline: resolved with its record, or rejected with
    the message of the first stage that fails; and every rejection names,
    by its prefix, that stage (spec 7: one tagged error carrying the
    failing stage), whatever the engine's own messages are. *)
Theorem decodeFromFile_refines env dec f :
  decodeFromFile env dec f = settle env (decode_spec env dec f) /\
  (forall m, decodeFromFile env dec f = Rejected m ->
   exists e, decode_spec env dec f = inl e /\ m = render env e /\ classify m = Some (stage_of e)).
Proof.
  rewrite decode_settle. split; [reflexivity|]. intros m H.
  unfold settle in H. destruct (decode_spec env dec f) as [e|r]; [|discriminate].
  injection H as <-. exists e. split; [reflexivity|]. split; [reflexivity|]. apply classify_render.
Qed.

(** End to end (spec 8): when the localizer reads from the image the
    decimal form of a well-formed payload (16 text fields led by the
    indicator digit, a photo, the announced hashes and a 256-byte
    signature) that is not deflate data, [decodeFromFile] resolves with
    the record of exactly those fields, photo, hashes and signature, and
    the age fields derived from the date of birth with the clock. *)
Theorem decodeFromFile_end_to_end env dec f raw tokens ph email mobile sig ind :
  scanFromFile env dec (Some f) = Resolved raw ->
  js_BigInt raw = Some (be_value (encode_fields tokens ++ ph ++ hash_segment ind email mobile ++ sig)) ->
  inflate env (encode_fields tokens ++ ph ++ hash_segment ind email mobile ++ sig) = None ->
  length tokens = 16%nat -> Forall field_ok tokens -> nth 0 tokens [] = [48 + ind] -> 0 <= ind <= 3 ->
  length email = 32%nat -> length mobile = 32%nat -> length sig = 256%nat ->
  bytes_ok ph -> bytes_ok email -> bytes_ok mobile -> bytes_ok sig ->
  exists r,
    decodeFromFile env dec (Some f) = Resolved r /\
    emailMobilePresent r = ind /\
    text_fields r = map (fun t => Some (FieldParser.bytesToString t)) (skipn 1 tokens) /\
    photo r = ph /\ signature r = sig /\
    mobileHash r = (if (ind =? 2) || (ind =? 3) then Some (bytesToHexString mobile) else None) /\
    emailHash r = (if (ind =? 1) || (ind =? 3) then Some (bytesToHexString email) else None) /\
    (age r, isAdult r) =
      derive_age (parseDateOfBirth (date_parse env) (now env)) (calculateAge (now env))
        (Some (FieldParser.bytesToString (nth 3 tokens []))).
Proof.
  intros Hscan Hraw Hinf Hlen Hok H0 Hind He Hm Hs Hph Hem Hmo Hsig.
  assert (Hbytes : bytes_ok (encode_fields tokens ++ ph ++ hash_segment ind email mobile ++ sig))
    by (repeat apply bytes_ok_app; auto using encode_fields_bytes, hash_segment_bytes).
  unfold decodeFromFile. rewrite Hscan. unfold processSecureQRData.
  rewrite (convertBase10_exact _ _ Hraw Hbytes (payload_minimal _ _ _ H0 ltac:(lia))).
  unfold decompressData. rewrite Hinf.
  destruct (extract_layout_gen (parseDateOfBirth (date_parse env) (now env)) (calculateAge (now env))
              tokens ph email mobile sig ind Hlen Hok H0 Hind He Hm Hs) as (r & Hr & Hrest).
  rewrite Hr. exists r. split; [reflexivity|exact Hrest].
Qed.

(** The file check is the regular expression [/image.*/], which
    looks for "image" anywhere in the MIME type: a type that merely
    contains the word passes, an upper-case image type is rejected. *)
Example scanFromFile_type_check :
  match_image "image/png" = true /\ match_image "application/x-image-list" = true /\
  match_image "IMAGE/PNG" = false /\ match_image "" = false /\
  (forall env dec, decodeFromFile env dec (Some (mkFile "id.png" "IMAGE/PNG")) =
                   Rejected "QR Code decoding failed: Please select a valid image file").
Proof. repeat split; reflexivity. Qed.

Lemma decodeFromFile_end_to_end_witness :
  let tokens := [48] :: repeat [65] 15 in
  let payload := encode_fields tokens ++ [1; 2] ++ hash_segment 0 (repeat 7 32) (repeat 8 32) ++ repeat 9 256 in
  let env := mkEnv (fun _ => Some "data:image/png") (fun _ => Some (mkImage 4 4)) (fun _ _ _ => [])
               (fun _ _ _ _ => Some (int_toString (be_value payload))) (fun _ => None) (fun _ => None) 0
               (fun _ => "") "" "" in
  exists r,
    decodeFromFile env (mkDecoder true) (Some (mkFile "id.png" "image/png")) = Resolved r /\
    emailMobilePresent r = 0 /\
    text_fields r = map (fun t => Some (FieldParser.bytesToString t)) (skipn 1 tokens) /\
    photo r = [1; 2] /\ signature r = repeat 9 256 /\
    mobileHash r = (if (0 =? 2) || (0 =? 3) then Some (bytesToHexString (repeat 8 32)) else None) /\
    emailHash r = (if (0 =? 1) || (0 =? 3) then Some (bytesToHexString (repeat 7 32)) else None) /\
    (age r, isAdult r) =
      derive_age (parseDateOfBirth (date_parse env) (now env)) (calculateAge (now env))
        (Some (FieldParser.bytesToString (nth 3 tokens []))).
Proof.
  intros tokens payload env.
  apply (decodeFromFile_end_to_end env (mkDecoder true) (mkFile "id.png" "image/png")
           (int_toString (be_value payload)) tokens [1; 2] (repeat 7 32) (repeat 8 32) (repeat 9 256) 0);
    try (vm_compute; reflexivity); try lia;
    unfold tokens, field_ok, bytes_ok, byte_ok, DELIMITER; simpl; repeat constructor; lia.
Defined.
