(* ===== verification/QrScanner.v ===== *)
(** * QrScanner: the ID-card scanner component

    [src/components/liveness-detection.tsx], lines 427-708 (the second
    component of the file): an "Upload" tab that decodes a chosen image
    file and a "Camera" tab meant to poll the camera feed.

    The component is a React function component; the model makes its
    runtime explicit:
    - [State] holds the four [useState] cells ([isScanning], [error],
      [activeTab], [cameraActive]), the refs ([decoderRef], [streamRef],
      [animationFrameRef]), the [isProcessing] prop, whether the
      component is mounted, what the camera effect last ran with ([deps],
      [deps_cameraActive]: its cleanup closure reads the [cameraActive]
      of that render), and the world the code acts on: the media streams
      whose tracks run ([live]), fresh identifiers ([next_id]), the
      pending asynchronous continuations ([tasks]) and the calls of the
      [onScan] prop ([scans]).
    - [videoRef.current] is the [<video>] element of the last render: it
      exists only when the camera tab is shown and [cameraActive] is true
      (line 659).  Setting state on an unmounted component does nothing.
    - A closure created during a render sees that render's state.  The
      only state the handlers read is [cameraActive]; a pending
      continuation records it as its snapshot ([snap]).
    - [step] is one event: a user action on a rendered control, a change
      of the prop, the browser settling a pending operation, or the
      unmount; after a handler the component re-renders and the camera
      effect runs when its dependencies [activeTab, isProcessing] changed
      ([commit]: the previous cleanup, then the body).
    - [getUserMedia], the [loadedmetadata] event, [decodeFromFile] and the
      animation frames are environment events; which of them succeed is
      the event's parameter. *)

From Stdlib Require Import List Lia Bool Arith Relations.
From Stdlib Require String.
From S2P Require Import Prelude.
Import ListNotations String.StringSyntax.
Local Open Scope string_scope.

Inductive Tab := upload | camera.

Definition tab_eqb (a b : Tab) : bool :=
  match a, b with upload, upload | camera, camera => true | _, _ => false end.

(** A pending continuation of the code. *)
Inductive Task :=
| GumPending (snap : bool)        (* await getUserMedia in startCamera *)
| MetaPending (snap : bool)       (* video.onloadedmetadata handler *)
| CamDecode (snap : bool)         (* await toBlob / decodeFromFile in scanQrCodeFromCamera *)
| Frame (id : nat) (snap : bool)  (* requestAnimationFrame(scanQrCodeFromCamera) *)
| UploadPending.                  (* await decodeFromFile in handleFileUpload *)

Definition task_eq_dec (a b : Task) : {a = b} + {a <> b}.
Proof. decide equality; (apply Bool.bool_dec || apply Nat.eq_dec). Defined.

(** Where an [onScan] call comes from. *)
Inductive Source := FromUpload | FromCamera.

Record State := mkState {
  mounted : bool;
  isProcessing : bool;
  isScanning : bool;
  error : option String.string;
  activeTab : Tab;
  cameraActive : bool;
  deps : Tab * bool;
  deps_cameraActive : bool;
  decoderRef : bool;
  streamRef : option nat;
  animationFrameRef : option nat;
  live : list nat;
  next_id : nat;
  tasks : list Task;
  scans : list Source
}.

(** ** Updates of single cells *)

Definition set_hooks (isScanning' : bool) (error' : option String.string) (activeTab' : Tab)
    (cameraActive' : bool) (s : State) : State :=
  if mounted s then
    mkState (mounted s) (isProcessing s) isScanning' error' activeTab' cameraActive' (deps s)
      (deps_cameraActive s) (decoderRef s) (streamRef s) (animationFrameRef s) (live s) (next_id s)
      (tasks s) (scans s)
  else s.

Definition setIsScanning (b : bool) (s : State) : State :=
  set_hooks b (error s) (activeTab s) (cameraActive s) s.
Definition setError (e : option String.string) (s : State) : State :=
  set_hooks (isScanning s) e (activeTab s) (cameraActive s) s.
Definition setActiveTab (t : Tab) (s : State) : State :=
  set_hooks (isScanning s) (error s) t (cameraActive s) s.
Definition setCameraActive (b : bool) (s : State) : State :=
  set_hooks (isScanning s) (error s) (activeTab s) b s.

Definition set_refs (decoderRef' : bool) (streamRef' animationFrameRef' : option nat) (s : State) : State :=
  mkState (mounted s) (isProcessing s) (isScanning s) (error s) (activeTab s) (cameraActive s) (deps s)
    (deps_cameraActive s) decoderRef' streamRef' animationFrameRef' (live s) (next_id s) (tasks s) (scans s).

Definition set_world (live' : list nat) (next_id' : nat) (tasks' : list Task) (scans' : list Source)
    (s : State) : State :=
  mkState (mounted s) (isProcessing s) (isScanning s) (error s) (activeTab s) (cameraActive s) (deps s)
    (deps_cameraActive s) (decoderRef s) (streamRef s) (animationFrameRef s) live' next_id' tasks' scans'.

Definition set_effect (mounted' isProcessing' : bool) (deps' : Tab * bool) (deps_cameraActive' : bool)
    (s : State) : State :=
  mkState mounted' isProcessing' (isScanning s) (error s) (activeTab s) (cameraActive s) deps'
    deps_cameraActive' (decoderRef s) (streamRef s) (animationFrameRef s) (live s) (next_id s) (tasks s)
    (scans s).

(** The first occurrence of a task removed. *)
Fixpoint remove_first (t : Task) (l : list Task) : list Task :=
  match l with
  | [] => []
  | x :: r => if task_eq_dec t x then r else x :: remove_first t r
  end.

Definition is_frame (id : nat) (t : Task) : bool :=
  match t with Frame i _ => Nat.eqb i id | _ => false end.

Definition add_task (t : Task) (s : State) : State :=
  set_world (live s) (next_id s) (tasks s ++ [t]) (scans s) s.

Definition drop_task (t : Task) (s : State) : State :=
  set_world (live s) (next_id s) (remove_first t (tasks s)) (scans s) s.

Definition on_scan (src : Source) (s : State) : State :=
  set_world (live s) (next_id s) (tasks s) (scans s ++ [src]) s.

(** The [<video>] element is rendered (line 659). *)
Definition video_mounted (s : State) : bool :=
  mounted s && tab_eqb (activeTab s) camera && cameraActive s.

Section Component.
(** [typeof window !== "undefined"] and [navigator.mediaDevices.getUserMedia]
    exist. *)
Variable has_window has_mediaDevices : bool.

(** [stopCamera] (lines 508-527): cancel the animation frame, stop the
    tracks of the stored stream, clear the video source, then
    [setCameraActive(false)]. *)
Definition cancel_frame (s : State) : State :=
  match animationFrameRef s with
  | Some id =>
      let s := set_world (live s) (next_id s) (filter (fun t => negb (is_frame id t)) (tasks s)) (scans s) s in
      set_refs (decoderRef s) (streamRef s) None s
  | None => s
  end.

Definition stop_tracks (s : State) : State :=
  match streamRef s with
  | Some x =>
      let s := set_world (remove Nat.eq_dec x (live s)) (next_id s) (tasks s) (scans s) s in
      set_refs (decoderRef s) None (animationFrameRef s) s
  | None => s
  end.

Definition stopCamera (s : State) : State := setCameraActive false (stop_tracks (cancel_frame s)).

(** [startCamera] (lines 473-506) as created in a render whose
    [cameraActive] is [snap]: it clears the error and waits for
    [getUserMedia]. *)
Definition startCamera (snap : bool) (s : State) : State :=
  let s := setError None s in
  if has_mediaDevices then add_task (GumPending snap) s
  else setError (Some "Camera access is not supported in your browser") s.

(** The camera effect (lines 459-471) after a render: when its
    dependencies changed, the cleanup of its previous run (with the
    [cameraActive] it captured), then its body with this render's values. *)
Definition commit (s : State) : State :=
  let tab := activeTab s in
  let proc := isProcessing s in
  let cA := cameraActive s in
  if mounted s && negb (tab_eqb tab (fst (deps s)) && Bool.eqb proc (snd (deps s))) then
    let s := if deps_cameraActive s then stopCamera s else s in
    let s := set_effect (mounted s) (isProcessing s) (tab, proc) cA s in
    if tab_eqb tab camera && negb cA && negb proc then startCamera cA s
    else if negb (tab_eqb tab camera) && cA then stopCamera s
    else s
  else s.

(** [scanQrCodeFromCamera] (lines 529-578) of a render whose
    [cameraActive] is [snap]: the guard of line 530, then the frame is
    captured and decoded. *)
Definition scanQrCodeFromCamera (snap : bool) (s : State) : State :=
  if video_mounted s && decoderRef s && snap then add_task (CamDecode snap) s else s.

(** [getUserMedia] resolves (lines 489-501): the stream runs and is
    stored; the video handler is installed only if [<video>] exists. *)
Definition gum_resolve (snap : bool) (s : State) : State :=
  let s := drop_task (GumPending snap) s in
  let x := next_id s in
  let s := set_world (x :: live s) (S x) (tasks s) (scans s) s in
  let s := set_refs (decoderRef s) (Some x) (animationFrameRef s) s in
  if video_mounted s then add_task (MetaPending snap) s else s.

(** [getUserMedia] rejects: the [catch] of lines 502-505. *)
Definition gum_reject (snap : bool) (msg : String.string) (s : State) : State :=
  setError (Some msg) (drop_task (GumPending snap) s).

(** [video.onloadedmetadata] (lines 497-500). *)
Definition on_metadata (snap : bool) (s : State) : State :=
  let s := drop_task (MetaPending snap) s in
  let s := commit (setCameraActive true s) in
  scanQrCodeFromCamera snap s.

(** The decode of a camera frame settles (lines 566-577): on a result the
    camera stops and [onScan] is called, otherwise the next frame is
    requested. *)
Definition cam_decoded (snap found : bool) (s : State) : State :=
  let s := drop_task (CamDecode snap) s in
  if found then commit (on_scan FromCamera (stopCamera s))
  else
    let id := next_id s in
    let s := set_world (live s) (S id) (tasks s ++ [Frame id snap]) (scans s) s in
    set_refs (decoderRef s) (streamRef s) (Some id) s.

(** An animation frame fires: [scanQrCodeFromCamera] again. *)
Definition on_frame (id : nat) (snap : bool) (s : State) : State :=
  scanQrCodeFromCamera snap (drop_task (Frame id snap) s).

(** [handleFileUpload] up to its [await] (lines 580-594). *)
Definition handleFileUpload (has_file : bool) (s : State) : State :=
  if negb has_file then s else
  let s := setIsScanning true (setError None s) in
  let s := set_refs true (streamRef s) (animationFrameRef s) s in
  add_task UploadPending s.

(** The [await] settles: [onScan] or the error, then the [finally]
    (lines 595-606). *)
Definition upload_done (ok : bool) (msg : String.string) (s : State) : State :=
  let s := drop_task UploadPending s in
  let s := if ok then on_scan FromUpload s else setError (Some msg) s in
  setIsScanning false s.

(** [handleTabChange] (lines 615-618), then the re-render. *)
Definition handleTabChange (v : Tab) (s : State) : State :=
  commit (setError None (setActiveTab v s)).

(** The parent re-renders with another [isProcessing]. *)
Definition set_isProcessing (b : bool) (s : State) : State :=
  commit (set_effect (mounted s) b (deps s) (deps_cameraActive s) s).

(** Unmount: the cleanup of the decoder effect (lines 451-455), then the
    one of the camera effect (lines 466-470). *)
Definition unmount (s : State) : State :=
  let s := stopCamera (set_refs false (streamRef s) (animationFrameRef s) s) in
  let s := if deps_cameraActive s then stopCamera s else s in
  set_effect false (isProcessing s) (deps s) (deps_cameraActive s) s.

(** The first render and its effects (lines 427-471): the decoder is
    created in a browser; the camera effect runs with the upload tab. *)
Definition first_render (proc : bool) : State :=
  let s := mkState true proc false None upload false (upload, proc) false has_window None None [] 1 [] [] in
  if tab_eqb upload camera && negb false && negb proc then startCamera false s else s.

(** One event. *)
Inductive step : State -> State -> Prop :=
| step_tab v s : mounted s = true -> step s (handleTabChange v s)
| step_processing b s : mounted s = true -> step s (set_isProcessing b s)
| step_start_button s :
    mounted s = true -> activeTab s = camera -> cameraActive s = false -> isProcessing s = false ->
    step s (startCamera (cameraActive s) s)
| step_stop_button s :
    mounted s = true -> activeTab s = camera -> cameraActive s = true -> step s (stopCamera s)
| step_gum_resolve snap s : In (GumPending snap) (tasks s) -> step s (gum_resolve snap s)
| step_gum_reject snap msg s : In (GumPending snap) (tasks s) -> step s (gum_reject snap msg s)
| step_metadata snap s : In (MetaPending snap) (tasks s) -> step s (on_metadata snap s)
| step_cam_decoded snap found s : In (CamDecode snap) (tasks s) -> step s (cam_decoded snap found s)
| step_frame id snap s : In (Frame id snap) (tasks s) -> step s (on_frame id snap s)
| step_upload has_file s :
    mounted s = true -> activeTab s = upload -> isScanning s = false -> isProcessing s = false ->
    step s (handleFileUpload has_file s)
| step_upload_done ok msg s : In UploadPending (tasks s) -> step s (upload_done ok msg s)
| step_unmount s : mounted s = true -> step s (unmount s).

Inductive reachable : State -> Prop :=
| reach_init proc : reachable (first_render proc)
| reach_step s s' : reachable s -> step s s' -> reachable s'.
End Component.

(** The invariant of the reachable states: the camera never becomes
    active, the only pending work is [getUserMedia] of a render without
    an active camera and the upload, the stored stream runs, stream
    identifiers are fresh, no [onScan] comes from the camera, and while
    mounted the spinner is on exactly when an upload is pending. *)
Record inv (s : State) : Prop := {
  inv_camera : cameraActive s = false;
  inv_deps : deps_cameraActive s = false;
  inv_frame : animationFrameRef s = None;
  inv_tasks : Forall (fun t => t = GumPending false \/ t = UploadPending) (tasks s);
  inv_stream : forall x, streamRef s = Some x -> In x (live s);
  inv_fresh : Forall (fun x => x < next_id s) (live s);
  inv_scans : ~ In FromCamera (scans s);
  inv_upload : mounted s = true ->
    count_occ task_eq_dec (tasks s) UploadPending = (if isScanning s then 1 else 0)
}.

(** A stream that runs but that [streamRef] no longer names: nothing in
    the code can stop it. *)
Definition orphan (x : nat) (s : State) : Prop :=
  In x (live s) /\ streamRef s <> Some x /\ x < next_id s.

(** * Lemmas *)

Ltac qs_unfold :=
  unfold setIsScanning, setError, setActiveTab, setCameraActive, set_hooks, set_refs, set_world,
    set_effect, add_task, drop_task, on_scan in *.

Lemma Forall_remove_first (P : Task -> Prop) t l : Forall P l -> Forall P (remove_first t l).
Proof.
  induction 1 as [|x l Hx Hl IH]; cbn [remove_first]; [constructor|].
  destruct (task_eq_dec t x); [assumption|constructor; assumption].
Qed.

Lemma count_remove_first_other t u l :
  t <> u -> count_occ task_eq_dec (remove_first t l) u = count_occ task_eq_dec l u.
Proof.
  intros Htu. induction l as [|x l IH]; cbn [remove_first count_occ]; [reflexivity|].
  destruct (task_eq_dec t x) as [<-|Hx]; cbn [remove_first count_occ].
  - destruct (task_eq_dec t u); [contradiction|reflexivity].
  - destruct (task_eq_dec x u); rewrite IH; reflexivity.
Qed.

Lemma count_remove_first_in t l :
  In t l -> count_occ task_eq_dec (remove_first t l) t = count_occ task_eq_dec l t - 1.
Proof.
  induction l as [|x l IH]; intros Hin; [contradiction|]. cbn [remove_first count_occ].
  destruct (task_eq_dec t x) as [<-|Hx].
  - destruct (task_eq_dec t t) as [_|Hn]; [lia|contradiction].
  - destruct Hin as [->|Hin]; [contradiction|]. cbn [count_occ].
    destruct (task_eq_dec x t) as [->|_]; [contradiction|]. apply IH, Hin.
Qed.

Lemma count_app_one l t u :
  count_occ task_eq_dec (l ++ [t]) u = count_occ task_eq_dec l u + (if task_eq_dec t u then 1 else 0).
Proof. rewrite count_occ_app. cbn [remove_first count_occ]. destruct (task_eq_dec t u); lia. Qed.

Lemma count_filter_frame id l :
  count_occ task_eq_dec (filter (fun t => negb (is_frame id t)) l) UploadPending =
  count_occ task_eq_dec l UploadPending.
Proof.
  induction l as [|x l IH]; [reflexivity|]. cbn [filter].
  destruct (negb (is_frame id x)) eqn:E; cbn [count_occ];
    destruct (task_eq_dec x UploadPending) as [->|]; rewrite ?IH; try reflexivity.
  discriminate.
Qed.

Lemma Forall_lt_remove x l n : Forall (fun y => y < n) l -> Forall (fun y => y < n) (remove Nat.eq_dec x l).
Proof. intros H. apply Forall_forall. intros y Hy. apply in_remove in Hy as [Hy _]. rewrite Forall_forall in H. auto. Qed.

Lemma stopCamera_inv s : inv s -> inv (stopCamera s).
Proof.
  intros [Hc Hd Hf Ht Hs Hn Hsc Hu]. unfold stopCamera, cancel_frame, stop_tracks. rewrite Hf.
  destruct (streamRef s) as [x|] eqn:Ex; qs_unfold; destruct (mounted s) eqn:Em; constructor; cbn -[remove]; auto.
  all: first [ intros ? E; discriminate | apply Forall_lt_remove; assumption
             | intros ? E; rewrite Ex in E; discriminate | intros E; congruence ].
Qed.

Ltac inv_fields H := destruct H as [Hc Hd Hf Ht Hs Hn Hsc Hu].

(** Close the field goals left after unfolding a handler. *)
Ltac qs_close :=
  repeat first
    [ discriminate | reflexivity | assumption | congruence
    | progress (intros; subst)
    | apply Forall_app; split; [assumption|repeat constructor; auto]
    | apply Forall_remove_first; assumption ].

Lemma setError_inv e s : inv s -> inv (setError e s).
Proof. intros H. inv_fields H. qs_unfold. destruct (mounted s) eqn:Em; constructor; cbn; auto; intros E; congruence. Qed.

Lemma setActiveTab_inv t s : inv s -> inv (setActiveTab t s).
Proof. intros H. inv_fields H. qs_unfold. destruct (mounted s) eqn:Em; constructor; cbn; auto; intros E; congruence. Qed.

Lemma add_gum_inv s : inv s -> inv (add_task (GumPending false) s).
Proof.
  intros H. inv_fields H. qs_unfold. constructor; cbn; auto.
  - apply Forall_app. split; [assumption|repeat constructor; auto].
  - intros Em. rewrite count_app_one, (Hu Em). destruct (task_eq_dec _ _); [discriminate|lia].
Qed.

Lemma startCamera_inv has_media s : inv s -> inv (startCamera has_media false s).
Proof.
  intros H. unfold startCamera. destruct has_media; [apply add_gum_inv|]; apply setError_inv; auto;
    apply setError_inv; exact H.
Qed.

Lemma commit_inv has_media s : inv s -> inv (commit has_media s).
Proof.
  intros H. pose proof H as H'. inv_fields H'. unfold commit. rewrite Hd, Hc.
  destruct (mounted s && _); [|exact H].
  assert (He : inv (set_effect (mounted s) (isProcessing s) (activeTab s, isProcessing s) false s))
    by (qs_unfold; constructor; cbn; auto).
  rewrite andb_false_r. destruct (tab_eqb _ _ && negb false && negb _); [apply startCamera_inv|]; exact He.
Qed.

Lemma handleTabChange_inv has_media v s : inv s -> inv (handleTabChange has_media v s).
Proof. intros H. apply commit_inv, setError_inv, setActiveTab_inv, H. Qed.

Lemma set_isProcessing_inv has_media b s : inv s -> inv (set_isProcessing has_media b s).
Proof. intros H. apply commit_inv. inv_fields H. qs_unfold. constructor; cbn; auto. Qed.

Lemma gum_resolve_inv s : inv s -> inv (gum_resolve false s).
Proof.
  intros H. inv_fields H. unfold gum_resolve, video_mounted. qs_unfold. cbn. rewrite Hc, andb_false_r.
  constructor; cbn; auto.
  - apply Forall_remove_first. exact Ht.
  - intros x E. injection E as <-. left. reflexivity.
  - constructor; [cbv beta; lia|]. eapply Forall_impl; [|exact Hn]. intros ? Ha; cbv beta in *; lia.
  - intros Em. rewrite count_remove_first_other by discriminate. auto.
Qed.

Lemma drop_gum_inv s : inv s -> inv (drop_task (GumPending false) s).
Proof.
  intros H. inv_fields H. qs_unfold. constructor; cbn; auto.
  - apply Forall_remove_first. exact Ht.
  - intros Em. rewrite count_remove_first_other by discriminate. auto.
Qed.

Lemma handleFileUpload_inv s :
  inv s -> mounted s = true -> isScanning s = false -> inv (handleFileUpload true s).
Proof.
  intros H Em Hi. inv_fields H. unfold handleFileUpload. qs_unfold. rewrite Em. cbn. rewrite ?Em.
  constructor; cbn; auto.
  - apply Forall_app. split; [assumption|constructor; [right; reflexivity|constructor]].
  - intros _. rewrite count_app_one, (Hu Em), Hi. destruct (task_eq_dec _ _); [reflexivity|contradiction].
Qed.

Lemma upload_done_inv ok msg s : inv s -> In UploadPending (tasks s) -> inv (upload_done ok msg s).
Proof.
  intros H Hin. inv_fields H. unfold upload_done. qs_unfold.
  pose proof (count_remove_first_in _ _ Hin) as Hcnt.
  apply (count_occ_In task_eq_dec) in Hin.
  assert (Hsc' : ~ In FromCamera (scans s ++ [FromUpload]))
    by (rewrite in_app_iff; intros [?|[?|?]]; [contradiction|discriminate|contradiction]).
  destruct (mounted s) eqn:Em; destruct ok; repeat progress (cbn; rewrite ?Em); constructor; cbn; auto;
    try (apply Forall_remove_first; exact Ht); try (intros E; discriminate E);
    intros Hm; try congruence; rewrite Hcnt; rewrite (Hu ltac:(congruence)) in *; destruct (isScanning s); cbn in *; lia.
Qed.

Lemma unmount_inv s : inv s -> inv (unmount s).
Proof.
  intros H. unfold unmount.
  assert (H1 : inv (stopCamera (set_refs false (streamRef s) (animationFrameRef s) s))).
  { apply stopCamera_inv. inv_fields H. qs_unfold. constructor; cbn; auto. }
  pose proof H1 as H2. destruct H2 as [_ Hd1 _ _ _ _ _ _]. rewrite Hd1.
  inv_fields H1. qs_unfold. constructor; cbn; auto. discriminate.
Qed.

Lemma init_inv has_window has_media proc : inv (first_render has_window has_media proc).
Proof.
  unfold first_render. cbn. constructor; cbn; auto; try discriminate.
Qed.

Lemma task_in_inv s t : inv s -> In t (tasks s) -> t = GumPending false \/ t = UploadPending.
Proof. intros H Hin. destruct H as [_ _ _ Ht _ _ _ _]. rewrite Forall_forall in Ht. auto. Qed.

Lemma handleFileUpload_false s : handleFileUpload false s = s.
Proof. reflexivity. Qed.

(** Every event keeps the invariant. *)
Lemma step_inv hm s s' : inv s -> step hm s s' -> inv s'.
Proof.
  intros H Hs. destruct Hs as [v s Hm|b s Hm|s Hm Ht Hc Hp|s Hm Ht Hc|snap s Hin|snap msg s Hin
    |snap s Hin|snap found s Hin|id snap s Hin|[] s Hm Ht Hi Hp|ok msg s Hin|s Hm].
  - apply handleTabChange_inv, H.
  - apply set_isProcessing_inv, H.
  - rewrite Hc. apply startCamera_inv, H.
  - rewrite (inv_camera _ H) in Hc. discriminate.
  - destruct (task_in_inv _ _ H Hin) as [E|E]; [injection E as ->; apply gum_resolve_inv, H|discriminate].
  - destruct (task_in_inv _ _ H Hin) as [E|E]; [injection E as ->|discriminate].
    apply setError_inv, drop_gum_inv, H.
  - destruct (task_in_inv _ _ H Hin) as [E|E]; discriminate.
  - destruct (task_in_inv _ _ H Hin) as [E|E]; discriminate.
  - destruct (task_in_inv _ _ H Hin) as [E|E]; discriminate.
  - apply handleFileUpload_inv; assumption.
  - rewrite handleFileUpload_false. exact H.
  - apply upload_done_inv; assumption.
  - apply unmount_inv, H.
Qed.

Lemma reachable_inv hw hm s : reachable hw hm s -> inv s.
Proof. induction 1; [apply init_inv|eapply step_inv; eassumption]. Qed.

(** ** Orphaned streams *)

Create HintDb orphan.

Lemma orphan_hooks x a b c d s : orphan x s -> orphan x (set_hooks a b c d s).
Proof. unfold set_hooks. destruct (mounted s); auto. Qed.

Lemma orphan_setError x e s : orphan x s -> orphan x (setError e s).
Proof. apply orphan_hooks. Qed.
Lemma orphan_setIsScanning x b s : orphan x s -> orphan x (setIsScanning b s).
Proof. apply orphan_hooks. Qed.
Lemma orphan_setActiveTab x t s : orphan x s -> orphan x (setActiveTab t s).
Proof. apply orphan_hooks. Qed.
Lemma orphan_setCameraActive x b s : orphan x s -> orphan x (setCameraActive b s).
Proof. apply orphan_hooks. Qed.

Lemma orphan_set_effect x a b c d s : orphan x s -> orphan x (set_effect a b c d s).
Proof. auto. Qed.

Lemma orphan_tasks x l n sc s :
  orphan x s -> n >= next_id s -> orphan x (set_world (live s) n l sc s).
Proof. unfold orphan, set_world. cbn. intros (H1 & H2 & H3) Hn. repeat split; auto. lia. Qed.

Lemma orphan_add_task x t s : orphan x s -> orphan x (add_task t s).
Proof. intros H. apply orphan_tasks; auto. Qed.
Lemma orphan_drop_task x t s : orphan x s -> orphan x (drop_task t s).
Proof. intros H. apply orphan_tasks; auto. Qed.
Lemma orphan_on_scan x src s : orphan x s -> orphan x (on_scan src s).
Proof. intros H. apply orphan_tasks; auto. Qed.

Lemma orphan_set_refs x d r f s : orphan x s -> r = streamRef s -> orphan x (set_refs d r f s).
Proof. intros H ->. exact H. Qed.

#[local] Hint Resolve orphan_setError orphan_setIsScanning orphan_setActiveTab orphan_setCameraActive
  orphan_set_effect orphan_add_task orphan_drop_task orphan_on_scan orphan_set_refs : orphan.

Lemma orphan_stopCamera x s : orphan x s -> orphan x (stopCamera s).
Proof.
  intros H. apply orphan_setCameraActive.
  assert (H1 : orphan x (cancel_frame s)).
  { unfold cancel_frame. destruct (animationFrameRef s); [|exact H].
    apply orphan_set_refs; [apply orphan_tasks; auto|reflexivity]. }
  revert H1. generalize (cancel_frame s) as s1. intros s1 (H1 & H2 & H3). unfold stop_tracks.
  destruct (streamRef s1) as [y|] eqn:Ey; [|repeat split; auto; rewrite Ey; auto].
  unfold orphan, set_refs, set_world. cbn. repeat split; [|discriminate|exact H3].
  apply in_in_remove; [|exact H1]. intros ->. apply H2. reflexivity.
Qed.

#[local] Hint Resolve orphan_stopCamera : orphan.

Lemma orphan_startCamera x hm snap s : orphan x s -> orphan x (startCamera hm snap s).
Proof. intros H. unfold startCamera. destruct hm; auto with orphan. Qed.

#[local] Hint Resolve orphan_startCamera : orphan.

Lemma orphan_commit x hm s : orphan x s -> orphan x (commit hm s).
Proof.
  intros H. unfold commit. destruct (mounted s && _); [|exact H].
  assert (H1 : orphan x (if deps_cameraActive s then stopCamera s else s))
    by (destruct (deps_cameraActive s); auto with orphan).
  revert H1. generalize (if deps_cameraActive s then stopCamera s else s). intros s1 H1.
  repeat match goal with |- context [if ?b then _ else _] => destruct b end; auto with orphan.
Qed.

#[local] Hint Resolve orphan_commit : orphan.

Lemma orphan_gum_resolve x snap s : orphan x s -> orphan x (gum_resolve snap s).
Proof.
  intros H. unfold gum_resolve.
  assert (H1 : orphan x (drop_task (GumPending snap) s)) by auto with orphan.
  revert H1. generalize (drop_task (GumPending snap) s). intros s1 (H1 & H2 & H3).
  assert (H4 : orphan x (set_refs (decoderRef s1) (Some (next_id s1))
                 (animationFrameRef s1) (set_world (next_id s1 :: live s1) (S (next_id s1)) (tasks s1) (scans s1) s1))).
  { unfold orphan, set_refs, set_world. cbn. repeat split; [right; exact H1| |lia].
    intros E. injection E as E. lia. }
  destruct (video_mounted _); auto with orphan.
Qed.

Lemma orphan_step hm s s' x : step hm s s' -> orphan x s -> orphan x s'.
Proof.
  intros Hs H. destruct Hs as [v s Hm|b s Hm|s Hm Ht Hc Hp|s Hm Ht Hc|snap s Hin|snap msg s Hin
    |snap s Hin|snap found s Hin|id snap s Hin|[] s Hm Ht Hi Hp|ok msg s Hin|s Hm].
  - unfold handleTabChange. auto with orphan.
  - unfold set_isProcessing. auto with orphan.
  - auto with orphan.
  - auto with orphan.
  - apply orphan_gum_resolve, H.
  - unfold gum_reject. auto with orphan.
  - unfold on_metadata, scanQrCodeFromCamera. destruct (_ && _ && _); auto with orphan.
  - unfold cam_decoded. destruct found; [auto with orphan|].
    apply orphan_set_refs; [apply orphan_tasks; [auto with orphan|cbn; lia]|reflexivity].
  - unfold on_frame, scanQrCodeFromCamera. destruct (_ && _ && _); auto with orphan.
  - unfold handleFileUpload. cbn. apply orphan_add_task.
    assert (H1 : orphan x (setIsScanning true (setError None s))) by auto with orphan.
    destruct H1 as (? & ? & ?). repeat split; auto.
  - exact H.
  - unfold upload_done. destruct ok; auto with orphan.
  - unfold unmount. apply orphan_set_effect.
    assert (H1 : orphan x (stopCamera (set_refs false (streamRef s) (animationFrameRef s) s))) by auto with orphan.
    destruct (deps_cameraActive _); auto with orphan.
Qed.

(** * Theorems *)

(** C24: The camera tab never scans.  In every reachable state, whatever
    the user does and however the browser answers, [cameraActive] is
    false, no frame is being decoded or scheduled, and [onScan] has never
    been called from the camera: [<video>] is rendered only when
    [cameraActive] is true, so the [loadedmetadata] handler that would set
    it is never installed, and the polling loop never starts. *)
Theorem camera_never_scans hw hm s :
  reachable hw hm s ->
  cameraActive s = false /\ ~ In FromCamera (scans s) /\
  (forall snap, ~ In (CamDecode snap) (tasks s)) /\ (forall id snap, ~ In (Frame id snap) (tasks s)).
Proof.
  intros Hr. pose proof (reachable_inv _ _ _ Hr) as H.
  split; [exact (inv_camera _ H)|]. split; [exact (inv_scans _ H)|].
  split; intros * Hin; destruct (task_in_inv _ _ H Hin); discriminate.
Qed.

(** C25: A stream that [streamRef] no longer names is never stopped: it
    runs in every later state, also after the unmount, whose cleanup
    stops only the stored stream.  Each click on "Start Camera" replaces
    the stored stream by a new one, so the previous one runs on. *)
Theorem orphan_stream_runs hm s s' x :
  clos_refl_trans_1n State (step hm) s s' -> orphan x s -> orphan x s'.
Proof.
  induction 1 as [s|s s1 s' Hs _ IH]; intros H; [exact H|]. apply IH. eapply orphan_step; eassumption.
Qed.

(** C34: The upload finishes: while the spinner is on, the decode of the
    chosen file is pending, and whichever way it settles the [finally]
    turns the spinner off. *)
Theorem upload_finishes hw hm s :
  reachable hw hm s -> mounted s = true -> isScanning s = true ->
  forall ok msg, step hm s (upload_done ok msg s) /\ isScanning (upload_done ok msg s) = false.
Proof.
  intros Hr Hm Hi ok msg. pose proof (inv_upload _ (reachable_inv _ _ _ Hr) Hm) as Hc. rewrite Hi in Hc.
  assert (Hin : In UploadPending (tasks s)) by (apply (count_occ_In task_eq_dec); lia).
  split; [apply step_upload_done, Hin|].
  unfold upload_done, setIsScanning, set_hooks. qs_unfold.
  destruct ok; cbn; rewrite Hm; cbn; rewrite ?Hm; reflexivity.
Qed.

Lemma camera_never_scans_witness :
  reachable true true (handleTabChange true camera (first_render true true false)) /\
  cameraActive (handleTabChange true camera (first_render true true false)) = false /\
  ~ In FromCamera (scans (handleTabChange true camera (first_render true true false))) /\
  (forall snap, ~ In (CamDecode snap) (tasks (handleTabChange true camera (first_render true true false)))) /\
  (forall id snap, ~ In (Frame id snap) (tasks (handleTabChange true camera (first_render true true false)))).
Proof.
  assert (Hr : reachable true true (handleTabChange true camera (first_render true true false)))
    by (eapply reach_step; [apply reach_init|apply step_tab; reflexivity]).
  split; [exact Hr|]. apply (camera_never_scans true true _ Hr).
Defined.

(** The leak: the camera tab starts a stream, the user clicks "Start
    Camera" (still shown, since [cameraActive] stays false), a second
    stream replaces the first in [streamRef]; after the unmount stream 1
    still runs. *)
Lemma orphan_stream_runs_witness :
  let s1 := handleTabChange true camera (first_render true true false) in
  let s2 := gum_resolve false s1 in
  let s3 := startCamera true (cameraActive s2) s2 in
  let s4 := gum_resolve false s3 in
  reachable true true s4 /\ orphan 1 s4 /\
  mounted (unmount s4) = false /\ live (unmount s4) = [1] /\ orphan 1 (unmount s4).
Proof.
  intros s1 s2 s3 s4.
  assert (H1 : reachable true true s1) by (eapply reach_step; [apply reach_init|apply step_tab; reflexivity]).
  assert (H2 : reachable true true s2) by (eapply reach_step; [exact H1|apply step_gum_resolve; cbn; auto]).
  assert (H3 : reachable true true s3) by (eapply reach_step; [exact H2|apply step_start_button; reflexivity]).
  assert (H4 : reachable true true s4) by (eapply reach_step; [exact H3|apply step_gum_resolve; cbn; auto]).
  assert (Ho : orphan 1 s4) by (split; [cbn; auto|split; [cbn; discriminate|cbn; lia]]).
  split; [exact H4|]. split; [exact Ho|]. split; [reflexivity|]. split; [reflexivity|].
  apply (orphan_stream_runs true s4 (unmount s4) 1); [|exact Ho].
  econstructor; [apply step_unmount; reflexivity|constructor].
Defined.

Lemma upload_finishes_witness :
  reachable true true (handleFileUpload true (first_render true true false)) /\
  mounted (handleFileUpload true (first_render true true false)) = true /\
  isScanning (handleFileUpload true (first_render true true false)) = true /\
  (forall ok msg, step true (handleFileUpload true (first_render true true false))
                    (upload_done ok msg (handleFileUpload true (first_render true true false))) /\
                  isScanning (upload_done ok msg (handleFileUpload true (first_render true true false))) = false).
Proof.
  assert (Hr : reachable true true (handleFileUpload true (first_render true true false)))
    by (eapply reach_step; [apply reach_init|apply step_upload; reflexivity]).
  split; [exact Hr|]. split; [reflexivity|]. split; [reflexivity|].
  apply (upload_finishes true true _ Hr); reflexivity.
Defined.
