(* ===== verification/Liveness.v ===== *)
(** * Liveness: the face-liveness check component

    [src/components/liveness-detection.tsx], lines 15-408
    ([LivenessDetection]): it loads the face-api models, starts the front
    camera, and on every animation frame asks face-api for the faces in
    the video; three blinks (the eye aspect ratio falling below 0.2) and
    then two head turns (the face centre moving more than 30 pixels)
    complete the check, and [onComplete(true)] runs 1.5 s later.

    The React runtime is explicit, as in [QrScanner]:
    - [State] holds the [useState] cells, the refs ([streamRef],
      [animationFrameRef], [modelsLoadedRef], the previous eye ratio and
      face position, the two counters), the [isProcessing] prop, whether
      the component is mounted, and the world: the running media streams,
      fresh identifiers, the pending continuations and the calls of the
      [onComplete] prop ([completes]).  The [<video>] and [<canvas>] are
      always rendered (lines 319-322): their refs are set while mounted.
    - A closure sees the [cameraActive] and [detectionSteps] of the render
      that created it ([Snap]): [startDetection] and [detectFace] read
      both, and [requestAnimationFrame(detectFace)] reschedules the same
      closure.
    - face-api is the environment: a frame's result is the event's
      parameter: [None] when [detectAllFaces] throws, [Some None] when it
      finds no face, [Some (Some o)] with the average eye aspect ratio and
      the horizontal centre of the first face ([calculateEyeAspectRatio],
      a ratio of Euclidean distances over doubles, is computed on that
      side).  Numbers are rationals [Q]. *)

From Stdlib Require Import QArith Qabs List Lia Bool Arith.
From Stdlib Require String.
From S2P Require Import Prelude.
Import ListNotations String.StringSyntax.
Local Open Scope string_scope.

Module Live.

Record Steps := mkSteps { faceDetected : bool; blinkDetected : bool; headTurnDetected : bool }.

Definition no_steps : Steps := mkSteps false false false.

(** What a closure saw of its render. *)
Record Snap := mkSnap { snap_cameraActive : bool; snap_steps : Steps }.

Definition steps_eq_dec (a b : Steps) : {a = b} + {a <> b}.
Proof. decide equality; apply Bool.bool_dec. Defined.

Definition snap_eq_dec (a b : Snap) : {a = b} + {a <> b}.
Proof. decide equality; [apply steps_eq_dec | apply Bool.bool_dec]. Defined.

(** The first face of a frame, as [detectFace] uses it (lines 213-227). *)
Record Obs := mkObs { earAvg : Q; face_x : Q }.

(** A pending continuation of the code. *)
Inductive Task :=
| ModelsPending                     (* loadModels, lines 45-67 *)
| GumPending (sn : Snap)             (* await getUserMedia, line 96 *)
| MetaPending (sn : Snap)            (* video.onloadedmetadata, line 101 *)
| PlayPending (sn : Snap)            (* video.play(), line 104 *)
| Detecting (sn : Snap)              (* await detectAllFaces, line 193 *)
| Frame (id : nat) (sn : Snap)       (* requestAnimationFrame(detectFace), line 286 *)
| CompleteTimer.                     (* setTimeout(..., 1500), line 262 *)

Definition task_eq_dec (a b : Task) : {a = b} + {a <> b}.
Proof. decide equality; (apply snap_eq_dec || apply Nat.eq_dec). Defined.

Record State := mkState {
  mounted : bool;
  isProcessing : bool;
  isLoading : bool;
  isDetecting : bool;
  cameraActive : bool;
  error : option String.string;
  instructions : String.string;
  detectionProgress : nat;
  steps : Steps;
  streamRef : option nat;
  animationFrameRef : option nat;
  modelsLoaded : bool;
  prevEar : option Q;
  prevX : option Q;
  blinkCount : nat;
  headTurnCount : nat;
  live : list nat;
  next_id : nat;
  tasks : list Task;
  completes : list bool
}.

(** ** Updates *)

(** The [useState] cells; a setter on an unmounted component does nothing. *)
Definition set_cells (isLoading' isDetecting' cameraActive' : bool) (error' : option String.string)
    (instructions' : String.string) (progress' : nat) (steps' : Steps) (s : State) : State :=
  if mounted s then
    mkState (mounted s) (isProcessing s) isLoading' isDetecting' cameraActive' error' instructions' progress'
      steps' (streamRef s) (animationFrameRef s) (modelsLoaded s) (prevEar s) (prevX s) (blinkCount s)
      (headTurnCount s) (live s) (next_id s) (tasks s) (completes s)
  else s.

Definition setIsLoading (b : bool) (s : State) : State :=
  set_cells b (isDetecting s) (cameraActive s) (error s) (instructions s) (detectionProgress s) (steps s) s.
Definition setIsDetecting (b : bool) (s : State) : State :=
  set_cells (isLoading s) b (cameraActive s) (error s) (instructions s) (detectionProgress s) (steps s) s.
Definition setCameraActive (b : bool) (s : State) : State :=
  set_cells (isLoading s) (isDetecting s) b (error s) (instructions s) (detectionProgress s) (steps s) s.
Definition setError (e : option String.string) (s : State) : State :=
  set_cells (isLoading s) (isDetecting s) (cameraActive s) e (instructions s) (detectionProgress s) (steps s) s.
Definition setInstructions (m : String.string) (s : State) : State :=
  set_cells (isLoading s) (isDetecting s) (cameraActive s) (error s) m (detectionProgress s) (steps s) s.
Definition setDetectionProgress (n : nat) (s : State) : State :=
  set_cells (isLoading s) (isDetecting s) (cameraActive s) (error s) (instructions s) n (steps s) s.
Definition setDetectionSteps (st : Steps) (s : State) : State :=
  set_cells (isLoading s) (isDetecting s) (cameraActive s) (error s) (instructions s) (detectionProgress s) st s.

(** The refs, assigned whether or not the component is mounted. *)
Definition set_refs (streamRef' animationFrameRef' : option nat) (modelsLoaded' : bool) (prevEar' prevX' : option Q)
    (blinkCount' headTurnCount' : nat) (s : State) : State :=
  mkState (mounted s) (isProcessing s) (isLoading s) (isDetecting s) (cameraActive s) (error s) (instructions s)
    (detectionProgress s) (steps s) streamRef' animationFrameRef' modelsLoaded' prevEar' prevX' blinkCount'
    headTurnCount' (live s) (next_id s) (tasks s) (completes s).

Definition set_world (live' : list nat) (next_id' : nat) (tasks' : list Task) (completes' : list bool)
    (s : State) : State :=
  mkState (mounted s) (isProcessing s) (isLoading s) (isDetecting s) (cameraActive s) (error s) (instructions s)
    (detectionProgress s) (steps s) (streamRef s) (animationFrameRef s) (modelsLoaded s) (prevEar s) (prevX s)
    (blinkCount s) (headTurnCount s) live' next_id' tasks' completes'.

Definition set_props (mounted' isProcessing' : bool) (s : State) : State :=
  mkState mounted' isProcessing' (isLoading s) (isDetecting s) (cameraActive s) (error s) (instructions s)
    (detectionProgress s) (steps s) (streamRef s) (animationFrameRef s) (modelsLoaded s) (prevEar s) (prevX s)
    (blinkCount s) (headTurnCount s) (live s) (next_id s) (tasks s) (completes s).

Fixpoint remove_first (t : Task) (l : list Task) : list Task :=
  match l with
  | [] => []
  | x :: r => if task_eq_dec t x then r else x :: remove_first t r
  end.

Definition is_frame (id : nat) (t : Task) : bool :=
  match t with Frame i _ => Nat.eqb i id | _ => false end.

Definition add_task (t : Task) (s : State) : State := set_world (live s) (next_id s) (tasks s ++ [t]) (completes s) s.
Definition drop_task (t : Task) (s : State) : State :=
  set_world (live s) (next_id s) (remove_first t (tasks s)) (completes s) s.
Definition onComplete (b : bool) (s : State) : State :=
  set_world (live s) (next_id s) (tasks s) (completes s ++ [b]) s.

(** The closure of the current render. *)
Definition snap_of (s : State) : Snap := mkSnap (cameraActive s) (steps s).

(** ** The handlers *)

Section Component.
(** [navigator.mediaDevices.getUserMedia] exists (line 82). *)
Variable has_mediaDevices : bool.

(** [stopCamera] (lines 141-167): cancel the animation frame, stop the
    tracks, clear the video, [setCameraActive(false)],
    [setIsDetecting(false)].  A [detectAllFaces] already awaited is not
    cancelled. *)
Definition cancel_frame (s : State) : State :=
  match animationFrameRef s with
  | Some id =>
      let s := set_world (live s) (next_id s) (filter (fun t => negb (is_frame id t)) (tasks s)) (completes s) s in
      set_refs (streamRef s) None (modelsLoaded s) (prevEar s) (prevX s) (blinkCount s) (headTurnCount s) s
  | None => s
  end.

Definition stop_tracks (s : State) : State :=
  match streamRef s with
  | Some x =>
      let s := set_world (remove Nat.eq_dec x (live s)) (next_id s) (tasks s) (completes s) s in
      set_refs None (animationFrameRef s) (modelsLoaded s) (prevEar s) (prevX s) (blinkCount s) (headTurnCount s) s
  | None => s
  end.

Definition stopCamera (s : State) : State :=
  setIsDetecting false (setCameraActive false (stop_tracks (cancel_frame s))).

(** [loadModels] settles (lines 56-66). *)
Definition models_done (ok : bool) (s : State) : State :=
  let s := drop_task ModelsPending s in
  if ok then
    let s := set_refs (streamRef s) (animationFrameRef s) true (prevEar s) (prevX s) (blinkCount s) (headTurnCount s) s in
    setIsLoading false (setInstructions "Models loaded. Click 'Start Liveness Check' to begin." s)
  else setIsLoading false (setError (Some "Failed to load face detection models. Please refresh and try again.") s).

(** [startCamera] (lines 77-96) up to its [await], as created in the
    render [sn]; without [getUserMedia] the [throw] lands in the [catch]
    of lines 133-137. *)
Definition startCamera (sn : Snap) (s : State) : State :=
  let s := setIsDetecting true (setError None s) in
  if has_mediaDevices then add_task (GumPending sn) s
  else setIsDetecting false (setError (Some "Camera access is not supported in your browser") s).

(** [getUserMedia] resolves (lines 97-132): the stream is stored and the
    [loadedmetadata] handler installed on the [<video>]. *)
Definition gum_resolve (sn : Snap) (s : State) : State :=
  let s := drop_task (GumPending sn) s in
  let x := next_id s in
  let s := set_world (x :: live s) (S x) (tasks s) (completes s) s in
  let s := set_refs (Some x) (animationFrameRef s) (modelsLoaded s) (prevEar s) (prevX s) (blinkCount s)
             (headTurnCount s) s in
  if mounted s then add_task (MetaPending sn) s else s.

Definition gum_reject (sn : Snap) (msg : String.string) (s : State) : State :=
  let s := drop_task (GumPending sn) s in
  setIsDetecting false (setError (Some (if String.eqb msg "" then
    "Failed to access camera. Please check your camera permissions." else msg)) s).

Definition on_metadata (sn : Snap) (s : State) : State :=
  let s := drop_task (MetaPending sn) s in
  if mounted s then add_task (PlayPending sn) s else s.

(** [detectFace] (lines 179-193) of the render [sn], up to its [await]:
    the guard of line 180 reads that render's [cameraActive]. *)
Definition detectFace (sn : Snap) (s : State) : State :=
  if mounted s && snap_cameraActive sn then add_task (Detecting sn) s else s.

(** [startDetection] (lines 170-176). *)
Definition startDetection (sn : Snap) (s : State) : State :=
  if mounted s && snap_cameraActive sn then detectFace sn s else s.

(** [play()] resolves (lines 105-124): the camera is active, the checks
    and the counters are reset, and [startDetection] of the same closure
    runs. *)
Definition play_resolve (sn : Snap) (s : State) : State :=
  let s := drop_task (PlayPending sn) s in
  let s := setCameraActive true s in
  let s := setInstructions "Position your face in the center of the frame" s in
  let s := setDetectionProgress 0 (setDetectionSteps no_steps s) in
  let s := set_refs (streamRef s) (animationFrameRef s) (modelsLoaded s) None None 0 0 s in
  startDetection sn s.

Definition play_reject (sn : Snap) (s : State) : State :=
  stopCamera (setError (Some "Failed to start camera feed. Please try again.") (drop_task (PlayPending sn) s)).

Definition qlt (x y : Q) : bool := negb (Qle_bool y x).

Definition with_face (st : Steps) : Steps := mkSteps true (blinkDetected st) (headTurnDetected st).
Definition with_blink (st : Steps) : Steps := mkSteps (faceDetected st) true (headTurnDetected st).
Definition with_turn (st : Steps) : Steps := mkSteps (faceDetected st) (blinkDetected st) true.

Definition set_counts (blinks turns : nat) (s : State) : State :=
  set_refs (streamRef s) (animationFrameRef s) (modelsLoaded s) (prevEar s) (prevX s) blinks turns s.

(** A face was seen (lines 207-211), with the snapshot's steps. *)
Definition face_step (st : Steps) (s : State) : State :=
  if negb (faceDetected st) then
    setDetectionProgress 33 (setInstructions "Face detected! Now please blink a few times"
                               (setDetectionSteps (with_face (steps s)) s))
  else s.

(** Blink detection (lines 230-244). *)
Definition blink_step (st : Steps) (o : Obs) (s : State) : State :=
  if negb (blinkDetected st) then
    match prevEar s with
    | Some p =>
        if qlt (1 # 5) p && qlt (earAvg o) (1 # 5) && Nat.ltb (blinkCount s) 3 then
          let s := set_counts (S (blinkCount s)) (headTurnCount s) s in
          if Nat.leb 3 (blinkCount s) then
            setDetectionProgress 66 (setInstructions "Great! Now please turn your head slightly left and right"
                                       (setDetectionSteps (with_blink (steps s)) s))
          else s
        else s
    | None => s
    end
  else s.

(** Head-turn detection (lines 247-269): the second turn arms the timer
    of [onComplete(true)]. *)
Definition turn_step (st : Steps) (o : Obs) (s : State) : State :=
  if blinkDetected st && negb (headTurnDetected st) then
    match prevX s with
    | Some px =>
        if qlt 30 (Qabs (face_x o - px)) && Nat.ltb (headTurnCount s) 2 then
          let s := set_counts (blinkCount s) (S (headTurnCount s)) s in
          if Nat.leb 2 (headTurnCount s) then
            add_task CompleteTimer (setDetectionProgress 100 (setInstructions "Liveness check complete!"
                                     (setDetectionSteps (with_turn (steps s)) s)))
          else s
        else s
    | None => s
    end
  else s.

(** [requestAnimationFrame(detectFace)] (line 286): the same closure. *)
Definition request_frame (sn : Snap) (s : State) : State :=
  let id := next_id s in
  let s := set_world (live s) (S id) (tasks s ++ [Frame id sn]) (completes s) s in
  set_refs (streamRef s) (Some id) (modelsLoaded s) (prevEar s) (prevX s) (blinkCount s) (headTurnCount s) s.

(** What [detectFace] does with a settled [detectAllFaces] (lines
    193-283), with the snapshot's steps: [None] when it throws (the
    [catch] of line 280), [Some None] when no face is found. *)
Definition process_frame (st : Steps) (r : option (option Obs)) (s : State) : State :=
  match r with
  | None => s
  | Some None =>
      if faceDetected st then setInstructions "Face lost. Please position your face in the center of the frame" s
      else s
  | Some (Some o) =>
      let s := turn_step st o (blink_step st o (face_step st s)) in
      set_refs (streamRef s) (animationFrameRef s) (modelsLoaded s) (Some (earAvg o)) (Some (face_x o))
        (blinkCount s) (headTurnCount s) s
  end.

(** [detectAllFaces] settles, then the loop continues if the closure's
    [cameraActive] holds (lines 284-287). *)
Definition detect_done (sn : Snap) (r : option (option Obs)) (s : State) : State :=
  let s := process_frame (snap_steps sn) r (drop_task (Detecting sn) s) in
  if snap_cameraActive sn then request_frame sn s else s.

Definition on_frame (id : nat) (sn : Snap) (s : State) : State := detectFace sn (drop_task (Frame id sn) s).

(** The timer of lines 262-265. *)
Definition complete_fire (s : State) : State := onComplete true (stopCamera (drop_task CompleteTimer s)).

(** "Skip for Now": [cancelCheck] (lines 304-307). *)
Definition cancelCheck (s : State) : State := onComplete false (stopCamera s).

(** Unmount: the cleanup of the models effect (lines 71-73). *)
Definition unmount (s : State) : State := set_props false (isProcessing s) (stopCamera s).

(** The first render and the models effect (lines 15-69). *)
Definition first_render (proc : bool) : State :=
  mkState true proc true false false None "Loading face detection models..." 0 no_steps None None false None None
    0 0 [] 1 [ModelsPending] [].

Inductive step : State -> State -> Prop :=
| step_models ok s : In ModelsPending (tasks s) -> step s (models_done ok s)
| step_start s :
    mounted s = true -> cameraActive s = false -> isProcessing s = false -> isLoading s = false ->
    step s (startCamera (snap_of s) s)
| step_gum_resolve sn s : In (GumPending sn) (tasks s) -> step s (gum_resolve sn s)
| step_gum_reject sn msg s : In (GumPending sn) (tasks s) -> step s (gum_reject sn msg s)
| step_metadata sn s : In (MetaPending sn) (tasks s) -> step s (on_metadata sn s)
| step_play_resolve sn s : In (PlayPending sn) (tasks s) -> step s (play_resolve sn s)
| step_play_reject sn s : In (PlayPending sn) (tasks s) -> step s (play_reject sn s)
| step_detect sn r s : In (Detecting sn) (tasks s) -> step s (detect_done sn r s)
| step_frame id sn s : In (Frame id sn) (tasks s) -> step s (on_frame id sn s)
| step_complete s : In CompleteTimer (tasks s) -> step s (complete_fire s)
| step_close s : mounted s = true -> cameraActive s = true -> step s (stopCamera s)
| step_skip s : mounted s = true -> isProcessing s = false -> step s (cancelCheck s)
| step_processing b s : mounted s = true -> step s (set_props true b s)
| step_unmount s : mounted s = true -> step s (unmount s).

Inductive reachable : State -> Prop :=
| reach_init proc : reachable (first_render proc)
| reach_step s s' : reachable s -> step s s' -> reachable s'.
End Component.

(** * Invariant *)

(** The work that can be pending: the models, and the camera start of a
    render whose camera was off. *)
Definition task_ok (t : Task) : bool :=
  match t with
  | ModelsPending => true
  | GumPending sn | MetaPending sn | PlayPending sn => negb (snap_cameraActive sn)
  | _ => false
  end.

(** No detection is pending or scheduled, the checks and the progress
    stay at their reset values, no head turn is counted, and
    [onComplete(true)] has never run. *)
Record linv (s : State) : Prop := {
  li_tasks : Forall (fun t => task_ok t = true) (tasks s);
  li_frame : animationFrameRef s = None;
  li_completes : ~ In true (completes s);
  li_progress : detectionProgress s = 0%nat;
  li_steps : steps s = no_steps;
  li_turns : headTurnCount s = 0%nat
}.

Create HintDb liveness.

Lemma lv_set_cells a b c e m p st s :
  linv s -> p = 0%nat -> st = no_steps -> linv (set_cells a b c e m p st s).
Proof. intros Hs -> ->. unfold set_cells. destruct (mounted s); [|exact Hs]. destruct Hs; constructor; auto. Qed.

Lemma lv_setters b e m s :
  linv s -> linv (setIsLoading b s) /\ linv (setIsDetecting b s) /\ linv (setCameraActive b s) /\
            linv (setError e s) /\ linv (setInstructions m s) /\ linv (setDetectionProgress 0 s) /\
            linv (setDetectionSteps no_steps s).
Proof.
  intros Hs. pose proof (li_progress s Hs). pose proof (li_steps s Hs).
  repeat split; apply lv_set_cells; auto.
Qed.

Lemma lv_setIsLoading b s : linv s -> linv (setIsLoading b s).
Proof. intros Hs. apply (lv_setters b None "" s Hs). Qed.
Lemma lv_setIsDetecting b s : linv s -> linv (setIsDetecting b s).
Proof. intros Hs. apply (lv_setters b None "" s Hs). Qed.
Lemma lv_setCameraActive b s : linv s -> linv (setCameraActive b s).
Proof. intros Hs. apply (lv_setters b None "" s Hs). Qed.
Lemma lv_setError e s : linv s -> linv (setError e s).
Proof. intros Hs. apply (lv_setters false e "" s Hs). Qed.
Lemma lv_setInstructions m s : linv s -> linv (setInstructions m s).
Proof. intros Hs. apply (lv_setters false None m s Hs). Qed.
Lemma lv_setDetectionProgress s : linv s -> linv (setDetectionProgress 0 s).
Proof. intros Hs. apply (lv_setters false None "" s Hs). Qed.
Lemma lv_setDetectionSteps s : linv s -> linv (setDetectionSteps no_steps s).
Proof. intros Hs. apply (lv_setters false None "" s Hs). Qed.

Lemma lv_set_refs r f ml pe px b t s : linv s -> f = None -> t = 0%nat -> linv (set_refs r f ml pe px b t s).
Proof. intros [? ? ? ? ? ?] -> ->. constructor; auto. Qed.

Lemma lv_set_world l n t c s :
  linv s -> Forall (fun t => task_ok t = true) t -> ~ In true c -> linv (set_world l n t c s).
Proof. intros [? ? ? ? ? ?] ? ?. constructor; auto. Qed.

Lemma lv_set_props m p s : linv s -> linv (set_props m p s).
Proof. intros [? ? ? ? ? ?]. constructor; auto. Qed.

Lemma lv_Forall_remove_first (P : Task -> Prop) t l : Forall P l -> Forall P (remove_first t l).
Proof. induction 1 as [|x l Hx Hl IH]; simpl; [constructor|]. destruct (task_eq_dec t x); auto. Qed.

Lemma lv_drop_task t s : linv s -> linv (drop_task t s).
Proof. intros Hs. apply lv_set_world; [exact Hs | apply lv_Forall_remove_first, Hs | apply Hs]. Qed.

Lemma lv_add_task t s : linv s -> task_ok t = true -> linv (add_task t s).
Proof. intros Hs Ht. apply lv_set_world; [exact Hs | apply Forall_app; split; [apply Hs | auto] | apply Hs]. Qed.

Lemma lv_task_in s t : linv s -> In t (tasks s) -> task_ok t = true.
Proof. intros Hs Ht. exact (proj1 (Forall_forall _ _) (li_tasks s Hs) t Ht). Qed.

#[export] Hint Resolve lv_setIsLoading lv_setIsDetecting lv_setCameraActive lv_setError lv_setInstructions
  lv_setDetectionProgress lv_setDetectionSteps lv_drop_task lv_set_props : liveness.

Section InvOps.
Variable has_mediaDevices : bool.

Lemma lv_stopCamera s : linv s -> linv (stopCamera s).
Proof.
  intros Hs. unfold stopCamera, stop_tracks, cancel_frame. rewrite (li_frame s Hs).
  apply lv_setIsDetecting, lv_setCameraActive. destruct (streamRef s); [|exact Hs].
  apply lv_set_refs; [apply lv_set_world; apply Hs | apply Hs | apply Hs].
Qed.

Lemma lv_models_done ok s : linv s -> linv (models_done ok s).
Proof.
  intros Hs. unfold models_done. pose proof (lv_drop_task ModelsPending s Hs) as H1.
  destruct ok; auto with liveness. apply lv_setIsLoading, lv_setInstructions, lv_set_refs; apply H1.
Qed.

Lemma lv_startCamera sn s : linv s -> snap_cameraActive sn = false -> linv (startCamera has_mediaDevices sn s).
Proof.
  intros Hs Hsn. unfold startCamera. destruct has_mediaDevices; [apply lv_add_task|]; auto with liveness.
  simpl. rewrite Hsn. reflexivity.
Qed.

Lemma lv_gum_resolve sn s : linv s -> snap_cameraActive sn = false -> linv (gum_resolve sn s).
Proof.
  intros Hs Hsn. unfold gum_resolve. cbv zeta. pose proof (lv_drop_task (GumPending sn) s Hs) as H1.
  match goal with |- linv (if mounted ?x then _ else _) =>
    assert (Hx : linv x) by (apply lv_set_refs; [apply lv_set_world; apply H1 | apply H1 | apply H1]);
    destruct (mounted x); [apply lv_add_task; [exact Hx | simpl; rewrite Hsn; reflexivity] | exact Hx]
  end.
Qed.

Lemma lv_gum_reject sn msg s : linv s -> linv (gum_reject sn msg s).
Proof. intros Hs. unfold gum_reject. auto with liveness. Qed.

Lemma lv_on_metadata sn s : linv s -> snap_cameraActive sn = false -> linv (on_metadata sn s).
Proof.
  intros Hs Hsn. unfold on_metadata. pose proof (lv_drop_task (MetaPending sn) s Hs) as H1.
  destruct (mounted _); [apply lv_add_task; [exact H1 | simpl; rewrite Hsn; reflexivity] | exact H1].
Qed.

(** [startDetection] of a closure whose camera was off does nothing. *)
Lemma startDetection_off sn s : snap_cameraActive sn = false -> startDetection sn s = s.
Proof. intros Hsn. unfold startDetection. rewrite Hsn, andb_false_r. reflexivity. Qed.

Lemma lv_play_resolve sn s : linv s -> snap_cameraActive sn = false -> linv (play_resolve sn s).
Proof.
  intros Hs Hsn. unfold play_resolve. cbv zeta. rewrite startDetection_off by exact Hsn.
  apply lv_set_refs; [|apply lv_setDetectionProgress, lv_setDetectionSteps, lv_setInstructions,
                         lv_setCameraActive, lv_drop_task, Hs ..|reflexivity].
  all: apply lv_setDetectionProgress, lv_setDetectionSteps, lv_setInstructions, lv_setCameraActive, lv_drop_task, Hs.
Qed.

Lemma lv_play_reject sn s : linv s -> linv (play_reject sn s).
Proof. intros Hs. unfold play_reject. apply lv_stopCamera. auto with liveness. Qed.

Lemma lv_cancelCheck s : linv s -> linv (cancelCheck s).
Proof.
  intros Hs. pose proof (lv_stopCamera s Hs) as H1. unfold cancelCheck, onComplete.
  apply lv_set_world; [exact H1 | apply H1 |]. rewrite in_app_iff. intros [H|[H|[]]]; [exact (li_completes _ H1 H) | discriminate].
Qed.

Lemma lv_unmount s : linv s -> linv (unmount s).
Proof. intros Hs. apply lv_set_props, lv_stopCamera, Hs. Qed.

Lemma lv_first_render proc : linv (first_render proc).
Proof. constructor; simpl; auto. Qed.

Lemma lv_step s s' : linv s -> step has_mediaDevices s s' -> linv s'.
Proof.
  intros Hs Hst.
  destruct Hst as [ok s _|s _ Hc _ _|sn s Hin|sn msg s _|sn s Hin|sn s Hin|sn s _|sn r s Hin|id sn s Hin|s Hin
                  |s _ _|s _ _|b s _|s _];
    try (apply (lv_task_in s _ Hs) in Hin; simpl in Hin; try discriminate Hin; apply negb_true_iff in Hin).
  - apply lv_models_done, Hs.
  - apply lv_startCamera; [exact Hs | exact Hc].
  - apply lv_gum_resolve; assumption.
  - apply lv_gum_reject, Hs.
  - apply lv_on_metadata; assumption.
  - apply lv_play_resolve; assumption.
  - apply lv_play_reject, Hs.
  - apply lv_stopCamera, Hs.
  - apply lv_cancelCheck, Hs.
  - apply lv_set_props, Hs.
  - apply lv_unmount, Hs.
Qed.

Lemma lv_reachable s : reachable has_mediaDevices s -> linv s.
Proof. induction 1; [apply lv_first_render | eapply lv_step; eassumption]. Qed.
End InvOps.

(** ** The detection loop of a closure *)

(** One closure's loop: each frame's [detectAllFaces] result, handled by
    [detect_done] of that closure. *)
Definition detect_loop (sn : Snap) (rs : list (option (option Obs))) (s : State) : State :=
  fold_left (fun s r => detect_done sn r s) rs s.

Lemma set_cells_frame a b c e m p st s :
  tasks (set_cells a b c e m p st s) = tasks s /\ headTurnCount (set_cells a b c e m p st s) = headTurnCount s.
Proof. unfold set_cells. destruct (mounted s); split; reflexivity. Qed.

Ltac cells_frame :=
  repeat match goal with
  | |- context [tasks (set_cells ?a ?b ?c ?e ?m ?p ?st ?s)] => rewrite (proj1 (set_cells_frame a b c e m p st s))
  | |- context [headTurnCount (set_cells ?a ?b ?c ?e ?m ?p ?st ?s)] =>
      rewrite (proj2 (set_cells_frame a b c e m p st s))
  end.

Lemma face_step_frame st s : tasks (face_step st s) = tasks s /\ headTurnCount (face_step st s) = headTurnCount s.
Proof.
  unfold face_step, setDetectionProgress, setInstructions, setDetectionSteps.
  destruct (negb _); [cells_frame|]; split; reflexivity.
Qed.

Lemma blink_step_frame st o s : tasks (blink_step st o s) = tasks s /\ headTurnCount (blink_step st o s) = headTurnCount s.
Proof.
  unfold blink_step. destruct (negb _); [|split; reflexivity]. destruct (prevEar s); [|split; reflexivity].
  destruct (_ && _); [|split; reflexivity]. cbv zeta. unfold setDetectionProgress, setInstructions, setDetectionSteps.
  destruct (Nat.leb _ _); [cells_frame|]; split; reflexivity.
Qed.

Lemma remove_first_incl t l x : In x (remove_first t l) -> In x l.
Proof.
  induction l as [|y l IH]; cbn [remove_first]; [auto|].
  destruct (task_eq_dec t y); [right; assumption|]. intros [->|H]; [left; reflexivity | right; auto].
Qed.

(** Before the blinks are seen, a closure's head-turn check does nothing. *)
Lemma turn_step_no_blink st o s : blinkDetected st = false -> turn_step st o s = s.
Proof. intros H. unfold turn_step. rewrite H. reflexivity. Qed.

Lemma process_frame_no_blink st r s :
  blinkDetected st = false ->
  tasks (process_frame st r s) = tasks s /\ headTurnCount (process_frame st r s) = headTurnCount s.
Proof.
  intros Hb. destruct r as [[o|]|]; cbn [process_frame]; cbv zeta.
  - rewrite turn_step_no_blink by exact Hb. simpl.
    destruct (blink_step_frame st o (face_step st s)) as [-> ->]. apply face_step_frame.
  - destruct (faceDetected st); [unfold setInstructions; apply set_cells_frame | split; reflexivity].
  - split; reflexivity.
Qed.

Lemma detect_done_no_blink sn r s :
  blinkDetected (snap_steps sn) = false ->
  headTurnCount (detect_done sn r s) = headTurnCount s /\
  (forall t, In t (tasks (detect_done sn r s)) -> In t (tasks s) \/ exists id, t = Frame id sn).
Proof.
  intros Hb. unfold detect_done. cbv zeta.
  destruct (process_frame_no_blink _ r (drop_task (Detecting sn) s) Hb) as [Ht Hc].
  destruct (snap_cameraActive sn); simpl; rewrite ?Ht; split; try exact Hc.
  - intros t Hin. rewrite in_app_iff in Hin. destruct Hin as [Hin|[<-|[]]]; [|right; eauto].
    left. exact (remove_first_incl _ _ _ Hin).
  - intros t Hin. left. exact (remove_first_incl _ _ _ Hin).
Qed.

(** The models loaded, "Start Liveness Check" clicked, the camera granted,
    its metadata loaded and [play()] resolved. *)
Definition stuck_trace : State :=
  let s := models_done true (first_render false) in
  let s := startCamera true (snap_of s) s in
  let sn := mkSnap false no_steps in
  play_resolve sn (on_metadata sn (gum_resolve sn s)).

Lemma stuck_trace_reachable : reachable true stuck_trace.
Proof.
  unfold stuck_trace. cbv zeta.
  eapply reach_step; [|apply step_play_resolve; vm_compute; auto].
  eapply reach_step; [|apply step_metadata; vm_compute; auto].
  eapply reach_step; [|apply step_gum_resolve; vm_compute; auto].
  eapply reach_step; [|apply step_start; reflexivity].
  eapply reach_step; [apply reach_init | apply step_models; simpl; auto].
Qed.

(** A closure's loop over frames where the eyes close and open and the
    face moves 100 pixels each time. *)
Definition moving_frames : list (option (option Obs)) :=
  [Some (Some (mkObs (3 # 10) 0)); Some (Some (mkObs (1 # 10) 100)); Some (Some (mkObs (3 # 10) 0));
   Some (Some (mkObs (1 # 10) 100)); Some (Some (mkObs (3 # 10) 0)); Some (Some (mkObs (1 # 10) 100));
   Some (Some (mkObs (3 # 10) 0)); Some (Some (mkObs (1 # 10) 100))].

(** * Theorems *)

(** C12: the liveness check never passes: in every reachable state of
    [LivenessDetection] the [onComplete] prop has never been called with
    [true], the progress bar is at 0 and no check is marked done.
    [play()]'s callback calls [startDetection] of the render that clicked
    "Start Liveness Check", whose [cameraActive] is false, so
    [detectFace] returns at once and no frame is ever analysed. *)
Theorem liveness_never_passes hm s :
  reachable hm s -> ~ In true (completes s) /\ detectionProgress s = 0%nat /\ steps s = no_steps.
Proof.
  intros Hr. destruct (lv_reachable hm s Hr) as [_ _ Hc Hp Hst _]. repeat split; assumption.
Qed.

(** The camera runs with nothing analysing it: a reachable state has
    the camera active, the check marked as detecting, a stream stored and
    no pending work, so only a user action can change it. *)
Theorem liveness_camera_stuck :
  exists s, reachable true s /\ mounted s = true /\ cameraActive s = true /\ isDetecting s = true /\
            tasks s = [] /\ streamRef s <> None.
Proof.
  exists stuck_trace. split; [exact stuck_trace_reachable|]. vm_compute. repeat split; discriminate.
Qed.

(** C27: even a running loop could not finish: a [detectFace] closure
    created before the blinks were recorded keeps its render's
    [detectionSteps], and [requestAnimationFrame(detectFace)] reschedules
    that same closure, so on any sequence of frames its head-turn check
    never counts a turn and never arms the [onComplete(true)] timer. *)
Theorem stale_closure_blocks_head_turn sn rs s :
  blinkDetected (snap_steps sn) = false -> ~ In CompleteTimer (tasks s) ->
  headTurnCount (detect_loop sn rs s) = headTurnCount s /\ ~ In CompleteTimer (tasks (detect_loop sn rs s)).
Proof.
  intros Hb. unfold detect_loop. revert s. induction rs as [|r rs IH]; intros s Hs; [auto|]. cbn [fold_left].
  destruct (detect_done_no_blink sn r s Hb) as [Hc Ht].
  destruct (IH (detect_done sn r s)) as [Hc' Ht'].
  - intros Hin. destruct (Ht _ Hin) as [H|[id H]]; [exact (Hs H) | discriminate].
  - split; [congruence | exact Ht'].
Qed.

(** ** Witnesses *)

Lemma liveness_never_passes_witness :
  reachable true stuck_trace /\ ~ In true (completes stuck_trace) /\ detectionProgress stuck_trace = 0%nat /\
  steps stuck_trace = no_steps.
Proof. split; [exact stuck_trace_reachable | exact (liveness_never_passes true stuck_trace stuck_trace_reachable)]. Defined.

Lemma stale_closure_blocks_head_turn_witness :
  headTurnCount (detect_loop (mkSnap true no_steps) moving_frames stuck_trace) = 0%nat /\
  ~ In CompleteTimer (tasks (detect_loop (mkSnap true no_steps) moving_frames stuck_trace)).
Proof.
  destruct (stale_closure_blocks_head_turn (mkSnap true no_steps) moving_frames stuck_trace eq_refl
              ltac:(vm_compute; intros [])) as [H1 H2].
  split; [rewrite H1; reflexivity | exact H2].
Defined.
End Live.
