(* ===== verification/LiveView.v ===== *)
(** * LiveView: what LivenessDetection renders, and its buttons

    [src/components/liveness-detection.tsx], lines 309-407: the JSX that
    [LivenessDetection] returns for a state of [Liveness] ([Live.State]).
    [render] reads the state cells and the [isProcessing] prop the way
    the JSX conditions do; [click] is the [onClick] of each of the three
    buttons, run on the closures of that render.  The user events of
    [Live.step] are these clicks on buttons [render] shows enabled.
    [orphan] is a running stream that [streamRef] does not name; the
    lemmas [lo_*] show that no step of [Live.step] stops it. *)

From Stdlib Require Import List Lia Bool Arith Relations.
From Stdlib Require String.
From S2P Require Import Prelude Liveness.
Import ListNotations String.StringSyntax.
Local Open Scope string_scope.

Module LiveView.
Import Live.

(** The icons of the overlay: [Loader2] while the models load, [Camera]
    otherwise (lines 327-331). *)
Inductive Icon := Spinner | CameraIcon.

Inductive Button := StartButton | CloseButton | SkipButton.

Record View := mkView {
  overlay : option (Icon * String.string);      (* lines 325-334 *)
  processing_overlay : bool;                    (* lines 337-341 *)
  close_button : bool;                          (* lines 344-353 *)
  progress : option (nat * String.string);      (* lines 357-371 *)
  error_alert : option String.string;           (* lines 374-379 *)
  start_button : option (bool * String.string); (* lines 382-396: disabled, label *)
  skip_disabled : bool                          (* lines 398-400 *)
}.

Definition render (s : State) : View :=
  mkView
    (if isLoading s || negb (cameraActive s)
     then Some (if isLoading s then Spinner else CameraIcon, instructions s) else None)
    (isProcessing s)
    (cameraActive s)
    (if cameraActive s then Some (detectionProgress s, instructions s) else None)
    (error s)
    (if negb (cameraActive s) && negb (isProcessing s)
     then Some (isLoading s || isProcessing s, if isLoading s then "Loading..." else "Start Liveness Check")
     else None)
    (isProcessing s).

(** A button is on screen and not disabled. *)
Definition enabled (b : Button) (v : View) : bool :=
  match b with
  | StartButton => match start_button v with Some (d, _) => negb d | None => false end
  | CloseButton => close_button v
  | SkipButton => negb (skip_disabled v)
  end.

Section Clicks.
Variable has_mediaDevices : bool.

(** The [onClick] of each button: [startCamera] of this render (line
    383), [stopCamera] (line 349), [cancelCheck] (line 398). *)
Definition click (b : Button) (s : State) : State :=
  match b with
  | StartButton => startCamera has_mediaDevices (snap_of s) s
  | CloseButton => stopCamera s
  | SkipButton => cancelCheck s
  end.
End Clicks.

(** The models loaded, then "Start Liveness Check" clicked twice before
    [getUserMedia] answers, and both requests granted. *)
Definition double_start : State :=
  let s := models_done true (first_render false) in
  let s := click true StartButton (click true StartButton s) in
  let sn := mkSnap false no_steps in
  gum_resolve sn (gum_resolve sn s).

(** A running stream that [streamRef] does not name: [stopCamera] stops
    only the stream of [streamRef], and every later stream gets a fresh
    identifier. *)
Definition orphan (x : nat) (s : State) : Prop :=
  In x (live s) /\ streamRef s <> Some x /\ (x < next_id s)%nat.

(** [t] runs the streams of [s] with the same [streamRef], and has used
    no fewer identifiers. *)
Definition same_streams (s t : State) : Prop :=
  live t = live s /\ streamRef t = streamRef s /\ (next_id s <= next_id t)%nat.

(** * Lemmas *)

Lemma enabled_start s :
  enabled StartButton (render s) = true -> cameraActive s = false /\ isProcessing s = false /\ isLoading s = false.
Proof. unfold enabled, render. cbn. destruct (cameraActive s), (isProcessing s), (isLoading s); cbn; auto; discriminate. Qed.

(** A click on a button that [render] shows enabled in a mounted state is
    a step of [Live.step]: the guards of the step relation's user events
    are those of the JSX. *)
Lemma click_step hm s b :
  mounted s = true -> enabled b (render s) = true -> step hm s (click hm b s).
Proof.
  intros Hm He. destruct b; cbn [click].
  - destruct (enabled_start s He) as (Hc & Hp & Hl). apply step_start; assumption.
  - apply step_close; assumption.
  - apply step_skip; [assumption|]. apply negb_true_iff, He.
Qed.

Lemma double_start_reachable : reachable true double_start.
Proof.
  unfold double_start. cbv zeta.
  eapply reach_step; [|apply step_gum_resolve; vm_compute; auto].
  eapply reach_step; [|apply step_gum_resolve; vm_compute; auto].
  eapply reach_step; [|apply step_start; reflexivity].
  eapply reach_step; [|apply step_start; reflexivity].
  eapply reach_step; [apply reach_init | apply step_models; simpl; auto].
Qed.

(** ** Streams no handler can stop *)

Lemma ss_refl s : same_streams s s.
Proof. unfold same_streams. auto. Qed.

Lemma ss_set_cells s t a b c e m p st : same_streams s t -> same_streams s (set_cells a b c e m p st t).
Proof. unfold set_cells. destruct (mounted t); auto. Qed.

Lemma ss_set_refs s t r f ml pe px b h :
  same_streams s t -> r = streamRef t -> same_streams s (set_refs r f ml pe px b h t).
Proof. intros (H1 & H2 & H3) ->. unfold same_streams, set_refs. cbn. auto. Qed.

Lemma ss_set_world s t l n ts c :
  same_streams s t -> l = live t -> (next_id t <= n)%nat -> same_streams s (set_world l n ts c t).
Proof. intros (H1 & H2 & H3) -> Hn. unfold same_streams, set_world. cbn. repeat split; auto. lia. Qed.

Lemma ss_set_props s t m p : same_streams s t -> same_streams s (set_props m p t).
Proof. auto. Qed.

Lemma ss_trans s t u : same_streams s t -> same_streams t u -> same_streams s u.
Proof. intros (E1 & E2 & E3) (F1 & F2 & F3). unfold same_streams. rewrite F1, F2. repeat split; auto. lia. Qed.

(** Peel the setters off a goal [same_streams s (f (g ... s))]. *)
Ltac ss_close :=
  repeat match goal with
  | |- same_streams ?s ?s => apply ss_refl
  | |- same_streams _ (set_cells _ _ _ _ _ _ _ _) => apply ss_set_cells
  | |- same_streams _ (set_props _ _ _) => apply ss_set_props
  | |- same_streams _ (set_refs _ _ _ _ _ _ _ _) => apply ss_set_refs; [|reflexivity]
  | |- same_streams _ (set_world _ _ _ _ _) => apply ss_set_world; [|reflexivity|lia]
  end.

(** Unfold a handler into the setters, split its tests, and peel. *)
Ltac ss_auto :=
  unfold setIsLoading, setIsDetecting, setCameraActive, setError, setInstructions, setDetectionProgress,
    setDetectionSteps, set_counts, add_task, drop_task, onComplete in *;
  cbv zeta; repeat (case_if || match goal with |- context [match ?x with _ => _ end] => destruct x end);
  ss_close.

Lemma ss_cancel_frame s : same_streams s (cancel_frame s).
Proof. unfold cancel_frame. ss_auto. Qed.

Lemma ss_face_step st s : same_streams s (face_step st s).
Proof. unfold face_step. ss_auto. Qed.

Lemma ss_blink_step st o s : same_streams s (blink_step st o s).
Proof. unfold blink_step. ss_auto. Qed.

Lemma ss_turn_step st o s : same_streams s (turn_step st o s).
Proof. unfold turn_step. ss_auto. Qed.

Lemma ss_process_frame st r s : same_streams s (process_frame st r s).
Proof.
  destruct r as [[o|]|]; cbn [process_frame]; [|ss_auto|apply ss_refl].
  cbv zeta. apply ss_set_refs; [|reflexivity].
  eapply ss_trans; [eapply ss_trans; [apply ss_face_step | apply ss_blink_step] | apply ss_turn_step].
Qed.

Lemma ss_detect_done sn r s : same_streams s (detect_done sn r s).
Proof.
  pose proof (ss_process_frame (snap_steps sn) r (drop_task (Detecting sn) s)) as (H1 & H2 & H3).
  unfold detect_done, request_frame. cbv zeta. destruct (snap_cameraActive sn);
    unfold same_streams, set_refs, set_world, drop_task in *; cbn in *; repeat split; try congruence; lia.
Qed.

Lemma ss_detectFace sn s : same_streams s (detectFace sn s).
Proof. unfold detectFace. ss_auto. Qed.

Lemma ss_startDetection sn s : same_streams s (startDetection sn s).
Proof. unfold startDetection. case_if; [apply ss_detectFace | apply ss_refl]. Qed.

Lemma ss_play_resolve sn s : same_streams s (play_resolve sn s).
Proof. unfold play_resolve. cbv zeta. eapply ss_trans; [|apply ss_startDetection]. ss_auto. Qed.

Lemma ss_on_frame id sn s : same_streams s (on_frame id sn s).
Proof. unfold on_frame. eapply ss_trans; [|apply ss_detectFace]. ss_auto. Qed.

(** Every handler other than [stop_tracks] and [gum_resolve] keeps the
    streams. *)
Lemma ss_handlers hm s :
  same_streams s (models_done true s) /\ same_streams s (models_done false s) /\
  (forall sn, same_streams s (startCamera hm sn s)) /\ (forall sn msg, same_streams s (gum_reject sn msg s)) /\
  (forall sn, same_streams s (on_metadata sn s)).
Proof.
  refine (conj _ (conj _ (conj _ (conj _ _)))); intros; unfold models_done, startCamera, gum_reject, on_metadata;
    ss_auto.
Qed.

Lemma lo_same x s t : orphan x s -> same_streams s t -> orphan x t.
Proof. intros (H1 & H2 & H3) (E1 & E2 & E3). unfold orphan. rewrite E1, E2. repeat split; auto. lia. Qed.

Lemma lo_stop_tracks x s : orphan x s -> orphan x (stop_tracks s).
Proof.
  intros (H1 & H2 & H3). unfold stop_tracks. destruct (streamRef s) as [y|] eqn:E; [|unfold orphan; rewrite E; auto].
  unfold orphan, set_refs, set_world. cbn. repeat split; [|discriminate|exact H3].
  apply in_in_remove; [|exact H1]. intros ->. apply H2. reflexivity.
Qed.

Lemma lo_stopCamera x s : orphan x s -> orphan x (stopCamera s).
Proof.
  intros H. unfold stopCamera. apply (lo_same x (stop_tracks (cancel_frame s))); [|ss_auto].
  apply lo_stop_tracks. exact (lo_same x s _ H (ss_cancel_frame s)).
Qed.

Lemma lo_gum_resolve x sn s : orphan x s -> orphan x (gum_resolve sn s).
Proof.
  intros H. assert (H0 : orphan x (drop_task (GumPending sn) s)) by (apply (lo_same x s); [exact H | ss_auto]).
  destruct H0 as (H1 & H2 & H3). unfold gum_resolve. cbv zeta.
  set (s0 := drop_task (GumPending sn) s) in *. clearbody s0.
  assert (H4 : orphan x (set_refs (Some (next_id s0)) (animationFrameRef s0) (modelsLoaded s0) (prevEar s0) (prevX s0)
             (blinkCount s0) (headTurnCount s0) (set_world (next_id s0 :: live s0) (S (next_id s0)) (tasks s0)
             (completes s0) s0))).
  { unfold orphan, set_refs, set_world. cbn. repeat split; [right; exact H1 | intros [= E]; lia | lia]. }
  destruct (mounted _); [|exact H4]. apply (lo_same x _ _ H4). unfold add_task.
  apply ss_set_world; [apply ss_refl | reflexivity | lia].
Qed.

Lemma lo_play_reject x sn s : orphan x s -> orphan x (play_reject sn s).
Proof. intros H. unfold play_reject. apply lo_stopCamera, (lo_same x s _ H). ss_auto. Qed.

(** An orphaned stream stays orphaned whatever happens next. *)
Lemma lo_step hm x s s' : orphan x s -> step hm s s' -> orphan x s'.
Proof.
  intros H Hs. destruct (ss_handlers hm s) as (Hm1 & Hm0 & Hst & Hgr & Hme).
  destruct Hs.
  - apply (lo_same x s _ H). destruct ok; assumption.
  - exact (lo_same x s _ H (Hst _)).
  - exact (lo_gum_resolve x sn s H).
  - exact (lo_same x s _ H (Hgr _ _)).
  - exact (lo_same x s _ H (Hme _)).
  - exact (lo_same x s _ H (ss_play_resolve _ _)).
  - exact (lo_play_reject x sn s H).
  - exact (lo_same x s _ H (ss_detect_done _ _ _)).
  - exact (lo_same x s _ H (ss_on_frame _ _ _)).
  - unfold complete_fire, onComplete. apply (lo_same x (stopCamera (drop_task CompleteTimer s))); [|ss_close].
    apply lo_stopCamera, (lo_same x s _ H). ss_auto.
  - exact (lo_stopCamera x s H).
  - unfold cancelCheck, onComplete. apply (lo_same x (stopCamera s) _ (lo_stopCamera x s H)). ss_close.
  - exact (lo_same x s _ H (ss_set_props _ _ _ _ (ss_refl s))).
  - unfold unmount. exact (lo_same x _ _ (lo_stopCamera x s H) (ss_set_props _ _ _ _ (ss_refl _))).
Qed.

Lemma lo_steps hm x s s' : orphan x s -> clos_refl_trans_1n State (step hm) s s' -> orphan x s'.
Proof. intros H Hs. induction Hs as [|s1 s2 s3 H12 _ IH]; [exact H | exact (IH (lo_step hm x s1 s2 H H12))]. Qed.

(** * Theorems *)

(** C23: "Start Liveness Check" stays enabled while [getUserMedia] is
    pending, so two clicks open two camera streams; [streamRef] keeps the
    second, and the first keeps running in every state reachable from
    there, whatever the user or the browser does: close, "Skip for Now",
    a new start and the unmount stop only the stream [streamRef] names. *)
Theorem double_start_orphan_stream :
  exists s x, reachable true s /\
    enabled StartButton (render (click true StartButton (models_done true (first_render false)))) = true /\
    forall s', clos_refl_trans_1n State (step true) s s' -> In x (live s') /\ streamRef s' <> Some x.
Proof.
  exists double_start, 1%nat. split; [exact double_start_reachable|]. split; [vm_compute; reflexivity|].
  intros s' Hs. assert (H0 : orphan 1 double_start) by (vm_compute; repeat split; auto; discriminate).
  destruct (lo_steps true 1 double_start s' H0 Hs) as (H1 & H2 & _). split; assumption.
Qed.

End LiveView.
