(* ===== verification/CreateFlow.v ===== *)
(** * CreateFlow: the create-identity page

    [src/app/create/page.tsx], lines 17-351: a wizard over [step]
    (1 scan, 2 digits, 2.5 liveness, 3 proof, 4 store, 5 done) whose
    handlers call the decoder (through [QrScanner]'s [onScan]), the proof
    stand-in [generateZkProof] and the contract call.

    - [step] is a JavaScript number that takes the values 1, 2, 2.5, 3,
      4, 5 and whatever "Back" ([setStep(step - 1)]) makes of them; the
      model keeps twice its value, [step2], an integer.
    - [Page] holds the [useState] cells and the wallet's [isConnected]
      and [signer]; [panel] is what the render shows for a step.
    - The two [async] handlers, [generateProof] and [storeProofOnChain],
      are atomic events: while they wait, [isProcessing] disables every
      control of their panel and the Back button.  The outcome of the
      awaited call is the event's parameter.
    - The decoded record passes to [generateZkProof] as the JavaScript
      object it is: [to_identity_data] reads the fields that function
      reads, and the record has no [livenessVerified] field. *)

From Stdlib Require Import ZArith List Lia Bool.
From Stdlib Require String Ascii.
From S2P Require Import Prelude JsRuntime.
From S2P Require Import FieldParser ZkProof.
Import ListNotations String.StringSyntax.

Local Open Scope Z_scope.
Local Open Scope string_scope.

Record Page := mkPage {
  step2 : Z;
  isProcessing : bool;
  qrData : option FieldParser.IdentityRecord;
  lastFourDigits : string;
  identityData : option FieldParser.IdentityRecord;
  proofGenerated : bool;
  zkProof : option ZkProof.ZkProofResult;
  error : option string;
  livenessVerified : bool;
  isConnected : bool;
  signer : bool
}.

(** What the page renders in its content area (lines 186-338). *)
Inductive Panel := ConnectPanel | ScanPanel | DigitsPanel | LivenessPanel | ProofPanel
                 | StorePanel | DonePanel | NoPanel.

Definition panel (p : Page) : Panel :=
  if step2 p =? 2 then (if isConnected p then ScanPanel else ConnectPanel)
  else if step2 p =? 4 then DigitsPanel
  else if step2 p =? 5 then LivenessPanel
  else if step2 p =? 6 then ProofPanel
  else if step2 p =? 8 then StorePanel
  else if step2 p =? 10 then DonePanel
  else NoPanel.

(** [step > 1 && step < 5] (line 340). *)
Definition back_visible (p : Page) : bool := (2 <? step2 p) && (step2 p <? 10).

(** The object [generateZkProof] receives: the decoded record's fields. *)
Definition to_identity_data (r : FieldParser.IdentityRecord) : ZkProof.IdentityData :=
  ZkProof.mkIdentityData (FieldParser.referenceId r) (FieldParser.name r) (FieldParser.age r)
    (FieldParser.isAdult r) None.

Definition initial_page : Page := mkPage 2 false None "" None false None None false false false.

(** [handleQrCodeScanned(data)] (lines 32-56): no [await], so the
    [finally] runs before the next render. *)
Definition handleQrCodeScanned (data : FieldParser.IdentityRecord) (p : Page) : Page :=
  mkPage 4 false (Some data) (lastFourDigits p) (identityData p) (proofGenerated p) (zkProof p) None
    (livenessVerified p) (isConnected p) (signer p).

Definition set_error (e : option string) (p : Page) : Page :=
  mkPage (step2 p) (isProcessing p) (qrData p) (lastFourDigits p) (identityData p) (proofGenerated p)
    (zkProof p) e (livenessVerified p) (isConnected p) (signer p).

(** The input of the digits (lines 224-230, [maxLength] 4). *)
Definition setLastFourDigits (v : string) (p : Page) : Page :=
  mkPage (step2 p) (isProcessing p) (qrData p) v (identityData p) (proofGenerated p)
    (zkProof p) (error p) (livenessVerified p) (isConnected p) (signer p).

(** [verifyLastFourDigits] (lines 58-89). *)
Definition verifyLastFourDigits (p : Page) : Page :=
  let p := set_error None p in
  match qrData p with
  | Some d =>
      match FieldParser.referenceId d with
      | Some r =>
          if String.eqb r "" then set_error (Some "No identity data found. Please scan your ID again.") p
          else if String.eqb (lastFourDigits p) (js_substring r 0 4) then
            mkPage 5 (isProcessing p) (qrData p) (lastFourDigits p) (qrData p) (proofGenerated p)
              (zkProof p) (error p) (livenessVerified p) (isConnected p) (signer p)
          else set_error (Some "The digits you entered do not match our records.") p
      | None => set_error (Some "No identity data found. Please scan your ID again.") p
      end
  | None => set_error (Some "No identity data found. Please scan your ID again.") p
  end.

(** [handleLivenessComplete(success)] (lines 91-108). *)
Definition handleLivenessComplete (success : bool) (p : Page) : Page :=
  mkPage 6 (isProcessing p) (qrData p) (lastFourDigits p) (identityData p) (proofGenerated p)
    (zkProof p) (error p) (if success then true else livenessVerified p) (isConnected p) (signer p).

(** [proof.publicSignals.livenessVerified = livenessVerified] (line 122):
    the flag of the page replaces the one [generateZkProof] computed. *)
Definition with_liveness (proof : ZkProof.ZkProofResult) (lv : bool) : ZkProof.ZkProofResult :=
  ZkProof.mkZkProof (ZkProof.proofId proof) (ZkProof.commitment proof) (ZkProof.pub_isAdult proof) lv
    (ZkProof.pi_a proof) (ZkProof.pi_b proof) (ZkProof.pi_c proof).

Section Handlers.
(** Poseidon and [Date.now()] of [generateZkProof]. *)
Variable poseidon : list Z -> Z.
Variable now : Z.

(** [generateProof] (lines 110-145); [ok] is [false] when
    [generateZkProof] throws "Failed to generate zero-knowledge proof". *)
Definition generateProof (ok : bool) (p : Page) : Page :=
  match identityData p with
  | None => p
  | Some d =>
      if ok then
        let proof := ZkProof.generateZkProof poseidon now (to_identity_data d) in
        let proof := with_liveness proof (livenessVerified p) in
        mkPage 8 false (qrData p) (lastFourDigits p) (identityData p) true (Some proof) None
          (livenessVerified p) (isConnected p) (signer p)
      else set_error (Some "Failed to generate zero-knowledge proof") p
  end.
End Handlers.

(** [storeProofOnChain] (lines 147-176); [ok] is whether
    [storeIdentityProof] resolves, [msg] its error's message. *)
Definition storeProofOnChain (ok : bool) (msg : string) (p : Page) : Page :=
  match zkProof p with
  | None => p
  | Some _ =>
      if negb (signer p) then p
      else if ok then
        mkPage 10 false (qrData p) (lastFourDigits p) (identityData p) (proofGenerated p) (zkProof p)
          None (livenessVerified p) (isConnected p) (signer p)
      else set_error (Some msg) p
  end.

(** The Back button: [setStep(step - 1)] (line 341). *)
Definition back (p : Page) : Page :=
  mkPage (step2 p - 2) (isProcessing p) (qrData p) (lastFourDigits p) (identityData p) (proofGenerated p)
    (zkProof p) (error p) (livenessVerified p) (isConnected p) (signer p).

(** [connect()] of the wallet succeeds (lines 207-209). *)
Definition connect (p : Page) : Page :=
  mkPage (step2 p) (isProcessing p) (qrData p) (lastFourDigits p) (identityData p) (proofGenerated p)
    (zkProof p) (error p) (livenessVerified p) true true.

Section Flow.
Variable poseidon : list Z -> Z.
Variable now : Z.

(** One event on a rendered, enabled control. *)
Inductive event : Page -> Page -> Prop :=
| ev_connect p : panel p = ConnectPanel -> event p (connect p)
| ev_scan d p : panel p = ScanPanel -> event p (handleQrCodeScanned d p)
| ev_digits v p : panel p = DigitsPanel -> (String.length v <= 4)%nat -> event p (setLastFourDigits v p)
| ev_verify p : panel p = DigitsPanel -> String.length (lastFourDigits p) = 4%nat -> event p (verifyLastFourDigits p)
| ev_liveness b p : panel p = LivenessPanel -> event p (handleLivenessComplete b p)
| ev_generate ok p : panel p = ProofPanel -> isProcessing p = false -> event p (generateProof poseidon now ok p)
| ev_store ok msg p : panel p = StorePanel -> isProcessing p = false -> event p (storeProofOnChain ok msg p)
| ev_back p : back_visible p = true -> isProcessing p = false -> event p (back p).

Inductive reachable : Page -> Prop :=
| reach_init : reachable initial_page
| reach_event p p' : reachable p -> event p p' -> reachable p'.
End Flow.

(** The values [step] takes, doubled. *)
Definition step_values : list Z := [1; 2; 3; 4; 5; 6; 8; 10].

(** Well-formed pages: [step] is one of [step_values], and from the store
    step on, the proof is the one generated for the verified identity
    with the page's liveness flag. *)
Definition page_ok (poseidon : list Z -> Z) (now : Z) (p : Page) : Prop :=
  In (step2 p) step_values /\
  (8 <= step2 p -> exists d, identityData p = Some d /\
     zkProof p = Some (with_liveness (ZkProof.generateZkProof poseidon now (to_identity_data d)) (livenessVerified p))).

(** * Lemmas *)

Lemma panel_step2 p :
  (panel p = ConnectPanel \/ panel p = ScanPanel -> step2 p = 2) /\
  (panel p = DigitsPanel -> step2 p = 4) /\ (panel p = LivenessPanel -> step2 p = 5) /\
  (panel p = ProofPanel -> step2 p = 6) /\ (panel p = StorePanel -> step2 p = 8).
Proof.
  unfold panel. repeat split; intros H;
    repeat match type of H with
           | context [if ?b then _ else _] => let E := fresh "E" in destruct b eqn:E
           end; try discriminate; try (destruct H as [H|H]; discriminate);
    repeat match goal with E : (_ =? _) = true |- _ => apply Z.eqb_eq in E end; assumption.
Qed.

Lemma verify_step2 p : step2 (verifyLastFourDigits p) = step2 p \/ step2 (verifyLastFourDigits p) = 5.
Proof.
  unfold verifyLastFourDigits, set_error. cbn.
  destruct (qrData p) as [d|]; [|left; reflexivity].
  destruct (FieldParser.referenceId d) as [r|]; [|left; reflexivity].
  destruct (String.eqb r ""); [left; reflexivity|]. destruct (String.eqb _ _); [right|left]; reflexivity.
Qed.

Lemma verify_zk p : zkProof (verifyLastFourDigits p) = zkProof p.
Proof.
  unfold verifyLastFourDigits, set_error. cbn.
  destruct (qrData p) as [d|]; [|reflexivity]. destruct (FieldParser.referenceId d) as [r|]; [|reflexivity].
  destruct (String.eqb r ""); [reflexivity|]. destruct (String.eqb _ _); reflexivity.
Qed.

Lemma back_step_values v : In v step_values -> 2 < v < 10 -> In (v - 2) step_values.
Proof.
  intros H Hv. unfold step_values in *.
  repeat (destruct H as [<-|H]; [cbn; lia|]); destruct H.
Qed.

Lemma page_ok_event poseidon now p p' : page_ok poseidon now p -> event poseidon now p p' -> page_ok poseidon now p'.
Proof.
  unfold page_ok. intros [Hin Hzk] Hev. destruct (panel_step2 p) as (Hc & Hd & Hl & Hp & Hs).
  destruct Hev as [p Hpn|d p Hpn|v p Hpn Hlen|p Hpn Hlen|b p Hpn|ok p Hpn Hproc|ok msg p Hpn Hproc|p Hb Hproc].
  - cbn. pose proof (Hc (or_introl Hpn)). split; [exact Hin|intros; exfalso; lia].
  - cbn. split; [tauto|intros; exfalso; lia].
  - cbn. pose proof (Hd Hpn). split; [exact Hin|intros; exfalso; lia].
  - pose proof (Hd Hpn). destruct (verify_step2 p) as [E|E]; rewrite E;
      (split; [cbn; tauto || exact Hin|intros; exfalso; lia]).
  - cbn. split; [tauto|intros; exfalso; lia].
  - unfold generateProof. pose proof (Hp Hpn). destruct (identityData p) as [d|] eqn:Ed.
    + destruct ok; cbn; [split; [tauto|intros _; exists d; split; reflexivity]|].
      split; [exact Hin|intros; exfalso; lia].
    + split; [exact Hin|intros; exfalso; lia].
  - unfold storeProofOnChain. pose proof (Hs Hpn).
    assert (Hk : 8 <= step2 p -> exists d, identityData p = Some d /\ zkProof p =
              Some (with_liveness (ZkProof.generateZkProof poseidon now (to_identity_data d)) (livenessVerified p)))
      by exact Hzk.
    destruct (zkProof p) as [z|] eqn:Ez.
    2: { split; [exact Hin|intros H8; destruct (Hk H8) as (? & _ & Hz); congruence]. }
    destruct (negb (signer p)).
    { split; [exact Hin|intros H8; destruct (Hk H8) as (d & Hd' & Hz); exists d; split; [exact Hd'|congruence]]. }
    destruct ok; cbn.
    + split; [tauto|]. intros _. destruct (Hk ltac:(lia)) as (d & Hd' & Hz). exists d. split; [exact Hd'|congruence].
    + split; [exact Hin|]. intros _. destruct (Hk ltac:(lia)) as (d & Hd' & Hz). exists d. split; [exact Hd'|congruence].
  - unfold back_visible in Hb. apply andb_true_iff in Hb as [H1 H2]. apply Z.ltb_lt in H1, H2.
    cbn. split; [apply back_step_values; [exact Hin|lia]|intros; exfalso; lia].
Qed.

Lemma panel_nopanel p : step2 p = 3 \/ step2 p = 1 -> panel p = NoPanel.
Proof. intros [E|E]; unfold panel; rewrite E; reflexivity. Qed.

(** No control is enabled on a page without a panel or a Back button. *)
Lemma no_event poseidon now p p' :
  panel p = NoPanel -> back_visible p = false -> ~ event poseidon now p p'.
Proof. intros Hp Hb Hev. destruct Hev; congruence. Qed.

(** * Theorems *)

(** C35: Type of the wizard's step.  In every reachable page [step] is
    one of 1, 2, 2.5, 3, 4, 5 or the values 0.5 and 1.5 that Back makes
    of them, and from the store step on the page holds the proof
    generated for the verified identity with the page's liveness flag. *)
Theorem page_wf poseidon now p : reachable poseidon now p -> page_ok poseidon now p.
Proof.
  induction 1 as [|p p' _ IH Hev].
  - split; [cbn; tauto|cbn; intros; exfalso; lia].
  - eapply page_ok_event; eassumption.
Qed.

(** C26: Back from the liveness step is a dead end.  From step 2.5, Back
    leads to step 1.5, where no panel is rendered, and a second Back to
    step 0.5, where neither a panel nor the Back button is: no event is
    possible any more. *)
Theorem back_from_liveness_dead_end poseidon now p :
  panel p = LivenessPanel -> isProcessing p = false ->
  event poseidon now p (back p) /\ panel (back p) = NoPanel /\
  event poseidon now (back p) (back (back p)) /\
  (forall p', ~ event poseidon now (back (back p)) p').
Proof.
  intros Hp Hproc. destruct (panel_step2 p) as (_ & _ & Hl & _ & _). pose proof (Hl Hp) as E.
  assert (Hb1 : back_visible p = true) by (unfold back_visible; rewrite E; reflexivity).
  assert (Hb2 : back_visible (back p) = true) by (unfold back_visible; cbn; rewrite E; reflexivity).
  split; [apply ev_back; assumption|]. split; [apply panel_nopanel; cbn; lia|].
  split; [apply ev_back; [exact Hb2|exact Hproc]|].
  intros p'. apply no_event; [apply panel_nopanel; cbn; lia|unfold back_visible; cbn; rewrite E; reflexivity].
Qed.

(** The liveness flag is not committed.  The decoded record has no
    [livenessVerified] field, so [generateZkProof] commits to 0 for it;
    the page then overwrites the public flag.  Two pages with the same
    verified identity, one after a passed liveness check and one after a
    skipped one, get proofs with the same commitment and opposite public
    liveness flags. *)
Theorem generateProof_liveness_unbound poseidon now p1 p2 d :
  identityData p1 = Some d -> identityData p2 = Some d ->
  livenessVerified p1 = true -> livenessVerified p2 = false ->
  nth 3 (ZkProof.commitment_inputs (to_identity_data d)) 1 = 0 /\
  exists z1 z2,
    zkProof (generateProof poseidon now true p1) = Some z1 /\
    zkProof (generateProof poseidon now true p2) = Some z2 /\
    ZkProof.commitment z1 = ZkProof.commitment z2 /\
    ZkProof.pub_livenessVerified z1 = true /\ ZkProof.pub_livenessVerified z2 = false.
Proof.
  intros H1 H2 L1 L2. split; [reflexivity|].
  unfold generateProof. rewrite H1, H2. cbn. rewrite L1, L2.
  eexists _, _. split; [reflexivity|]. split; [reflexivity|]. repeat split.
Qed.

(** A page at the liveness step, reached by connecting, scanning a card
    with reference id "12345678" and entering "1234". *)
Lemma back_from_liveness_dead_end_witness :
  let d := FieldParser.mkRecord 0 (Some "12345678") (Some "A") (Some "01/01/1990") (Some "F") None None None
             None None None None None None None None None None [] [] (Some 36) (Some true) in
  let p := verifyLastFourDigits (setLastFourDigits "1234" (handleQrCodeScanned d (connect initial_page))) in
  reachable (fun _ => 42) 0 p /\ panel p = LivenessPanel /\ isProcessing p = false /\
  event (fun _ => 42) 0 p (back p) /\ panel (back p) = NoPanel /\
  event (fun _ => 42) 0 (back p) (back (back p)) /\
  (forall p', ~ event (fun _ => 42) 0 (back (back p)) p').
Proof.
  intros d p.
  assert (Hr : reachable (fun _ => 42) 0 p).
  { eapply reach_event; [|apply ev_verify; reflexivity].
    eapply reach_event; [|apply ev_digits; [reflexivity|cbn; lia]].
    eapply reach_event; [|apply ev_scan; reflexivity].
    eapply reach_event; [apply reach_init|apply ev_connect; reflexivity]. }
  split; [exact Hr|]. split; [reflexivity|]. split; [reflexivity|].
  apply back_from_liveness_dead_end; reflexivity.
Defined.

Lemma page_wf_witness :
  let d := FieldParser.mkRecord 0 (Some "12345678") (Some "A") (Some "01/01/1990") (Some "F") None None None
             None None None None None None None None None None [] [] (Some 36) (Some true) in
  let p := generateProof (fun _ => 42) 0 true (handleLivenessComplete true
             (verifyLastFourDigits (setLastFourDigits "1234" (handleQrCodeScanned d (connect initial_page))))) in
  reachable (fun _ => 42) 0 p /\ panel p = StorePanel /\ page_ok (fun _ => 42) 0 p.
Proof.
  intros d p.
  assert (Hr : reachable (fun _ => 42) 0 p).
  { eapply reach_event; [|apply ev_generate; reflexivity].
    eapply reach_event; [|apply ev_liveness; reflexivity].
    eapply reach_event; [|apply ev_verify; reflexivity].
    eapply reach_event; [|apply ev_digits; [reflexivity|cbn; lia]].
    eapply reach_event; [|apply ev_scan; reflexivity].
    eapply reach_event; [apply reach_init|apply ev_connect; reflexivity]. }
  split; [exact Hr|]. split; [reflexivity|]. apply (page_wf (fun _ => 42) 0 p Hr).
Defined.

Lemma generateProof_liveness_unbound_witness :
  let d := FieldParser.mkRecord 0 (Some "12345678") (Some "A") (Some "01/01/1990") (Some "F") None None None
             None None None None None None None None None None [] [] (Some 36) (Some true) in
  let p1 := handleLivenessComplete true (mkPage 5 false (Some d) "1234" (Some d) false None None false true true) in
  let p2 := handleLivenessComplete false (mkPage 5 false (Some d) "1234" (Some d) false None None false true true) in
  nth 3 (ZkProof.commitment_inputs (to_identity_data d)) 1 = 0 /\
  exists z1 z2,
    zkProof (generateProof (fun _ => 42) 0 true p1) = Some z1 /\
    zkProof (generateProof (fun _ => 42) 0 true p2) = Some z2 /\
    ZkProof.commitment z1 = ZkProof.commitment z2 /\
    ZkProof.pub_livenessVerified z1 = true /\ ZkProof.pub_livenessVerified z2 = false.
Proof. intros d p1 p2. apply (generateProof_liveness_unbound (fun _ => 42) 0 p1 p2 d); reflexivity. Defined.
