(* ===== verification/Contract.v ===== *)
(** * Contract: the [IdentityVerifier] Solidity contract

    [src/components/connect-wallet-button.tsx], lines 54-163 (the file
    carries the contract's source after the button component): a registry
    from user addresses to an identity (proof identifier, commitment,
    adult flag, timestamp) and from proof identifiers to the proof data
    text, with the events it emits.

    - A Solidity [string] is its UTF-8 bytes, a [list Z]; an [address] is
      a 160-bit integer, a [Z].  A [mapping] is a stdpp [gmap]: a key that
      was never written reads as the zero value of the value type (the
      empty identity, the empty string).
    - [keccak256] is the EVM's hash, a Section variable: [verifyProof]
      compares the hashes of the two identifiers, and its theorems are
      stated with them.
    - A call that hits a failing [require] reverts with the reason string:
      [Revert] of [call_result]; a reverted transaction leaves the state
      unchanged.
    - The chain holds the contract's state, the transactions submitted
      and not yet mined, and the block time.  A client submits a
      transaction; a miner executes the oldest pending one; read-only
      calls ([view] functions) run on the state as mined.

    [IdentityVerifierAPI] states what the client code relies on: the
    effect of a mined [storeProof] on the two getters and on [verifyProof],
    and the revert of an empty identifier.  [Model] is this file's
    instance of it. *)

From Stdlib Require Import ZArith Lia.
From stdpp Require Import base list gmap strings.
From S2P Require Import Prelude.

Local Open Scope Z_scope.

Record Identity := mkIdentity {
  proofId : list Z;
  commitment : list Z;
  isAdult : bool;
  timestamp : Z
}.

(** The zero value of [struct Identity]. *)
Definition empty_identity : Identity := mkIdentity [] [] false 0.

Inductive Event :=
| ProofStored (proofId : list Z) (user : Z) (isAdult : bool) (timestamp : Z)
| ProofVerified (proofId : list Z) (verifier user : Z) (timestamp : Z).

Record IdentityVerifier := mkIdentityVerifier {
  userIdentities : gmap Z Identity;
  proofData : gmap (list Z) (list Z);
  events : list Event
}.

Definition initial_state : IdentityVerifier := mkIdentityVerifier ∅ ∅ [].

(** [msg.sender] and [block.timestamp] of a call. *)
Record Ctx := mkCtx { sender : Z; block_timestamp : Z }.

Inductive call_result (A : Type) :=
| Ok (a : A)
| Revert (reason : string).
Arguments Ok {A} a.
Arguments Revert {A} reason.

(** [userIdentities[user]]. *)
Definition read_identity (s : IdentityVerifier) (user : Z) : Identity :=
  match userIdentities s !! user with Some i => i | None => empty_identity end.

(** [storeProof] (lines 79-101). *)
Definition storeProof (ctx : Ctx) (pid com : list Z) (adult : bool) (proofDataStr : list Z)
    (s : IdentityVerifier) : call_result IdentityVerifier :=
  if bool_decide (length pid = 0%nat) then Revert "Proof ID cannot be empty"
  else Ok (mkIdentityVerifier
             (<[sender ctx := mkIdentity pid com adult (block_timestamp ctx)]> (userIdentities s))
             (<[pid := proofDataStr]> (proofData s))
             (events s ++ [ProofStored pid (sender ctx) adult (block_timestamp ctx)])).

Section Views.
Variable keccak256 : list Z -> Z.

(** [verifyProof] (lines 109-123), a [view] function. *)
Definition verifyProof (s : IdentityVerifier) (pid : list Z) (user : Z) : call_result bool :=
  let identity := read_identity s user in
  if bool_decide (length (proofId identity) = 0%nat) then Revert "No identity found for this user"
  else Ok (bool_decide (keccak256 (proofId identity) = keccak256 pid)).
End Views.

(** [logVerification] (lines 130-133). *)
Definition logVerification (ctx : Ctx) (pid : list Z) (user : Z) (s : IdentityVerifier) : IdentityVerifier :=
  mkIdentityVerifier (userIdentities s) (proofData s)
    (events s ++ [ProofVerified pid (sender ctx) user (block_timestamp ctx)]).

(** [getUserIdentity] (lines 140-153). *)
Definition getUserIdentity (s : IdentityVerifier) (user : Z) : Identity := read_identity s user.

(** [getProofData] (lines 160-162). *)
Definition getProofData (s : IdentityVerifier) (pid : list Z) : list Z :=
  match proofData s !! pid with Some d => d | None => [] end.

(** ** Transactions and the chain *)

(** The two functions that change the state. *)
Inductive Tx :=
| TxStoreProof (pid com : list Z) (adult : bool) (data : list Z)
| TxLogVerification (pid : list Z) (user : Z).

Definition exec (ctx : Ctx) (tx : Tx) (s : IdentityVerifier) : call_result IdentityVerifier :=
  match tx with
  | TxStoreProof pid com adult data => storeProof ctx pid com adult data s
  | TxLogVerification pid user => Ok (logVerification ctx pid user s)
  end.

(** A mined transaction: its effect, or none when it reverts. *)
Definition apply_tx (ctx : Ctx) (tx : Tx) (s : IdentityVerifier) : IdentityVerifier :=
  match exec ctx tx s with Ok s' => s' | Revert _ => s end.

Record Chain := mkChain {
  contract : IdentityVerifier;
  pending : list (Z * Tx);
  time : Z
}.

Definition genesis (t : Z) : Chain := mkChain initial_state [] t.

(** A client signs and sends a transaction. *)
Definition submit (from : Z) (tx : Tx) (c : Chain) : Chain :=
  mkChain (contract c) (pending c ++ [(from, tx)]) (time c).

(** A block with the oldest pending transaction. *)
Definition mine (c : Chain) : Chain :=
  match pending c with
  | [] => c
  | (from, tx) :: rest => mkChain (apply_tx (mkCtx from (time c)) tx (contract c)) rest (time c)
  end.

Inductive chain_step : Chain -> Chain -> Prop :=
| step_submit c from tx : chain_step c (submit from tx c)
| step_mine c : chain_step c (mine c)
| step_tick c dt : 0 <= dt -> chain_step c (mkChain (contract c) (pending c) (time c + dt)).

Inductive chain_reachable (t0 : Z) : Chain -> Prop :=
| chain_init : chain_reachable t0 (genesis t0)
| chain_next c c' : chain_reachable t0 c -> chain_step c c' -> chain_reachable t0 c'.

(** ** What the client relies on *)

Class IdentityVerifierAPI (S : Type) := {
  api_store : Z -> Z -> list Z -> list Z -> bool -> list Z -> S -> option S;
  api_identity : S -> Z -> Identity;
  api_proof_data : S -> list Z -> list Z;
  api_verify : (list Z -> Z) -> S -> list Z -> Z -> option bool;
  api_store_identity from t pid com adult data s s' :
    api_store from t pid com adult data s = Some s' -> api_identity s' from = mkIdentity pid com adult t;
  api_store_data from t pid com adult data s s' :
    api_store from t pid com adult data s = Some s' -> api_proof_data s' pid = data;
  api_store_ok from t pid com adult data s :
    pid <> [] -> is_Some (api_store from t pid com adult data s);
  api_store_empty from t com adult data s : api_store from t [] com adult data s = None;
  api_verify_empty h s pid user :
    proofId (api_identity s user) = [] -> api_verify h s pid user = None;
  api_verify_stored h s pid user :
    proofId (api_identity s user) <> [] ->
    api_verify h s pid user = Some (bool_decide (h (proofId (api_identity s user)) = h pid))
}.

(** The contract as an implementation of [IdentityVerifierAPI]. *)
Definition store_model (from t : Z) (pid com : list Z) (adult : bool) (data : list Z) (s : IdentityVerifier) : option IdentityVerifier :=
  match storeProof (mkCtx from t) pid com adult data s with Ok s' => Some s' | Revert _ => None end.

Definition verify_model (h : list Z -> Z) (s : IdentityVerifier) (pid : list Z) (user : Z) : option bool :=
  match verifyProof h s pid user with Ok b => Some b | Revert _ => None end.

(** ** The invariant of the contract's state *)

(** Every registered identity has a non-empty identifier, proof data
    under that identifier, a timestamp not after [t], and the event that
    recorded it. *)
Definition contract_inv (t : Z) (s : IdentityVerifier) : Prop :=
  forall u i, userIdentities s !! u = Some i ->
    proofId i <> [] /\ is_Some (proofData s !! proofId i) /\ timestamp i <= t /\
    ProofStored (proofId i) u (isAdult i) (timestamp i) ∈ events s.

Definition chain_inv (c : Chain) : Prop := contract_inv (time c) (contract c).

(** * Lemmas *)

Create HintDb contract.

Lemma storeProof_ok ctx pid com adult data s :
  pid <> [] ->
  storeProof ctx pid com adult data s =
  Ok (mkIdentityVerifier (<[sender ctx := mkIdentity pid com adult (block_timestamp ctx)]> (userIdentities s))
              (<[pid := data]> (proofData s))
              (events s ++ [ProofStored pid (sender ctx) adult (block_timestamp ctx)])).
Proof.
  intros Hp. unfold storeProof. rewrite bool_decide_false; [reflexivity|].
  intros Hl. apply Hp, length_zero_iff_nil, Hl.
Qed.

Lemma storeProof_empty ctx com adult data s :
  storeProof ctx [] com adult data s = Revert "Proof ID cannot be empty".
Proof. reflexivity. Qed.

Lemma read_identity_insert m u i d e : read_identity (mkIdentityVerifier (<[u := i]> m) d e) u = i.
Proof. unfold read_identity. simpl. rewrite lookup_insert_eq. reflexivity. Qed.

Lemma read_identity_other s u v i d e :
  u <> v -> read_identity (mkIdentityVerifier (<[u := i]> (userIdentities s)) d e) v = read_identity s v.
Proof. intros H. unfold read_identity. simpl. rewrite lookup_insert_ne by exact H. reflexivity. Qed.

#[global] Instance Model : IdentityVerifierAPI IdentityVerifier.
Proof.
  refine {| api_store := store_model; api_identity := getUserIdentity; api_proof_data := getProofData;
            api_verify := verify_model |}.
  - intros from t pid com adult data s s' H. unfold store_model, storeProof in H.
    case_bool_decide; [discriminate|]. injection H as <-. apply read_identity_insert.
  - intros from t pid com adult data s s' H. unfold store_model, storeProof in H.
    case_bool_decide; [discriminate|]. injection H as <-. unfold getProofData. simpl.
    rewrite lookup_insert_eq. reflexivity.
  - intros from t pid com adult data s Hp. unfold store_model, storeProof.
    rewrite bool_decide_false; [eexists; reflexivity|]. intros Hl. apply Hp, length_zero_iff_nil, Hl.
  - reflexivity.
  - intros h s pid user H. cbn in H. unfold getUserIdentity in H. unfold verify_model, verifyProof.
    rewrite H. reflexivity.
  - intros h s pid user H. cbn in H |- *. unfold getUserIdentity in *. unfold verify_model, verifyProof.
    rewrite bool_decide_false; [reflexivity|]. intros Hl. apply H, length_zero_iff_nil, Hl.
Defined.

Lemma contract_inv_initial t : contract_inv t initial_state.
Proof. intros u i H. simpl in H. rewrite lookup_empty in H. discriminate. Qed.

Lemma contract_inv_later t t' s : t <= t' -> contract_inv t s -> contract_inv t' s.
Proof. intros Ht H u i Hi. destruct (H u i Hi) as (H1 & H2 & H3 & H4). repeat split; auto. lia. Qed.

Lemma contract_inv_store t from pid com adult data s :
  contract_inv t s -> contract_inv t (apply_tx (mkCtx from t) (TxStoreProof pid com adult data) s).
Proof.
  intros H. unfold apply_tx, exec. destruct pid as [|p pid']; [exact H|].
  rewrite storeProof_ok by discriminate. intros u i Hi. simpl in Hi.
  destruct (decide (u = from)) as [->|Hne].
  - rewrite lookup_insert_eq in Hi. injection Hi as <-. simpl. split; [discriminate|].
    rewrite lookup_insert_eq. split; [eexists; reflexivity|]. split; [lia|].
    apply elem_of_app. right. apply list_elem_of_singleton. reflexivity.
  - rewrite lookup_insert_ne in Hi by congruence. destruct (H u i Hi) as (H1 & H2 & H3 & H4).
    simpl. split; [exact H1|]. split; [|split; [exact H3|apply elem_of_app; left; exact H4]].
    destruct (decide (proofId i = p :: pid')) as [->|Hp]; [rewrite lookup_insert_eq; eexists; reflexivity|].
    rewrite lookup_insert_ne by congruence. exact H2.
Qed.

Lemma contract_inv_log t from pid user s :
  contract_inv t s -> contract_inv t (apply_tx (mkCtx from t) (TxLogVerification pid user) s).
Proof.
  intros H u i Hi. destruct (H u i Hi) as (H1 & H2 & H3 & H4). simpl.
  repeat split; auto. apply elem_of_app. left. exact H4.
Qed.

Lemma chain_inv_step c c' : chain_inv c -> chain_step c c' -> chain_inv c'.
Proof.
  intros H Hs. destruct Hs as [c from tx|c|c dt Hdt]; unfold chain_inv in *; simpl.
  - exact H.
  - unfold mine. destruct (pending c) as [|[from tx] rest]; [exact H|]. simpl.
    destruct tx; [apply contract_inv_store | apply contract_inv_log]; exact H.
  - apply contract_inv_later with (time c); [lia|exact H].
Qed.

Lemma chain_inv_reachable t0 c : chain_reachable t0 c -> chain_inv c.
Proof.
  induction 1 as [|c c' _ IH Hs]; [apply contract_inv_initial|]. exact (chain_inv_step c c' IH Hs).
Qed.

(** * Theorems *)

(** C16: on every chain reachable from the empty contract, each registered
    identity has a non-empty proof identifier, proof data stored under
    it, a timestamp not later than the chain's time, and the
    [ProofStored] event that registered it. *)
Theorem reachable_contract_inv t0 c : chain_reachable t0 c -> chain_inv c.
Proof. apply chain_inv_reachable. Qed.

(** C17: [storeProof] does not check who owns a proof identifier: a second
    account that stores a proof under another user's identifier replaces
    that user's proof data, while the user's identity still names the
    identifier. *)
Theorem storeProof_overwrites_proof_data s alice mallory t pid com adult data :
  alice <> mallory -> pid <> [] -> proofId (getUserIdentity s alice) = pid ->
  exists s', storeProof (mkCtx mallory t) pid com adult data s = Ok s' /\
    getUserIdentity s' alice = getUserIdentity s alice /\ proofId (getUserIdentity s' alice) = pid /\
    getProofData s' pid = data.
Proof.
  intros Hne Hp Hid. rewrite storeProof_ok by exact Hp. eexists. split; [reflexivity|].
  unfold getUserIdentity. rewrite read_identity_other by (simpl; congruence).
  split; [reflexivity|]. split; [exact Hid|]. unfold getProofData. simpl. rewrite lookup_insert_eq. reflexivity.
Qed.

(** after [storeProof(pid, ...)] by [u], [verifyProof(pid', u)]
    returns whether the hashes of [pid] and [pid'] are equal: it is true
    for [pid] itself. *)
Theorem verifyProof_after_store keccak256 ctx pid com adult data s s' pid' :
  storeProof ctx pid com adult data s = Ok s' ->
  verifyProof keccak256 s' pid' (sender ctx) = Ok (bool_decide (keccak256 pid = keccak256 pid')) /\
  verifyProof keccak256 s' pid (sender ctx) = Ok true.
Proof.
  intros H. unfold storeProof in H. case_bool_decide as Hl; [discriminate|]. injection H as <-.
  unfold verifyProof. rewrite read_identity_insert. cbn [proofId]. rewrite bool_decide_false by exact Hl.
  split; [reflexivity|]. rewrite bool_decide_true; reflexivity.
Qed.

(** On a reachable chain, [verifyProof] for an address that never
    stored a proof reverts with "No identity found for this user". *)
Theorem verifyProof_unregistered t0 c keccak256 pid u :
  chain_reachable t0 c -> (forall p a ts, ProofStored p u a ts ∉ events (contract c)) ->
  verifyProof keccak256 (contract c) pid u = Revert "No identity found for this user".
Proof.
  intros Hr Hno. pose proof (chain_inv_reachable t0 c Hr) as Hinv.
  unfold verifyProof, read_identity. destruct (userIdentities (contract c) !! u) as [i|] eqn:Ei; [|reflexivity].
  destruct (Hinv u i Ei) as (_ & _ & _ & Hev). exfalso. exact (Hno _ _ _ Hev).
Qed.

(** A chain on which address 1 stored a proof [[112]] at time 5. *)
Definition chain_stored : Chain := mine (submit 1 (TxStoreProof [112] [7] true [123; 125]) (genesis 5)).

Lemma chain_stored_reachable : chain_reachable 5 chain_stored.
Proof.
  econstructor; [econstructor; [constructor | constructor] | constructor].
Qed.

Lemma reachable_contract_inv_witness : chain_reachable 5 chain_stored /\ chain_inv chain_stored.
Proof. split; [exact chain_stored_reachable | apply (reachable_contract_inv 5), chain_stored_reachable]. Defined.

Lemma storeProof_overwrites_proof_data_witness :
  exists s', storeProof (mkCtx 2 9) [112] [8] false [] (contract chain_stored) = Ok s' /\
    getUserIdentity s' 1 = getUserIdentity (contract chain_stored) 1 /\ proofId (getUserIdentity s' 1) = [112] /\
    getProofData s' [112] = [].
Proof. apply storeProof_overwrites_proof_data; [lia | discriminate | reflexivity]. Defined.

Lemma verifyProof_after_store_witness :
  exists s', storeProof (mkCtx 1 5) [112] [7] true [] initial_state = Ok s' /\
    verifyProof (fold_right Z.add 0) s' [113] 1 = Ok false /\ verifyProof (fold_right Z.add 0) s' [112] 1 = Ok true.
Proof.
  set (s1 := mkIdentityVerifier (<[1 := mkIdentity [112] [7] true 5]> ∅) (<[[112] := []]> ∅) [ProofStored [112] 1 true 5]).
  assert (E : storeProof (mkCtx 1 5) [112] [7] true [] initial_state = Ok s1) by reflexivity.
  destruct (verifyProof_after_store (fold_right Z.add 0) (mkCtx 1 5) [112] [7] true [] initial_state s1 [113] E)
    as [H1 H2]. cbn [sender] in H1, H2.
  exists s1. split; [exact E|]. split; [|exact H2]. rewrite H1, bool_decide_false by (simpl; lia). reflexivity.
Defined.

Lemma verifyProof_unregistered_witness :
  verifyProof (fold_right Z.add 0) (contract chain_stored) [112] 2 = Revert "No identity found for this user".
Proof.
  apply (verifyProof_unregistered 5); [exact chain_stored_reachable|].
  intros p a ts Hin. cbv in Hin. apply list_elem_of_singleton in Hin. discriminate.
Defined.
