(* ===== verification/ContractClient.v ===== *)
(** * ContractClient: [storeIdentityProof], [getUserIdentity], [verifyIdentityProof]

    [src/unnamed/part_002], lines 1-131: the three functions through which
    the pages talk to the [IdentityVerifier] contract with ethers.

    - The client is written against [Contract.IdentityVerifierAPI]: a
      state [S] of the contract with its store, getters and [verifyProof].
      Its theorems hold for any implementation of that interface;
      [Contract.Model] is the contract's.
    - ethers is a library: [Ethers] holds what the client uses of it.  A
      string argument is encoded to UTF-8 bytes ([utf8_encode], which
      throws on a lone surrogate, and throws on a value that is not a
      string); a string result is decoded ([utf8_decode]); an [address]
      argument goes through the address coder ([to_address]).  The EVM's
      [keccak256] is the contract's hash.
    - [storeIdentityProof] asks the node to simulate the call (ethers
      estimates the gas before it signs), then sends the transaction: the
      promise resolves with the transaction, before it is mined.
    - [getUserIdentity] and [verifyIdentityProof] make read-only calls on
      the contract's state.  Inside them, the [try] around [JSON.parse] of
      the proof data turns any throw into [livenessVerified = false].
    - The JavaScript values they return are records: [UserIdentity] (or
      [None] for [null]) and [Verification]; [livenessVerified] is the
      JSON value [parsedProofData.livenessVerified || false], whose
      truthiness is what the pages test. *)

From Stdlib Require Import ZArith Lia.
From stdpp Require Import base list gmap strings.
From S2P Require Import Prelude JsRuntime Json ZkProof Contract.

Local Open Scope Z_scope.

Record Ethers := mkEthers {
  utf8_encode : JValue -> option (list Z);
  utf8_decode : list Z -> list Z;
  keccak : list Z -> Z;
  to_address : JValue -> option Z
}.

(** [proofData] (lines 17-20): the [proof] object spread, and the
    liveness flag ([x || false] of a Boolean is [x]). *)
Definition proof_data (p : ZkProofResult) : JValue :=
  JObject [(units "pi_a", JArray (map (fun s => JString (units s)) (pi_a p)));
           (units "pi_b", JArray (map (fun r => JArray (map (fun s => JString (units s)) r)) (pi_b p)));
           (units "pi_c", JArray (map (fun s => JString (units s)) (pi_c p)));
           (units "livenessVerified", JBool (pub_livenessVerified p || false))].

(** [parsedProofData.livenessVerified || false] inside its [try]: a
    [SyntaxError] of [JSON.parse] or a [TypeError] on [null] leaves the
    initial [false]. *)
Definition liveness_of (text : list Z) : JValue :=
  match JSON_parse text with
  | Some v =>
      match get v (units "livenessVerified") with
      | Some (Some x) => if truthy x then x else JBool false
      | Some None => JBool false
      | None => JBool false
      end
  | None => JBool false
  end.

Record UserIdentity := mkUserIdentity {
  u_proofId : list Z;
  u_commitment : list Z;
  u_isAdult : bool;
  u_livenessVerified : JValue;
  u_timestamp : Z
}.

Record Verification := mkVerification {
  verified : bool;
  vtype : JValue;
  message : list Z
}.

(** [v === "..."]: strict equality with a string holds only for that
    string. *)
Definition strict_eq_string (v : JValue) (s : list Z) : bool :=
  match v with JString t => bool_decide (t = s) | _ => false end.

Section Client.
Context {S : Type} `{IdentityVerifierAPI S}.
Variable eth : Ethers.

(** The arguments of [contract.storeProof] (lines 23-28), encoded. *)
Definition store_args (p : ZkProofResult) : option (list Z * list Z * bool * list Z) :=
  match utf8_encode eth (JString (units (ZkProof.proofId p))),
        utf8_encode eth (JString (units (ZkProof.commitment p))),
        utf8_encode eth (JString (JSON_stringify (proof_data p))) with
  | Some a, Some b, Some d => Some (a, b, pub_isAdult p, d)
  | _, _, _ => None
  end.

(** [storeIdentityProof(signer, proof)] (lines 9-35) by the account [from]
    at time [t] on the state [s]. *)
Definition storeIdentityProof (from t : Z) (s : S) (p : ZkProofResult) : Outcome Tx :=
  match store_args p with
  | Some (pid, com, adult, data) =>
      match api_store from t pid com adult data s with
      | Some _ => Resolved (TxStoreProof pid com adult data)
      | None => Rejected "Failed to store proof on blockchain"
      end
  | None => Rejected "Failed to store proof on blockchain"
  end.

(** The [try] of lines 54-60 (and 100-106): [getProofData(proofId)] and
    the flag it holds. *)
Definition read_liveness (s : S) (pid : JValue) : JValue :=
  match utf8_encode eth pid with
  | Some b => liveness_of (utf8_decode eth (api_proof_data s b))
  | None => JBool false
  end.

(** [getUserIdentity(signer)] (lines 38-73) for the signer's address. *)
Definition getUserIdentity_client (s : S) (address : Z) : Outcome (option UserIdentity) :=
  let identity := api_identity s address in
  match utf8_decode eth (Contract.proofId identity) with
  | [] => Resolved None
  | pid =>
      Resolved (Some (mkUserIdentity pid (utf8_decode eth (Contract.commitment identity))
                        (Contract.isAdult identity) (read_liveness s (JString pid))
                        (Contract.timestamp identity * 1000)))
  end.

Definition NOT_VERIFIED : list Z :=
  units "The proof could not be verified. It may be invalid or expired.".

(** The messages of lines 113-115 and 123-125. *)
Definition age_message (adult : bool) (liveness : JValue) : list Z :=
  units ("The person is verified to be " ++ (if adult then "over" else "under") ++ " 18 years old." ++
         (if truthy liveness then " (Liveness Verified)" else "")).

Definition identity_message (liveness : JValue) : list Z :=
  units ("The identity has been successfully verified." ++
         (if truthy liveness then " This identity includes liveness verification." else "")).

(** [verifyIdentityProof(signer, proofId, userAddress, verificationType)]
    (lines 75-131). *)
Definition verifyIdentityProof (s : S) (proofId userAddress verificationType : JValue)
    : Outcome Verification :=
  match utf8_encode eth proofId, to_address eth userAddress with
  | Some pid, Some user =>
      match api_verify (keccak eth) s pid user with
      | None => Rejected "Failed to verify proof on blockchain"
      | Some false => Resolved (mkVerification false verificationType NOT_VERIFIED)
      | Some true =>
          let identity := api_identity s user in
          let liveness := read_liveness s proofId in
          if strict_eq_string verificationType (units "age") then
            Resolved (mkVerification true (JString (units "age")) (age_message (Contract.isAdult identity) liveness))
          else Resolved (mkVerification true (JString (units "identity")) (identity_message liveness))
      end
  | _, _ => Rejected "Failed to verify proof on blockchain"
  end.
End Client.

(** * Lemmas *)

Lemma strings_wf l : forallb wf (map (fun s => JString (units s)) l) = true.
Proof.
  apply forallb_forall. intros v Hv. apply in_map_iff in Hv as (s & <- & _). apply units_ok.
Qed.

Lemma proof_data_wf p : wf (proof_data p) = true.
Proof.
  unfold proof_data. cbn [wf forallb fst snd]. rewrite !units_ok, !strings_wf. cbn [andb].
  rewrite andb_true_r. apply forallb_forall. intros v Hv. apply in_map_iff in Hv as (r & <- & _).
  apply strings_wf.
Qed.

(** The proof data read back gives the liveness flag of the proof. *)
Lemma liveness_of_proof_data p : liveness_of (JSON_stringify (proof_data p)) = JBool (pub_livenessVerified p).
Proof.
  unfold liveness_of. rewrite parse_stringify by apply proof_data_wf.
  unfold proof_data. cbn. destruct (pub_livenessVerified p); reflexivity.
Qed.

Section ClientLemmas.
Context {S : Type} `{IdentityVerifierAPI S}.
Variable eth : Ethers.
(** ethers decodes what it encoded. *)
Hypothesis utf8_roundtrip : forall s b, utf8_encode eth (JString s) = Some b -> utf8_decode eth b = s.

Lemma storeIdentityProof_resolved from t s p tx :
  storeIdentityProof eth from t s p = Resolved tx ->
  exists pid com data, store_args eth p = Some (pid, com, pub_isAdult p, data) /\
    tx = TxStoreProof pid com (pub_isAdult p) data /\ is_Some (api_store from t pid com (pub_isAdult p) data s).
Proof.
  unfold storeIdentityProof, store_args. intros Hs.
  destruct (utf8_encode eth (JString (units (ZkProof.proofId p)))) as [a|]; [|discriminate].
  destruct (utf8_encode eth (JString (units (ZkProof.commitment p)))) as [b|]; [|discriminate].
  destruct (utf8_encode eth (JString (JSON_stringify (proof_data p)))) as [d|]; [|discriminate].
  destruct (api_store from t a b (pub_isAdult p) d s) as [s'|] eqn:E; [|discriminate].
  injection Hs as <-. exists a, b, d. repeat split; [eexists; exact E].
Qed.

Lemma store_args_decode p pid com adult data :
  store_args eth p = Some (pid, com, adult, data) ->
  utf8_encode eth (JString (units (ZkProof.proofId p))) = Some pid /\
  utf8_decode eth pid = units (ZkProof.proofId p) /\ utf8_decode eth com = units (ZkProof.commitment p) /\
  utf8_decode eth data = JSON_stringify (proof_data p) /\ adult = pub_isAdult p.
Proof.
  unfold store_args. intros Hs.
  destruct (utf8_encode eth (JString (units (ZkProof.proofId p)))) as [a|] eqn:Ea; [|discriminate].
  destruct (utf8_encode eth (JString (units (ZkProof.commitment p)))) as [b|] eqn:Eb; [|discriminate].
  destruct (utf8_encode eth (JString (JSON_stringify (proof_data p)))) as [d|] eqn:Ed; [|discriminate].
  injection Hs as <- <- <- <-. repeat split; try reflexivity; apply utf8_roundtrip; assumption.
Qed.

(** After the stored transaction is mined, the proof data under its
    identifier gives the proof's liveness flag. *)
Lemma read_liveness_after_store p pid com data from t s s' :
  store_args eth p = Some (pid, com, pub_isAdult p, data) ->
  api_store from t pid com (pub_isAdult p) data s = Some s' ->
  read_liveness eth s' (JString (units (ZkProof.proofId p))) = JBool (pub_livenessVerified p).
Proof.
  intros Ha Hs. destruct (store_args_decode p pid com _ data Ha) as (Ep & _ & _ & Ed & _).
  unfold read_liveness. rewrite Ep, (api_store_data _ _ _ _ _ _ _ _ Hs), Ed.
  apply liveness_of_proof_data.
Qed.
End ClientLemmas.

(** * Theorems *)

Section ClientTheorems.
Context {S : Type} `{IdentityVerifierAPI S}.

Lemma getUserIdentity_after_store_gen eth from t s s' p tx :
  (forall str b, utf8_encode eth (JString str) = Some b -> utf8_decode eth b = str) ->
  ZkProof.proofId p <> ""%string ->
  storeIdentityProof eth from t s p = Resolved tx ->
  (forall pid com adult data, tx = TxStoreProof pid com adult data -> api_store from t pid com adult data s = Some s') ->
  getUserIdentity_client eth s' from =
  Resolved (Some (mkUserIdentity (units (ZkProof.proofId p)) (units (ZkProof.commitment p)) (pub_isAdult p)
                   (JBool (pub_livenessVerified p)) (t * 1000))).
Proof.
  intros Hrt Hne Hst Hmine.
  destruct (storeIdentityProof_resolved eth from t s p tx Hst) as (pid & com & data & Ha & -> & _).
  specialize (Hmine _ _ _ _ eq_refl).
  destruct (store_args_decode eth Hrt p pid com _ data Ha) as (_ & Ep & Ec & _ & _).
  unfold getUserIdentity_client. rewrite (api_store_identity _ _ _ _ _ _ _ _ Hmine). cbn [Contract.proofId
    Contract.commitment Contract.isAdult Contract.timestamp].
  rewrite Ep, Ec. destruct (units (ZkProof.proofId p)) eqn:Eu.
  - exfalso. apply Hne. destruct (ZkProof.proofId p); [reflexivity | discriminate].
  - rewrite <- Eu, (read_liveness_after_store eth Hrt p pid com data from t s s' Ha Hmine). reflexivity.
Qed.

Lemma verifyIdentityProof_after_store_gen eth from t s s' p tx address vtype :
  (forall str b, utf8_encode eth (JString str) = Some b -> utf8_decode eth b = str) ->
  storeIdentityProof eth from t s p = Resolved tx ->
  (forall pid com adult data, tx = TxStoreProof pid com adult data -> api_store from t pid com adult data s = Some s') ->
  to_address eth address = Some from ->
  verifyIdentityProof eth s' (JString (units (ZkProof.proofId p))) address vtype =
  Resolved (if strict_eq_string vtype (units "age")
            then mkVerification true (JString (units "age"))
                   (age_message (pub_isAdult p) (JBool (pub_livenessVerified p)))
            else mkVerification true (JString (units "identity")) (identity_message (JBool (pub_livenessVerified p)))).
Proof.
  intros Hrt Hst Hmine Hadr.
  destruct (storeIdentityProof_resolved eth from t s p tx Hst) as (pid & com & data & Ha & -> & Hok).
  specialize (Hmine _ _ _ _ eq_refl).
  destruct (store_args_decode eth Hrt p pid com _ data Ha) as (Ep & _ & _ & _ & _).
  assert (Hpid : pid <> []) by (intros ->; rewrite api_store_empty in Hok; destruct Hok; discriminate).
  pose proof (api_store_identity _ _ _ _ _ _ _ _ Hmine) as Hid.
  unfold verifyIdentityProof. rewrite Ep, Hadr, api_verify_stored by (rewrite Hid; exact Hpid).
  rewrite Hid. cbn [Contract.proofId Contract.isAdult]. rewrite bool_decide_true by reflexivity.
  rewrite (read_liveness_after_store eth Hrt p pid com data from t s s' Ha Hmine).
  destruct (strict_eq_string vtype (units "age")); reflexivity.
Qed.

(** C18: after [storeIdentityProof] resolves and its transaction is mined,
    [getUserIdentity] for the same account returns the proof's
    identifier, commitment and adult flag, the liveness flag that went
    through [JSON.stringify], the chain and [JSON.parse], and the block
    time in milliseconds. *)
Theorem getUserIdentity_after_store eth from t s s' p tx :
  (forall str b, utf8_encode eth (JString str) = Some b -> utf8_decode eth b = str) ->
  ZkProof.proofId p <> ""%string ->
  storeIdentityProof eth from t s p = Resolved tx ->
  (forall pid com adult data, tx = TxStoreProof pid com adult data -> api_store from t pid com adult data s = Some s') ->
  getUserIdentity_client eth s' from =
  Resolved (Some (mkUserIdentity (units (ZkProof.proofId p)) (units (ZkProof.commitment p)) (pub_isAdult p)
                   (JBool (pub_livenessVerified p)) (t * 1000))).
Proof. apply getUserIdentity_after_store_gen. Qed.

(** C19: once the proof's transaction is mined, [verifyIdentityProof] on
    the identifier and the account that stored it resolves with
    [verified: true]; for the type "age" the message states the stored
    adult flag, so a minor's proof verifies with the message "under 18",
    and any other type is reported as an identity verification.  The
    liveness suffix is the proof's flag. *)
Theorem verifyIdentityProof_after_store eth from t s s' p tx address vtype :
  (forall str b, utf8_encode eth (JString str) = Some b -> utf8_decode eth b = str) ->
  storeIdentityProof eth from t s p = Resolved tx ->
  (forall pid com adult data, tx = TxStoreProof pid com adult data -> api_store from t pid com adult data s = Some s') ->
  to_address eth address = Some from ->
  verifyIdentityProof eth s' (JString (units (ZkProof.proofId p))) address vtype =
  Resolved (if strict_eq_string vtype (units "age")
            then mkVerification true (JString (units "age"))
                   (age_message (pub_isAdult p) (JBool (pub_livenessVerified p)))
            else mkVerification true (JString (units "identity")) (identity_message (JBool (pub_livenessVerified p)))).
Proof. apply verifyIdentityProof_after_store_gen. Qed.

(** for an account with no identity, [getUserIdentity] resolves with
    [null] and [verifyIdentityProof] rejects with "Failed to verify proof
    on blockchain" (the contract's [require] reverts the call). *)
Theorem client_unregistered eth s user proofId address vtype pid :
  Contract.proofId (api_identity s user) = [] -> utf8_decode eth [] = [] ->
  utf8_encode eth proofId = Some pid -> to_address eth address = Some user ->
  getUserIdentity_client eth s user = Resolved None /\
  verifyIdentityProof eth s proofId address vtype = Rejected "Failed to verify proof on blockchain".
Proof.
  intros Hno Hd Hp Ha. split.
  - unfold getUserIdentity_client. rewrite Hno, Hd. reflexivity.
  - unfold verifyIdentityProof. rewrite Hp, Ha, api_verify_empty by exact Hno. reflexivity.
Qed.
End ClientTheorems.

(** ** Witnesses: the contract, ASCII text, address 1 storing a proof at time 5 *)

(** ethers on ASCII text, where UTF-8 is the identity; an address is
    given as a number. *)
Definition eth_ascii : Ethers :=
  mkEthers (fun v => match v with JString s => Some s | _ => None end) (fun b => b) (fold_right Z.add 0)
    (fun v => match v with JNumber m _ => Some m | _ => None end).

Definition proof_example : ZkProofResult :=
  mkZkProof "proof_1_2" "1234" false true ["1"; "2"] [["3"; "4"]; ["5"; "6"]] ["7"; "8"].

Definition tx_example : Tx :=
  TxStoreProof (units "proof_1_2") (units "1234") false (JSON_stringify (proof_data proof_example)).

Definition state_example : IdentityVerifier :=
  match api_store 1 5 (units "proof_1_2") (units "1234") false (JSON_stringify (proof_data proof_example))
          initial_state with
  | Some s => s
  | None => initial_state
  end.

Lemma eth_ascii_roundtrip str b : utf8_encode eth_ascii (JString str) = Some b -> utf8_decode eth_ascii b = str.
Proof. simpl. intros H. injection H as ->. reflexivity. Qed.

Lemma mined_example pid com adult data :
  tx_example = TxStoreProof pid com adult data -> api_store 1 5 pid com adult data initial_state = Some state_example.
Proof. intros E. injection E as <- <- <- <-. reflexivity. Qed.

Lemma getUserIdentity_after_store_witness :
  storeIdentityProof eth_ascii 1 5 initial_state proof_example = Resolved tx_example /\
  getUserIdentity_client eth_ascii state_example 1 =
  Resolved (Some (mkUserIdentity (units "proof_1_2") (units "1234") false (JBool true) 5000)).
Proof.
  assert (Hst : storeIdentityProof eth_ascii 1 5 initial_state proof_example = Resolved tx_example) by reflexivity.
  split; [exact Hst|].
  exact (getUserIdentity_after_store eth_ascii 1 5 initial_state state_example proof_example tx_example
           eth_ascii_roundtrip ltac:(discriminate) Hst mined_example).
Defined.

Lemma verifyIdentityProof_after_store_witness :
  to_address eth_ascii (JNumber 1 0) = Some 1 /\
  verifyIdentityProof eth_ascii state_example (JString (units "proof_1_2")) (JNumber 1 0) (JString (units "age")) =
  Resolved (mkVerification true (JString (units "age")) (age_message false (JBool true))).
Proof.
  split; [reflexivity|].
  exact (verifyIdentityProof_after_store eth_ascii 1 5 initial_state state_example proof_example tx_example
           (JNumber 1 0) (JString (units "age")) eth_ascii_roundtrip eq_refl mined_example eq_refl).
Defined.

Lemma client_unregistered_witness :
  getUserIdentity_client eth_ascii state_example 2 = Resolved None /\
  verifyIdentityProof eth_ascii state_example (JString (units "proof_1_2")) (JNumber 2 0) (JString (units "age")) =
  Rejected "Failed to verify proof on blockchain".
Proof. apply client_unregistered with (pid := units "proof_1_2"); reflexivity. Defined.
