(* ===== verification/Wallet.v ===== *)
(** * Wallet: the wallet provider and the connect button

    [src/components/wallet-provider-simple.tsx], lines 27-231 (the
    [WalletProvider] component and the context value it provides) and
    [src/components/connect-wallet-button.tsx], lines 14-49 (the button in
    the navigation bar).

    - [WalletState] holds the five [useState] cells of the provider, the
      button's [isConnecting], whether the page is mounted, what the
      listener effect last ran with ([deps], its dependency
      [isConnected]), and the world the code talks to: the browser wallet
      ([Wallet]: whether it exposes accounts to the site, the account
      selected in it, its chain) and the listeners registered on the
      shared [window.ethereum] object.  That object outlives the effect
      that registers on it: a listener stays until [removeListener]
      removes it, and each one keeps the [isConnected] of the render that
      created it ([listeners] holds that snapshot per registration).
    - [has_on] and [has_remove] are whether [ethereum.on] and
      [ethereum.removeListener] exist (Section variables).  A page without
      [window.ethereum] is out of the model: every handler then only logs.
    - An account is a [Z] (its address); [signer] is the address the
      [JsonRpcSigner] signs for, which [BrowserProvider.getSigner()] takes
      from the wallet's selected account when it is created.
    - The asynchronous parts ([checkConnection], [connect]) are single
      events whose parameters are the wallet's answers; after a handler,
      React re-renders and the listener effect runs when [isConnected]
      changed ([commit_listeners]: the previous cleanup, then the body).
    - The wallet's own events are steps too: the user selects another
      account ([accountsChanged] with it), locks the wallet or revokes the
      site ([accountsChanged] with no account), or switches the chain
      ([chainChanged], whose handler reloads the page).

    The root layout ([src/app/layout.tsx], line 6) imports
    [@/components/wallet-provider], which is not in the repository; this
    file models [wallet-provider-simple.tsx], the only provider there,
    as the one the layout mounts. *)

From Stdlib Require Import ZArith List Lia Bool.
From Stdlib Require String.
From S2P Require Import Prelude.
Import ListNotations.

Local Open Scope Z_scope.

Module WalletProvider.

(** Sepolia's chain id (line 115). *)
Definition SEPOLIA : Z := 11155111.

Record Wallet := mkWallet {
  authorized : bool;
  selected : Z;
  wchain : Z
}.

(** [eth_accounts]: the selected account once the site is authorized. *)
Definition eth_accounts (w : Wallet) : list Z := if authorized w then [selected w] else [].

Record WalletState := mkWalletState {
  mounted : bool;
  provider : bool;
  signer : option Z;
  address : option Z;
  chainId : option Z;
  isConnected : bool;
  isConnecting : bool;
  checking : bool;
  deps : option bool;
  listeners : list bool;
  wallet : Wallet
}.

Section Provider.
Variable has_on : bool.
Variable has_remove : bool.

(** A fresh page: nothing set, nothing registered. *)
Definition fresh (w : Wallet) : WalletState :=
  mkWalletState false false None None None false false false None [] w.

(** The four state setters of a successful connection (lines 54-57,
    107-110). *)
Definition set_connected (sgn a c : Z) (s : WalletState) : WalletState :=
  mkWalletState (mounted s) (provider s) (Some sgn) (Some a) (Some c) true (isConnecting s) (checking s)
    (deps s) (listeners s) (wallet s).

(** [disconnect] (lines 158-164): [provider] is left as it is. *)
Definition disconnect (s : WalletState) : WalletState :=
  mkWalletState (mounted s) (provider s) None None None false (isConnecting s) (checking s) (deps s)
    (listeners s) (wallet s).

Definition setAddress (a : Z) (s : WalletState) : WalletState :=
  mkWalletState (mounted s) (provider s) (signer s) (Some a) (chainId s) (isConnected s) (isConnecting s)
    (checking s) (deps s) (listeners s) (wallet s).

Definition setProvider (s : WalletState) : WalletState :=
  mkWalletState (mounted s) true (signer s) (address s) (chainId s) (isConnected s) (isConnecting s)
    (checking s) (deps s) (listeners s) (wallet s).

Definition set_wallet (w : Wallet) (s : WalletState) : WalletState :=
  mkWalletState (mounted s) (provider s) (signer s) (address s) (chainId s) (isConnected s) (isConnecting s)
    (checking s) (deps s) (listeners s) w.

Definition set_listeners (d : option bool) (l : list bool) (s : WalletState) : WalletState :=
  mkWalletState (mounted s) (provider s) (signer s) (address s) (chainId s) (isConnected s) (isConnecting s)
    (checking s) d l (wallet s).

Definition set_checking (b : bool) (s : WalletState) : WalletState :=
  mkWalletState (mounted s) (provider s) (signer s) (address s) (chainId s) (isConnected s) (isConnecting s)
    b (deps s) (listeners s) (wallet s).

Definition set_connecting (b : bool) (s : WalletState) : WalletState :=
  mkWalletState (mounted s) (provider s) (signer s) (address s) (chainId s) (isConnected s) b
    (checking s) (deps s) (listeners s) (wallet s).

(** The listener effect (lines 167-214) after a render: when its
    dependency changed, the previous run's cleanup removes the four
    listeners it added (only if [removeListener] exists), then the body
    adds four listeners that see this render's [isConnected] (only if
    [on] exists). *)
Definition commit_listeners (s : WalletState) : WalletState :=
  if mounted s && negb (match deps s with Some d => Bool.eqb d (isConnected s) | None => false end) then
    let l := match deps s with
             | Some _ => if has_on && has_remove then removelast (listeners s) else listeners s
             | None => listeners s
             end in
    set_listeners (Some (isConnected s)) (if has_on then l ++ [isConnected s] else l) s
  else s.

(** [handleAccountsChanged] (lines 172-179) of a registration that saw
    [connected]. *)
Definition handleAccountsChanged (accounts : list Z) (connected : bool) (s : WalletState) : WalletState :=
  match accounts with
  | [] => disconnect s
  | a :: _ => if connected then setAddress a s else s
  end.

(** The wallet emits [accountsChanged]: every registered handler runs, in
    the order of registration. *)
Definition emit_accountsChanged (accounts : list Z) (s : WalletState) : WalletState :=
  fold_left (fun s c => handleAccountsChanged accounts c s) (listeners s) s.

(** Mounting (lines 35-73, then the listener effect): the provider is
    created and [checkConnection] starts. *)
Definition mount (s : WalletState) : WalletState :=
  commit_listeners (setProvider (mkWalletState true (provider s) (signer s) (address s) (chainId s)
                                   (isConnected s) (isConnecting s) true (deps s) (listeners s) (wallet s))).

(** [checkConnection] (lines 47-63) once its three requests answered. *)
Definition checkConnection (s : WalletState) : WalletState :=
  let s := set_checking false s in
  match eth_accounts (wallet s) with
  | a :: _ => commit_listeners (set_connected (selected (wallet s)) a (wchain (wallet s)) s)
  | [] => s
  end.

(** [handleChainChanged] (lines 181-184): [window.location.reload()]; the
    wallet stays, the page starts again. *)
Definition reload (s : WalletState) : WalletState := mount (fresh (wallet s)).

(** The wallet emits [chainChanged]: the page reloads if a listener is
    registered. *)
Definition emit_chainChanged (s : WalletState) : WalletState :=
  match listeners s with [] => s | _ => reload s end.

(** The wallet emits [disconnect] ([handleDisconnect], lines 190-193). *)
Definition emit_disconnect (s : WalletState) : WalletState :=
  match listeners s with [] => s | _ => commit_listeners (disconnect s) end.

(** [connect] (lines 76-155) with the user's answer to the account request
    ([approve]) and to the chain switch ([switch]): a successful switch
    changes the wallet's chain, and its [chainChanged] event reaches the
    page if a listener is registered. *)
Definition connect (approve switch : bool) (s : WalletState) : WalletState :=
  if negb approve then s
  else
    let w := mkWallet true (selected (wallet s)) (wchain (wallet s)) in
    let s := setProvider (set_wallet w s) in
    let s := commit_listeners (set_connected (selected w) (selected w) (wchain w) s) in
    if wchain w =? SEPOLIA then s
    else if switch then emit_chainChanged (set_wallet (mkWallet true (selected w) SEPOLIA) s)
    else s.

(** [ConnectWalletButton]'s [handleConnect] (lines 18-27): the button
    shows "Connecting..." and is disabled until [connect] settles. *)
Definition button_handleConnect (s : WalletState) : WalletState := set_connecting true s.

Definition button_connect_done (approve switch : bool) (s : WalletState) : WalletState :=
  set_connecting false (connect approve switch s).

Inductive wstep : WalletState -> WalletState -> Prop :=
| ws_check s : checking s = true -> wstep s (checkConnection s)
| ws_click_connect s : mounted s = true -> isConnected s = false -> isConnecting s = false ->
    wstep s (button_handleConnect s)
| ws_connect_done s approve switch : isConnecting s = true ->
    wstep s (button_connect_done approve switch s)
| ws_click_disconnect s : mounted s = true -> isConnected s = true ->
    wstep s (commit_listeners (disconnect s))
| ws_wallet_select s a : authorized (wallet s) = true ->
    wstep s (commit_listeners (emit_accountsChanged [a] (set_wallet (mkWallet true a (wchain (wallet s))) s)))
| ws_wallet_select_locked s a : authorized (wallet s) = false ->
    wstep s (set_wallet (mkWallet false a (wchain (wallet s))) s)
| ws_wallet_revoke s :
    wstep s (commit_listeners (emit_accountsChanged [] (set_wallet (mkWallet false (selected (wallet s)) (wchain (wallet s))) s)))
| ws_wallet_chain s c :
    wstep s (emit_chainChanged (set_wallet (mkWallet (authorized (wallet s)) (selected (wallet s)) c) s))
| ws_wallet_disconnect s : wstep s (emit_disconnect s)
| ws_refresh s : wstep s (reload s).

Inductive wreachable (w0 : Wallet) : WalletState -> Prop :=
| wr_init : wreachable w0 (mount (fresh w0))
| wr_step s s' : wreachable w0 s -> wstep s s' -> wreachable w0 s'.
End Provider.

(** ** The invariant, with [on] and [removeListener] *)

(** The listener effect is in step with the render: one registration,
    made with the current [isConnected]; a connection has its signer,
    address and chain, a disconnected page has none, and a connected page
    is authorized by the wallet. *)
Definition winv (s : WalletState) : Prop :=
  mounted s = true /\ deps s = Some (isConnected s) /\ listeners s = [isConnected s] /\
  (if isConnected s
   then (exists sg a c, signer s = Some sg /\ address s = Some a /\ chainId s = Some c) /\
        authorized (wallet s) = true
   else signer s = None /\ address s = None /\ chainId s = None).

(** The effect has run once, with some value of its dependency. *)
Definition registered (s : WalletState) : Prop :=
  mounted s = true /\ exists d, deps s = Some d /\ listeners s = [d].

(** * Lemmas *)

Create HintDb wallet.

Lemma commit_registered s :
  registered s ->
  commit_listeners true true s = set_listeners (Some (isConnected s)) [isConnected s] s.
Proof.
  intros (Hm & d & Hd & Hl). unfold commit_listeners. rewrite Hm, Hd, Hl.
  destruct d, (isConnected s); cbn; try reflexivity;
    destruct s; cbn in *; subst; reflexivity.
Qed.

Lemma winv_registered s : winv s -> registered s.
Proof. intros (Hm & Hd & Hl & _). split; [exact Hm|]. exists (isConnected s). auto. Qed.

Lemma winv_mount w : winv (mount true true (fresh w)).
Proof. repeat split; reflexivity. Qed.

Lemma winv_reload s : winv (reload true true s).
Proof. apply winv_mount. Qed.

(** A render whose data satisfy the invariant, after the effect. *)
Lemma winv_commit s :
  registered s ->
  (if isConnected s
   then (exists sg a c, signer s = Some sg /\ address s = Some a /\ chainId s = Some c) /\
        authorized (wallet s) = true
   else signer s = None /\ address s = None /\ chainId s = None) ->
  winv (commit_listeners true true s).
Proof.
  intros Hr Hdata. rewrite commit_registered by exact Hr. destruct Hr as (Hm & _).
  split; [exact Hm|]. split; [reflexivity|]. split; [reflexivity|]. exact Hdata.
Qed.

Lemma registered_set_wallet w s : registered s -> registered (set_wallet w s).
Proof. intros H. exact H. Qed.

Lemma registered_disconnect s : registered s -> registered (disconnect s).
Proof. intros H. exact H. Qed.

Lemma registered_set_connected sg a c s : registered s -> registered (set_connected sg a c s).
Proof. intros H. exact H. Qed.

#[local] Hint Resolve winv_registered registered_set_wallet registered_disconnect registered_set_connected : wallet.

(** [accountsChanged] with one registration made with the current
    [isConnected]. *)
Lemma emit_accountsChanged_one accounts s :
  listeners s = [isConnected s] ->
  emit_accountsChanged accounts s = handleAccountsChanged accounts (isConnected s) s.
Proof. intros Hl. unfold emit_accountsChanged. rewrite Hl. reflexivity. Qed.

Lemma winv_emit_chainChanged s : listeners s <> [] -> winv (emit_chainChanged true true s).
Proof. unfold emit_chainChanged. destruct (listeners s); [congruence|]. intros _. apply winv_reload. Qed.

(** Every event keeps the invariant. *)
Lemma winv_step s s' : winv s -> wstep true true s s' -> winv s'.
Proof.
  intros H Hs. pose proof (winv_registered s H) as Hr.
  destruct H as (Hm & Hd & Hl & Hdata). destruct Hs as
    [s Hc | s _ _ _ | s approve switch _ | s _ _ | s a Ha | s a Ha | s | s c | s | s].
  - unfold checkConnection. destruct (eth_accounts (wallet (set_checking false s))) as [|a0 r] eqn:Ea.
    + repeat split; assumption.
    + apply winv_commit; [exact Hr|]. cbn. split; [do 3 eexists; repeat split|].
      unfold eth_accounts in Ea. cbn in Ea. destruct (authorized (wallet s)); [reflexivity|discriminate].
  - repeat split; assumption.
  - unfold button_connect_done, connect. destruct approve; [|repeat split; assumption]. cbn [negb].
    set (s1 := commit_listeners true true _).
    assert (H1 : winv s1).
    { apply winv_commit; [exact Hr|]. cbn. split; [do 3 eexists; repeat split | reflexivity]. }
    destruct (_ =? SEPOLIA); [exact H1|]. destruct switch; [|exact H1].
    apply winv_emit_chainChanged. destruct H1 as (_ & _ & E & _). cbn. rewrite E. discriminate.
  - apply winv_commit; [exact Hr|]. repeat split.
  - rewrite emit_accountsChanged_one by exact Hl. cbn [set_wallet isConnected]. apply winv_commit.
    + destruct (isConnected s); exact Hr.
    + cbn. destruct (isConnected s) eqn:Ec; cbn.
      * destruct Hdata as ((sg & a0 & c0 & E1 & _ & E3) & _). rewrite Ec.
        split; [exists sg, a, c0; repeat split; assumption | reflexivity].
      * rewrite Ec. exact Hdata.
  - destruct (isConnected s) eqn:Ec; [destruct Hdata as (_ & Hauth); congruence|].
    destruct Hdata as (E1 & E2 & E3). unfold winv. cbn. rewrite Ec. repeat split; assumption.
  - rewrite emit_accountsChanged_one by exact Hl. apply winv_commit; [exact Hr|]. repeat split.
  - apply winv_emit_chainChanged. cbn. rewrite Hl. discriminate.
  - unfold emit_disconnect. rewrite Hl. apply winv_commit; [exact Hr|]. repeat split.
  - apply winv_reload.
Qed.

Lemma winv_reachable w0 s : wreachable true true w0 s -> winv s.
Proof. induction 1 as [|s s' _ IH Hs]; [apply winv_mount | exact (winv_step s s' IH Hs)]. Qed.

(** An account switch in the wallet on a connected page. *)
Lemma account_switch_keeps_signer_gen w0 s a :
  wreachable true true w0 s -> isConnected s = true ->
  let s' := commit_listeners true true (emit_accountsChanged [a] (set_wallet (mkWallet true a (wchain (wallet s))) s)) in
  wstep true true s s' /\ isConnected s' = true /\ address s' = Some a /\ signer s' = signer s.
Proof.
  intros Hr Hc s'. destruct (winv_reachable w0 s Hr) as (Hm & Hd & Hl & Hdata). rewrite Hc in Hdata.
  destruct Hdata as (_ & Hauth). split; [apply ws_wallet_select, Hauth|].
  rewrite Hc in Hd, Hl. unfold s'. rewrite emit_accountsChanged_one by (cbn; rewrite Hc; exact Hl).
  cbn [set_wallet isConnected]. rewrite Hc. cbn [handleAccountsChanged].
  rewrite commit_registered by (split; [exact Hm | exists true; split; assumption]).
  cbn. rewrite Hc. repeat split; reflexivity.
Qed.

(** * Theorems *)

(** C20: with [ethereum.on] and [ethereum.removeListener], every state the
    provider reaches from its first mount has exactly one registration of
    the wallet listeners, made by the current render; a connected state
    has a signer, an address and a chain id and the wallet authorizes the
    site; a disconnected one has none of them. *)
Theorem wallet_reachable_inv w0 s : wreachable true true w0 s -> winv s.
Proof. apply winv_reachable. Qed.

(** C21: when the user selects another account in the wallet while the
    page is connected, [handleAccountsChanged] updates [address] and
    nothing else: the page stays connected with the [signer] of the
    previous account. *)
Theorem account_switch_keeps_signer w0 s a :
  wreachable true true w0 s -> isConnected s = true ->
  let s' := commit_listeners true true (emit_accountsChanged [a] (set_wallet (mkWallet true a (wchain (wallet s))) s)) in
  wstep true true s s' /\ isConnected s' = true /\ address s' = Some a /\ signer s' = signer s.
Proof. apply account_switch_keeps_signer_gen. Qed.

(** C28: [disconnect] only clears the page's state: the wallet still
    authorizes the site, so after a reload [checkConnection] connects the
    page again, to the wallet's selected account, with no user action. *)
Theorem disconnect_not_persistent w0 s :
  wreachable true true w0 s -> isConnected s = true ->
  let s1 := commit_listeners true true (disconnect s) in
  let s2 := reload true true s1 in
  let s3 := checkConnection true true s2 in
  wstep true true s s1 /\ wstep true true s1 s2 /\ wstep true true s2 s3 /\
  isConnected s1 = false /\ isConnected s3 = true /\ address s3 = Some (selected (wallet s)).
Proof.
  intros Hr Hc s1 s2 s3. destruct (winv_reachable w0 s Hr) as (Hm & _ & _ & Hdata). rewrite Hc in Hdata.
  destruct Hdata as (_ & Hauth).
  split; [apply ws_click_disconnect; assumption|]. split; [apply ws_refresh|].
  split; [apply ws_check; reflexivity|].
  assert (Hw : wallet s1 = wallet s).
  { unfold s1, commit_listeners. destruct (_ && _); reflexivity. }
  assert (Hi : isConnected s1 = false).
  { unfold s1, commit_listeners. destruct (_ && _); reflexivity. }
  split; [exact Hi|]. unfold s3, s2, reload. rewrite Hw. unfold checkConnection, eth_accounts. cbn.
  rewrite Hauth. cbn. split; reflexivity.
Qed.

(** Without [ethereum.removeListener] the cleanup removes nothing:
    the listeners registered while connected stay on the shared
    [window.ethereum] object after [disconnect], and selecting another
    account in the wallet sets [address] on a disconnected page. *)
Theorem stale_listener_sets_address :
  exists s, wreachable true false (mkWallet true 1 SEPOLIA) s /\ isConnected s = false /\ address s = Some 2.
Proof.
  set (s0 := mount true false (fresh (mkWallet true 1 SEPOLIA))).
  set (s1 := checkConnection true false s0).
  set (s2 := commit_listeners true false (disconnect s1)).
  set (s3 := commit_listeners true false (emit_accountsChanged [2] (set_wallet (mkWallet true 2 SEPOLIA) s2))).
  exists s3. split; [|split; reflexivity].
  apply wr_step with s2; [apply wr_step with s1; [apply wr_step with s0; [constructor|]|]|].
  - apply ws_check. reflexivity.
  - apply ws_click_disconnect; reflexivity.
  - apply ws_wallet_select. reflexivity.
Qed.

(** A page mounted on a wallet that authorizes the site with account 1 on
    Sepolia, once [checkConnection] answered. *)
Definition connected_example : WalletState :=
  checkConnection true true (mount true true (fresh (mkWallet true 1 SEPOLIA))).

Lemma connected_example_reachable : wreachable true true (mkWallet true 1 SEPOLIA) connected_example.
Proof. apply wr_step with (mount true true (fresh (mkWallet true 1 SEPOLIA))); [constructor | apply ws_check; reflexivity]. Qed.

Lemma wallet_reachable_inv_witness :
  wreachable true true (mkWallet true 1 SEPOLIA) connected_example /\ winv connected_example.
Proof. split; [exact connected_example_reachable | apply (wallet_reachable_inv (mkWallet true 1 SEPOLIA)), connected_example_reachable]. Defined.

Lemma account_switch_keeps_signer_witness :
  isConnected connected_example = true /\
  signer (commit_listeners true true (emit_accountsChanged [2] (set_wallet (mkWallet true 2 SEPOLIA) connected_example)))
  = Some 1 /\
  address (commit_listeners true true (emit_accountsChanged [2] (set_wallet (mkWallet true 2 SEPOLIA) connected_example)))
  = Some 2.
Proof.
  destruct (account_switch_keeps_signer (mkWallet true 1 SEPOLIA) connected_example 2 connected_example_reachable
              eq_refl) as (_ & _ & Ha & Hs).
  split; [reflexivity|]. split; [exact Hs | exact Ha].
Defined.

Lemma disconnect_not_persistent_witness :
  isConnected (checkConnection true true (reload true true (commit_listeners true true (disconnect connected_example))))
  = true.
Proof.
  destruct (disconnect_not_persistent (mkWallet true 1 SEPOLIA) connected_example connected_example_reachable eq_refl)
    as (_ & _ & _ & _ & H & _).
  exact H.
Defined.
End WalletProvider.
