(* ===== verification/VerifyFlow.v ===== *)
(** * VerifyFlow: verification QR codes, from the dashboard to the verify page

    - [src/app/dashboard/page.tsx], lines 23-64: [loadIdentityData] reads
      the signer's identity and prints two QR codes, an identity one and
      an age one, with [generateQrCode] ([src/lib/qr-generator.ts], lines
      4-25: [JSON.stringify] of the payload, drawn by the [qrcode]
      library).
    - [src/components/verification-qr-scanner.tsx], lines 207-346: the
      upload path of the scanner on the verify page.  [scanQrCodeFromFile]
      reads the image, draws it at its own size and asks [jsQR] (with
      inversion), then at widths 800 and 1000; [handleFileUpload]'s timer
      callback checks that the text is JSON with [proofId], [address] and
      [type] before it calls [onScan].
    - [src/app/verify/page.tsx], lines 23-155: [handleQrCodeScanned]
      parses the text again and calls [verifyIdentityProof]; the page
      shows the result with a line for identity and for age results.

    The browser, the canvas and [jsQR] are [Pipeline.Env]; a canvas
    dimension is [Localizer.scaled].  The [qrcode] library and [jsQR]
    between them carry a text from the dashboard to the scanner: the
    end-to-end theorem takes the scanner's result on the uploaded image as
    a hypothesis.  jsQR's text is a Stdlib [string], so its code units are
    below 256. *)

From Stdlib Require Import ZArith List Lia Bool.
From Stdlib Require String Ascii.
From S2P Require Import Prelude JsRuntime Json Localizer Pipeline ZkProof Contract ContractClient.
Import ListNotations String.StringSyntax.

Local Open Scope Z_scope.
Local Open Scope string_scope.

(** The string of code units below 256. *)
Definition of_units (l : list Z) : string := of_chars (map chr l).

(** ** [scanQrCodeFromFile] (lines 268-346) *)

Section Scanner.
Variable env : Env.

(** The widths of lines 305-308 and the heights the canvas takes. *)
Definition verification_sizes (w h : Z) : list (Z * Z) :=
  [(800, scaled 800 w h); (1000, scaled 1000 w h)].

(** The loop of lines 310-324, then the rejection of line 326; a zero
    dimension makes [getImageData] throw, and the [catch] of line 328
    rejects with that error. *)
Fixpoint try_resized (img : Image) (szs : list (Z * Z)) : Outcome string :=
  match szs with
  | [] => Rejected "No QR code found in the image"
  | (w, h) :: rest =>
      if (w =? 0) || (h =? 0) then Rejected (indexsize_message env)
      else match jsQR env (draw env img w h) w h attemptBoth with
           | Some d => Resolved d
           | None => try_resized img rest
           end
  end.

Definition scanQrCodeFromFile (has_ctx : bool) (file : File) : Outcome string :=
  match read env file with
  | None => Rejected "Failed to read the file"
  | Some url =>
      match load env url with
      | None => Rejected "Failed to load the image"
      | Some img =>
          if negb has_ctx then Rejected "Canvas context not available" else
          let w := img_width img in
          let h := img_height img in
          if (w =? 0) || (h =? 0) then Rejected (indexsize_message env)
          else match jsQR env (draw env img w h) w h attemptBoth with
               | Some d => Resolved d
               | None => try_resized img (verification_sizes w h)
               end
      end
  end.
End Scanner.

(** ** The checks of the payload *)

(** [q.key] on a parsed value; [None] is the [TypeError] of [null]. *)
Definition prop (v : JValue) (key : string) : option (option JValue) := get v (units key).

(** [!q.proofId || !q.address || !q.type] (lines 178, 232; page line 47),
    left to right: [Some true] when the three are truthy. *)
Definition has_required_fields (v : JValue) : option bool :=
  match prop v "proofId" with
  | None => None
  | Some p =>
      if negb (truthy_opt p) then Some false else
      match prop v "address" with
      | None => None
      | Some a =>
          if negb (truthy_opt a) then Some false else
          match prop v "type" with
          | None => None
          | Some t => Some (truthy_opt t)
          end
      end
  end.

Definition INVALID_FORMAT : string := "Invalid QR code format. Please scan a valid verification QR code.".

(** The inner [try] of lines 226-237: any throw becomes [INVALID_FORMAT];
    [None] means the data goes to [onScan]. *)
Definition validate_scan (data : string) : option string :=
  match JSON_parse (units data) with
  | None => Some INVALID_FORMAT
  | Some v => match has_required_fields v with Some true => None | _ => Some INVALID_FORMAT end
  end.

(** What the timer callback of [handleFileUpload] (lines 218-257) leaves:
    the [error] it sets and the text it passes to [onScan]. *)
Record UploadResult := mkUploadResult { up_error : option string; up_onScan : option string }.

Definition upload_callback (r : Outcome string) : UploadResult :=
  match r with
  | Rejected m =>
      mkUploadResult (Some (if String.eqb m "" then "Failed to scan QR code. Please try again with a clearer image." else m)) None
  | Resolved d =>
      if String.eqb d "" then mkUploadResult (Some "No QR code found in the image") None
      else match validate_scan d with
           | None => mkUploadResult None (Some d)
           | Some msg => mkUploadResult (Some msg) None
           end
  end.

(** ** The verify page (lines 23-86) *)

Module Verify.

Record VerifyPage := mkVerifyPage {
  v_isProcessing : bool;
  verificationResult : option Verification;
  toasts : list string
}.

(** The result of a thrown error (lines 78-82). *)
Definition failed_result (m : string) : Verification := mkVerification false (JString (units "unknown")) (units m).

Section Page.
Context {S : Type} `{IdentityVerifierAPI S}.
Variable eth : Ethers.
(** The engine's message for a property read on [null]. *)
Variable null_read_message : string.

(** What the [try] of [handleQrCodeScanned(data)] (lines 34-83) ends
    with: the result of [verifyIdentityProof] ([inl]), or the message of
    the error it throws ([inr]). *)
Definition verify_outcome (s : S) (data : string) : Verification + string :=
  match JSON_parse (units data) with
  | None => inr "Invalid QR code format. Please scan a valid identity verification QR code."
  | Some q =>
      match has_required_fields q with
      | None => inr null_read_message
      | Some false => inr "Invalid QR code data. Missing required verification information."
      | Some true =>
          let field k := match prop q k with Some (Some x) => x | _ => JNull end in
          match verifyIdentityProof eth s (field "proofId") (field "address") (field "type") with
          | Resolved r => inl r
          | Rejected m => inr m
          end
      end
  end.

Definition handleQrCodeScanned (s : S) (signer : option Z) (data : string) (p : VerifyPage) : VerifyPage :=
  match signer with
  | None => mkVerifyPage (v_isProcessing p) (verificationResult p) (toasts p ++ ["Wallet Not Connected"])
  | Some _ =>
      match verify_outcome s data with
      | inl r => mkVerifyPage false (Some r)
                   (toasts p ++ [if verified r then "Verification Successful" else "Verification Failed"])
      | inr m => mkVerifyPage false (Some (failed_result m)) (toasts p ++ ["Error Verifying Proof"])
      end
  end.
End Page.

(** The lines the page shows for a result (lines 110-140). *)
Definition render_result (r : Verification) : list (list Z) :=
  [units (if verified r then "Verification Successful" else "Verification Failed"); message r] ++
  (if verified r && strict_eq_string (vtype r) (units "identity")
   then [units "The identity has been verified without revealing any personal information."] else []) ++
  (if verified r && strict_eq_string (vtype r) (units "age")
   then [units "The person is verified to be over 18 years old without revealing their actual age."] else []).
End Verify.
Import Verify.

(** ** The dashboard (lines 23-64) *)

(** The payload of lines 39-49: [address] is the context's, [null] when
    there is none. *)
Definition qr_payload (kind : string) (proofId : list Z) (address : option (list Z)) : JValue :=
  JObject [(units "type", JString (units kind)); (units "proofId", JString proofId);
           (units "address", match address with Some a => JString a | None => JNull end)].

(** [generateQrCode(data)]: the text the QR code holds. *)
Definition generateQrCode (data : JValue) : list Z := JSON_stringify data.

Record Dashboard := mkDashboard {
  d_isLoading : bool;
  d_identityData : option UserIdentity;
  d_identityQr : option (list Z);
  d_ageQr : option (list Z)
}.

Section Dashboard.
Context {S : Type} `{IdentityVerifierAPI S}.
Variable eth : Ethers.

(** [loadIdentityData] for the context's [signer] (its address) and
    [address] (as the page's string). *)
Definition loadIdentityData (s : S) (signer : option Z) (address : option (list Z)) (d : Dashboard) : Dashboard :=
  match signer with
  | None => d
  | Some sg =>
      match getUserIdentity_client eth s sg with
      | Rejected _ => mkDashboard false (d_identityData d) (d_identityQr d) (d_ageQr d)
      | Resolved None => mkDashboard false None (d_identityQr d) (d_ageQr d)
      | Resolved (Some id) =>
          mkDashboard false (Some id)
            (Some (generateQrCode (qr_payload "identity" (u_proofId id) address)))
            (Some (generateQrCode (qr_payload "age" (u_proofId id) address)))
      end
  end.
End Dashboard.

(** What the dashboard renders (lines 66-244): the wallet prompt, the
    spinner, the "No identity found" card, or the identity card with its
    liveness status (a [ShieldCheck] and "Liveness Verified" when
    [identityData.livenessVerified] is truthy), the two QR codes (a
    spinner while one is [null]) and the age note read off [isAdult]. *)
Inductive DashboardView :=
| DNotConnected
| DLoading
| DNoIdentity
| DIdentity (status detail : string) (identityQr ageQr : option (list Z)) (age_note : string).

Definition dashboard_view (isConnected : bool) (d : Dashboard) : DashboardView :=
  if negb isConnected then DNotConnected
  else if d_isLoading d then DLoading
  else match d_identityData d with
       | None => DNoIdentity
       | Some id =>
           let lv := truthy (u_livenessVerified id) in
           DIdentity (if lv then "Liveness Verified" else "Basic Identity")
             (if lv then "Your identity has enhanced security with liveness verification"
              else "Your identity does not include liveness verification")
             (d_identityQr d) (d_ageQr d)
             (String.append "This QR code contains a zero-knowledge proof that you are "
               (String.append (if u_isAdult id then "over" else "under")
                  " 18 years old. It does not reveal your actual age or any other personal information."))
       end.

(** * Lemmas *)

(** The code units of a text jsQR can return. *)
Definition byte_unit (c : Z) : Prop := 0 <= c < 256.

Lemma units_of_units l : Forall byte_unit l -> units (of_units l) = l.
Proof.
  intros Hl. unfold units, of_units. rewrite chars_of_chars, map_map.
  induction Hl as [|c l Hc _ IH]; [reflexivity|]. simpl. rewrite code_chr by exact Hc. congruence.
Qed.

Lemma units_bytes s : Forall byte_unit (units s).
Proof. apply Forall_forall. intros c Hc. apply in_map_iff in Hc as (a & <- & _). apply code_range. Qed.

Lemma units_nonempty s : s <> String.EmptyString -> units s <> [].
Proof. destruct s; [congruence | discriminate]. Qed.

Lemma quote_unit_bytes c : byte_unit c -> Forall byte_unit (quote_unit c).
Proof.
  intros Hc. unfold quote_unit. destruct (escape_char c) as [e|] eqn:E.
  - unfold escape_char in E.
    repeat match type of E with context [if ?b then _ else _] => destruct b end;
      [injection E as <-; repeat constructor; unfold byte_unit; lia ..|discriminate].
  - destruct (_ || _); [|constructor; [exact Hc | constructor]].
    unfold unicode_escape, hex4. repeat constructor; unfold byte_unit; try lia; apply code_range.
Qed.

Lemma quote_units_bytes l : Forall byte_unit l -> Forall byte_unit (quote_units l).
Proof.
  induction 1 as [|c l Hc Hl IH]; [constructor|]. cbn [quote_units].
  assert (Hlead : is_lead c = false) by (unfold is_lead, byte_unit in *; apply andb_false_iff; left; apply Z.leb_gt; lia).
  destruct l as [|d r]; [now apply quote_unit_bytes|]. rewrite Hlead. cbn [andb].
  apply Forall_app; split; [now apply quote_unit_bytes | exact IH].
Qed.

Ltac bytes_auto :=
  repeat first [apply quote_units_bytes | apply units_bytes | apply code_range | assumption
               | apply Forall_cons | apply Forall_app; split | apply Forall_nil | unfold byte_unit; lia].

Lemma quote_bytes l : Forall byte_unit l -> Forall byte_unit (quote l).
Proof. intros Hl. unfold quote. bytes_auto. Qed.

Lemma forallb_unit_ok l : Forall byte_unit l -> forallb unit_ok l = true.
Proof.
  intros Hl. apply forallb_forall. intros c Hc. eapply Forall_forall in Hl; [|exact Hc].
  unfold unit_ok, byte_unit in *. apply andb_true_iff. lia.
Qed.

Lemma qr_payload_bytes kind pid a :
  Forall byte_unit pid -> Forall byte_unit a -> Forall byte_unit (generateQrCode (qr_payload kind pid (Some a))).
Proof.
  intros Hp Ha. unfold generateQrCode, JSON_stringify, qr_payload. cbn [stringify map fst snd join_units].
  bytes_auto.
Qed.

Lemma qr_payload_wf kind pid a :
  Forall byte_unit pid -> Forall byte_unit a -> wf (qr_payload kind pid (Some a)) = true.
Proof.
  intros Hp Ha. cbn [qr_payload wf forallb fst snd].
  rewrite !units_ok, !forallb_unit_ok by assumption. reflexivity.
Qed.

(** The text of a payload read back by the scanner. *)
Lemma parse_qr_text kind pid a :
  Forall byte_unit pid -> Forall byte_unit a ->
  JSON_parse (units (of_units (generateQrCode (qr_payload kind pid (Some a))))) = Some (qr_payload kind pid (Some a)).
Proof.
  intros Hp Ha. rewrite units_of_units by (apply qr_payload_bytes; assumption).
  apply parse_stringify, qr_payload_wf; assumption.
Qed.

Lemma qr_payload_props kind pid a :
  prop (qr_payload kind pid (Some a)) "proofId" = Some (Some (JString pid)) /\
  prop (qr_payload kind pid (Some a)) "address" = Some (Some (JString a)) /\
  prop (qr_payload kind pid (Some a)) "type" = Some (Some (JString (units kind))).
Proof. repeat split. Qed.

Lemma qr_payload_fields kind pid a :
  pid <> [] -> a <> [] -> units kind <> [] -> has_required_fields (qr_payload kind pid (Some a)) = Some true.
Proof.
  intros Hp Ha Hk. unfold has_required_fields. destruct (qr_payload_props kind pid a) as (-> & -> & ->).
  destruct pid, a, (units kind); cbn; congruence.
Qed.

(** A payload the dashboard prints passes the scanner's checks. *)
Lemma upload_qr_text kind pid a :
  Forall byte_unit pid -> Forall byte_unit a -> pid <> [] -> a <> [] -> units kind <> [] ->
  let q := of_units (generateQrCode (qr_payload kind pid (Some a))) in
  upload_callback (Resolved q) = mkUploadResult None (Some q).
Proof.
  intros Hp Ha Hpn Han Hk q. unfold upload_callback.
  destruct (String.eqb_spec q "") as [Hq|_].
  - exfalso. apply (f_equal units) in Hq. subst q.
    rewrite units_of_units in Hq by (apply qr_payload_bytes; assumption).
    unfold generateQrCode, JSON_stringify in Hq. cbn in Hq. discriminate.
  - unfold validate_scan. subst q. rewrite parse_qr_text, qr_payload_fields by assumption. reflexivity.
Qed.

Section EndToEnd.
Context {S : Type} `{IdentityVerifierAPI S}.

(** The verify page reads the fields of a printed payload and passes them
    to [verifyIdentityProof]. *)
Lemma verify_outcome_qr eth nrm s kind pid a r :
  Forall byte_unit pid -> Forall byte_unit a -> pid <> [] -> a <> [] -> units kind <> [] ->
  verifyIdentityProof eth s (JString pid) (JString a) (JString (units kind)) = Resolved r ->
  verify_outcome eth nrm s (of_units (generateQrCode (qr_payload kind pid (Some a)))) = inl r.
Proof.
  intros Hp Ha Hpn Han Hk Hv. unfold verify_outcome.
  rewrite parse_qr_text, qr_payload_fields by assumption.
  destruct (qr_payload_props kind pid a) as (-> & -> & ->). rewrite Hv. reflexivity.
Qed.

(** After the proof is stored and mined, the dashboard prints the age
    payload of the proof's identifier. *)
Lemma dashboard_after_store eth from t s s' p tx a d :
  (forall str b, utf8_encode eth (JString str) = Some b -> utf8_decode eth b = str) ->
  ZkProof.proofId p <> String.EmptyString ->
  storeIdentityProof eth from t s p = Resolved tx ->
  (forall pid com adult data, tx = TxStoreProof pid com adult data -> api_store from t pid com adult data s = Some s') ->
  d_ageQr (loadIdentityData eth s' (Some from) (Some a) d) =
  Some (generateQrCode (qr_payload "age" (units (ZkProof.proofId p)) (Some a))).
Proof.
  intros Hrt Hne Hst Hmine. unfold loadIdentityData.
  rewrite (getUserIdentity_after_store_gen eth from t s s' p tx Hrt Hne Hst Hmine). reflexivity.
Qed.
End EndToEnd.

(** * Theorems *)

Section Theorems.
Context {S : Type} `{IdentityVerifierAPI S}.

(** C11: the whole path of an age check.  After [storeIdentityProof]
    resolves and its transaction is mined, the dashboard prints an age QR
    code; when the scanner reads its text from an uploaded image, the
    upload callback passes it to [onScan], and [handleQrCodeScanned]
    shows a successful verification whose message is the stored adult
    flag.  The page then also shows the line "verified to be over 18",
    whatever the flag: a minor's age QR code is displayed as an adult's. *)
Theorem age_qr_end_to_end eth nrm from t s s' p tx a d sg pg :
  (forall str b, utf8_encode eth (JString str) = Some b -> utf8_decode eth b = str) ->
  ZkProof.proofId p <> String.EmptyString ->
  storeIdentityProof eth from t s p = Resolved tx ->
  (forall pid com adult data, tx = TxStoreProof pid com adult data -> api_store from t pid com adult data s = Some s') ->
  to_address eth (JString a) = Some from -> a <> [] -> Forall byte_unit a ->
  exists q,
    d_ageQr (loadIdentityData eth s' (Some from) (Some a) d) = Some q /\
    upload_callback (Resolved (of_units q)) = mkUploadResult None (Some (of_units q)) /\
    handleQrCodeScanned eth nrm s' (Some sg) (of_units q) pg =
      mkVerifyPage false
        (Some (mkVerification true (JString (units "age"))
                 (age_message (pub_isAdult p) (JBool (pub_livenessVerified p)))))
        (toasts pg ++ ["Verification Successful"]) /\
    In (units "The person is verified to be over 18 years old without revealing their actual age.")
       (render_result (mkVerification true (JString (units "age"))
                         (age_message (pub_isAdult p) (JBool (pub_livenessVerified p))))).
Proof.
  intros Hrt Hne Hst Hmine Hadr Han Ha.
  eexists. split; [exact (dashboard_after_store eth from t s s' p tx a d Hrt Hne Hst Hmine)|].
  pose proof (units_bytes (ZkProof.proofId p)) as Hp. pose proof (units_nonempty _ Hne) as Hpn.
  split; [apply upload_qr_text; auto; discriminate|].
  split; [|unfold render_result; rewrite !in_app_iff; right; right; vm_compute; left; reflexivity].
  unfold handleQrCodeScanned.
  rewrite (verify_outcome_qr eth nrm s' "age" _ a _ Hp Ha Hpn Han ltac:(discriminate)
             (verifyIdentityProof_after_store_gen eth from t s s' p tx _ _ Hrt Hst Hmine Hadr)).
  reflexivity.
Qed.
End Theorems.

(** ** Witnesses: the proof of [ContractClient] stored by the account
    whose address text is "0x1" *)

(** ethers on ASCII text, with the sum of the code units as address. *)
Definition eth_page : Ethers :=
  mkEthers (utf8_encode eth_ascii) (utf8_decode eth_ascii) (keccak eth_ascii)
    (fun v => match v with JString s => Some (fold_right Z.add 0 s) | _ => None end).

Definition address_page : list Z := units "0x1".

Definition state_page : IdentityVerifier :=
  match api_store 217 5 (units "proof_1_2") (units "1234") false (JSON_stringify (proof_data proof_example))
          initial_state with
  | Some s => s
  | None => initial_state
  end.

Lemma mined_page pid com adult data :
  tx_example = TxStoreProof pid com adult data -> api_store 217 5 pid com adult data initial_state = Some state_page.
Proof. intros E. injection E as <- <- <- <-. reflexivity. Qed.

Lemma age_qr_end_to_end_witness :
  storeIdentityProof eth_page 217 5 initial_state proof_example = Resolved tx_example /\
  exists q,
    d_ageQr (loadIdentityData eth_page state_page (Some 217) (Some address_page) (mkDashboard true None None None)) = Some q /\
    upload_callback (Resolved (of_units q)) = mkUploadResult None (Some (of_units q)) /\
    handleQrCodeScanned eth_page "" state_page (Some 217) (of_units q) (mkVerifyPage true None []) =
      mkVerifyPage false (Some (mkVerification true (JString (units "age")) (age_message false (JBool true))))
        ["Verification Successful"] /\
    In (units "The person is verified to be over 18 years old without revealing their actual age.")
       (render_result (mkVerification true (JString (units "age")) (age_message false (JBool true)))).
Proof.
  assert (Hst : storeIdentityProof eth_page 217 5 initial_state proof_example = Resolved tx_example) by reflexivity.
  split; [exact Hst|].
  exact (age_qr_end_to_end eth_page "" 217 5 initial_state state_page proof_example tx_example address_page
           (mkDashboard true None None None) 217 (mkVerifyPage true None []) eth_ascii_roundtrip
           ltac:(discriminate) Hst mined_page eq_refl ltac:(discriminate) (units_bytes "0x1")).
Defined.
