(* ===== verification/VerifyScanner.v ===== *)
(** * VerifyScanner: the scanner component of the verify page

    [src/components/verification-qr-scanner.tsx], lines 17-457: an
    "Upload" tab (the default) that reads an image file, and a "Camera"
    tab meant to poll the camera feed with [jsQR].

    The React runtime is explicit, as in [QrScanner]:
    - [State] holds the [useState] cells ([isScanning], [error],
      [activeTab], [cameraActive]), the refs ([canvasRef], [streamRef],
      [animationFrameRef]), the [isProcessing] prop, whether the component
      is mounted, the dependencies the camera effect last ran with
      ([deps]), and the world: the media streams whose tracks run
      ([live]), fresh identifiers ([next_id]), the pending continuations
      ([tasks]) and the calls of [onScan] with their text ([scans]).
    - [videoRef.current] is the [<video>] of the last render: the camera
      tab's content exists only on the camera tab, and the element only
      when [cameraActive] (lines 403-410).  Setting state on an unmounted
      component does nothing.
    - A closure of a render sees that render's [cameraActive] ([snap]).
    - [step] is one event: a user action on a rendered control, a new
      [isProcessing], the browser settling a pending operation (the
      operation's result is the event's parameter), or the unmount.  After
      a handler the component re-renders and the camera effect (lines
      49-56, no cleanup) runs when [activeTab], [isProcessing] or
      [cameraActive] changed ([commit]).
    - The upload's timer runs [scanQrCodeFromFile] of [VerifyFlow] on the
      chosen file and leaves what [upload_callback] says. *)

From Stdlib Require Import ZArith List Lia Bool Arith.
From Stdlib Require String.
From S2P Require Import Prelude JsRuntime Json Pipeline VerifyFlow.
Import ListNotations String.StringSyntax.
Local Open Scope string_scope.

Module VScanner.

Inductive Tab := upload | camera.

Definition tab_eqb (a b : Tab) : bool :=
  match a, b with upload, upload | camera, camera => true | _, _ => false end.

(** A pending continuation of the code. *)
Inductive Task :=
| GumPending (snap : bool)              (* await getUserMedia in startCamera *)
| MetaPending (snap : bool)             (* video.onloadedmetadata *)
| PlayPending (snap : bool)             (* video.play() *)
| Frame (id : nat) (snap : bool)        (* requestAnimationFrame(scanQrCodeFromCamera) *)
| Restart (snap : bool)                 (* setTimeout(..., 2000) of line 191 *)
| UploadTimer (f : File).               (* setTimeout(async ..., 100) of line 218 *)

Definition task_eq_dec (a b : Task) : {a = b} + {a <> b}.
Proof.
  decide equality; try (apply Bool.bool_dec || apply Nat.eq_dec).
  destruct f, f0. decide equality; apply String.string_dec.
Defined.

Inductive Source := FromUpload | FromCamera.

Record State := mkState {
  mounted : bool;
  isProcessing : bool;
  isScanning : bool;
  error : option string;
  activeTab : Tab;
  cameraActive : bool;
  deps : Tab * bool * bool;
  canvasRef : bool;
  streamRef : option nat;
  animationFrameRef : option nat;
  live : list nat;
  next_id : nat;
  tasks : list Task;
  scans : list (Source * string)
}.

(** ** Updates of single cells *)

Definition set_hooks (isScanning' : bool) (error' : option string) (activeTab' : Tab) (cameraActive' : bool)
    (s : State) : State :=
  if mounted s then
    mkState (mounted s) (isProcessing s) isScanning' error' activeTab' cameraActive' (deps s) (canvasRef s)
      (streamRef s) (animationFrameRef s) (live s) (next_id s) (tasks s) (scans s)
  else s.

Definition setIsScanning (b : bool) (s : State) : State := set_hooks b (error s) (activeTab s) (cameraActive s) s.
Definition setError (e : option string) (s : State) : State := set_hooks (isScanning s) e (activeTab s) (cameraActive s) s.
Definition setActiveTab (t : Tab) (s : State) : State := set_hooks (isScanning s) (error s) t (cameraActive s) s.
Definition setCameraActive (b : bool) (s : State) : State := set_hooks (isScanning s) (error s) (activeTab s) b s.

Definition set_refs (canvasRef' : bool) (streamRef' animationFrameRef' : option nat) (s : State) : State :=
  mkState (mounted s) (isProcessing s) (isScanning s) (error s) (activeTab s) (cameraActive s) (deps s)
    canvasRef' streamRef' animationFrameRef' (live s) (next_id s) (tasks s) (scans s).

Definition set_world (live' : list nat) (next_id' : nat) (tasks' : list Task) (scans' : list (Source * string))
    (s : State) : State :=
  mkState (mounted s) (isProcessing s) (isScanning s) (error s) (activeTab s) (cameraActive s) (deps s)
    (canvasRef s) (streamRef s) (animationFrameRef s) live' next_id' tasks' scans'.

Definition set_effect (mounted' isProcessing' : bool) (deps' : Tab * bool * bool) (s : State) : State :=
  mkState mounted' isProcessing' (isScanning s) (error s) (activeTab s) (cameraActive s) deps' (canvasRef s)
    (streamRef s) (animationFrameRef s) (live s) (next_id s) (tasks s) (scans s).

Fixpoint remove_first (t : Task) (l : list Task) : list Task :=
  match l with
  | [] => []
  | x :: r => if task_eq_dec t x then r else x :: remove_first t r
  end.

Definition is_frame (id : nat) (t : Task) : bool :=
  match t with Frame i _ => Nat.eqb i id | _ => false end.

Definition add_task (t : Task) (s : State) : State := set_world (live s) (next_id s) (tasks s ++ [t]) (scans s) s.
Definition drop_task (t : Task) (s : State) : State := set_world (live s) (next_id s) (remove_first t (tasks s)) (scans s) s.
Definition on_scan (src : Source) (d : string) (s : State) : State :=
  set_world (live s) (next_id s) (tasks s) (scans s ++ [(src, d)]) s.

(** The [<video>] element is rendered (lines 403-410). *)
Definition video_mounted (s : State) : bool := mounted s && tab_eqb (activeTab s) camera && cameraActive s.

Definition deps_eqb (a b : Tab * bool * bool) : bool :=
  match a, b with
  | (t, p, c), (t', p', c') => tab_eqb t t' && Bool.eqb p p' && Bool.eqb c c'
  end.

Section Component.
(** [typeof window !== "undefined"] (line 31), [navigator.mediaDevices.getUserMedia]
    (line 62), the browser of [scanQrCodeFromFile] and its canvas context. *)
Variable has_window has_mediaDevices : bool.
Variable env : Env.
Variable has_ctx : bool.

(** [stopCamera] (lines 107-132): cancel the animation frame, stop the
    tracks of the stored stream, clear the video, [setCameraActive(false)]. *)
Definition cancel_frame (s : State) : State :=
  match animationFrameRef s with
  | Some id =>
      let s := set_world (live s) (next_id s) (filter (fun t => negb (is_frame id t)) (tasks s)) (scans s) s in
      set_refs (canvasRef s) (streamRef s) None s
  | None => s
  end.

Definition stop_tracks (s : State) : State :=
  match streamRef s with
  | Some x =>
      let s := set_world (remove Nat.eq_dec x (live s)) (next_id s) (tasks s) (scans s) s in
      set_refs (canvasRef s) None (animationFrameRef s) s
  | None => s
  end.

Definition stopCamera (s : State) : State := setCameraActive false (stop_tracks (cancel_frame s)).

(** [startCamera] (lines 58-105) up to its [await], as created in a render
    whose [cameraActive] is [snap]: without [getUserMedia] the [throw] of
    line 63 lands in the [catch] of lines 100-104. *)
Definition startCamera (snap : bool) (s : State) : State :=
  let s := setError None s in
  if has_mediaDevices then add_task (GumPending snap) (stopCamera s)
  else stopCamera (setError (Some "Camera access is not supported in your browser") s).

(** [getUserMedia] resolves (lines 79-99): the stream runs and is stored;
    the [loadedmetadata] handler is installed only if [<video>] exists. *)
Definition gum_resolve (snap : bool) (s : State) : State :=
  let s := drop_task (GumPending snap) s in
  let x := next_id s in
  let s := set_world (x :: live s) (S x) (tasks s) (scans s) s in
  let s := set_refs (canvasRef s) (Some x) (animationFrameRef s) s in
  if video_mounted s then add_task (MetaPending snap) s else s.

(** [getUserMedia] rejects: the [catch] of lines 100-104. *)
Definition gum_reject (snap : bool) (msg : string) (s : State) : State :=
  let s := drop_task (GumPending snap) s in
  stopCamera (setError (Some (if String.eqb msg "" then
    "Failed to access camera. Please check your camera permissions." else msg)) s).

(** [video.onloadedmetadata] (lines 83-98): [play()] if [<video>] exists. *)
Definition on_metadata (snap : bool) (s : State) : State :=
  let s := drop_task (MetaPending snap) s in
  if video_mounted s then add_task (PlayPending snap) s else s.

(** [requestAnimationFrame(scanQrCodeFromCamera)] (lines 145, 204). *)
Definition request_frame (snap : bool) (s : State) : State :=
  let id := next_id s in
  let s := set_world (live s) (S id) (tasks s ++ [Frame id snap]) (scans s) s in
  set_refs (canvasRef s) (streamRef s) (Some id) s.

(** [scanQrCodeFromCamera] (lines 134-205) of a render whose [cameraActive]
    is [snap]; [code] is what [jsQR] finds on the frame ([None] also when
    the video is not ready or [getImageData] throws: each requests the
    next frame).  A text that fails the checks of lines 174-183 stops the
    camera, sets the error and arms the restart of lines 189-195, and the
    scan still requests a frame: only [onScan] returns.  Every
    [startCamera] runs on the camera tab (the effect's and the button's
    condition), so the restart's [activeTab === "camera"] holds. *)
Definition scanQrCodeFromCamera (snap : bool) (code : option string) (s : State) : State :=
  if video_mounted s && canvasRef s && snap then
    match code with
    | None => request_frame snap s
    | Some d =>
        let s := stopCamera s in
        match validate_scan d with
        | None => on_scan FromCamera d s
        | Some m => request_frame snap (add_task (Restart snap) (setError (Some m) s))
        end
    end
  else s.

(** [play()] settles (lines 87-96). *)
Definition play_resolve (snap : bool) (code : option string) (s : State) : State :=
  let s := drop_task (PlayPending snap) s in
  scanQrCodeFromCamera snap code (setCameraActive true s).

Definition play_reject (snap : bool) (s : State) : State :=
  let s := drop_task (PlayPending snap) s in
  stopCamera (setError (Some "Failed to start camera feed. Please try again.") s).

Definition on_frame (id : nat) (snap : bool) (code : option string) (s : State) : State :=
  scanQrCodeFromCamera snap code (drop_task (Frame id snap) s).

Definition restart_fire (snap : bool) (s : State) : State :=
  startCamera snap (drop_task (Restart snap) s).

(** The camera effect (lines 49-56) after a render whose dependencies
    changed; its [setCameraActive(false)] re-renders, so the effect runs
    again.  Three runs reach the fixed point: a run that stops the camera
    leaves [cameraActive] false, where neither branch applies, and
    [startCamera] leaves it false. *)
Fixpoint commit_fuel (n : nat) (s : State) : State :=
  match n with
  | O => s
  | S n =>
      let key := (activeTab s, isProcessing s, cameraActive s) in
      if mounted s && negb (deps_eqb key (deps s)) then
        let s := set_effect (mounted s) (isProcessing s) key s in
        let tab := activeTab s in
        let s := if tab_eqb tab camera && negb (cameraActive s) && negb (isProcessing s)
                 then startCamera (cameraActive s) s
                 else if (negb (tab_eqb tab camera) || isProcessing s) && cameraActive s then stopCamera s
                 else s in
        commit_fuel n s
      else s
  end.

Definition commit (s : State) : State := commit_fuel 3 s.

(** [handleFileUpload] up to its timer (lines 207-218). *)
Definition handleFileUpload (file : option File) (s : State) : State :=
  match file with
  | None => s
  | Some f => add_task (UploadTimer f) (setIsScanning true (setError None s))
  end.

(** The timer fires: [scanQrCodeFromFile], its checks, [onScan] or the
    error, then the [finally] (lines 218-257). *)
Definition upload_done (f : File) (s : State) : State :=
  let s := drop_task (UploadTimer f) s in
  let u := upload_callback (scanQrCodeFromFile env has_ctx f) in
  let s := match up_onScan u with Some d => on_scan FromUpload d s | None => s end in
  let s := match up_error u with Some m => setError (Some m) s | None => s end in
  setIsScanning false s.

(** [handleTabChange] (lines 354-362) of the current render. *)
Definition handleTabChange (v : Tab) (s : State) : State :=
  let cA := cameraActive s in
  let s := setError None (setActiveTab v s) in
  if negb (tab_eqb v camera) && cA then stopCamera s else s.

Definition set_isProcessing (b : bool) (s : State) : State := set_effect (mounted s) b (deps s) s.

(** Unmount: the cleanups of the effects of lines 30-40 and 43-47. *)
Definition unmount (s : State) : State :=
  let s := stopCamera s in
  let s := set_refs false (streamRef s) (animationFrameRef s) s in
  let s := stopCamera s in
  set_effect false (isProcessing s) (deps s) s.

(** The first render and its effects: the canvas in a browser; the
    camera effect runs on the upload tab and does nothing. *)
Definition first_render (proc : bool) : State :=
  mkState true proc false None upload false (upload, proc, false) has_window None None [] 1 [] [].

Inductive step : State -> State -> Prop :=
| step_tab v s : mounted s = true -> step s (commit (handleTabChange v s))
| step_processing b s : mounted s = true -> step s (commit (set_isProcessing b s))
| step_start_button s :
    mounted s = true -> activeTab s = camera -> cameraActive s = false -> isProcessing s = false ->
    step s (commit (startCamera (cameraActive s) s))
| step_stop_button s :
    mounted s = true -> activeTab s = camera -> cameraActive s = true -> step s (commit (stopCamera s))
| step_gum_resolve snap s : In (GumPending snap) (tasks s) -> step s (commit (gum_resolve snap s))
| step_gum_reject snap msg s : In (GumPending snap) (tasks s) -> step s (commit (gum_reject snap msg s))
| step_metadata snap s : In (MetaPending snap) (tasks s) -> step s (commit (on_metadata snap s))
| step_play_resolve snap code s : In (PlayPending snap) (tasks s) -> step s (commit (play_resolve snap code s))
| step_play_reject snap s : In (PlayPending snap) (tasks s) -> step s (commit (play_reject snap s))
| step_frame id snap code s : In (Frame id snap) (tasks s) -> step s (commit (on_frame id snap code s))
| step_restart snap s : In (Restart snap) (tasks s) -> step s (commit (restart_fire snap s))
| step_upload f s :
    mounted s = true -> activeTab s = upload -> isScanning s = false -> isProcessing s = false ->
    step s (commit (handleFileUpload f s))
| step_upload_done f s : In (UploadTimer f) (tasks s) -> step s (commit (upload_done f s))
| step_unmount s : mounted s = true -> step s (unmount s).

Inductive reachable : State -> Prop :=
| reach_init proc : reachable (first_render proc)
| reach_step s s' : reachable s -> step s s' -> reachable s'.
End Component.

(** * Invariant *)

(** The work that can be pending while the camera is off: [getUserMedia]
    of a render without an active camera, and the upload timer. *)
Definition idle_task (t : Task) : bool :=
  match t with GumPending false | UploadTimer _ => true | _ => false end.

(** An [onScan] call of the upload path, with a text that passed the checks. *)
Definition scan_ok (sd : Source * string) : Prop := fst sd = FromUpload /\ validate_scan (snd sd) = None.

(** The camera never becomes active, no frame is requested, the only
    pending work is idle, and every [onScan] came from the upload with a
    checked text. *)
Record inv (s : State) : Prop := {
  inv_camera : cameraActive s = false;
  inv_frame : animationFrameRef s = None;
  inv_tasks : Forall (fun t => idle_task t = true) (tasks s);
  inv_scans : Forall scan_ok (scans s)
}.

Create HintDb vscanner.

Lemma inv_set_hooks a e t s : inv s -> inv (set_hooks a e t false s).
Proof. intros Hs. unfold set_hooks. destruct (mounted s); [|exact Hs]. destruct Hs; constructor; auto. Qed.

Lemma inv_set_refs c r f s : inv s -> f = None -> inv (set_refs c r f s).
Proof. intros [? ? ? ?] ->. constructor; auto. Qed.

Lemma inv_set_world l n t sc s :
  inv s -> Forall (fun t => idle_task t = true) t -> Forall scan_ok sc -> inv (set_world l n t sc s).
Proof. intros [? ? ? ?] ? ?. constructor; auto. Qed.

Lemma inv_set_effect m p d s : inv s -> inv (set_effect m p d s).
Proof. intros [? ? ? ?]. constructor; auto. Qed.

Lemma setters_inv b e t s :
  inv s -> inv (setIsScanning b s) /\ inv (setError e s) /\ inv (setActiveTab t s) /\ inv (setCameraActive false s).
Proof.
  intros Hs. unfold setIsScanning, setError, setActiveTab, setCameraActive.
  rewrite (inv_camera s Hs). repeat split; apply inv_set_hooks; exact Hs.
Qed.

Lemma setIsScanning_inv b s : inv s -> inv (setIsScanning b s).
Proof. intros Hs. apply (setters_inv b None upload s Hs). Qed.

Lemma vs_setError_inv e s : inv s -> inv (setError e s).
Proof. intros Hs. apply (setters_inv false e upload s Hs). Qed.

Lemma vs_setActiveTab_inv t s : inv s -> inv (setActiveTab t s).
Proof. intros Hs. apply (setters_inv false None t s Hs). Qed.

Lemma vs_stopCamera_inv s : inv s -> inv (stopCamera s).
Proof.
  intros Hs. unfold stopCamera, stop_tracks, cancel_frame. rewrite (inv_frame s Hs).
  apply (setters_inv false None upload). destruct (streamRef s); [|exact Hs].
  apply inv_set_refs; [apply inv_set_world; apply Hs | apply Hs].
Qed.

Lemma add_task_inv t s : inv s -> idle_task t = true -> inv (add_task t s).
Proof. intros Hs Ht. apply inv_set_world; [exact Hs | apply Forall_app; split; [apply Hs|auto] | apply Hs]. Qed.

Lemma vs_Forall_remove_first (P : Task -> Prop) t l : Forall P l -> Forall P (remove_first t l).
Proof. induction 1 as [|x l Hx Hl IH]; simpl; [constructor|]. destruct (task_eq_dec t x); auto. Qed.

Lemma drop_task_inv t s : inv s -> inv (drop_task t s).
Proof. intros Hs. apply inv_set_world; [exact Hs | apply vs_Forall_remove_first, Hs | apply Hs]. Qed.

Lemma video_mounted_inv s : inv s -> video_mounted s = false.
Proof. intros Hs. unfold video_mounted. rewrite (inv_camera s Hs). apply andb_false_r. Qed.

Lemma task_in_idle s t : inv s -> In t (tasks s) -> idle_task t = true.
Proof. intros Hs Ht. exact (proj1 (Forall_forall _ _) (inv_tasks s Hs) t Ht). Qed.

#[export] Hint Resolve setIsScanning_inv vs_setError_inv vs_setActiveTab_inv vs_stopCamera_inv drop_task_inv
  inv_set_effect : vscanner.

(** The text [upload_callback] passes to [onScan] passed the checks. *)
Lemma upload_callback_checked r d : up_onScan (upload_callback r) = Some d -> validate_scan d = None.
Proof.
  destruct r as [d'|m]; simpl; [|discriminate].
  destruct (String.eqb d' ""); [discriminate|].
  destruct (validate_scan d') eqn:E; simpl; [discriminate|]. now intros [= <-].
Qed.

Section InvOps.
Variable has_window has_mediaDevices : bool.
Variable env : Env.
Variable has_ctx : bool.

Lemma vs_startCamera_inv s : inv s -> inv (startCamera has_mediaDevices false s).
Proof.
  intros Hs. unfold startCamera.
  destruct has_mediaDevices; [apply add_task_inv; auto with vscanner | auto with vscanner].
Qed.

Lemma vs_gum_resolve_inv s : inv s -> inv (gum_resolve false s).
Proof.
  intros Hs. unfold gum_resolve. cbv zeta.
  assert (H1 : inv (drop_task (GumPending false) s)) by auto with vscanner.
  match goal with |- context [video_mounted ?x] =>
    assert (Hx : inv x) by (apply inv_set_refs; [apply inv_set_world; apply H1 | apply H1]);
    rewrite (video_mounted_inv _ Hx); exact Hx
  end.
Qed.

Lemma gum_reject_inv msg s : inv s -> inv (gum_reject false msg s).
Proof. intros Hs. unfold gum_reject. auto with vscanner. Qed.

Lemma vs_handleFileUpload_inv f s : inv s -> inv (handleFileUpload f s).
Proof. intros Hs. destruct f; simpl; [apply add_task_inv|]; auto with vscanner. Qed.

Lemma on_scan_inv d s : inv s -> validate_scan d = None -> inv (on_scan FromUpload d s).
Proof.
  intros Hs Hd. apply inv_set_world; [exact Hs | apply Hs |].
  apply Forall_app; split; [apply Hs | repeat constructor; exact Hd].
Qed.

Lemma vs_upload_done_inv f s : inv s -> inv (upload_done env has_ctx f s).
Proof.
  intros Hs. unfold upload_done. cbv zeta.
  assert (H1 : inv (drop_task (UploadTimer f) s)) by auto with vscanner.
  apply setIsScanning_inv. destruct (up_error _); [apply vs_setError_inv|];
  (destruct (up_onScan _) eqn:E; [apply on_scan_inv; [exact H1 | exact (upload_callback_checked _ _ E)] | exact H1]).
Qed.

Lemma startCamera_snap_inv s : inv s -> inv (startCamera has_mediaDevices (cameraActive s) s).
Proof. intros Hs. rewrite (inv_camera s Hs). apply vs_startCamera_inv, Hs. Qed.

Lemma commit_fuel_inv n s : inv s -> inv (commit_fuel has_mediaDevices n s).
Proof.
  revert s; induction n as [|n IH]; intros s Hs; [exact Hs|]. cbn [commit_fuel]. cbv zeta.
  destruct (_ && _); [|exact Hs]. apply IH.
  match goal with |- inv (if _ then startCamera _ _ ?x else _) =>
    assert (Hx : inv x) by (apply inv_set_effect, Hs) end.
  destruct (_ && _); [apply startCamera_snap_inv, Hx|]. destruct (_ && _); auto with vscanner.
Qed.

Lemma vs_commit_inv s : inv s -> inv (commit has_mediaDevices s).
Proof. apply commit_fuel_inv. Qed.

Lemma vs_handleTabChange_inv v s : inv s -> inv (handleTabChange v s).
Proof. intros Hs. unfold handleTabChange. rewrite (inv_camera s Hs), andb_false_r. auto with vscanner. Qed.

Lemma vs_unmount_inv s : inv s -> inv (unmount s).
Proof.
  intros Hs. unfold unmount. cbv zeta. apply inv_set_effect, vs_stopCamera_inv.
  pose proof (vs_stopCamera_inv s Hs) as H1. apply inv_set_refs; [exact H1 | apply H1].
Qed.

Lemma first_render_inv proc : inv (first_render has_window proc).
Proof. repeat constructor. Qed.

Lemma vs_step_inv s s' : inv s -> step has_mediaDevices env has_ctx s s' -> inv s'.
Proof.
  intros Hs Hst. destruct Hst as [v s _|b s _|s _ _ _ _|s _ _ _|snap s Hin|snap msg s Hin|snap s Hin
    |snap code s Hin|snap s Hin|id snap code s Hin|snap s Hin|f s _ _ _ _|f s _|s _];
    try (apply task_in_idle in Hin; [|exact Hs]; destruct snap; discriminate Hin || clear Hin);
    apply vs_commit_inv || idtac.
  - apply vs_handleTabChange_inv, Hs.
  - apply inv_set_effect, Hs.
  - apply startCamera_snap_inv, Hs.
  - apply vs_stopCamera_inv, Hs.
  - apply vs_gum_resolve_inv, Hs.
  - apply gum_reject_inv, Hs.
  - apply vs_handleFileUpload_inv, Hs.
  - apply vs_upload_done_inv, Hs.
  - apply vs_unmount_inv, Hs.
Qed.

Lemma vs_reachable_inv s : reachable has_window has_mediaDevices env has_ctx s -> inv s.
Proof. induction 1; [apply first_render_inv | eapply vs_step_inv; eassumption]. Qed.
End InvOps.

(** The checks of [validate_scan], read back. *)
Lemma validate_scan_none d :
  validate_scan d = None -> exists v, JSON_parse (units d) = Some v /\ has_required_fields v = Some true.
Proof.
  unfold validate_scan. destruct (JSON_parse (units d)) as [v|]; [|discriminate].
  destruct (has_required_fields v) as [[]|] eqn:E; try discriminate. eauto.
Qed.

(** The camera tab opened, [getUserMedia] granted, then the upload tab. *)
Definition stream_trace (has_window : bool) : State :=
  let s := commit true (handleTabChange camera (first_render has_window false)) in
  let s := commit true (gum_resolve false s) in
  commit true (handleTabChange upload s).

Lemma stream_trace_reachable hw env ctx : reachable hw true env ctx (stream_trace hw).
Proof.
  unfold stream_trace.
  eapply reach_step; [|apply step_tab; reflexivity].
  eapply reach_step; [|apply step_gum_resolve; simpl; auto].
  eapply reach_step; [apply reach_init|apply step_tab; reflexivity].
Qed.

(** A browser where every file reads as a 1x1 image holding the age
    payload of the dashboard. *)
Definition age_text : string := of_units (generateQrCode (qr_payload "age" (units "p") (Some (units "0x1")))).

Definition upload_env : Env :=
  mkEnv (fun _ => Some "data:") (fun _ => Some (mkImage 1 1)) (fun _ _ _ => []) (fun _ _ _ _ => Some age_text)
    (fun _ => None) (fun _ => None) 0 (fun _ => "") "" "".

Definition upload_file : File := mkFile "qr.png" "image/png".

(** A file chosen on the upload tab, then its timer. *)
Definition upload_trace : State :=
  let s := commit true (handleFileUpload (Some upload_file) (first_render true false)) in
  commit true (upload_done upload_env true upload_file s).

Lemma upload_trace_reachable : reachable true true upload_env true upload_trace.
Proof.
  unfold upload_trace.
  eapply reach_step; [|apply step_upload_done; simpl; auto].
  eapply reach_step; [apply reach_init|apply step_upload; reflexivity].
Qed.

(** * Theorems *)

(** C22: in every reachable state of the verify page's scanner the camera
    is inactive and no [onScan] call comes from the camera: the
    [<video>] element is rendered only when [cameraActive] is true, so
    [startCamera] never installs its [loadedmetadata] handler and
    [setCameraActive(true)] never runs. *)
Theorem verify_camera_never_activates hw hm env ctx s :
  reachable hw hm env ctx s -> cameraActive s = false /\ ~ In FromCamera (map fst (scans s)).
Proof.
  intros Hr. destruct (vs_reachable_inv hw hm env ctx s Hr) as [Hc _ _ Hsc]. split; [exact Hc|].
  rewrite in_map_iff. intros ((src & d) & Hsrc & Hin). simpl in Hsrc; subst src.
  destruct (proj1 (Forall_forall _ _) Hsc _ Hin) as [Hf _]. discriminate.
Qed.

(** Every text the scanner passes to [onScan] is JSON whose
    [proofId], [address] and [type] are truthy. *)
Theorem verify_scanner_onScan_checked hw hm env ctx s :
  reachable hw hm env ctx s ->
  Forall (fun sd => exists v, JSON_parse (units (snd sd)) = Some v /\ has_required_fields v = Some true) (scans s).
Proof.
  intros Hr. eapply Forall_impl; [|exact (inv_scans s (vs_reachable_inv hw hm env ctx s Hr))].
  intros sd [_ H]. exact (validate_scan_none _ H).
Qed.

(** C29: a camera stream keeps running on the upload tab: after the camera
    tab is opened and [getUserMedia] grants a stream, switching back to
    the upload tab stops nothing ([cameraActive] is still false, so
    neither [handleTabChange] nor the effect calls [stopCamera]) and no
    work is pending. *)
Theorem verify_stream_runs_on_upload_tab hw env ctx :
  exists s, reachable hw true env ctx s /\ mounted s = true /\ activeTab s = upload /\
            cameraActive s = false /\ tasks s = [] /\ exists x, streamRef s = Some x /\ In x (live s).
Proof.
  exists (stream_trace hw). split; [apply stream_trace_reachable|].
  vm_compute. repeat split. eauto.
Qed.

(** ** Witnesses *)

Lemma verify_camera_never_activates_witness :
  reachable true true (mkEnv (fun _ => None) (fun _ => None) (fun _ _ _ => []) (fun _ _ _ _ => None)
                         (fun _ => None) (fun _ => None) 0 (fun _ => "") "" "") false (stream_trace true) /\
  cameraActive (stream_trace true) = false /\ ~ In FromCamera (map fst (scans (stream_trace true))).
Proof.
  pose proof (stream_trace_reachable true (mkEnv (fun _ => None) (fun _ => None) (fun _ _ _ => [])
    (fun _ _ _ _ => None) (fun _ => None) (fun _ => None) 0 (fun _ => "") "" "") false) as Hr.
  split; [exact Hr|]. exact (verify_camera_never_activates _ _ _ _ _ Hr).
Defined.

Lemma verify_scanner_onScan_checked_witness :
  reachable true true upload_env true upload_trace /\ scans upload_trace = [(FromUpload, age_text)] /\
  Forall (fun sd => exists v, JSON_parse (units (snd sd)) = Some v /\ has_required_fields v = Some true)
    (scans upload_trace).
Proof.
  split; [exact upload_trace_reachable|]. split; [vm_compute; reflexivity|].
  exact (verify_scanner_onScan_checked _ _ _ _ _ upload_trace_reachable).
Defined.
End VScanner.
