(* ===== verification/Site.v ===== *)
(** * Site: the root layout, the landing page, the navigation bar

    - [src/app/layout.tsx] ([RootLayout], lines 17-36): every route is
      rendered as the [Navbar] above the routed page, both inside the
      [WalletProvider] (modelled in [Wallet]), which passes its state
      down as the context value ([provider_value],
      [src/components/wallet-provider-simple.tsx], lines 7-25 and
      216-230).
    - [src/unnamed/part_000] ([Home], the landing page at "/", lines
      5-72): three cards, each with a [Link] to one of the pages.
    - [src/unnamed/part_003], lines 51-89 ([Navbar]): the brand link, one
      [Link] per entry of [navItems], the one whose [path] is the current
      [pathname] drawn with "text-foreground", and the
      [ConnectWalletButton] ([src/components/connect-wallet-button.tsx],
      lines 14-48) with [size="sm"].
    - The pages navigate too: the create page's "Go to Dashboard" at step
      5 ([src/app/create/page.tsx], lines 341-345) and the dashboard's
      "Create Identity" when no identity is found
      ([src/app/dashboard/page.tsx], lines 123-125) assign
      [window.location.href].

    The routes are the page files of [src/app]: "/" for the landing page,
    "/create", "/dashboard" and "/verify"; any other path is the
    router's 404 page. *)

From Stdlib Require Import ZArith List Lia Bool.
From Stdlib Require String.
From S2P Require Import Prelude JsRuntime Json Wallet CreateFlow VerifyFlow.
Import ListNotations String.StringSyntax.
Local Open Scope string_scope.

Module Site.

(** ** Routes *)

Inductive AppPage := HomePage | CreatePage | DashboardPage | VerifyPage.

Definition route (p : AppPage) : String.string :=
  match p with
  | HomePage => "/"
  | CreatePage => "/create"
  | DashboardPage => "/dashboard"
  | VerifyPage => "/verify"
  end.

Definition app_pages : list AppPage := [HomePage; CreatePage; DashboardPage; VerifyPage].

(** The app router: the page whose route is the path, if any. *)
Definition resolve (pathname : String.string) : option AppPage :=
  find (fun p => String.eqb (route p) pathname) app_pages.

(** ** The wallet context (wallet-provider-simple.tsx, lines 7-25, 216-230) *)

(** [WalletContextType]: the provider's values, and whether [connect] and
    [disconnect] are the provider's handlers ([true]) or the no-ops of
    the default value ([false]). *)
Record WalletContextType := mkWalletContext {
  c_provider : bool;
  c_signer : option Z;
  c_address : option Z;
  c_chainId : option Z;
  c_isConnected : bool;
  c_handlers : bool
}.

(** [createContext]'s default (lines 17-25): what [useWallet] returns
    outside a [WalletProvider]. *)
Definition default_context : WalletContextType := mkWalletContext false None None None false false.

(** The [value] the provider passes down (lines 216-230). *)
Definition provider_value (w : WalletProvider.WalletState) : WalletContextType :=
  mkWalletContext (WalletProvider.provider w) (WalletProvider.signer w) (WalletProvider.address w)
    (WalletProvider.chainId w) (WalletProvider.isConnected w) true.

(** The context's [connect] and [disconnect] on the provider's state. *)
Definition ctx_connect (has_on has_remove : bool) (c : WalletContextType) (approve switch : bool)
    (w : WalletProvider.WalletState) : WalletProvider.WalletState :=
  if c_handlers c then WalletProvider.connect has_on has_remove approve switch w else w.

Definition ctx_disconnect (has_on has_remove : bool) (c : WalletContextType) (w : WalletProvider.WalletState)
    : WalletProvider.WalletState :=
  if c_handlers c then WalletProvider.commit_listeners has_on has_remove (WalletProvider.disconnect w) else w.

(** ** The connect button (connect-wallet-button.tsx, lines 29-48) *)

Inductive WalletButtonView :=
| DisconnectButton (label : list Z)
| ConnectButton (disabled : bool) (label : String.string).

(** [{address?.slice(0, 6)}...{address?.slice(-4)} ✕] (line 32): React
    renders [undefined] as nothing. *)
Definition address_label (address : option (list Z)) : list Z :=
  match address with
  | Some a => js_slice a 0 6 ++ units "..." ++ js_slice a (-4) (Z.of_nat (length a)) ++ [32; 10005]
  | None => units "..." ++ [32; 10005]
  end%Z.

Definition ConnectWalletButton (isConnected isConnecting : bool) (address : option (list Z)) : WalletButtonView :=
  if isConnected then DisconnectButton (address_label address)
  else ConnectButton isConnecting (if isConnecting then "Connecting..." else "Connect Wallet").

(** The button is on screen and not disabled. *)
Definition button_enabled (v : WalletButtonView) : bool :=
  match v with DisconnectButton _ => true | ConnectButton d _ => negb d end.

(** Its [onClick] on the provider's state: the context's [disconnect],
    after which the listener effect runs, or [handleConnect]. *)
Definition button_click (has_on has_remove : bool) (w : WalletProvider.WalletState) : WalletProvider.WalletState :=
  let c := provider_value w in
  if c_isConnected c then ctx_disconnect has_on has_remove c w else WalletProvider.button_handleConnect w.

(** ** The navigation bar (part_003, lines 51-89) *)

Record NavItem := mkNavItem { name : String.string; path : String.string }.

Definition navItems : list NavItem :=
  [mkNavItem "Home" "/"; mkNavItem "Create ID" "/create"; mkNavItem "Dashboard" "/dashboard";
   mkNavItem "Verify" "/verify"].

(** A rendered [Link]: its [href], its text, and whether its class is
    "text-foreground" (line 75). *)
Record NavLink := mkNavLink { href : String.string; text : String.string; current : bool }.

Record NavbarView := mkNavbarView {
  brand : NavLink;
  links : list NavLink;
  wallet_button : WalletButtonView
}.

Definition nav_link (pathname : String.string) (item : NavItem) : NavLink :=
  mkNavLink (path item) (name item) (String.eqb pathname (path item)).

Definition Navbar (pathname : String.string) (button : WalletButtonView) : NavbarView :=
  mkNavbarView (mkNavLink "/" "SecureID" false) (map (nav_link pathname) navItems) button.

(** ** The pages' own navigation *)

(** The landing page's three cards: title and link (part_000, lines
    14-68). *)
Definition Home : list (String.string * String.string) :=
  [("Create Identity", "/create"); ("User Dashboard", "/dashboard"); ("Verify Identity", "/verify")].

(** Where a page can send the browser, from the state it renders. *)
Definition page_targets (p : AppPage) (create : CreateFlow.Page) (dash : DashboardView) : list String.string :=
  match p with
  | HomePage => map snd Home
  | CreatePage => if step2 create =? 10 then ["/dashboard"] else []
  | DashboardPage => match dash with DNoIdentity => ["/create"] | _ => [] end
  | VerifyPage => []
  end%Z.

(** ** The root layout (layout.tsx, lines 17-36)

    Everything under [<WalletProvider>] reads [provider_value]; the
    button's [isConnecting] is its own state, kept in the provider's
    record. *)

Record LayoutView := mkLayoutView {
  navbar : NavbarView;
  main : option AppPage    (* [None]: the router's 404 page *)
}.

Definition RootLayout (pathname : String.string) (w : WalletProvider.WalletState) (addr_text : Z -> list Z)
    : LayoutView :=
  let ctx := provider_value w in
  mkLayoutView
    (Navbar pathname (ConnectWalletButton (c_isConnected ctx) (WalletProvider.isConnecting w)
                        (option_map addr_text (c_address ctx))))
    (resolve pathname).

(** Every target the layout at [pathname] offers: the navigation bar's
    links and those of the routed page. *)
Definition layout_targets (v : LayoutView) (create : CreateFlow.Page) (dash : DashboardView) : list String.string :=
  href (brand (navbar v)) :: map href (links (navbar v)) ++
  match main v with Some p => page_targets p create dash | None => [] end.

(** * Lemmas *)

Lemma resolve_route p : resolve (route p) = Some p.
Proof. destruct p; reflexivity. Qed.

(** Links on a list of items with distinct paths: at most one is current. *)
Lemma count_current pathname items :
  NoDup (map path items) ->
  length (filter current (map (nav_link pathname) items)) =
  if existsb (String.eqb pathname) (map path items) then 1%nat else 0%nat.
Proof.
  induction items as [|i items IH]; [reflexivity|]. cbn. intros Hnd. inversion Hnd as [|? ? Hni Hnd']; subst.
  destruct (String.eqb_spec pathname (path i)) as [->|_]; cbn; [|exact (IH Hnd')].
  rewrite IH by exact Hnd'. destruct (existsb _ _) eqn:E; [|reflexivity].
  exfalso. apply Hni. apply existsb_exists in E as (x & Hx & Hq). apply String.eqb_eq in Hq. congruence.
Qed.

Lemma navItems_paths : map path navItems = map route app_pages.
Proof. reflexivity. Qed.

Lemma app_routes_nodup : NoDup (map route app_pages).
Proof. cbn. repeat constructor; cbn; intuition discriminate. Qed.

Lemma in_app_routes h : In h (map route app_pages) -> resolve h <> None.
Proof. cbn. intros [<-|[<-|[<-|[<-|[]]]]]; discriminate. Qed.

Lemma find_existsb {A} (f : A -> bool) l : match find f l with Some _ => true | None => false end = existsb f l.
Proof. induction l as [|x l IH]; cbn; [reflexivity|]. destruct (f x); [reflexivity | exact IH]. Qed.

Lemma resolve_existsb pathname :
  match resolve pathname with Some _ => true | None => false end =
  existsb (String.eqb pathname) (map route app_pages).
Proof.
  unfold resolve. rewrite find_existsb. unfold app_pages. cbn [existsb map].
  rewrite !(String.eqb_sym _ pathname). reflexivity.
Qed.

Lemma navbar_hrefs pathname button : map href (links (Navbar pathname button)) = map route app_pages.
Proof. reflexivity. Qed.

(** The navigation bar's button offers the provider's user events: a
    click on it when enabled is a step of [WalletProvider.wstep]. *)
Lemma wallet_button_click_step has_on has_remove w addr_text :
  WalletProvider.mounted w = true ->
  button_enabled (ConnectWalletButton (WalletProvider.isConnected w) (WalletProvider.isConnecting w)
                    (option_map addr_text (WalletProvider.address w))) = true ->
  WalletProvider.wstep has_on has_remove w (button_click has_on has_remove w).
Proof.
  intros Hm. unfold ConnectWalletButton, button_click, ctx_disconnect. cbn [provider_value c_isConnected c_handlers].
  destruct (WalletProvider.isConnected w) eqn:Ec; intros He.
  - apply WalletProvider.ws_click_disconnect; assumption.
  - apply WalletProvider.ws_click_connect; [assumption | assumption | apply negb_true_iff, He].
Qed.

(** * Theorems *)

(** C30: on every path the navigation bar marks at most one link as the
    current page, exactly one on each route of the app, and a marked
    link is the link to the current path. *)
Theorem navbar_current_unique pathname button :
  length (filter current (links (Navbar pathname button))) = match resolve pathname with Some _ => 1%nat | None => 0%nat end /\
  (forall l, In l (links (Navbar pathname button)) -> current l = true -> href l = pathname).
Proof.
  split.
  - cbn [links Navbar]. rewrite count_current by exact app_routes_nodup.
    rewrite navItems_paths, <- resolve_existsb. destruct (resolve pathname); reflexivity.
  - cbn [links Navbar]. intros l Hl Hc. apply in_map_iff in Hl as (i & <- & _).
    apply String.eqb_eq in Hc. symmetry. exact Hc.
Qed.

(** C31: no dead link: on every path, whatever the wallet, the create
    page and the dashboard show, every target the layout offers (the
    brand, the navigation links and the routed page's links and
    redirects) is a route of the app. *)
Theorem site_links_resolve pathname w addr_text create dash h :
  In h (layout_targets (RootLayout pathname w addr_text) create dash) -> resolve h <> None.
Proof.
  unfold layout_targets. cbn [navbar RootLayout brand href main]. rewrite navbar_hrefs.
  intros [<-|Hin]; [discriminate|]. apply in_app_iff in Hin as [Hin|Hin]; [exact (in_app_routes h Hin)|].
  destruct (resolve pathname) as [[| | |]|]; cbn [page_targets] in Hin.
  - apply in_app_routes. cbn in Hin |- *. tauto.
  - destruct (step2 create =? 10)%Z; cbn in Hin; [destruct Hin as [<-|[]]; discriminate | contradiction].
  - destruct dash; cbn in Hin; try contradiction. destruct Hin as [<-|[]]; discriminate.
  - contradiction.
  - contradiction.
Qed.

(** ** Witnesses *)

Lemma site_links_resolve_witness :
  resolve "/dashboard" = Some DashboardPage /\
  resolve "/create" <> None.
Proof.
  split; [reflexivity|].
  apply (site_links_resolve "/dashboard" (WalletProvider.fresh (WalletProvider.mkWallet false 0 0))
           (fun _ => []) initial_page DNoIdentity "/create").
  vm_compute. auto 10.
Defined.
End Site.
