(* ===== verification/IdentityFlow.v ===== *)
(** * IdentityFlow: the create page with its liveness component and the ledger

    The create page ([CreateFlow]) shows [ClientOnlyLiveness], which
    renders [LivenessDetection] ([Liveness]) once mounted
    ([src/unnamed/part_003], lines 25-43), and passes its
    [handleLivenessComplete] as the [onComplete] prop
    ([src/app/create/page.tsx], line 248).  The composed system [cevent]
    is the page's event relation in which the liveness step ends with a
    value the component passed to [onComplete] in some reachable run of
    it; the proof the page then generates is stored by
    [storeIdentityProof] ([ContractClient]) and read back by
    [getUserIdentity].

    The theorem of this file chains [Liveness]'s invariant, the page's
    handlers and the client's round trip: no identity created through
    the page is ever reported as liveness-verified. *)

From Stdlib Require Import ZArith List Lia Bool.
From Stdlib Require String.
From S2P Require Import Prelude JsRuntime Json FieldParser ZkProof Contract ContractClient VerifyFlow CreateFlow Liveness.
Import ListNotations String.StringSyntax.
Local Open Scope Z_scope.
Local Open Scope string_scope.

(** What [ClientOnlyLiveness] (part_003, lines 26-43) renders: the
    "Initializing" placeholder until its mount effect sets [isMounted],
    then the [LivenessDetection] that [dynamic] imports with [ssr: false]
    (lines 8-19): its [loading] component ("Loading liveness
    detection...") until the module has loaded, then the component with
    the page's [onComplete] and the given [isProcessing]; the composition
    below is about the last. *)
Inductive ClientOnlyView := Initializing | LoadingModule | Detection (isProcessing : bool).

Definition ClientOnlyLiveness (isMounted moduleLoaded isProcessing : bool) : ClientOnlyView :=
  if negb isMounted then Initializing
  else if negb moduleLoaded then LoadingModule
  else Detection isProcessing.

Section Composed.
Variable poseidon : list Z -> Z.
Variable now : Z.
(** [navigator.mediaDevices.getUserMedia] exists in the browser. *)
Variable has_mediaDevices : bool.

(** A value [LivenessDetection] passed to [onComplete] in a reachable run. *)
Definition from_liveness (b : bool) : Prop :=
  exists l, Live.reachable has_mediaDevices l /\ In b (Live.completes l).

(** The page's events, the liveness step's outcome coming from the
    component. *)
Inductive cevent : Page -> Page -> Prop :=
| ce_page p p' : panel p <> LivenessPanel -> event poseidon now p p' -> cevent p p'
| ce_back p : panel p = LivenessPanel -> back_visible p = true -> isProcessing p = false -> cevent p (back p)
| ce_liveness b p : panel p = LivenessPanel -> from_liveness b -> cevent p (handleLivenessComplete b p).

Inductive creachable : Page -> Prop :=
| cr_init : creachable initial_page
| cr_event p p' : creachable p -> cevent p p' -> creachable p'.
End Composed.

(** The page's liveness flag and the public flag of its proof are off. *)
Definition flag_off (p : Page) : Prop :=
  livenessVerified p = false /\ forall z, zkProof p = Some z -> ZkProof.pub_livenessVerified z = false.

(** * Lemmas *)

Lemma from_liveness_false hm b : from_liveness hm b -> b = false.
Proof.
  intros (l & Hl & Hin). destruct b; [|reflexivity].
  exfalso. exact (Live.li_completes l (Live.lv_reachable hm l Hl) Hin).
Qed.

Lemma flag_off_set_error e p : flag_off p -> flag_off (set_error e p).
Proof. intros H. exact H. Qed.

Lemma flag_off_verify p : flag_off p -> flag_off (verifyLastFourDigits p).
Proof.
  intros H. unfold verifyLastFourDigits. cbv zeta.
  destruct (qrData _) as [d|]; [|apply flag_off_set_error, H].
  destruct (FieldParser.referenceId d) as [r|]; [|apply flag_off_set_error, H].
  destruct (String.eqb r _); [apply flag_off_set_error, H|].
  destruct (String.eqb _ _); [exact H | apply flag_off_set_error, H].
Qed.

Lemma flag_off_generate poseidon now ok p : flag_off p -> flag_off (generateProof poseidon now ok p).
Proof.
  intros [Hl Hz]. unfold generateProof. destruct (identityData p); [|split; assumption].
  destruct ok; [|split; assumption]. split; [exact Hl|]. intros z [= <-]. exact Hl.
Qed.

Lemma flag_off_same p p' :
  livenessVerified p' = livenessVerified p -> zkProof p' = zkProof p -> flag_off p -> flag_off p'.
Proof. intros Hl Hz [H1 H2]. split; [congruence | rewrite Hz; exact H2]. Qed.

Lemma flag_off_store ok msg p : flag_off p -> flag_off (storeProofOnChain ok msg p).
Proof.
  intros H. unfold storeProofOnChain. destruct (zkProof p) eqn:E; [|exact H].
  destruct (negb _); [exact H|]. destruct ok; [apply (flag_off_same p); simpl; auto | apply flag_off_set_error, H].
Qed.

Lemma flag_off_cevent poseidon now hm p p' : flag_off p -> cevent poseidon now hm p p' -> flag_off p'.
Proof.
  intros H Hev. destruct Hev as [p p' Hpan Hev|p _ _ _|b p _ Hb].
  - destruct Hev; try exact H.
    + apply flag_off_verify, H.
    + exfalso. apply Hpan. assumption.
    + apply flag_off_generate, H.
    + apply flag_off_store, H.
  - exact H.
  - rewrite (from_liveness_false hm b Hb). exact H.
Qed.

Lemma creachable_flag_off poseidon now hm p : creachable poseidon now hm p -> flag_off p.
Proof.
  induction 1 as [|p p' _ IH Hev]; [split; [reflexivity | discriminate]|].
  exact (flag_off_cevent poseidon now hm p p' IH Hev).
Qed.

(** A run of the liveness component in which the user clicks "Skip for
    Now" at once. *)
Definition skipped_run : Live.State := Live.cancelCheck (Live.first_render false).

Lemma skipped_run_reachable : Live.reachable true skipped_run.
Proof. eapply Live.reach_step; [apply Live.reach_init | apply Live.step_skip; reflexivity]. Qed.

(** The card of [CreateFlow]'s witnesses, scanned, checked, the liveness
    step skipped through the component, and the proof generated. *)
Definition card : FieldParser.IdentityRecord :=
  FieldParser.mkRecord 0 (Some "12345678") (Some "A") (Some "01/01/1990") (Some "F") None None None
    None None None None None None None None None None [] [] (Some 36) (Some true).

Definition created_page : Page :=
  generateProof (fun _ => 42) 0 true (handleLivenessComplete false
    (verifyLastFourDigits (setLastFourDigits "1234" (handleQrCodeScanned card (connect initial_page))))).

Definition created_proof : ZkProofResult :=
  match zkProof created_page with Some z => z | None => proof_example end.

Definition created_tx : Tx :=
  match storeIdentityProof eth_ascii 1 5 initial_state created_proof with Resolved tx => tx | Rejected _ => tx_example end.

Definition created_state : IdentityVerifier :=
  match created_tx with
  | TxStoreProof pid com adult data =>
      match api_store 1 5 pid com adult data initial_state with Some s => s | None => initial_state end
  | TxLogVerification _ _ => initial_state
  end.

Lemma cr_page poseidon now hm p p' :
  event poseidon now p p' -> creachable poseidon now hm p -> panel p <> LivenessPanel -> creachable poseidon now hm p'.
Proof. intros Hev Hr Hp. exact (cr_event _ _ _ p p' Hr (ce_page _ _ _ p p' Hp Hev)). Qed.

Ltac not_liveness_panel := let Hp := fresh in intro Hp; vm_compute in Hp; discriminate Hp.

Lemma created_page_reachable : creachable (fun _ => 42) 0 true created_page.
Proof.
  unfold created_page.
  eapply cr_page; [apply ev_generate; reflexivity | | not_liveness_panel].
  eapply cr_event; [|apply ce_liveness; [reflexivity | exists skipped_run; split; [exact skipped_run_reachable | left; reflexivity]]].
  eapply cr_page; [apply ev_verify; reflexivity | | not_liveness_panel].
  eapply cr_page; [apply ev_digits; [reflexivity | cbn; lia] | | not_liveness_panel].
  eapply cr_page; [apply ev_scan; reflexivity | | not_liveness_panel].
  eapply cr_page; [apply ev_connect; reflexivity | apply cr_init | not_liveness_panel].
Qed.

Lemma created_mined pid com adult data :
  created_tx = TxStoreProof pid com adult data -> api_store 1 5 pid com adult data initial_state = Some created_state.
Proof. intros E. vm_compute in E. injection E as <- <- <- <-. vm_compute. reflexivity. Qed.

(** * Theorems *)

Section Theorems.
Context {S : Type} `{IdentityVerifierAPI S}.

(** C13: no identity created through the create page is ever reported as
    liveness-verified.  When the liveness step ends with what
    [LivenessDetection] passes to [onComplete] in a reachable run, the
    page's flag stays false, the proof it generates carries
    [livenessVerified: false], and once that proof is stored and mined
    [getUserIdentity] reports [livenessVerified: false], the dashboard
    shows "Basic Identity", and an age check of it verifies without the
    "(Liveness Verified)" suffix. *)
Theorem created_identity_not_live poseidon now hm p z eth from t s s' tx address a d :
  creachable poseidon now hm p -> zkProof p = Some z ->
  (forall str b, utf8_encode eth (JString str) = Some b -> utf8_decode eth b = str) ->
  ZkProof.proofId z <> String.EmptyString ->
  storeIdentityProof eth from t s z = Resolved tx ->
  (forall pid com adult data, tx = TxStoreProof pid com adult data -> api_store from t pid com adult data s = Some s') ->
  to_address eth address = Some from ->
  livenessVerified p = false /\
  (exists u, getUserIdentity_client eth s' from = Resolved (Some u) /\ u_livenessVerified u = JBool false) /\
  (exists q1 q2 note, dashboard_view true (loadIdentityData eth s' (Some from) a d) =
     DIdentity "Basic Identity" "Your identity does not include liveness verification" q1 q2 note) /\
  verifyIdentityProof eth s' (JString (units (ZkProof.proofId z))) address (JString (units "age")) =
    Resolved (mkVerification true (JString (units "age")) (age_message (pub_isAdult z) (JBool false))).
Proof.
  intros Hr Hz Hrt Hne Hst Hmine Hadr. destruct (creachable_flag_off poseidon now hm p Hr) as [Hl Hf].
  pose proof (Hf z Hz) as Hzl. split; [exact Hl|]. split; [|split].
  - eexists. split; [exact (getUserIdentity_after_store_gen eth from t s s' z tx Hrt Hne Hst Hmine)|].
    cbn. rewrite Hzl. reflexivity.
  - unfold loadIdentityData. rewrite (getUserIdentity_after_store_gen eth from t s s' z tx Hrt Hne Hst Hmine).
    cbn. rewrite Hzl. do 3 eexists. reflexivity.
  - rewrite (verifyIdentityProof_after_store_gen eth from t s s' z tx address _ Hrt Hst Hmine Hadr), Hzl.
    reflexivity.
Qed.
End Theorems.

Lemma created_identity_not_live_witness :
  creachable (fun _ => 42) 0 true created_page /\ zkProof created_page = Some created_proof /\
  storeIdentityProof eth_ascii 1 5 initial_state created_proof = Resolved created_tx /\
  getUserIdentity_client eth_ascii created_state 1 <> Rejected "" /\
  livenessVerified created_page = false.
Proof.
  assert (Hst : storeIdentityProof eth_ascii 1 5 initial_state created_proof = Resolved created_tx)
    by (vm_compute; reflexivity).
  destruct (created_identity_not_live (fun _ => 42) 0 true created_page created_proof eth_ascii 1 5 initial_state
              created_state created_tx (JNumber 1 0) (Some [48; 120; 49]) (mkDashboard true None None None)
              created_page_reachable eq_refl eth_ascii_roundtrip
              ltac:(vm_compute; discriminate) Hst created_mined eq_refl) as (Hl & (u & Hu & _) & _).
  split; [exact created_page_reachable|]. split; [reflexivity|]. split; [exact Hst|].
  split; [rewrite Hu; discriminate | exact Hl].
Defined.
