(* ===== verification/Pages.v ===== *)
(** * Pages: the dashboard's effect and refresh, the verify page's view

    - [src/app/dashboard/page.tsx]: the effect of lines 23-27 runs
      [loadIdentityData] after a render whose [isConnected] or [signer]
      differs from the last run's (React's dependency list), the refresh
      button of line 141 runs it on demand, and the copy button of lines
      233-239 writes [address || ""] to the clipboard.  [DashPage] is the
      page's [Dashboard] cells ([VerifyFlow]) with the dependencies the
      effect last ran with.  The signer is compared by the account it
      signs for, where React compares the [JsonRpcSigner] objects with
      [Object.is]: the provider makes a new signer on a connection, when
      [isConnected] changes too, so the comparisons agree, except when
      [connect] and the mount's [checkConnection] both complete for the
      same account; the code then loads that account's identity once more
      and the model does not.
    - [loadIdentityData]'s two [generateQrCode] awaits (lines 39-49) are one
      step ([settle_qr]) and are taken to succeed: the [qrcode] library's
      rejection, which the [catch] of lines 54-60 turns into the
      "Error Loading Identity" toast, is not modelled.
    - [src/app/verify/page.tsx]: [resetVerification] (lines 88-90) and what
      the page renders (lines 92-155): the wallet prompt, the result with
      its lines ([Verify.render_result]), or the scanner; the footer's
      "Verify Another" shows whenever a result is set.

    Both pages read the wallet context ([Wallet]'s provider state): its
    [isConnected], [signer] (the account the signer signs for) and
    [address] (as the text [addr_text] of an account).  [DashMachine]
    is the dashboard with its pending [await]s ([DashTask]); [dstep] runs
    it beside the wallet provider, each provider step followed by the
    dashboard's effect.  The theorems compose the wallet's account
    switch, the dashboard, the client, the contract and the verify page,
    and exhibit the race of two loads. *)

From Stdlib Require Import ZArith List Lia Bool.
From Stdlib Require String.
From stdpp Require Import base list option numbers.
From S2P Require Import Prelude JsRuntime Json Contract ContractClient Wallet VerifyFlow Site.
Import ListNotations String.StringSyntax Verify.
Local Open Scope string_scope.
Local Open Scope Z_scope.

(** ** The dashboard page *)

Record DashPage := mkDashPage {
  dash : Dashboard;
  deps : option (bool * option Z)   (* [None] before the first commit *)
}.

(** React's comparison of the dependency lists ([Object.is] on each). *)
Definition deps_eqb (a b : bool * option Z) : bool :=
  Bool.eqb (fst a) (fst b) &&
  match snd a, snd b with Some x, Some y => (x =? y)%Z | None, None => true | _, _ => false end.

Section DashboardPage.
Context {S : Type} `{IdentityVerifierAPI S}.
Variable eth : Ethers.
Variable addr_text : Z -> list Z.

(** The context's [address] as the page reads it. *)
Definition ctx_address (w : WalletProvider.WalletState) : option (list Z) :=
  option_map addr_text (WalletProvider.address w).

(** The effect after a render with the wallet context [w] (lines 23-27). *)
Definition dashboard_effect (s : S) (w : WalletProvider.WalletState) (p : DashPage) : DashPage :=
  let d := (WalletProvider.isConnected w, WalletProvider.signer w) in
  let run := mkDashPage
    (if WalletProvider.isConnected w && match WalletProvider.signer w with Some _ => true | None => false end
     then loadIdentityData eth s (WalletProvider.signer w) (ctx_address w) (dash p) else dash p) (Some d) in
  match deps p with Some d' => if deps_eqb d' d then p else run | None => run end.

(** The refresh button (line 141): [loadIdentityData] of this render. *)
Definition refresh (s : S) (w : WalletProvider.WalletState) (p : DashPage) : DashPage :=
  mkDashPage (loadIdentityData eth s (WalletProvider.signer w) (ctx_address w) (dash p)) (deps p).

(** The copy button (line 236): the text written to the clipboard. *)
Definition copy_address (w : WalletProvider.WalletState) : list Z :=
  match ctx_address w with Some a => a | None => [] end.
End DashboardPage.

(** ** The dashboard with its [await]s

    [loadIdentityData] (lines 28-64) awaits [getUserIdentity] and then
    the two [generateQrCode] calls; other events can run in between.  A
    pending load keeps the [signer] and [address] of the render that
    started it. *)

Inductive DashTask :=
| LoadPending (sg : Z) (addr : option (list Z))          (* await getUserIdentity(signer), line 33 *)
| QrPending (id : UserIdentity) (addr : option (list Z)). (* await generateQrCode(...), lines 38-48 *)

Record DashMachine := mkDashMachine {
  cells : Dashboard;
  dm_deps : option (bool * option Z);
  loads : list DashTask;
  dm_toasts : list String.string
}.

Definition set_cells (d : Dashboard) (m : DashMachine) : DashMachine :=
  mkDashMachine d (dm_deps m) (loads m) (dm_toasts m).

Definition set_loads (l : list DashTask) (m : DashMachine) : DashMachine :=
  mkDashMachine (cells m) (dm_deps m) l (dm_toasts m).

Definition setIsLoading (b : bool) (d : Dashboard) : Dashboard :=
  mkDashboard b (d_identityData d) (d_identityQr d) (d_ageQr d).

Fixpoint drop_first (eqb : DashTask -> bool) (l : list DashTask) : list DashTask :=
  match l with [] => [] | x :: r => if eqb x then r else x :: drop_first eqb r end.

Section DashboardAsync.
Context {S : Type} `{IdentityVerifierAPI S}.
Variable eth : Ethers.
Variable addr_text : Z -> list Z.
(** The contract's state when the calls are answered. *)
Variable s : S.

(** [loadIdentityData] up to its first [await] (lines 29-34). *)
Definition load_start (w : WalletProvider.WalletState) (m : DashMachine) : DashMachine :=
  match WalletProvider.signer w with
  | None => m
  | Some sg =>
      mkDashMachine (setIsLoading true (cells m)) (dm_deps m) (loads m ++ [LoadPending sg (ctx_address addr_text w)])
        (dm_toasts m)
  end.

(** The effect (lines 23-27) after a render with the context [w]. *)
Definition dash_commit (w : WalletProvider.WalletState) (m : DashMachine) : DashMachine :=
  let d := (WalletProvider.isConnected w, WalletProvider.signer w) in
  let run := mkDashMachine (cells m) (Some d) (loads m) (dm_toasts m) in
  let run := if WalletProvider.isConnected w && match WalletProvider.signer w with Some _ => true | None => false end
             then load_start w run else run in
  match dm_deps m with Some d' => if deps_eqb d' d then m else run | None => run end.

Definition is_load (sg : Z) (a : option (list Z)) (t : DashTask) : bool :=
  match t with LoadPending sg' a' => (sg' =? sg)%Z && bool_decide (a' = a) | _ => false end.

(** [getUserIdentity] answers (lines 35-37, 54-63). *)
Definition settle_load (sg : Z) (a : option (list Z)) (m : DashMachine) : DashMachine :=
  let m := set_loads (drop_first (is_load sg a) (loads m)) m in
  match getUserIdentity_client eth s sg with
  | Rejected _ => mkDashMachine (setIsLoading false (cells m)) (dm_deps m) (loads m)
                    (dm_toasts m ++ ["Error Loading Identity"])
  | Resolved None =>
      set_cells (mkDashboard false None (d_identityQr (cells m)) (d_ageQr (cells m))) m
  | Resolved (Some id) =>
      mkDashMachine (mkDashboard (d_isLoading (cells m)) (Some id) (d_identityQr (cells m)) (d_ageQr (cells m)))
        (dm_deps m) (loads m ++ [QrPending id a]) (dm_toasts m)
  end.

Definition is_qr (id : UserIdentity) (a : option (list Z)) (t : DashTask) : bool :=
  match t with
  | QrPending id' a' => bool_decide (u_proofId id' = u_proofId id) && bool_decide (a' = a)
  | _ => false
  end.

(** The QR codes are made (lines 39-53) and the [finally] runs. *)
Definition settle_qr (id : UserIdentity) (a : option (list Z)) (m : DashMachine) : DashMachine :=
  let m := set_loads (drop_first (is_qr id a) (loads m)) m in
  set_cells (mkDashboard false (d_identityData (cells m))
               (Some (generateQrCode (qr_payload "identity" (u_proofId id) a)))
               (Some (generateQrCode (qr_payload "age" (u_proofId id) a)))) m.

(** The page shows the identity card, with its refresh button. *)
Definition shows_identity (w : WalletProvider.WalletState) (m : DashMachine) : bool :=
  match dashboard_view (WalletProvider.isConnected w) (cells m) with DIdentity _ _ _ _ _ => true | _ => false end.

(** The wallet provider and the dashboard in one page: a step of the
    provider followed by the dashboard's effect, an answer to a pending
    call, or a click on refresh. *)
Inductive dstep : WalletProvider.WalletState * DashMachine -> WalletProvider.WalletState * DashMachine -> Prop :=
| ds_wallet w w' m : WalletProvider.wstep true true w w' -> dstep (w, m) (w', dash_commit w' m)
| ds_load sg a w m : In (LoadPending sg a) (loads m) -> dstep (w, m) (w, settle_load sg a m)
| ds_qr id a w m : In (QrPending id a) (loads m) -> dstep (w, m) (w, settle_qr id a m)
| ds_refresh w m : shows_identity w m = true -> dstep (w, m) (w, load_start w m).

Definition dash_init : DashMachine := mkDashMachine (mkDashboard false None None None) None [] [].

Inductive dreachable (w0 : WalletProvider.Wallet) : WalletProvider.WalletState * DashMachine -> Prop :=
| dr_init : dreachable w0 (WalletProvider.mount true true (WalletProvider.fresh w0),
                           dash_commit (WalletProvider.mount true true (WalletProvider.fresh w0)) dash_init)
| dr_step c c' : dreachable w0 c -> dstep c c' -> dreachable w0 c'.

End DashboardAsync.

(** ** The verify page *)

Inductive VerifyContent :=
| VConnectPrompt                               (* lines 100-109 *)
| VResult (ok : bool) (lines : list (list Z))   (* lines 110-140 *)
| VScanner (isProcessing : bool).              (* line 142 *)

Record VerifyView := mkVerifyView { content : VerifyContent; verify_another : bool }.

Definition verify_view (isConnected : bool) (p : VerifyPage) : VerifyView :=
  mkVerifyView
    (if negb isConnected then VConnectPrompt
     else match verificationResult p with
          | Some r => VResult (verified r) (render_result r)
          | None => VScanner (v_isProcessing p)
          end)
    (match verificationResult p with Some _ => true | None => false end).

(** "Verify Another" (lines 88-90, 147). *)
Definition resetVerification (p : VerifyPage) : VerifyPage := mkVerifyPage (v_isProcessing p) None (toasts p).

(** ethers with ASCII text and the address "0x<d>" for account [d]. *)
Definition eth_hex : Ethers :=
  mkEthers (fun v => match v with JString s => Some s | _ => None end) (fun b => b) (fold_right Z.add 0%Z)
    (fun v => match v with JString [48%Z; 120%Z; c] => Some (c - 48)%Z | _ => None end).

Definition addr_hex (n : Z) : list Z := [48; 120; 48 + n]%Z.

(** The identity account 1 stored in [ContractClient.state_example]. *)
Definition identity_example : UserIdentity :=
  match getUserIdentity_client eth_hex state_example 1 with
  | Resolved (Some u) => u
  | _ => mkUserIdentity [] [] false JNull 0%Z
  end.

(** A dashboard whose effect ran for the signer of account 1. *)
Definition dash_example : DashPage := mkDashPage (mkDashboard false None None None) (Some (true, Some 1%Z)).

(** The wallet of [Wallet.connected_example]; the page connects as
    account 1 (which has an identity in [state_example]), the user
    disconnects, selects account 2 in the wallet and connects again; the
    load started for account 2 is answered first, then the one started
    for account 1. *)
Definition race_trace : WalletProvider.WalletState * DashMachine :=
  let w1 := WalletProvider.mount true true (WalletProvider.fresh (WalletProvider.mkWallet true 1 WalletProvider.SEPOLIA)) in
  let m1 := dash_commit addr_hex w1 dash_init in
  let w2 := WalletProvider.checkConnection true true w1 in
  let m2 := dash_commit addr_hex w2 m1 in
  let w3 := WalletProvider.commit_listeners true true (WalletProvider.disconnect w2) in
  let m3 := dash_commit addr_hex w3 m2 in
  let w4 := WalletProvider.commit_listeners true true (WalletProvider.emit_accountsChanged [2]
              (WalletProvider.set_wallet (WalletProvider.mkWallet true 2 WalletProvider.SEPOLIA) w3)) in
  let m4 := dash_commit addr_hex w4 m3 in
  let w5 := WalletProvider.button_handleConnect w4 in
  let m5 := dash_commit addr_hex w5 m4 in
  let w6 := WalletProvider.button_connect_done true true true true w5 in
  let m6 := dash_commit addr_hex w6 m5 in
  let m7 := settle_load eth_hex state_example 2 (Some (addr_hex 2)) m6 in
  let m8 := settle_load eth_hex state_example 1 (Some (addr_hex 1)) m7 in
  (w6, settle_qr identity_example (Some (addr_hex 1)) m8).

(** * Lemmas *)

Section Lemmas.
Context {S : Type} `{IdentityVerifierAPI S}.

Lemma verify_outcome_qr_gen eth nrm s kind pid a :
  Forall byte_unit pid -> Forall byte_unit a -> pid <> [] -> a <> [] -> units kind <> [] ->
  verify_outcome eth nrm s (of_units (generateQrCode (qr_payload kind pid (Some a)))) =
  match verifyIdentityProof eth s (JString pid) (JString a) (JString (units kind)) with
  | Resolved r => inl r
  | Rejected m => inr m
  end.
Proof.
  intros Hp Ha Hpn Han Hk. unfold verify_outcome.
  rewrite parse_qr_text, qr_payload_fields by assumption.
  destruct (qr_payload_props kind pid a) as (-> & -> & ->). reflexivity.
Qed.

Lemma dashboard_effect_same eth addr_text s w p :
  deps p = Some (WalletProvider.isConnected w, WalletProvider.signer w) -> dashboard_effect eth addr_text s w p = p.
Proof.
  intros Hd. unfold dashboard_effect. rewrite Hd. unfold deps_eqb. cbn [fst snd].
  rewrite Bool.eqb_reflx. destruct (WalletProvider.signer w); [rewrite Z.eqb_refl|]; reflexivity.
Qed.
End Lemmas.

(** * Theorems *)

Section Theorems.
Context {S : Type} `{IdentityVerifierAPI S}.

(** C14: an account switch breaks the dashboard's QR codes.  When the
    user selects another account [b] in the wallet on a connected page,
    the provider changes [address] but not [signer] or [isConnected], so
    the dashboard's effect (dependencies [isConnected, signer]) does not
    run and the page keeps the previous account's identity while the
    navigation bar shows [b]'s address.  A click on refresh then loads
    the signer's identity again but builds the QR codes with the new
    [address]: the age code pairs the previous account's proof with
    [b], and when [b] has no identity the verify page scanning it shows
    "Verification Failed". *)
Theorem account_switch_breaks_dashboard_qr eth nrm addr_text w0 w b s p u pid vp vsg sg :
  WalletProvider.wreachable true true w0 w -> WalletProvider.isConnected w = true ->
  WalletProvider.signer w = Some sg -> deps p = Some (true, Some sg) ->
  getUserIdentity_client eth s sg = Resolved (Some u) ->
  Contract.proofId (api_identity s b) = [] -> utf8_decode eth [] = [] ->
  utf8_encode eth (JString (u_proofId u)) = Some pid -> to_address eth (JString (addr_text b)) = Some b ->
  Forall byte_unit (u_proofId u) -> Forall byte_unit (addr_text b) -> u_proofId u <> [] -> addr_text b <> [] ->
  let w' := WalletProvider.commit_listeners true true (WalletProvider.emit_accountsChanged [b]
              (WalletProvider.set_wallet (WalletProvider.mkWallet true b
                 (WalletProvider.wchain (WalletProvider.wallet w))) w)) in
  let q := generateQrCode (qr_payload "age" (u_proofId u) (Some (addr_text b))) in
  WalletProvider.wstep true true w w' /\
  dashboard_effect eth addr_text s w' p = p /\
  Site.wallet_button (Site.navbar (Site.RootLayout "/dashboard" w' addr_text)) =
    Site.DisconnectButton (Site.address_label (Some (addr_text b))) /\
  d_ageQr (dash (refresh eth addr_text s w' (dashboard_effect eth addr_text s w' p))) = Some q /\
  verify_view true (handleQrCodeScanned eth nrm s (Some vsg) (of_units q) vp) =
    mkVerifyView (VResult false [units "Verification Failed"; units "Failed to verify proof on blockchain"]) true.
Proof.
  intros Hr Hc Hs Hd Hu Hb Hdec Hpid Haddr Hbp Hba Hpn Han w' q.
  destruct (WalletProvider.account_switch_keeps_signer_gen w0 w b Hr Hc) as (Hstep & Hc' & Ha' & Hs').
  fold w' in Hstep, Hc', Ha', Hs'.
  assert (Heff : dashboard_effect eth addr_text s w' p = p) by (apply dashboard_effect_same; congruence).
  split; [exact Hstep|]. split; [exact Heff|].
  split; [unfold Site.RootLayout; cbn; rewrite Hc', Ha'; reflexivity|].
  split.
  - rewrite Heff. cbn [refresh dash]. unfold loadIdentityData. rewrite Hs', Hs, Hu.
    unfold ctx_address. rewrite Ha'. reflexivity.
  - unfold handleQrCodeScanned, q. rewrite verify_outcome_qr_gen by (auto; discriminate).
    rewrite (proj2 (client_unregistered eth s b (JString (u_proofId u)) (JString (addr_text b))
                      (JString (units "age")) pid Hb Hdec Hpid Haddr)).
    reflexivity.
Qed.

End Theorems.

Lemma account_switch_breaks_dashboard_qr_witness :
  d_ageQr (dash (refresh eth_hex addr_hex state_example
    (WalletProvider.commit_listeners true true (WalletProvider.emit_accountsChanged [2%Z]
       (WalletProvider.set_wallet (WalletProvider.mkWallet true 2 WalletProvider.SEPOLIA) WalletProvider.connected_example)))
    dash_example)) =
    Some (generateQrCode (qr_payload "age" (u_proofId identity_example) (Some (addr_hex 2)))).
Proof.
  destruct (@account_switch_breaks_dashboard_qr _ Model eth_hex "" addr_hex (WalletProvider.mkWallet true 1 WalletProvider.SEPOLIA)
              WalletProvider.connected_example 2 state_example dash_example identity_example (units "proof_1_2")
              (mkVerifyPage false None []) 1 1
              WalletProvider.connected_example_reachable eq_refl eq_refl eq_refl
              ltac:(vm_compute; reflexivity) ltac:(vm_compute; reflexivity) eq_refl
              ltac:(vm_compute; reflexivity) eq_refl
              ltac:(vm_compute; repeat constructor; discriminate) ltac:(vm_compute; repeat constructor; discriminate)
              ltac:(vm_compute; discriminate) ltac:(vm_compute; discriminate)) as (_ & Heff & _ & Hq & _).
  rewrite Heff in Hq. exact Hq.
Defined.

(** C15: a late answer overwrites the page: in a reachable run the page
    is connected as account 2, which has no identity, while the
    dashboard shows account 1's identity card and QR codes, because the
    load started while account 1 was connected is answered after the
    load of account 2 and nothing discards it. *)
Theorem dashboard_stale_load :
  exists w m, dreachable eth_hex addr_hex state_example (WalletProvider.mkWallet true 1 WalletProvider.SEPOLIA) (w, m) /\
    WalletProvider.isConnected w = true /\ WalletProvider.signer w = Some 2%Z /\ WalletProvider.address w = Some 2%Z /\
    getUserIdentity_client eth_hex state_example 2 = Resolved None /\
    getUserIdentity_client eth_hex state_example 1 = Resolved (Some identity_example) /\
    shows_identity w m = true /\ d_identityData (cells m) = Some identity_example /\
    d_ageQr (cells m) = Some (generateQrCode (qr_payload "age" (u_proofId identity_example) (Some (addr_hex 1)))).
Proof.
  exists (fst race_trace), (snd race_trace). split; [|vm_compute; repeat split; reflexivity].
  unfold race_trace. cbv zeta.
  eapply dr_step; [|apply ds_qr; vm_compute; auto].
  eapply dr_step; [|apply ds_load; vm_compute; auto].
  eapply dr_step; [|apply ds_load; vm_compute; auto].
  eapply dr_step; [|apply ds_wallet, WalletProvider.ws_connect_done; reflexivity].
  eapply dr_step; [|apply ds_wallet, WalletProvider.ws_click_connect; reflexivity].
  eapply dr_step; [|apply ds_wallet, WalletProvider.ws_wallet_select; reflexivity].
  eapply dr_step; [|apply ds_wallet, WalletProvider.ws_click_disconnect; reflexivity].
  eapply dr_step; [|apply ds_wallet, WalletProvider.ws_check; reflexivity].
  apply dr_init.
Qed.

